(** * Unmonitarr: identity resolution and synchronisation engine

    A shallow embedding of the parts of Unmonitarr that resolve a Jellyfin
    watch event to a Sonarr series or a Radarr movie, apply the monitoring
    change and keep the audit log:

    - [sonarr_client.py]: [_clean_title], [search_series_by_title],
      [find_series_by_jellyfin_metadata], the monitoring updates;
    - [radarr_client.py]: [search_movies_by_title],
      [find_movie_by_jellyfin_metadata], [update_movie_monitoring];
    - [webhook_handler.py]: [process_webhook],
      [_process_watched_status_change], [_sync_with_service],
      [_update_sync_log];
    - [main.py]: the [/webhook/jellyfin] endpoint, the retry endpoints,
      [perform_bulk_sync] and the bulk sync endpoints;
    - [persistent_config.py] and [app_config.py]: the webhook token and the
      secret key, from the table, the environment or [secrets];
    - [jellyfin_client.py]: [get_all_items], [extract_media_info];
    - [external_api_client.py]: [find_best_match].

    Conventions of the embedding.

    - A Python [str] is a [string]; a character is a code point below 256
      (the Latin-1 range), with Python's [str.lower], [str.isspace] and the
      [\w] class of [re] on that range.
    - A JSON value is a [Json]; a JSON number is an integer.  What the
      engine decides on is read as the code reads it, whatever JSON value it
      is, by its truthiness, by [==] and by [str()]: the event type and the
      save reason, the ids of the item and of the user, the watched flag, the
      item type, the provider ids, [retry_mode] and [original_log_id].  The
      descriptive fields (names and titles, season and episode numbers, years)
      are read at the type that Jellyfin, Sonarr and Radarr give them: a
      value of another type is read as [None].
    - A request to a remote service is answered by an oracle of the service
      (a field of [SonarrApi], [RadarrApi], ...): the answer, or the exception
      that [_make_request] lets through after its retries.  Every request is
      recorded in a trace, in the order the code issues it.
    - The record store is a value of type [Db] that the handler threads
      through.  It is SQLite behind SQLAlchemy: a [String] column holds the
      text of a number, the [Boolean] column [is_watched] takes [None],
      [True], [False], 0 and 1 and refuses any other value when the session
      commits, a list or a dictionary cannot be bound to a statement, a
      [NOT NULL] column refuses [None], and a table is read in the order of
      its primary key.  Apart from that the store does not fail.  The
      [configurations] table is apart: its sessions may fail, as
      [ConfigOutside] tells.
    - A [while True] loop runs on fuel: [None] is a loop that is still
      running when the fuel is spent. *)

From stdpp Require Import base option list gmap strings pretty sorting.
From Stdlib Require Import ZArith Ascii String Lia.

Local Open Scope Z_scope.

(** ** Python primitives *)

Module Py.

(** Code point of a character. *)
Definition ord (c : ascii) : N := Ascii.N_of_ascii c.

Definition chr (n : N) : ascii := Ascii.ascii_of_N n.

Definition between (lo hi n : N) : bool := (N.leb lo n && N.leb n hi)%bool.

(** [str.isspace] on one character, which is also [\s] of [re] and the
    separator class of [str.split()]. *)
Definition isspace (c : ascii) : bool :=
  let n := ord c in
  (between 9 13 n || between 28 32 n || N.eqb n 133 || N.eqb n 160)%bool.

(** [\w] of [re] on a [str] pattern: alphanumeric or underscore. *)
Definition isword (c : ascii) : bool :=
  let n := ord c in
  (between 48 57 n || between 65 90 n || N.eqb n 95 || between 97 122 n
   || N.eqb n 170 || between 178 179 n || N.eqb n 181 || between 185 186 n
   || between 188 190 n || between 192 214 n || between 216 246 n
   || between 248 255 n)%bool.

(** [str.lower] on one character. *)
Definition lower_char (c : ascii) : ascii :=
  let n := ord c in
  if (between 65 90 n || between 192 214 n || between 216 222 n)%bool
  then chr (n + 32) else c.

Definition chars (s : string) : list ascii := String.list_ascii_of_string s.
Definition str (l : list ascii) : string := String.string_of_list_ascii l.

(** Truthiness of a [str]: the empty string is falsy. *)
Definition truthy (s : string) : bool :=
  match s with EmptyString => false | _ => true end.

(** Truthiness of an optional [str] ([None] or empty is falsy). *)
Definition truthy_opt (o : option string) : bool :=
  match o with Some s => truthy s | None => false end.

(** Truthiness of an optional [int] ([None] or [0] is falsy). *)
Definition truthy_int (o : option Z) : bool :=
  match o with Some n => negb (n =? 0) | None => false end.

Definition lower (s : string) : string := str (map lower_char (chars s)).

(** [str.split()] with no argument: the maximal runs of characters that are
    not white space.  [cur] is the run being read. *)
Fixpoint split_from (cur : list ascii) (s : list ascii) : list (list ascii) :=
  match s with
  | [] => match cur with [] => [] | _ => [cur] end
  | c :: s' =>
      if isspace c
      then match cur with
           | [] => split_from [] s'
           | _ => cur :: split_from [] s'
           end
      else split_from (cur ++ [c]) s'
  end.

Definition split_chars (s : list ascii) : list (list ascii) := split_from [] s.

(** [' '.join(words)]. *)
Fixpoint join_chars (ws : list (list ascii)) : list ascii :=
  match ws with
  | [] => []
  | [w] => w
  | w :: ws' => w ++ " "%char :: join_chars ws'
  end.

Definition split (s : string) : list string := map str (split_chars (chars s)).
Definition join (ws : list string) : string := str (join_chars (map chars ws)).

(** [needle in hay] on strings. *)
Fixpoint contains (needle hay : string) : bool :=
  (String.prefix needle hay
   || match hay with
      | EmptyString => false
      | String _ hay' => contains needle hay'
      end)%bool.

(** [str(n)] for an [int]. *)
Definition str_of_int (n : Z) : string := pretty n.

(** [x in xs] for a list of strings. *)
Definition str_in_list (x : string) (xs : list string) : bool :=
  existsb (String.eqb x) xs.

End Py.

(** ** [sonarr_client.py]: title normalisation *)

Module SonarrTitle.

Definition common_words : list string := ["the"; "a"; "an"].

(** The characters that [re.sub(r'[^\w\s]', '', s)] keeps. *)
Definition keep_char (c : ascii) : bool := (Py.isword c || Py.isspace c)%bool.

(** [re.sub(r'[^\w\s]', '', s)]. *)
Definition strip_punctuation (s : string) : string :=
  Py.str (List.filter keep_char (Py.chars s)).

Definition not_common (w : string) : bool := negb (Py.str_in_list w common_words).

Definition _clean_title (title : string) : string :=
  if negb (Py.truthy title) then ""
  else
    let cleaned := Py.lower title in
    let cleaned := strip_punctuation cleaned in
    let cleaned := Py.join (Py.split cleaned) in
    let words := Py.split cleaned in
    let cleaned_words := List.filter not_common words in
    match cleaned_words with
    | [] => cleaned
    | _ => Py.join cleaned_words
    end.

End SonarrTitle.

Import SonarrTitle.

(** ** JSON values *)

(** A JSON number is an integer here. *)
#[warnings="-register-all"]
Inductive Json :=
| JNull
| JBool (b : bool)
| JInt (n : Z)
| JStr (s : string)
| JArr (items : list Json)
| JObj (members : list (string * Json)).

(** ** Exceptions, traces and the effect monad of the clients *)

Inductive exn :=
| HTTPException (status_code : Z) (detail : string)
| RequestError          (* an [httpx] error that [_make_request] re-raises *)
| AttributeError
| KeyError
| UnboundLocalError
| JSONDecodeError
| UnicodeDecodeError
| TypeError
| IntegrityError        (* a NOT NULL column written with [None] *)
| StatementError        (* a value that a column type or the driver refuses *)
| CancelledError.       (* a [BaseException]: [except Exception] lets it through *)

(** What [except Exception] catches. *)
Definition is_Exception (e : exn) : bool :=
  match e with CancelledError => false | _ => true end.

Inductive result (A : Type) :=
| Ok (a : A)
| Raise (e : exn).
Arguments Ok {A} a.
Arguments Raise {A} e.

(** One observable action of the engine: a request to a remote service, the
    mapping query of the sync executor, or the settle delay. *)
Inductive Event :=
| Sonarr_GET_series
| Sonarr_GET_series_id (series_id : Z)
| Sonarr_GET_series_lookup (term : option string)
| Sonarr_GET_episode (series_id : Z)
| Sonarr_GET_episode_id (episode_id : Z)
| Sonarr_PUT_series_id (series_id : Z) (monitored : bool)
| Sonarr_PUT_episode_id (episode_id : Z) (monitored : bool)
| Sonarr_PUT_episode_monitor (episode_ids : list Z) (monitored : bool)
| Radarr_GET_movie
| Radarr_GET_movie_id (movie_id : Z)
| Radarr_GET_movie_lookup (term : option string)
| Radarr_PUT_movie_id (movie_id : Z) (monitored : bool)
| Jellyfin_GET_item (item_id : string) (user_id : option Json)
| External_find_best_match (title : option string) (media_type : string)
| Db_select_mapping (service : string) (media_item_id : Z)
| Sleep (seconds : Z).


(** The requests that change monitoring in Sonarr or Radarr. *)
Definition is_monitoring_call (ev : Event) : bool :=
  match ev with
  | Sonarr_PUT_series_id _ _ | Sonarr_PUT_episode_id _ _
  | Sonarr_PUT_episode_monitor _ _ | Radarr_PUT_movie_id _ _ => true
  | _ => false
  end.

(** The requests to Sonarr or Radarr, reads included. *)
Definition is_library_call (ev : Event) : bool :=
  match ev with
  | Jellyfin_GET_item _ _ | External_find_best_match _ _
  | Db_select_mapping _ _ | Sleep _ => false
  | _ => true
  end.

Definition is_mapping_lookup (ev : Event) : bool :=
  match ev with Db_select_mapping _ _ => true | _ => false end.

(** A client computation: the requests it issued and how it ended. *)
Definition Eff (A : Type) : Type := list Event * result A.

Global Instance Eff_ret : MRet Eff := fun A a => ([], Ok a).

Global Instance Eff_bind : MBind Eff := fun A B k m =>
  match m with
  | (t, Ok a) => let '(t', r) := k a in (t ++ t', r)
  | (t, Raise e) => (t, Raise e)
  end.

Definition raise {A} (e : exn) : Eff A := ([], Raise e).

(** A computation that asks nothing. *)
Definition lift_result {A} (r : result A) : Eff A := ([], r).

(** A request [ev] answered by [answer]. *)
Definition request {A} (ev : Event) (answer : result A) : Eff A := ([ev], answer).

(** [try: body except Exception: handler]. *)
Definition try_except {A} (body : Eff A) (handler : exn -> Eff A) : Eff A :=
  match body with
  | (t, Raise e) =>
      if is_Exception e then let '(t', r) := handler e in (t ++ t', r)
      else (t, Raise e)
  | done => done
  end.

Definition trace {A} (m : Eff A) : list Event := fst m.
Definition outcome {A} (m : Eff A) : result A := snd m.

(** [settings]: the options the engine reads. *)
Record Settings := {
  ignore_special_episodes : bool;
  use_external_api : bool;
  sync_delay_seconds : Z
}.

(** ** [sonarr_client.py] *)

Module Series.
Record t := {
  id : Z;
  title : string;                 (* [.get("title", "")] *)
  year : option Z;
  tvdbId : option Z;
  imdbId : option string;
  alternateTitles : list string   (* the [.get("title", "")] of each entry *)
}.
End Series.

Module Episode.
Record t := {
  id : Z;
  seasonNumber : option Z;
  episodeNumber : option Z
}.
End Episode.

(** The answers of a Sonarr server to the requests of the client. *)
Record SonarrApi := {
  GET_series : result (list Series.t);
  GET_series_id : Z -> result (option Series.t);
  GET_series_lookup : option string -> result (list Series.t);
  GET_episode : Z -> result (list Episode.t);
  GET_episode_id : Z -> result (option Episode.t);
  (* for a PUT: whether the response body is truthy *)
  PUT_series_id : Z -> bool -> result bool;
  PUT_episode_id : Z -> bool -> result bool;
  (* for the bulk PUT: whether the response has a body at all *)
  PUT_episode_monitor : list Z -> bool -> result bool
}.

Module SonarrClient.
Section Client.

Variable settings : Settings.
Variable api : SonarrApi.

Definition get_all_series : Eff (list Series.t) :=
  request Sonarr_GET_series (GET_series api).

Definition get_series_by_id (series_id : Z) : Eff (option Series.t) :=
  request (Sonarr_GET_series_id series_id) (GET_series_id api series_id).

Definition exact_match (title_clean : string) (series : Series.t) : bool :=
  String.eqb title_clean (_clean_title (Series.title series)).

Definition contains_match (title_clean : string) (series : Series.t) : bool :=
  let series_title_clean := _clean_title (Series.title series) in
  ((Py.contains title_clean series_title_clean
    || Py.contains series_title_clean title_clean)
   && (3 <? Z.of_nat (String.length title_clean)))%bool.

Definition alt_title_match (title_clean : string) (series : Series.t) : bool :=
  existsb (fun alt_title =>
             let alt_title_clean := _clean_title alt_title in
             (String.eqb title_clean alt_title_clean
              || (Py.contains title_clean alt_title_clean
                  && (3 <? Z.of_nat (String.length title_clean))))%bool)
          (Series.alternateTitles series).

(** The three strategies of [search_series_by_title] over a series list.
    A title that is [None] cleans to the empty string ([if not title]). *)
Definition title_matches (title : option string) (series_list : list Series.t)
  : list Series.t :=
  let title_clean := _clean_title (default "" title) in
  match List.filter (exact_match title_clean) series_list with
  | (_ :: _) as matches => matches
  | [] =>
      match List.filter (contains_match title_clean) series_list with
      | (_ :: _) as matches => matches
      | [] => List.filter (alt_title_match title_clean) series_list
      end
  end.

Definition search_series_by_title (title : option string) : Eff (list Series.t) :=
  series_list ← get_all_series;
  match series_list with
  | [] => mret []
  | _ => mret (title_matches title series_list)
  end.

Definition get_episodes_for_series (series_id : Z) (include_specials : bool)
  : Eff (list Episode.t) :=
  episodes ← request (Sonarr_GET_episode series_id) (GET_episode api series_id);
  if negb include_specials
  then mret (List.filter
               (fun ep => negb (default 0 (Episode.seasonNumber ep) =? 0)) episodes)
  else mret episodes.

Definition get_episode_by_id (episode_id : Z) : Eff (option Episode.t) :=
  request (Sonarr_GET_episode_id episode_id) (GET_episode_id api episode_id).

Definition opt_Z_eqb (a b : option Z) : bool :=
  match a, b with
  | Some x, Some y => x =? y
  | None, None => true
  | _, _ => false
  end.

Definition search_episode (series_id : Z) (season_number episode_number : option Z)
  : Eff (option Episode.t) :=
  episodes ← get_episodes_for_series series_id true;
  mret (List.find (fun episode =>
                     (opt_Z_eqb (Episode.seasonNumber episode) season_number
                      && opt_Z_eqb (Episode.episodeNumber episode) episode_number)%bool)
                  episodes).

Definition update_series_monitoring (series_id : Z) (monitored : bool) : Eff bool :=
  try_except
    (series ← get_series_by_id series_id;
     match series with
     | None => mret false
     | Some _ =>
         request (Sonarr_PUT_series_id series_id monitored)
                 (PUT_series_id api series_id monitored)
     end)
    (fun _ => mret false).

Definition update_episode_monitoring (episode_id : Z) (monitored : bool) : Eff bool :=
  try_except
    (episode ← get_episode_by_id episode_id;
     match episode with
     | None => mret false
     | Some episode =>
         if (opt_Z_eqb (Episode.seasonNumber episode) (Some 0)
             && ignore_special_episodes settings)%bool
         then mret true
         else request (Sonarr_PUT_episode_id episode_id monitored)
                      (PUT_episode_id api episode_id monitored)
     end)
    (fun _ => mret false).

Definition bulk_update_episode_monitoring (episode_ids : list Z) (monitored : bool)
  : Eff bool :=
  try_except
    (request (Sonarr_PUT_episode_monitor episode_ids monitored)
             (PUT_episode_monitor api episode_ids monitored))
    (fun _ => mret false).

(** The loop of [_fallback_season_monitoring]: the number of episodes updated. *)
Fixpoint fallback_count (season_episodes : list Episode.t) (monitored : bool)
  : Eff Z :=
  match season_episodes with
  | [] => mret 0
  | episode :: rest =>
      ok ← update_episode_monitoring (Episode.id episode) monitored;
      n ← fallback_count rest monitored;
      mret (if ok : bool then 1 + n else n)
  end.

Definition _fallback_season_monitoring (season_episodes : list Episode.t)
  (monitored : bool) : Eff bool :=
  success_count ← fallback_count season_episodes monitored;
  mret (0 <? success_count).

Definition update_season_monitoring (series_id : Z) (season_number : option Z)
  (monitored : bool) : Eff bool :=
  try_except
    (if (opt_Z_eqb season_number (Some 0) && ignore_special_episodes settings)%bool
     then mret true
     else
       episodes ← get_episodes_for_series series_id true;
       let season_episodes :=
         List.filter (fun ep => opt_Z_eqb (Episode.seasonNumber ep) season_number)
                     episodes in
       match season_episodes with
       | [] => mret false
       | _ =>
           let episode_ids := map Episode.id season_episodes in
           success ← bulk_update_episode_monitoring episode_ids monitored;
           if success : bool then mret true
           else _fallback_season_monitoring season_episodes monitored
       end)
    (fun _ => mret false).

Definition search_series_lookup (term : option string) : Eff (list Series.t) :=
  try_except
    (request (Sonarr_GET_series_lookup term) (GET_series_lookup api term))
    (fun _ => mret []).

(** [series_tvdb and str(tvdb_id) == series_tvdb]. *)
Definition tvdb_match (tvdb_id : string) (series : Series.t) : bool :=
  match Series.tvdbId series with
  | Some n => (negb (n =? 0) && String.eqb tvdb_id (Py.str_of_int n))%bool
  | None => false
  end.

(** [series_imdb and str(imdb_id) == series_imdb]. *)
Definition imdb_match (imdb_id : string) (series : Series.t) : bool :=
  match Series.imdbId series with
  | Some i => (Py.truthy i && String.eqb imdb_id i)%bool
  | None => false
  end.

(** [s.get("year") and abs(s.get("year") - year) <= 1]. *)
Definition year_close (year : Z) (y : option Z) : bool :=
  match y with
  | Some n => (negb (n =? 0) && (Z.abs (n - year) <=? 1))%bool
  | None => false
  end.

(** [str(x)] of an optional integer ([None] prints as ["None"]). *)
Definition str_of_opt_int (o : option Z) : string :=
  match o with Some n => Py.str_of_int n | None => "None" end.

(** The loop over the lookup results: each result with a TVDB id fetches the
    series list again and returns the first series with that id. *)
Fixpoint match_lookup_results (lookup_results : list Series.t)
  : Eff (option Series.t) :=
  match lookup_results with
  | [] => mret None
  | lookup_series :: rest =>
      if Py.truthy_int (Series.tvdbId lookup_series)
      then
        series_list ← get_all_series;
        match List.find
                (fun existing_series =>
                   String.eqb (str_of_opt_int (Series.tvdbId existing_series))
                              (str_of_opt_int (Series.tvdbId lookup_series)))
                series_list with
        | Some existing_series => mret (Some existing_series)
        | None => match_lookup_results rest
        end
      else match_lookup_results rest
  end.

(** PRIORITY 1 of [find_series_by_jellyfin_metadata]: [Some series] when the
    function returns from this block. *)
Definition external_id_tier (tvdb_id imdb_id : option string)
  : Eff (option Series.t) :=
  if (Py.truthy_opt tvdb_id || Py.truthy_opt imdb_id)%bool
  then
    series_list ← get_all_series;
    match (if Py.truthy_opt tvdb_id
           then List.find (tvdb_match (default "" tvdb_id)) series_list
           else None) with
    | Some series => mret (Some series)
    | None =>
        if Py.truthy_opt imdb_id
        then mret (List.find (imdb_match (default "" imdb_id)) series_list)
        else mret None
    end
  else mret None.

(** The year filter applied to a list of candidates. *)
Definition filter_by_year (year : Z) (l : list Series.t) : list Series.t :=
  match List.filter (fun s => year_close year (Series.year s)) l with
  | [] => l
  | year_matches => year_matches
  end.

(** PRIORITY 2 and the external lookup. *)
Definition title_tier (title : option string) (year : option Z)
  : Eff (option Series.t) :=
  matches ← search_series_by_title title;
  match matches with
  | _ :: _ =>
      let matches :=
        if (Py.truthy_int year && (1 <? Z.of_nat (List.length matches)))%bool
        then filter_by_year (default 0 year) matches
        else matches in
      mret (head matches)
  | [] =>
      lookup_results ← search_series_lookup title;
      match lookup_results with
      | _ :: _ =>
          let lookup_results :=
            if Py.truthy_int year
            then filter_by_year (default 0 year) lookup_results
            else lookup_results in
          match_lookup_results lookup_results
      | [] => mret None
      end
  end.

Definition find_series_by_jellyfin_metadata (title : option string) (year : option Z)
  (tvdb_id imdb_id : option string) : Eff (option Series.t) :=
  by_id ← external_id_tier tvdb_id imdb_id;
  match by_id with
  | Some series => mret (Some series)
  | None => title_tier title year
  end.

End Client.
End SonarrClient.

(** ** [radarr_client.py] *)

Module Movie.
Record t := {
  id : Z;
  title : string;                   (* [.get("title", "")] *)
  originalTitle : string;           (* [.get("originalTitle", "")] *)
  alternativeTitles : list string;  (* the [.get("title", "")] of each entry *)
  year : option Z;
  tmdbId : option Z;
  imdbId : option string
}.
End Movie.

(** The answers of a Radarr server to the requests of the client. *)
Record RadarrApi := {
  GET_movie : result (list Movie.t);
  GET_movie_id : Z -> result (option Movie.t);
  GET_movie_lookup : option string -> result (list Movie.t);
  PUT_movie_id : Z -> bool -> result bool
}.

Module RadarrClient.
Section Client.

Variable api : RadarrApi.

Definition get_all_movies : Eff (list Movie.t) :=
  request Radarr_GET_movie (GET_movie api).

Definition get_movie_by_id (movie_id : Z) : Eff (option Movie.t) :=
  request (Radarr_GET_movie_id movie_id) (GET_movie_id api movie_id).

(** [any(title_lower in t or t in title_lower for t in all_titles if t)]. *)
Definition movie_title_match (title_lower : string) (movie : Movie.t) : bool :=
  let all_titles :=
    Py.lower (Movie.title movie) :: Py.lower (Movie.originalTitle movie)
      :: map Py.lower (Movie.alternativeTitles movie) in
  existsb (fun t => (Py.contains title_lower t || Py.contains t title_lower)%bool)
          (List.filter Py.truthy all_titles).

(** [title.lower()] raises [AttributeError] on [None]. *)
Definition search_movies_by_title (title : option string) : Eff (list Movie.t) :=
  movies_list ← get_all_movies;
  match movies_list with
  | [] => mret []
  | _ =>
      match title with
      | None => raise AttributeError
      | Some title =>
          mret (List.filter (movie_title_match (Py.lower title)) movies_list)
      end
  end.

Definition update_movie_monitoring (movie_id : Z) (monitored : bool) : Eff bool :=
  try_except
    (movie ← get_movie_by_id movie_id;
     match movie with
     | None => mret false
     | Some _ =>
         request (Radarr_PUT_movie_id movie_id monitored)
                 (PUT_movie_id api movie_id monitored)
     end)
    (fun _ => mret false).

Definition search_movie_lookup (term : option string) : Eff (list Movie.t) :=
  request (Radarr_GET_movie_lookup term) (GET_movie_lookup api term).

(** [movie_tmdb and str(tmdb_id) == movie_tmdb]. *)
Definition tmdb_match (tmdb_id : string) (movie : Movie.t) : bool :=
  match Movie.tmdbId movie with
  | Some n => (negb (n =? 0) && String.eqb tmdb_id (Py.str_of_int n))%bool
  | None => false
  end.

(** [movie_imdb and str(imdb_id) == movie_imdb]. *)
Definition imdb_match (imdb_id : string) (movie : Movie.t) : bool :=
  match Movie.imdbId movie with
  | Some i => (Py.truthy i && String.eqb imdb_id i)%bool
  | None => false
  end.

(** The two tests the loop of PRIORITY 1 makes on one movie. *)
Definition external_id_match (tmdb_id imdb_id : option string) (movie : Movie.t)
  : bool :=
  ((Py.truthy_opt tmdb_id && tmdb_match (default "" tmdb_id) movie)
   || (Py.truthy_opt imdb_id && imdb_match (default "" imdb_id) movie))%bool.

Definition external_id_tier (tmdb_id imdb_id : option string)
  : Eff (option Movie.t) :=
  if (Py.truthy_opt tmdb_id || Py.truthy_opt imdb_id)%bool
  then
    movies_list ← get_all_movies;
    mret (List.find (external_id_match tmdb_id imdb_id) movies_list)
  else mret None.

Definition year_close (year : Z) (y : option Z) : bool :=
  match y with
  | Some n => (negb (n =? 0) && (Z.abs (n - year) <=? 1))%bool
  | None => false
  end.

Definition filter_by_year (year : Z) (l : list Movie.t) : list Movie.t :=
  match List.filter (fun m => year_close year (Movie.year m)) l with
  | [] => l
  | year_matches => year_matches
  end.

Definition str_of_opt_int (o : option Z) : string :=
  match o with Some n => Py.str_of_int n | None => "None" end.

Fixpoint match_lookup_results (lookup_results : list Movie.t)
  : Eff (option Movie.t) :=
  match lookup_results with
  | [] => mret None
  | lookup_movie :: rest =>
      if Py.truthy_int (Movie.tmdbId lookup_movie)
      then
        movies_list ← get_all_movies;
        match List.find
                (fun existing_movie =>
                   String.eqb (str_of_opt_int (Movie.tmdbId existing_movie))
                              (str_of_opt_int (Movie.tmdbId lookup_movie)))
                movies_list with
        | Some existing_movie => mret (Some existing_movie)
        | None => match_lookup_results rest
        end
      else match_lookup_results rest
  end.

Definition title_tier (title : option string) (year : option Z)
  : Eff (option Movie.t) :=
  matches ← search_movies_by_title title;
  match matches with
  | _ :: _ =>
      let matches :=
        if (Py.truthy_int year && (1 <? Z.of_nat (List.length matches)))%bool
        then filter_by_year (default 0 year) matches
        else matches in
      mret (head matches)
  | [] =>
      lookup_results ← search_movie_lookup title;
      match lookup_results with
      | _ :: _ =>
          let lookup_results :=
            if Py.truthy_int year
            then filter_by_year (default 0 year) lookup_results
            else lookup_results in
          match_lookup_results lookup_results
      | [] => mret None
      end
  end.

Definition find_movie_by_jellyfin_metadata (title : option string) (year : option Z)
  (tmdb_id imdb_id : option string) : Eff (option Movie.t) :=
  by_id ← external_id_tier tmdb_id imdb_id;
  match by_id with
  | Some movie => mret (Some movie)
  | None => title_tier title year
  end.

End Client.
End RadarrClient.

(** ** JSON payloads *)

Module JsonDict.

(** A JSON object as the list of its members. *)
Definition t := list (string * Json).

Fixpoint lookup (d : t) (key : string) : option Json :=
  match d with
  | [] => None
  | (k, v) :: d' => if String.eqb k key then Some v else lookup d' key
  end.

(** [key in d]. *)
Definition has_key (d : t) (key : string) : bool :=
  match lookup d key with Some _ => true | None => false end.

(** [d.get(key)] read as a string or as an integer: [None] when the key is
    absent, [null], or of another type. *)
Definition get_str (d : t) (key : string) : option string :=
  match lookup d key with Some (JStr s) => Some s | _ => None end.

Definition get_int (d : t) (key : string) : option Z :=
  match lookup d key with Some (JInt n) => Some n | _ => None end.

(** [d.get(key)] as the value itself, [None] being [JNull]. *)
Definition get (d : t) (key : string) : Json := default JNull (lookup d key).

(** [d.get(key, dflt)] as the value itself. *)
Definition get_default (d : t) (key : string) (dflt : Json) : Json :=
  default dflt (lookup d key).

(** [d.get(key, {}).get(sub)] as the value itself: [AttributeError] when
    [key] holds a value that is not an object. *)
Definition get_sub (d : t) (key sub : string) : result Json :=
  match lookup d key with
  | None => Ok JNull
  | Some (JObj d') => Ok (get d' sub)
  | Some _ => Raise AttributeError
  end.

End JsonDict.

(** ** JSON values as Python sees them *)

Module PyValue.

(** Truthiness: [None], [False], [0], the empty string, list and dictionary
    are falsy. *)
Definition truthy (v : Json) : bool :=
  match v with
  | JNull => false
  | JBool b => b
  | JInt n => negb (n =? 0)
  | JStr s => Py.truthy s
  | JArr [] | JObj [] => false
  | JArr _ | JObj _ => true
  end.

(** [a or b]. *)
Definition or_ (a b : Json) : Json := if truthy a then a else b.

(** [v == s] for a [str] [s]. *)
Definition eq_str (v : Json) (s : string) : bool :=
  match v with JStr s' => String.eqb s' s | _ => false end.

(** [v in xs] for a list of strings. *)
Definition in_strs (v : Json) (xs : list string) : bool :=
  match v with JStr s => Py.str_in_list s xs | _ => false end.

(** The characters that [repr] of a [str] shows as they are. *)
Definition isprintable (c : ascii) : bool :=
  let n := Py.ord c in
  (Py.between 32 126 n || (Py.between 161 255 n && negb (N.eqb n 173)))%bool.

Definition hex_digit (n : N) : ascii :=
  if N.ltb n 10 then Py.chr (48 + n) else Py.chr (87 + n).

Definition backslash : ascii := Py.chr 92.
Definition single_quote : ascii := Py.chr 39.
Definition double_quote : ascii := Py.chr 34.

(** One character of a [str] inside the quotes of its [repr]. *)
Definition repr_char (quote c : ascii) : list ascii :=
  let n := Py.ord c in
  if (Ascii.eqb c quote || Ascii.eqb c backslash)%bool then [backslash; c]
  else if N.eqb n 9 then [backslash; "t"%char]
  else if N.eqb n 10 then [backslash; "n"%char]
  else if N.eqb n 13 then [backslash; "r"%char]
  else if isprintable c then [c]
  else [backslash; "x"%char; hex_digit (N.div n 16); hex_digit (N.modulo n 16)].

(** [repr(s)]: double quotes when [s] holds a single quote and no double
    quote, single quotes otherwise. *)
Definition repr_str (s : string) : string :=
  let cs := Py.chars s in
  let quote :=
    if (existsb (Ascii.eqb single_quote) cs
        && negb (existsb (Ascii.eqb double_quote) cs))%bool
    then double_quote else single_quote in
  Py.str (quote :: flat_map (repr_char quote) cs ++ [quote]).

(** [', '.join(parts)]. *)
Fixpoint join_comma (parts : list string) : string :=
  match parts with
  | [] => ""
  | [p] => p
  | p :: parts' => p +:+ ", " +:+ join_comma parts'
  end.

(** [repr(v)]. *)
Fixpoint repr (v : Json) : string :=
  match v with
  | JNull => "None"
  | JBool true => "True"
  | JBool false => "False"
  | JInt n => Py.str_of_int n
  | JStr s => repr_str s
  | JArr items => "[" +:+ join_comma (map repr items) +:+ "]"
  | JObj members =>
      "{" +:+ join_comma (map (fun kv => repr_str (fst kv) +:+ ": " +:+ repr (snd kv))
                              members) +:+ "}"
  end.

(** [str(v)], the text of [v] in an f-string: a [str] is its own text. *)
Definition str (v : Json) : string :=
  match v with
  | JStr s => s
  | _ => repr v
  end.

(** [int(s)] for a [str]: white space around the number is dropped, a sign
    may come first, and single underscores may stand between digits; [None]
    where [int] raises [ValueError].  (The bound that recent interpreters put
    on the number of digits is left out.) *)
Fixpoint int_digits (acc : Z) (after_digit : bool) (l : list ascii) : option Z :=
  match l with
  | [] => if after_digit then Some acc else None
  | c :: l' =>
      let n := Py.ord c in
      if Py.between 48 57 n
      then int_digits (10 * acc + Z.of_N (n - 48)) true l'
      else if (N.eqb n 95 && after_digit)%bool
      then int_digits acc false l'
      else None
  end.

Fixpoint lstrip (l : list ascii) : list ascii :=
  match l with
  | c :: l' => if Py.isspace c then lstrip l' else l
  | [] => []
  end.

Definition strip (l : list ascii) : list ascii := rev (lstrip (rev (lstrip l))).

Definition int_of_str (s : string) : option Z :=
  match strip (Py.chars s) with
  | c :: l =>
      if Ascii.eqb c "+" then int_digits 0 false l
      else if Ascii.eqb c "-" then Z.opp <$> int_digits 0 false l
      else int_digits 0 false (c :: l)
  | [] => None
  end.

End PyValue.

(** ** [models.py] *)

Module MediaType.
Definition MOVIE : string := "movie".
Definition EPISODE : string := "episode".
Definition SERIES : string := "series".
Definition SEASON : string := "season".
End MediaType.

Module SyncAction.
Inductive t := MONITOR | UNMONITOR.
End SyncAction.

Module SyncStatus.
Inductive t := PENDING | PROCESSING | COMPLETED | FAILED.

Definition eqb (a b : t) : bool :=
  match a, b with
  | PENDING, PENDING | PROCESSING, PROCESSING
  | COMPLETED, COMPLETED | FAILED, FAILED => true
  | _, _ => false
  end.
End SyncStatus.

Module MediaItem.
Record t := {
  id : Z;
  jellyfin_id : string;
  title : string;
  media_type : string;
  is_watched : option bool;       (* a nullable [Boolean] column *)
  parent_id : option string;
  series_name : option string;
  season_number : option Z;
  episode_number : option Z
}.
End MediaItem.

Module SonarrMapping.
Record t := {
  media_item_id : Z;
  sonarr_series_id : Z;
  sonarr_episode_id : option Z;
  sonarr_season_number : option Z;
  is_monitored : bool
}.
End SonarrMapping.

Module RadarrMapping.
Record t := {
  media_item_id : Z;
  radarr_movie_id : Z;
  is_monitored : bool
}.
End RadarrMapping.

Module SyncLog.
Record t := {
  id : Z;
  media_item_id : Z;
  series_name : option string;
  action : SyncAction.t;
  status : SyncStatus.t;
  service : string;
  external_id : option string;
  error_message : option string;
  created_at : Z
}.

Definition set_status (st : SyncStatus.t) (err : option string) (l : t) : t :=
  {| id := id l; media_item_id := media_item_id l; series_name := series_name l;
     action := action l; status := st; service := service l;
     external_id := external_id l; error_message := err;
     created_at := created_at l |}.

Definition set_external_id (ext : option string) (l : t) : t :=
  {| id := id l; media_item_id := media_item_id l; series_name := series_name l;
     action := action l; status := status l; service := service l;
     external_id := ext; error_message := error_message l;
     created_at := created_at l |}.
End SyncLog.

(** ** The record store *)

(** The tables, each a finite map from the primary key to the row (the
    mapping tables from [media_item_id], which is unique), and the next
    primary keys of the two tables the engine inserts into. *)
Record Db := {
  media_items : gmap Z MediaItem.t;
  sonarr_mappings : gmap Z SonarrMapping.t;
  radarr_mappings : gmap Z RadarrMapping.t;
  sync_logs : gmap Z SyncLog.t;
  next_media_item_id : Z;
  next_sync_log_id : Z
}.

Module Store.

(** [select(MediaItem).where(MediaItem.jellyfin_id == jellyfin_id)]. *)
Definition media_item_by_jellyfin_id (db : Db) (jellyfin_id : string)
  : option MediaItem.t :=
  snd <$> List.find (fun kv => String.eqb (MediaItem.jellyfin_id (snd kv)) jellyfin_id)
                    (map_to_list (media_items db)).

Definition put_media_item (m : MediaItem.t) (db : Db) : Db :=
  {| media_items := <[MediaItem.id m := m]> (media_items db);
     sonarr_mappings := sonarr_mappings db;
     radarr_mappings := radarr_mappings db;
     sync_logs := sync_logs db;
     next_media_item_id := next_media_item_id db;
     next_sync_log_id := next_sync_log_id db |}.

Definition bump_media_item_id (db : Db) : Db :=
  {| media_items := media_items db;
     sonarr_mappings := sonarr_mappings db;
     radarr_mappings := radarr_mappings db;
     sync_logs := sync_logs db;
     next_media_item_id := next_media_item_id db + 1;
     next_sync_log_id := next_sync_log_id db |}.

Definition put_sonarr_mapping (m : SonarrMapping.t) (db : Db) : Db :=
  {| media_items := media_items db;
     sonarr_mappings := <[SonarrMapping.media_item_id m := m]> (sonarr_mappings db);
     radarr_mappings := radarr_mappings db;
     sync_logs := sync_logs db;
     next_media_item_id := next_media_item_id db;
     next_sync_log_id := next_sync_log_id db |}.

Definition put_radarr_mapping (m : RadarrMapping.t) (db : Db) : Db :=
  {| media_items := media_items db;
     sonarr_mappings := sonarr_mappings db;
     radarr_mappings := <[RadarrMapping.media_item_id m := m]> (radarr_mappings db);
     sync_logs := sync_logs db;
     next_media_item_id := next_media_item_id db;
     next_sync_log_id := next_sync_log_id db |}.

(** The row of primary key [log_id] becomes [l]. *)
Definition write_sync_log (log_id : Z) (l : SyncLog.t) (db : Db) : Db :=
  {| media_items := media_items db;
     sonarr_mappings := sonarr_mappings db;
     radarr_mappings := radarr_mappings db;
     sync_logs := <[log_id := l]> (sync_logs db);
     next_media_item_id := next_media_item_id db;
     next_sync_log_id := next_sync_log_id db |}.

Definition put_sync_log (l : SyncLog.t) (db : Db) : Db :=
  write_sync_log (SyncLog.id l) l db.

(** The rows of a table in the order of the primary key, in which SQLite
    scans a table when the statement gives no order. *)
Definition key_le {A} (a b : Z * A) : Prop := fst a <= fst b.

Global Instance key_le_dec {A} (a b : Z * A) : Decision (key_le a b) :=
  Z_le_dec (fst a) (fst b).

Definition rows_by_key {A} (table : gmap Z A) : list (Z * A) :=
  merge_sort key_le (map_to_list table).

(** [.limit(limit)]: SQLite reads a negative limit as no limit. *)
Definition sql_limit {A} (limit : Z) (rows : list A) : list A :=
  if limit <? 0 then rows else take (Z.to_nat limit) rows.

Definition bump_sync_log_id (db : Db) : Db :=
  {| media_items := media_items db;
     sonarr_mappings := sonarr_mappings db;
     radarr_mappings := radarr_mappings db;
     sync_logs := sync_logs db;
     next_media_item_id := next_media_item_id db;
     next_sync_log_id := next_sync_log_id db + 1 |}.

End Store.

(** ** The handler monad: requests, the record store, exceptions *)

(** One assignment to the [status] column of an audit record: [old] is the
    status the record had ([None] when the record is created). *)
Record StatusWrite := {
  sw_log_id : Z;
  sw_old : option SyncStatus.t;
  sw_new : SyncStatus.t
}.

(** What a handler computation leaves behind: the requests it issued and the
    status assignments it made, each in order. *)
Record Journal := {
  events : list Event;
  status_writes : list StatusWrite
}.

Definition no_journal : Journal := {| events := []; status_writes := [] |}.

Definition journal_app (a b : Journal) : Journal :=
  {| events := events a ++ events b;
     status_writes := status_writes a ++ status_writes b |}.

Definition Run (A : Type) : Type := Db -> Journal * Db * result A.

Global Instance Run_ret : MRet Run := fun A a db => (no_journal, db, Ok a).

Global Instance Run_bind : MBind Run := fun A B k m db =>
  match m db with
  | (j, db1, Ok a) => let '(j', db2, r) := k a db1 in (journal_app j j', db2, r)
  | (j, db1, Raise e) => (j, db1, Raise e)
  end.

(** A client computation run inside the handler. *)
Definition lift {A} (m : Eff A) : Run A :=
  fun db => ({| events := trace m; status_writes := [] |}, db, outcome m).

Definition get_db : Run Db := fun db => (no_journal, db, Ok db).

Definition modify (f : Db -> Db) : Run unit := fun db => (no_journal, f db, Ok tt).

Definition emit (ev : Event) : Run unit :=
  fun db => ({| events := [ev]; status_writes := [] |}, db, Ok tt).

Definition log_status (w : StatusWrite) : Run unit :=
  fun db => ({| events := []; status_writes := [w] |}, db, Ok tt).

Definition run_raise {A} (e : exn) : Run A := fun db => (no_journal, db, Raise e).

(** [try: body except Exception: handler]; the store keeps what [body] wrote. *)
Definition run_try_except {A} (body : Run A) (handler : exn -> Run A) : Run A :=
  fun db =>
    match body db with
    | (j, db1, Raise e) =>
        if is_Exception e
        then let '(j', db2, r) := handler e db1 in (journal_app j j', db2, r)
        else (j, db1, Raise e)
    | done => done
    end.

(** [try: body except Exception: await db.rollback(); handler], for a [body]
    that has not committed when it raises: the store is as it was. *)
Definition run_try_rollback {A} (body : Run A) (handler : exn -> Run A) : Run A :=
  fun db =>
    match body db with
    | (j, db1, Raise e) =>
        if is_Exception e
        then let '(j', db2, r) := handler e db in (journal_app j j', db2, r)
        else (j, db1, Raise e)
    | done => done
    end.

(** ** [jellyfin_client.py] and [external_api_client.py], as seen by the handler *)

(** The dictionary that [extract_media_info] builds from an item, or that the
    handler builds from the webhook data.  The id and the watched flag are the
    values as they came. *)
Module MediaInfo.
Record t := {
  jellyfin_id : Json;
  title : option string;
  media_type : string;
  is_watched : option Json;     (* [None]: the key is absent *)
  series_id : option string;
  series_name : option string;
  season_number : option Z;
  episode_number : option Z;
  parent_id : option string;
  year : option Z
}.
End MediaInfo.

(** [get_item_by_id(item_id, user_id)]: the body of the response, [JNull]
    for a response with no content. *)
Record JellyfinApi := {
  GET_item : string -> option Json -> result Json
}.

(** [jellyfin_client.py]: [extract_media_info]. *)
Module JellyfinItem.

(** [item.get("Type", "").lower()]. *)
Definition lower_type (item : JsonDict.t) : result string :=
  match JsonDict.lookup item "Type" with
  | None => Ok ""
  | Some (JStr jellyfin_type) => Ok (Py.lower jellyfin_type)
  | Some _ => Raise AttributeError
  end.

(** [user_data.get("Played", False)] when [item.get("UserData", {})] is
    truthy; otherwise the dictionary has no ["is_watched"]. *)
Definition played (item : JsonDict.t) : result (option Json) :=
  let user_data := JsonDict.get_default item "UserData" (JObj []) in
  if PyValue.truthy user_data
  then
    match user_data with
    | JObj user_data => Ok (Some (JsonDict.get_default user_data "Played" (JBool false)))
    | _ => Raise AttributeError
    end
  else Ok None.

Definition extract_media_info (item : JsonDict.t) : result MediaInfo.t :=
  match lower_type item, played item with
  | Ok media_type, Ok is_watched =>
      Ok {| MediaInfo.jellyfin_id := JsonDict.get item "Id";
            MediaInfo.title := JsonDict.get_str item "Name";
            MediaInfo.media_type := media_type;
            MediaInfo.is_watched := is_watched;
            MediaInfo.series_id := JsonDict.get_str item "SeriesId";
            MediaInfo.series_name := JsonDict.get_str item "SeriesName";
            MediaInfo.season_number := JsonDict.get_int item "ParentIndexNumber";
            MediaInfo.episode_number := JsonDict.get_int item "IndexNumber";
            MediaInfo.parent_id := JsonDict.get_str item "ParentId";
            MediaInfo.year := JsonDict.get_int item "ProductionYear" |}
  | Raise e, _ | _, Raise e => Raise e
  end.

(** [if not item_data: ...] followed by [extract_media_info(item_data)]:
    [None] for a falsy response, [AttributeError] for a truthy one that is not
    an object. *)
Definition media_info_of (item_data : Json) : result (option MediaInfo.t) :=
  if negb (PyValue.truthy item_data) then Ok None
  else
    match item_data with
    | JObj item =>
        match extract_media_info item with
        | Ok media_info => Ok (Some media_info)
        | Raise e => Raise e
        end
    | _ => Raise AttributeError
    end.

End JellyfinItem.

Module ExternalMatch.
Record t := {
  title : string;
  year : option Z;
  tvdb_id : option string;
  imdb_id : option string;
  tmdb_id : option string
}.
End ExternalMatch.

(** [find_best_match(title, media_type, year, existing_ids)], where
    [existing_ids] holds at most the IMDB id. *)
Record ExternalApi := {
  find_best_match :
    option string -> string -> option Z -> option string
    -> result (option ExternalMatch.t)
}.

(** Everything outside the engine that a run of the handler talks to. *)
Record Env := {
  settings : Settings;
  sonarr : SonarrApi;
  radarr : RadarrApi;
  jellyfin : JellyfinApi;
  external : ExternalApi;
  asyncio_sleep : Z -> result unit;
  utcnow : Z;
  (* SQLite comparing a text with an integer key: the integer that the text
     is numerically equal to, if it is one *)
  numeric_text : string -> option Z
}.

(** ** [webhook_handler.py] *)

Module WebhookHandler.

(** [a or b] on optional strings. *)
Definition por (a b : option string) : option string :=
  if Py.truthy_opt a then a else b.

Definition jstr (o : option string) : Json :=
  match o with Some s => JStr s | None => JNull end.

Definition jint (o : option Z) : Json :=
  match o with Some n => JInt n | None => JNull end.

(** The text of a value in an f-string. *)
Definition fstr (v : Json) : string := PyValue.str v.

Definition _is_processed_webhook_data (payload : JsonDict.t) : bool :=
  forallb (JsonDict.has_key payload)
          ["jellyfin_id"; "user_id"; "event_type"; "is_watched"].

(** [payload.get(k1) or payload.get("ProviderIds", {}).get(s1) or
    payload.get("ProviderIds", {}).get(s2) or payload.get(k4) or payload.get(k5)]. *)
Definition provider_id (payload : JsonDict.t) (k1 s1 s2 k4 k5 : string)
  : result Json :=
  let a := JsonDict.get payload k1 in
  if PyValue.truthy a then Ok a
  else
    match JsonDict.get_sub payload "ProviderIds" s1 with
    | Raise e => Raise e
    | Ok b =>
        if PyValue.truthy b then Ok b
        else
          match JsonDict.get_sub payload "ProviderIds" s2 with
          | Raise e => Raise e
          | Ok c =>
              if PyValue.truthy c then Ok c
              else Ok (PyValue.or_ (JsonDict.get payload k4) (JsonDict.get payload k5))
          end
    end.

(** The dictionary is returned without its ["timestamp"], which nothing reads.
    Its values are those of the payload, whatever their type. *)
Definition _extract_send_all_format (payload : JsonDict.t) : option JsonDict.t :=
  let event_type := JsonDict.get payload "NotificationType" in
  if negb (PyValue.eq_str event_type "UserDataSaved") then None
  else
    let item_id := JsonDict.get payload "ItemId" in
    let user_id := JsonDict.get payload "UserId" in
    let item_name := JsonDict.get payload "Name" in
    let item_type := JsonDict.get payload "ItemType" in
    let username := JsonDict.get payload "NotificationUsername" in
    let is_played := JsonDict.get_default payload "Played" (JBool false) in
    let save_reason := JsonDict.get payload "SaveReason" in
    if (negb (PyValue.truthy item_id) || negb (PyValue.truthy user_id))%bool
    then None
    else if negb (PyValue.in_strs save_reason ["TogglePlayed"; "PlaybackFinished"])
    then None
    else
      match provider_id payload "Provider_tvdb" "Tvdb" "tvdb" "TvdbId" "tvdbId",
            provider_id payload "Provider_imdb" "Imdb" "imdb" "ImdbId" "imdbId",
            provider_id payload "Provider_tmdb" "Tmdb" "tmdb" "TmdbId" "tmdbId" with
      | Ok tvdb_id, Ok imdb_id, Ok tmdb_id =>
          Some [("event_type", event_type);
                ("jellyfin_id", item_id);
                ("user_id", user_id);
                ("is_watched", is_played);
                ("item_name", item_name);
                ("item_type", item_type);
                ("username", username);
                ("series_id", JsonDict.get payload "SeriesId");
                ("series_name", JsonDict.get payload "SeriesName");
                ("season_id", JsonDict.get payload "SeasonId");
                ("season_number", JsonDict.get payload "SeasonNumber");
                ("episode_number", JsonDict.get payload "EpisodeNumber");
                ("tvdb_id", tvdb_id);
                ("imdb_id", imdb_id);
                ("tmdb_id", tmdb_id);
                ("year", JsonDict.get payload "Year")]
      | _, _, _ => None
      end.

(** ["UserDataSaved" in payload.get("events", [])]. *)
Definition events_has_UserDataSaved (payload : JsonDict.t) : result bool :=
  match JsonDict.lookup payload "events" with
  | None => Ok false
  | Some (JArr items) =>
      Ok (existsb (fun v => PyValue.eq_str v "UserDataSaved") items)
  | Some (JStr s) => Ok (Py.contains "UserDataSaved" s)
  | Some (JObj d) => Ok (JsonDict.has_key d "UserDataSaved")
  | Some _ => Raise TypeError
  end.

(** [template.get(k1) or payload.get(k2) or payload.get(k3) or
    payload.get(k4, {}).get("Id")]. *)
Definition legacy_id (template payload : JsonDict.t) (k1 k2 k3 k4 : string)
  : result Json :=
  let a := PyValue.or_ (JsonDict.get template k1)
                       (PyValue.or_ (JsonDict.get payload k2)
                                    (JsonDict.get payload k3)) in
  if PyValue.truthy a then Ok a else JsonDict.get_sub payload k4 "Id".

Definition _extract_webhook_data (payload : JsonDict.t) : option JsonDict.t :=
  if (JsonDict.has_key payload "NotificationType"
      || JsonDict.has_key payload "Event")%bool
  then _extract_send_all_format payload
  else
    match (match JsonDict.lookup payload "template" with
           | None => Some []
           | Some (JObj d) => Some d
           | Some _ => None        (* [template.get] raises [AttributeError] *)
           end) with
    | None => None
    | Some template =>
        let event_type :=
          PyValue.or_ (JsonDict.get template "Type")
            (PyValue.or_ (JsonDict.get payload "Type")
               (PyValue.or_ (JsonDict.get payload "event_type")
                            (JsonDict.get payload "NotificationType"))) in
        match (if PyValue.eq_str event_type "UserDataSaved" then Ok true
               else events_has_UserDataSaved payload) with
        | Ok true =>
            match legacy_id template payload "ItemId" "ItemId" "Id" "Item",
                  legacy_id template payload "UserId" "UserId" "user_id" "User" with
            | Ok item_id, Ok user_id =>
                if (negb (PyValue.truthy item_id) || negb (PyValue.truthy user_id))%bool
                then None
                else Some [("event_type", JStr "UserDataSaved");
                           ("jellyfin_id", item_id);
                           ("user_id", user_id)]
            | _, _ => None
            end
        | _ => None
        end
    end.

(** [type_mapping.get(jellyfin_type, MediaType.EPISODE)]: a list or a
    dictionary is no key of a dictionary ([TypeError]). *)
Definition _normalize_media_type (jellyfin_type : Json) : result string :=
  match jellyfin_type with
  | JStr "Episode" | JStr "episode" => Ok MediaType.EPISODE
  | JStr "Movie" | JStr "movie" => Ok MediaType.MOVIE
  | JStr "Series" | JStr "series" => Ok MediaType.SERIES
  | JStr "Season" | JStr "season" => Ok MediaType.SEASON
  | JArr _ | JObj _ => Raise TypeError
  | _ => Ok MediaType.EPISODE
  end.

Definition _is_watched_status_change (webhook_data : JsonDict.t) : bool :=
  PyValue.eq_str (JsonDict.get webhook_data "event_type") "UserDataSaved".

(** [webhook_data.get(key, default)] read as an optional string. *)
Definition get_str_default (d : JsonDict.t) (key : string) (dflt : option string)
  : option string :=
  match JsonDict.lookup d key with
  | None => dflt
  | Some (JStr s) => Some s
  | Some _ => None
  end.

(** [webhook_data.get(k1) or webhook_data.get(k2)] as the clients use an id:
    they test its truthiness and compare its [str()], so a truthy id is its
    text and a falsy one is [None]. *)
Definition provider_id_of (webhook_data : JsonDict.t) (k1 k2 : string)
  : option string :=
  let v := PyValue.or_ (JsonDict.get webhook_data k1) (JsonDict.get webhook_data k2) in
  if PyValue.truthy v then Some (PyValue.str v) else None.

(** Truthiness of a dictionary that may be [None]. *)
Definition dict_truthy (d : option JsonDict.t) : bool :=
  match d with Some (_ :: _) => true | _ => false end.

(** [date.split('-')[0]]. *)
Fixpoint before_dash (l : list ascii) : list ascii :=
  match l with
  | [] => []
  | c :: l' => if Ascii.eqb c "-" then [] else c :: before_dash l'
  end.

(** [int(series_year.split('-')[0])] under [if series_year:], inside a bare
    [try]: [None] for a falsy value, and where [split] or [int] raises. *)
Definition premiere_year (date : Json) : option Z :=
  match date with
  | JStr d => PyValue.int_of_str (Py.str (before_dash (Py.chars d)))
  | _ => None
  end.

Section Handler.

Variable env : Env.

Definition find_series := SonarrClient.find_series_by_jellyfin_metadata (sonarr env).
Definition find_movie := RadarrClient.find_movie_by_jellyfin_metadata (radarr env).

(** PRIORITY 2 and 3 of [_find_sonarr_series] and [_find_radarr_movie], given
    the resolver [find] of the service. *)
Definition enhance_and_fall_back {A}
  (find : option string -> option Z -> option string -> option string
          -> Eff (option A))
  (external_id_of : ExternalMatch.t -> option string)
  (media_type : string) (title : option string) (year : option Z)
  (imdb_id : option string) : Eff (option A) :=
  let final_fallback := find title year None None in
  if use_external_api (settings env)
  then
    let external_api_ids := if Py.truthy_opt imdb_id then imdb_id else None in
    external_match ←
      request (External_find_best_match title media_type)
              (find_best_match (external env) title media_type year external_api_ids);
    match external_match with
    | Some em =>
        enhanced_result ←
          find (Some (ExternalMatch.title em)) (ExternalMatch.year em)
               (external_id_of em) (ExternalMatch.imdb_id em);
        match enhanced_result with
        | Some r => mret (Some r)
        | None => find (Some (ExternalMatch.title em)) (ExternalMatch.year em) None None
        end
    | None => final_fallback
    end
  else final_fallback.

Definition _find_sonarr_series (media_item : MediaItem.t)
  (webhook_data : option JsonDict.t) : Eff (option Series.t) :=
  let is_episode := String.eqb (MediaItem.media_type media_item) MediaType.EPISODE in
  let title0 := Some (MediaItem.title media_item) in
  let '(series_title, series_year, existing_ids) :=
    match webhook_data with
    | Some ((_ :: _) as wd) =>
        let '(t, y) :=
          if is_episode
          then (por (JsonDict.get_str wd "series_name")
                    (get_str_default wd "SeriesName" title0),
                premiere_year (JsonDict.get wd "SeriesPremiereDate"))
          else (get_str_default wd "item_name" title0, JsonDict.get_int wd "year") in
        (t, y,
         (provider_id_of wd "Provider_tvdb" "tvdb_id",
          provider_id_of wd "Provider_imdb" "imdb_id",
          provider_id_of wd "Provider_tmdb" "tmdb_id"))
    | _ => (title0, None, (None, None, None))
    end in
  let '(tvdb_id, imdb_id, tmdb_id) := existing_ids in
  '(series_title, series_year) ←
    (if (is_episode && Py.truthy_opt (MediaItem.parent_id media_item)
         && negb (dict_truthy webhook_data))%bool
     then
       let parent_id := default "" (MediaItem.parent_id media_item) in
       series_data ← request (Jellyfin_GET_item parent_id None)
                             (GET_item (jellyfin env) parent_id None);
       series_info ← lift_result (JellyfinItem.media_info_of series_data);
       match series_info with
       | Some info => mret (MediaInfo.title info, MediaInfo.year info)
       | None => mret (series_title, series_year)
       end
     else mret (series_title, series_year));
  direct_match ←
    (if (Py.truthy_opt tvdb_id || Py.truthy_opt imdb_id || Py.truthy_opt tmdb_id)%bool
     then find_series series_title series_year tvdb_id imdb_id
     else mret None);
  match direct_match with
  | Some series => mret (Some series)
  | None =>
      enhance_and_fall_back find_series ExternalMatch.tvdb_id "series"
                            series_title series_year imdb_id
  end.

Definition _find_radarr_movie (media_item : MediaItem.t)
  (webhook_data : option JsonDict.t) : Eff (option Movie.t) :=
  let title0 := Some (MediaItem.title media_item) in
  '(movie_title, movie_year, tmdb_id, imdb_id) ←
    match webhook_data with
    | Some ((_ :: _) as wd) =>
        mret (get_str_default wd "item_name" title0, JsonDict.get_int wd "year",
              provider_id_of wd "Provider_tmdb" "tmdb_id",
              provider_id_of wd "Provider_imdb" "imdb_id")
    | _ =>
        item_data ← request (Jellyfin_GET_item (MediaItem.jellyfin_id media_item) None)
                            (GET_item (jellyfin env)
                                      (MediaItem.jellyfin_id media_item) None);
        media_info ← lift_result (JellyfinItem.media_info_of item_data);
        match media_info with
        | Some info => mret (MediaInfo.title info, MediaInfo.year info, None, None)
        | None => mret (title0, None, None, None)
        end
    end;
  direct_match ←
    (if (Py.truthy_opt tmdb_id || Py.truthy_opt imdb_id)%bool
     then find_movie movie_title movie_year tmdb_id imdb_id
     else mret None);
  match direct_match with
  | Some movie => mret (Some movie)
  | None =>
      enhance_and_fall_back find_movie ExternalMatch.tmdb_id "movie"
                            movie_title movie_year imdb_id
  end.

Definition is_sonarr_type (media_type : string) : bool :=
  Py.str_in_list media_type [MediaType.EPISODE; MediaType.SERIES; MediaType.SEASON].

Definition service_name_of (media_item : MediaItem.t) : string :=
  if is_sonarr_type (MediaItem.media_type media_item) then "Sonarr" else "Radarr".

(** The row of either mapping table. *)
Inductive Mapping :=
| OfSonarr (m : SonarrMapping.t)
| OfRadarr (m : RadarrMapping.t).

Definition set_status (log_id : Z) (new : SyncStatus.t) : Run unit :=
  db ← get_db;
  match sync_logs db !! log_id with
  | Some l =>
      log_status {| sw_log_id := log_id; sw_old := Some (SyncLog.status l);
                    sw_new := new |};;
      modify (Store.write_sync_log log_id
                (SyncLog.set_status new (SyncLog.error_message l) l))
  | None => mret tt
  end.

Definition set_error_message (log_id : Z) (err : option string) : Run unit :=
  db ← get_db;
  match sync_logs db !! log_id with
  | Some l =>
      modify (Store.write_sync_log log_id (SyncLog.set_status (SyncLog.status l) err l))
  | None => mret tt
  end.

Definition set_external_id (log_id : Z) (ext : string) : Run unit :=
  db ← get_db;
  match sync_logs db !! log_id with
  | Some l => modify (Store.write_sync_log log_id (SyncLog.set_external_id (Some ext) l))
  | None => mret tt
  end.

(** The record that [_update_sync_log] creates. *)
Definition new_sync_log (media_item : MediaItem.t) (should_monitor : bool)
  (service : string) (db0 : Db) : SyncLog.t :=
  {| SyncLog.id := next_sync_log_id db0;
     SyncLog.media_item_id := MediaItem.id media_item;
     SyncLog.series_name :=
       (if Py.truthy_opt (MediaItem.series_name media_item)
        then MediaItem.series_name media_item
        else Some (MediaItem.title media_item));
     SyncLog.action :=
       (if should_monitor then SyncAction.MONITOR else SyncAction.UNMONITOR);
     SyncLog.status := SyncStatus.PROCESSING;
     SyncLog.service := service;
     SyncLog.external_id := None;
     SyncLog.error_message := None;
     SyncLog.created_at := utcnow env |}.

(** The key that [SyncLog.id == original_log_id] selects.  [True] is 1 and
    [False] is 0; a text is compared by its numeric value; a list or a
    dictionary cannot be bound to the statement. *)
Definition log_key (original_log_id : Json) : result (option Z) :=
  match original_log_id with
  | JInt n => Ok (Some n)
  | JBool b => Ok (Some (if b then 1 else 0))
  | JStr s => Ok (numeric_text env s)
  | JNull => Ok None
  | JArr _ | JObj _ => Raise StatementError
  end.

(** The [if is_retry and original_log_id:] block of [_update_sync_log]: the
    key of the record it finds. *)
Definition original_log (is_retry : bool) (original_log_id : Json) (db : Db)
  : result (option Z) :=
  if (is_retry && PyValue.truthy original_log_id)%bool
  then
    match log_key original_log_id with
    | Ok (Some log_id) =>
        Ok (match sync_logs db !! log_id with Some _ => Some log_id | None => None end)
    | Ok None => Ok None
    | Raise e => Raise e
    end
  else Ok None.

(** Returns the primary key of the audit record of this attempt. *)
Definition _update_sync_log (media_item : MediaItem.t) (should_monitor : bool)
  (service : string) (is_retry : bool) (original_log_id : Json) : Run Z :=
  db ← get_db;
  match original_log is_retry original_log_id db with
  | Raise e => run_raise e
  | Ok (Some log_id) =>
      set_status log_id SyncStatus.PROCESSING;;
      set_error_message log_id None;;
      mret log_id
  | Ok None =>
      let sync_log := new_sync_log media_item should_monitor service db in
      log_status {| sw_log_id := SyncLog.id sync_log; sw_old := None;
                    sw_new := SyncStatus.PROCESSING |};;
      modify (fun db => Store.bump_sync_log_id (Store.put_sync_log sync_log db));;
      mret (SyncLog.id sync_log)
  end.

(** [select(mapping_model).where(mapping_model.media_item_id == media_item.id)]. *)
Definition select_mapping (media_item : MediaItem.t) : Run (option Mapping) :=
  emit (Db_select_mapping (service_name_of media_item) (MediaItem.id media_item));;
  db ← get_db;
  mret (if is_sonarr_type (MediaItem.media_type media_item)
        then OfSonarr <$> sonarr_mappings db !! MediaItem.id media_item
        else OfRadarr <$> radarr_mappings db !! MediaItem.id media_item).

(** The [if not mapping:] block: [None] where the function returns. *)
Definition create_mapping (media_item : MediaItem.t)
  (webhook_context : option JsonDict.t) : Run (option Mapping) :=
  if is_sonarr_type (MediaItem.media_type media_item)
  then
    series ← lift (_find_sonarr_series media_item webhook_context);
    match series with
    | None => mret None
    | Some series =>
        let mapping :=
          {| SonarrMapping.media_item_id := MediaItem.id media_item;
             SonarrMapping.sonarr_series_id := Series.id series;
             SonarrMapping.sonarr_episode_id := None;
             SonarrMapping.sonarr_season_number := None;
             SonarrMapping.is_monitored := true |} in
        mapping ←
          (if String.eqb (MediaItem.media_type media_item) MediaType.EPISODE
           then
             episode ← lift (SonarrClient.search_episode (sonarr env)
                               (Series.id series)
                               (MediaItem.season_number media_item)
                               (MediaItem.episode_number media_item));
             match episode with
             | Some episode =>
                 mret {| SonarrMapping.media_item_id := MediaItem.id media_item;
                         SonarrMapping.sonarr_series_id := Series.id series;
                         SonarrMapping.sonarr_episode_id := Some (Episode.id episode);
                         SonarrMapping.sonarr_season_number :=
                           MediaItem.season_number media_item;
                         SonarrMapping.is_monitored := true |}
             | None => mret mapping
             end
           else mret mapping);
        modify (Store.put_sonarr_mapping mapping);;
        mret (Some (OfSonarr mapping))
    end
  else
    movie ← lift (_find_radarr_movie media_item webhook_context);
    match movie with
    | None => mret None
    | Some movie =>
        let mapping :=
          {| RadarrMapping.media_item_id := MediaItem.id media_item;
             RadarrMapping.radarr_movie_id := Movie.id movie;
             RadarrMapping.is_monitored := true |} in
        modify (Store.put_radarr_mapping mapping);;
        mret (Some (OfRadarr mapping))
    end.

(** The [# Perform the sync] block. *)
Definition perform_sync (media_item : MediaItem.t) (mapping : Mapping)
  (should_monitor : bool) : Eff bool :=
  match mapping with
  | OfSonarr m =>
      let media_type := MediaItem.media_type media_item in
      if (String.eqb media_type MediaType.EPISODE
          && Py.truthy_int (SonarrMapping.sonarr_episode_id m))%bool
      then SonarrClient.update_episode_monitoring (settings env) (sonarr env)
             (default 0 (SonarrMapping.sonarr_episode_id m)) should_monitor
      else if String.eqb media_type MediaType.SEASON
      then SonarrClient.update_season_monitoring (settings env) (sonarr env)
             (SonarrMapping.sonarr_series_id m)
             (SonarrMapping.sonarr_season_number m) should_monitor
      else if String.eqb media_type MediaType.SERIES
      then SonarrClient.update_series_monitoring (sonarr env)
             (SonarrMapping.sonarr_series_id m) should_monitor
      else mret false
  | OfRadarr m =>
      RadarrClient.update_movie_monitoring (radarr env)
        (RadarrMapping.radarr_movie_id m) should_monitor
  end.

Definition set_is_monitored (mapping : Mapping) (should_monitor : bool) : Run unit :=
  match mapping with
  | OfSonarr m =>
      modify (Store.put_sonarr_mapping
                {| SonarrMapping.media_item_id := SonarrMapping.media_item_id m;
                   SonarrMapping.sonarr_series_id := SonarrMapping.sonarr_series_id m;
                   SonarrMapping.sonarr_episode_id := SonarrMapping.sonarr_episode_id m;
                   SonarrMapping.sonarr_season_number :=
                     SonarrMapping.sonarr_season_number m;
                   SonarrMapping.is_monitored := should_monitor |})
  | OfRadarr m =>
      modify (Store.put_radarr_mapping
                {| RadarrMapping.media_item_id := RadarrMapping.media_item_id m;
                   RadarrMapping.radarr_movie_id := RadarrMapping.radarr_movie_id m;
                   RadarrMapping.is_monitored := should_monitor |})
  end.

Definition str_of_exn (e : exn) : string :=
  match e with
  | HTTPException _ detail => detail
  | _ => "error"
  end.

(** The statements after [sync_log] is bound, with the part of the handler
    that applies from there on ([if 'sync_log' in locals() and sync_log]). *)
Definition sync_and_record (media_item : MediaItem.t) (mapping : Mapping)
  (should_monitor : bool) (log_id : Z) : Run unit :=
  run_try_except
    (success ← lift (perform_sync media_item mapping should_monitor);
     set_status log_id
       (if success : bool then SyncStatus.COMPLETED else SyncStatus.FAILED);;
     set_external_id log_id
       (Py.str_of_int (match mapping with
                       | OfSonarr m => SonarrMapping.sonarr_series_id m
                       | OfRadarr m => RadarrMapping.radarr_movie_id m
                       end));;
     (if negb success
      then set_error_message log_id (Some "Failed to update monitoring status")
      else mret tt);;
     set_is_monitored mapping should_monitor)
    (fun e =>
       set_status log_id SyncStatus.FAILED;;
       set_error_message log_id (Some (str_of_exn e))).

(** [webhook_context] is the [_webhook_data] attribute of [media_item]. *)
Definition _sync_with_service (media_item : MediaItem.t) (should_monitor : bool)
  (force is_retry : bool) (original_log_id : Json)
  (webhook_context : option JsonDict.t) : Run unit :=
  run_try_except
    (mapping ← select_mapping media_item;
     mapping ← match mapping with
               | Some m => mret (Some m)
               | None => create_mapping media_item webhook_context
               end;
     match mapping with
     | None => mret tt
     | Some mapping =>
         log_id ← _update_sync_log media_item should_monitor
                    (Py.lower (service_name_of media_item)) is_retry original_log_id;
         sync_and_record media_item mapping should_monitor log_id
     end)
    (fun _ => mret tt).

(** The text that a [String] column holds for a value: SQLite stores a number
    as its decimal text; a list or a dictionary cannot be bound. *)
Definition column_text (v : Json) : result string :=
  match v with
  | JStr s => Ok s
  | JInt n => Ok (Py.str_of_int n)
  | JBool b => Ok (if b then "1" else "0")
  | JNull => Raise IntegrityError
  | JArr _ | JObj _ => Raise StatementError
  end.

Definition _get_or_create_media_item_from_jellyfin (media_info : MediaInfo.t)
  : Run (option MediaItem.t) :=
  if negb (PyValue.truthy (MediaInfo.jellyfin_id media_info)) then mret None
  else
    match column_text (MediaInfo.jellyfin_id media_info) with
    | Raise e => run_raise e
    | Ok jellyfin_id =>
      db ← get_db;
      match MediaInfo.title media_info with
      | None => run_raise IntegrityError
      | Some title =>
          let media_item :=
            match Store.media_item_by_jellyfin_id db jellyfin_id with
            | Some media_item =>
                {| MediaItem.id := MediaItem.id media_item;
                   MediaItem.jellyfin_id := MediaItem.jellyfin_id media_item;
                   MediaItem.title := title;
                   MediaItem.media_type := MediaItem.media_type media_item;
                   MediaItem.is_watched := MediaItem.is_watched media_item;
                   MediaItem.parent_id := MediaInfo.parent_id media_info;
                   MediaItem.series_name := MediaInfo.series_name media_info;
                   MediaItem.season_number := MediaInfo.season_number media_info;
                   MediaItem.episode_number := MediaInfo.episode_number media_info |}
            | None =>
                {| MediaItem.id := next_media_item_id db;
                   MediaItem.jellyfin_id := jellyfin_id;
                   MediaItem.title := title;
                   MediaItem.media_type := MediaInfo.media_type media_info;
                   MediaItem.is_watched := Some false;
                   MediaItem.parent_id := MediaInfo.parent_id media_info;
                   MediaItem.series_name := MediaInfo.series_name media_info;
                   MediaItem.season_number := MediaInfo.season_number media_info;
                   MediaItem.episode_number := MediaInfo.episode_number media_info |}
            end in
          modify (fun db =>
                    match Store.media_item_by_jellyfin_id db jellyfin_id with
                    | Some _ => Store.put_media_item media_item db
                    | None => Store.bump_media_item_id (Store.put_media_item media_item db)
                    end);;
          mret (Some media_item)
      end
    end.

(** The first block of [_process_watched_status_change]: the incoming watched
    flag, as it came, and the [media_info] of the event; [None] where the
    function returns. *)
Definition watched_status_of_event (webhook_data : JsonDict.t)
  : Eff (option (Json * MediaInfo.t)) :=
  match JsonDict.lookup webhook_data "jellyfin_id",
        JsonDict.lookup webhook_data "user_id" with
  | Some jellyfin_id, Some user_id =>
      match JsonDict.lookup webhook_data "is_watched" with
      | Some is_watched =>
          media_type ←
            lift_result (_normalize_media_type
                           (JsonDict.get_default webhook_data "item_type"
                                                 (JStr "Unknown")));
          let series_id := JsonDict.get_str webhook_data "series_id" in
          mret (Some (is_watched,
                      {| MediaInfo.jellyfin_id := jellyfin_id;
                         MediaInfo.title :=
                           get_str_default webhook_data "item_name" (Some "Unknown");
                         MediaInfo.media_type := media_type;
                         MediaInfo.is_watched := Some is_watched;
                         MediaInfo.series_id := series_id;
                         MediaInfo.series_name :=
                           JsonDict.get_str webhook_data "series_name";
                         MediaInfo.season_number :=
                           JsonDict.get_int webhook_data "season_number";
                         MediaInfo.episode_number :=
                           JsonDict.get_int webhook_data "episode_number";
                         MediaInfo.parent_id := series_id;
                         MediaInfo.year := None |}))
      | None =>
          let user := if PyValue.truthy user_id then Some user_id else None in
          item_data ← request (Jellyfin_GET_item (fstr jellyfin_id) user)
                              (GET_item (jellyfin env) (fstr jellyfin_id) user);
          media_info ← lift_result (JellyfinItem.media_info_of item_data);
          match media_info with
          | None => mret None
          | Some media_info =>
              mret (Some (default (JBool false) (MediaInfo.is_watched media_info),
                          media_info))
          end
      end
  | _, _ => raise KeyError
  end.

Definition set_is_watched (is_watched : option bool) (m : MediaItem.t) : MediaItem.t :=
  {| MediaItem.id := MediaItem.id m;
     MediaItem.jellyfin_id := MediaItem.jellyfin_id m;
     MediaItem.title := MediaItem.title m;
     MediaItem.media_type := MediaItem.media_type m;
     MediaItem.is_watched := is_watched;
     MediaItem.parent_id := MediaItem.parent_id m;
     MediaItem.series_name := MediaItem.series_name m;
     MediaItem.season_number := MediaItem.season_number m;
     MediaItem.episode_number := MediaItem.episode_number m |}.

(** [old_status == is_watched] for the stored flag, which is [None], [True]
    or [False]: [True == 1] and [False == 0] hold, and nothing else equals
    a boolean or [None]. *)
Definition flag_eq (old_status : option bool) (is_watched : Json) : bool :=
  match old_status, is_watched with
  | None, JNull => true
  | Some b, JBool b' => Bool.eqb b b'
  | Some b, JInt n => n =? (if b then 1 else 0)
  | _, _ => false
  end.

(** What the [Boolean] column [is_watched] holds for a value: it takes [None],
    [True], [False], [0] and [1], and the commit raises for any other value. *)
Definition stored_flag (is_watched : Json) : result (option bool) :=
  match is_watched with
  | JNull => Ok None
  | JBool b => Ok (Some b)
  | JInt 0 => Ok (Some false)
  | JInt 1 => Ok (Some true)
  | _ => Raise StatementError
  end.

(** Step 1 of the pipeline, up to the commit of the new flag: [None] where the
    function returns (no media item, no status change and no force, or an
    exception, after which the session is rolled back). *)
Definition load_and_compare (media_info : MediaInfo.t) (is_watched : Json)
  (force_sync : bool) : Run (option MediaItem.t) :=
  run_try_rollback
    (media_item ← _get_or_create_media_item_from_jellyfin media_info;
     match media_item with
     | None => mret None
     | Some media_item =>
         let old_status := MediaItem.is_watched media_item in
         if (flag_eq old_status is_watched && negb force_sync)%bool
         then mret None
         else
           match stored_flag is_watched with
           | Raise e => run_raise e
           | Ok flag =>
               let media_item := set_is_watched flag media_item in
               modify (Store.put_media_item media_item);;
               mret (Some media_item)
           end
     end)
    (fun _ => mret None).

Definition _process_watched_status_change (webhook_data : JsonDict.t)
  (force_sync is_retry : bool) (original_log_id : Json) : Run unit :=
  run_try_except
    (event ← lift (watched_status_of_event webhook_data);
     match event with
     | None => mret tt
     | Some (is_watched, media_info) =>
         media_item ← load_and_compare media_info is_watched force_sync;
         match media_item with
         | None => mret tt
         | Some media_item =>
             let should_monitor := negb (PyValue.truthy is_watched) in
             let webhook_context :=
               if JsonDict.has_key webhook_data "is_watched"
               then Some webhook_data else None in
             run_try_except
               (_sync_with_service media_item should_monitor force_sync
                                   is_retry original_log_id webhook_context)
               (fun _ => mret tt)
         end
     end)
    (fun _ => mret tt).

(** *** [process_webhook] and the processing cache *)

(** The handler object: its cache and the store behind it. *)
Record Handler := {
  _processing_cache : gmap string Z;
  db : Db
}.

(** [f"{webhook_data['jellyfin_id']}_{webhook_data['user_id']}_{is_watched}"]. *)
Definition cache_key_of (webhook_data : JsonDict.t) : result string :=
  let is_watched := match JsonDict.lookup webhook_data "is_watched" with
                    | Some v => fstr v
                    | None => "unknown"
                    end in
  match JsonDict.lookup webhook_data "jellyfin_id",
        JsonDict.lookup webhook_data "user_id" with
  | Some jellyfin_id, Some user_id =>
      Ok (fstr jellyfin_id +:+ "_" +:+ fstr user_id +:+ "_" +:+ is_watched)
  | _, _ => Raise KeyError
  end.

(** How [process_webhook] ends before the settle delay, or what it goes on
    with. *)
Inductive Entry :=
| Ignored                                  (* not an event, or an exception *)
| Duplicate (cache_key : string)           (* already being processed *)
| Entered (cache_key : string) (webhook_data : JsonDict.t)
           (is_retry : bool) (original_log_id : Json).

(** [process_webhook] up to the cache key: the event it goes on with, or
    [None] where it returns or raises into its [except Exception].  Of
    [is_retry] the code only ever tests the truthiness; [original_log_id] goes
    on as it came. *)
Definition accepted_event (payload : Json)
  : option (string * JsonDict.t * bool * Json) :=
  match payload with
  | JObj payload =>
      let is_retry :=
        PyValue.truthy (JsonDict.get_default payload "retry_mode" (JBool false)) in
      let original_log_id := JsonDict.get payload "original_log_id" in
      match (if _is_processed_webhook_data payload then Some payload
             else _extract_webhook_data payload) with
      | Some ((_ :: _) as webhook_data) =>
          if negb (_is_watched_status_change webhook_data) then None
          else
            match cache_key_of webhook_data with
            | Raise _ => None
            | Ok cache_key => Some (cache_key, webhook_data, is_retry, original_log_id)
            end
      | _ => None
      end
  | _ => None    (* [payload.get] raises [AttributeError] *)
  end.

(** [process_webhook] up to [self._processing_cache[cache_key] = ...]. *)
Definition process_webhook_enter (payload : Json) (cache : gmap string Z)
  : gmap string Z * Entry :=
  match accepted_event payload with
  | None => (cache, Ignored)
  | Some (cache_key, webhook_data, is_retry, original_log_id) =>
      match cache !! cache_key with
      | Some _ => (cache, Duplicate cache_key)
      | None =>
          (<[cache_key := utcnow env]> cache,
           Entered cache_key webhook_data is_retry original_log_id)
      end
  end.

(** The [finally] block. *)
Definition process_webhook_release (cache_key : string) (cache : gmap string Z)
  : gmap string Z :=
  delete cache_key cache.

(** The body of the inner [try]. *)
Definition settle_and_process (webhook_data : JsonDict.t)
  (force_sync is_retry : bool) (original_log_id : Json) : Run unit :=
  lift (request (Sleep (sync_delay_seconds (settings env)))
                (asyncio_sleep env (sync_delay_seconds (settings env))));;
  _process_watched_status_change webhook_data force_sync is_retry original_log_id.

(** A whole call of [process_webhook] with nothing else running in between. *)
Definition process_webhook (payload : Json) (force_sync : bool) (h : Handler)
  : Journal * Handler * result unit :=
  match process_webhook_enter payload (_processing_cache h) with
  | (cache, Entered cache_key webhook_data is_retry original_log_id) =>
      let '(j, db', r) :=
        settle_and_process webhook_data force_sync is_retry original_log_id (db h) in
      let h' := {| _processing_cache := process_webhook_release cache_key cache;
                   db := db' |} in
      match r with
      | Raise e => if is_Exception e then (j, h', Ok tt) else (j, h', Raise e)
      | Ok _ => (j, h', Ok tt)
      end
  | (_, _) => (no_journal, h, Ok tt)
  end.

End Handler.
End WebhookHandler.

(** ** Concurrent calls of [process_webhook] *)

(** Calls of [process_webhook] are coroutines of one event loop: a call runs
    alone up to its first [await], which comes after the cache key is stored,
    and other calls may run until its [finally] block.  The state seen by an
    arriving call is the cache together with the keys of the calls that are
    suspended in their pipeline. *)
Module Interleaving.

Record State := {
  cache : gmap string Z;
  suspended : list string
}.

Definition initial : State := {| cache := ∅; suspended := [] |}.

(** A call arrives and runs up to the settle delay. *)
Definition arrive (env : Env) (payload : Json) (s : State) : State :=
  match WebhookHandler.process_webhook_enter env payload (cache s) with
  | (cache', WebhookHandler.Entered cache_key _ _ _) =>
      {| cache := cache'; suspended := cache_key :: suspended s |}
  | (cache', _) => {| cache := cache'; suspended := suspended s |}
  end.

(** The pipeline of a suspended call ends, normally or not, and its [finally]
    block runs. *)
Definition finish (cache_key : string) (s : State) : State :=
  {| cache := WebhookHandler.process_webhook_release cache_key (cache s);
     suspended := List.filter (fun k => negb (String.eqb k cache_key)) (suspended s) |}.

Inductive step (env : Env) (s : State) : State -> Prop :=
| step_arrive (payload : Json) : step env s (arrive env payload s)
| step_finish (cache_key : string) :
    In cache_key (suspended s) -> step env s (finish cache_key s).

(** The cache holds exactly the keys of the suspended calls, each once. *)
Definition consistent (s : State) : Prop :=
  List.NoDup (suspended s)
  /\ forall k, In k (suspended s) <-> is_Some (cache s !! k).

End Interleaving.

(** ** [main.py] *)

Module Main.

(** What the endpoint reads of a request.  [body] is the raw body as its
    decoders see it. *)
Inductive Body :=
| EmptyBody                 (* [not raw_body] *)
| NotUtf8                   (* decoding raises [UnicodeDecodeError] *)
| NotJson                   (* [json.loads] raises [JSONDecodeError] *)
| JsonText (payload : Json).

Module Request.
Record t := {
  authorization : option string;   (* [headers.get("Authorization")] *)
  content_type : option string;    (* [headers.get("content-type")] *)
  body : Body
}.
End Request.

(** A returned dictionary (which FastAPI sends with status 200, the route
    declaring no other status code) or a raised [HTTPException]. *)
Inductive Response :=
| Returned (status message : string)
| HTTPError (status_code : Z) (detail : string).

Definition status_code_of (r : Response) : Z :=
  match r with
  | Returned _ _ => 200
  | HTTPError code _ => code
  end.

(** A call of [process_webhook] handed to [background_tasks.add_task]. *)
Record Task := {
  task_payload : Json;
  task_force_sync : bool
}.

(** [all(v == "" for v in payload.values() if isinstance(v, str))]. *)
Definition all_strings_empty (payload : JsonDict.t) : bool :=
  forallb (fun kv => match snd kv with
                     | JStr s => String.eqb s ""
                     | _ => true
                     end) payload.

(** The inner [try] of [jellyfin_webhook]: the parsed payload, or the
    exception, and whether the local name [json] is bound by then (the
    [import json] stands in the [else] branch, after the decoding). *)
Definition parse_payload (content_type : string) (body : Body) : bool * result Json :=
  if Py.contains "application/json" content_type
  then (false,
        match body with
        | JsonText payload => Ok payload
        | NotUtf8 => Raise UnicodeDecodeError
        | NotJson | EmptyBody => Raise JSONDecodeError
        end)
  else
    match body with
    | NotUtf8 => (false, Raise UnicodeDecodeError)
    | JsonText payload => (true, Ok payload)
    | NotJson | EmptyBody => (true, Raise JSONDecodeError)
    end.

(** The body of the outer [try], before [except HTTPException: raise] and
    [except Exception: raise HTTPException(500)]. *)
Definition jellyfin_webhook_body (webhook_token : option string) (request : Request.t)
  : result (Response * list Task) :=
  if (Py.truthy_opt webhook_token
      && (negb (Py.truthy_opt (Request.authorization request))
          || negb (String.eqb (default "" (Request.authorization request))
                              ("Bearer " +:+ default "" webhook_token))))%bool
  then Raise (HTTPException 401 "Invalid webhook token")
  else
    let content_type := Py.lower (default "" (Request.content_type request)) in
    match Request.body request with
    | EmptyBody =>
        Ok (Returned "accepted"
              "Empty webhook body received - check Jellyfin configuration", [])
    | raw_body =>
        match parse_payload content_type raw_body with
        | (json_bound, Raise e) =>
            (* [except (json.JSONDecodeError, UnicodeDecodeError)] *)
            if negb json_bound then Raise UnboundLocalError
            else
              match e with
              | JSONDecodeError | UnicodeDecodeError =>
                  Raise (HTTPException 422 "Invalid JSON payload")
              | _ => Raise e
              end
        | (_, Ok payload) =>
            if (match payload with
                | JObj members => all_strings_empty members
                | _ => false
                end)
            then Ok (Returned "accepted"
                       "Empty template data - check Jellyfin webhook configuration",
                     [])
            else Ok (Returned "accepted" "Webhook received and queued for processing",
                     [{| task_payload := payload; task_force_sync := false |}])
        end
    end.

Definition jellyfin_webhook (webhook_token : option string) (request : Request.t)
  : Response * list Task :=
  match jellyfin_webhook_body webhook_token request with
  | Ok r => r
  | Raise (HTTPException code detail) => (HTTPError code detail, [])
  | Raise _ => (HTTPError 500 "Internal server error", [])
  end.

(** The stored watched flag as the value the endpoints read. *)
Definition jflag (is_watched : option bool) : Json :=
  match is_watched with Some b => JBool b | None => JNull end.

(** The webhook-like data that the retry endpoints build from a media item
    (without its ["timestamp"], which nothing reads). *)
Definition retry_webhook_data (user_id username : string) (media_item : MediaItem.t)
  (log_id : Z) : Json :=
  JObj [("event_type", JStr "UserDataSaved");
        ("jellyfin_id", JStr (MediaItem.jellyfin_id media_item));
        ("user_id", JStr user_id);
        ("is_watched", jflag (MediaItem.is_watched media_item));
        ("item_name", JStr (MediaItem.title media_item));
        ("item_type", JStr (MediaItem.media_type media_item));
        ("username", JStr username);
        ("series_name", WebhookHandler.jstr (MediaItem.series_name media_item));
        ("season_number", WebhookHandler.jint (MediaItem.season_number media_item));
        ("episode_number", WebhookHandler.jint (MediaItem.episode_number media_item));
        ("retry_mode", JBool true);
        ("original_log_id", JInt log_id)].

Definition write_status (log_id : Z) (new : SyncStatus.t) (err : option string)
  (log : SyncLog.t) (db : Db) : list StatusWrite * Db :=
  ([{| sw_log_id := log_id; sw_old := Some (SyncLog.status log); sw_new := new |}],
   Store.write_sync_log log_id (SyncLog.set_status new err log) db).

(** [POST /api/logs/{log_id}/retry]. *)
Definition retry_sync_action (log_id : Z) (force : bool) (db : Db)
  : list StatusWrite * Db * Response * list Task :=
  match sync_logs db !! log_id with
  | None => ([], db, HTTPError 404 "Log entry not found", [])
  | Some log =>
      let media_item := media_items db !! SyncLog.media_item_id log in
      if (SyncStatus.eqb (SyncLog.status log) SyncStatus.COMPLETED && negb force)%bool
      then ([], db,
            HTTPError 400 "Cannot retry completed sync. Use force=true to override.", [])
      else if SyncStatus.eqb (SyncLog.status log) SyncStatus.PROCESSING
      then ([], db,
            HTTPError 409 "Sync is currently processing. Please wait for completion.",
            [])
      else
        match media_item with
        | None =>
            (* the [HTTPException(400)] raised inside the [try] reaches
               [except Exception], which reverts the status *)
            let detail := "400: Cannot retry sync: Media item not found in database" in
            let '(w, db') :=
              write_status log_id SyncStatus.FAILED
                           (Some ("Retry failed: " +:+ detail)) log db in
            (w, db', HTTPError 500 ("Failed to initiate retry: " +:+ detail), [])
        | Some media_item =>
            let '(w, db') := write_status log_id SyncStatus.PROCESSING None log db in
            (w, db',
             Returned "retry_started" ("Retry initiated for " +:+ MediaItem.title media_item),
             [{| task_payload := retry_webhook_data "retry_user" "retry" media_item log_id;
                 task_force_sync := true |}])
        end
  end.

(** The loop of [retry_failed_syncs] over the selected rows. *)
Fixpoint retry_rows (rows : list (Z * SyncLog.t)) (db : Db)
  : list StatusWrite * Db * list Task :=
  match rows with
  | [] => ([], db, [])
  | (log_id, log) :: rest =>
      match media_items db !! SyncLog.media_item_id log with
      | None => retry_rows rest db
      | Some media_item =>
          let '(w, db1) := write_status log_id SyncStatus.PROCESSING None log db in
          let '(ws, db2, tasks) := retry_rows rest db1 in
          (w ++ ws, db2,
           {| task_payload :=
                retry_webhook_data "bulk_retry_user" "bulk_retry" media_item log_id;
              task_force_sync := true |} :: tasks)
      end
  end.

(** [POST /api/logs/retry/bulk]; [now] is [datetime.utcnow()] in seconds. *)
Definition retry_failed_syncs (now limit hours_back : Z) (db : Db)
  : list StatusWrite * Db * Response * list Task :=
  let cutoff_time := now - hours_back * 3600 in
  let failed_logs :=
    Store.sql_limit limit
      (List.filter
         (fun row => (SyncStatus.eqb (SyncLog.status (snd row)) SyncStatus.FAILED
                      && (cutoff_time <=? SyncLog.created_at (snd row)))%bool)
         (Store.rows_by_key (sync_logs db))) in
  match failed_logs with
  | [] =>
      ([], db,
       Returned "no_failed_logs"
         ("No failed logs found in the last " +:+ Py.str_of_int hours_back +:+ " hours"),
       [])
  | _ =>
      let '(w, db', tasks) := retry_rows failed_logs db in
      let retried_count := Z.of_nat (List.length tasks) in
      (w, db',
       Returned "bulk_retry_started"
         ("Initiated retry for " +:+ Py.str_of_int retried_count +:+ " failed syncs"),
       tasks)
  end.

End Main.

(** ** Persistent configuration *)

(** A row of the [configurations] table, under its unique [key]. *)
Module Configuration.
Record t := {
  value : string;
  description : option string
}.
End Configuration.

(** What the configuration code reads and writes: the table, the two fields
    of the global [settings] that it touches, and how many database sessions
    and how many answers of [secrets] there have been. *)
Record ConfigState := {
  configurations : gmap string Configuration.t;
  settings_webhook_token : option string;
  settings_secret_key : string;
  sessions_opened : nat;
  secrets_drawn : nat
}.

(** How a database session ends: it commits and closes, or an exception is
    raised in it; [committed] tells whether that happens after a
    [db.commit()] of the body itself has gone through. *)
Inductive SessionEnd :=
| Completes
| Fails (e : exn) (committed : bool).

(** What it meets outside: how the n-th database session ends, and the n-th
    answers of [secrets.token_hex(16)] and [secrets.token_urlsafe(32)]. *)
Record ConfigOutside := {
  session_end : nat -> SessionEnd;
  token_hex : nat -> string;
  token_urlsafe : nat -> string
}.

(** The state once one more session has left the table as [table]. *)
Definition session_closed (table : gmap string Configuration.t) (s : ConfigState)
  : ConfigState :=
  {| configurations := table;
     settings_webhook_token := settings_webhook_token s;
     settings_secret_key := settings_secret_key s;
     sessions_opened := S (sessions_opened s);
     secrets_drawn := secrets_drawn s |}.

(** The state once one more answer of [secrets] has been drawn. *)
Definition secret_drawn (s : ConfigState) : ConfigState :=
  {| configurations := configurations s;
     settings_webhook_token := settings_webhook_token s;
     settings_secret_key := settings_secret_key s;
     sessions_opened := sessions_opened s;
     secrets_drawn := S (secrets_drawn s) |}.

Definition Cfg (A : Type) : Type := ConfigState -> ConfigState * result A.

Global Instance Cfg_ret : MRet Cfg := fun A a s => (s, Ok a).

Global Instance Cfg_bind : MBind Cfg := fun A B k m s =>
  match m s with
  | (s1, Ok a) => k a s1
  | (s1, Raise e) => (s1, Raise e)
  end.

(** [try: body except Exception: handler]. *)
Definition cfg_try_except {A} (body : Cfg A) (handler : exn -> Cfg A) : Cfg A :=
  fun s =>
    match body s with
    | (s1, Raise e) => if is_Exception e then handler e s1 else (s1, Raise e)
    | done => done
    end.

Definition get_state : Cfg ConfigState := fun s => (s, Ok s).

Module PersistentConfig.
Section Outside.

Variable outside : ConfigOutside.

(** [async with get_db_session() as db: body].  The body reads and writes the
    table; [commits] tells whether it ends with a [db.commit()] of its own.
    The session commits what the body wrote, or it ends with an exception
    and rolls back what has not been committed. *)
Definition with_session {A} (commits : bool)
  (body : gmap string Configuration.t -> gmap string Configuration.t * A) : Cfg A :=
  fun s =>
    let '(table, a) := body (configurations s) in
    match session_end outside (sessions_opened s) with
    | Completes => (session_closed table s, Ok a)
    | Fails e committed =>
        (session_closed (if (commits && committed)%bool then table
                         else configurations s) s,
         Raise e)
    end.

(** One more answer of [secrets], read by [draw]. *)
Definition secret (draw : ConfigOutside -> nat -> string) : Cfg string :=
  fun s => (secret_drawn s, Ok (draw outside (secrets_drawn s))).

(** [f"unmonitarr-{secrets.token_hex(16)}"]. *)
Definition fresh_webhook_token : Cfg string :=
  hex ← secret token_hex; mret ("unmonitarr-" +:+ hex).

Definition get_config_value (key : string) (default_value : option string)
  : Cfg (option string) :=
  cfg_try_except
    (with_session false (fun table =>
       (table,
        match table !! key with
        | Some config => Some (Configuration.value config)
        | None => default_value
        end)))
    (fun _ => mret default_value).

Definition set_config_value (key value : string) (description : option string)
  : Cfg bool :=
  cfg_try_except
    (with_session true (fun table =>
       match table !! key with
       | Some config =>
           (<[key := {| Configuration.value := value;
                        Configuration.description :=
                          if Py.truthy_opt description then description
                          else Configuration.description config |}]> table,
            true)
       | None =>
           (<[key := {| Configuration.value := value;
                        Configuration.description :=
                          if Py.truthy_opt description then description
                          else Some ("Auto-generated config for " +:+ key) |}]> table,
            true)
       end))
    (fun _ => mret false).

Definition get_or_create_webhook_token : Cfg string :=
  cfg_try_except
    (token ← get_config_value "webhook_token" None;
     if Py.truthy_opt token then mret (default "" token)
     else
       s ← get_state;
       if Py.truthy_opt (settings_webhook_token s)
       then
         let env_token := default "" (settings_webhook_token s) in
         success ← set_config_value "webhook_token" env_token
           (Some "Webhook authentication token for Jellyfin webhooks (migrated from env)");
         if success : bool then mret env_token else mret env_token
       else
         new_token ← fresh_webhook_token;
         success ← set_config_value "webhook_token" new_token
           (Some "Webhook authentication token for Jellyfin webhooks");
         if success : bool then mret new_token else mret new_token)
    (fun _ => fresh_webhook_token).

Definition regenerate_webhook_token : Cfg string :=
  cfg_try_except
    (new_token ← fresh_webhook_token;
     success ← set_config_value "webhook_token" new_token
       (Some "Webhook authentication token for Jellyfin webhooks (regenerated)");
     if success : bool then mret new_token else mret new_token)
    (fun _ => fresh_webhook_token).

Definition get_or_create_secret_key : Cfg string :=
  cfg_try_except
    (key ← get_config_value "secret_key" None;
     if Py.truthy_opt key then mret (default "" key)
     else
       s ← get_state;
       if Py.truthy (settings_secret_key s)
       then
         success ← set_config_value "secret_key" (settings_secret_key s)
           (Some "Secret key for web session encryption (migrated from env)");
         if success : bool then mret (settings_secret_key s)
         else mret (settings_secret_key s)
       else
         new_key ← secret token_urlsafe;
         success ← set_config_value "secret_key" new_key
           (Some "Secret key for web session encryption");
         if success : bool then mret new_key else mret new_key)
    (fun _ => secret token_urlsafe).

(** The dictionary that it returns, as the pair of its two values. *)
Definition initialize_persistent_config : Cfg (string * string) :=
  cfg_try_except
    (webhook_token ← get_or_create_webhook_token;
     secret_key ← get_or_create_secret_key;
     mret (webhook_token, secret_key))
    (fun _ =>
       webhook_token ← fresh_webhook_token;
       secret_key ← secret token_urlsafe;
       mret (webhook_token, secret_key)).

End Outside.
End PersistentConfig.

Module AppConfig.

Record t := {
  _webhook_token : option string;
  _secret_key : option string;
  _initialized : bool
}.

(** [AppConfig()]. *)
Definition __init__ : t :=
  {| _webhook_token := None; _secret_key := None; _initialized := false |}.

(** [settings.webhook_token = webhook_token; settings.secret_key = secret_key]. *)
Definition set_settings (webhook_token secret_key : string) : Cfg unit :=
  fun s =>
    ({| configurations := configurations s;
        settings_webhook_token := Some webhook_token;
        settings_secret_key := secret_key;
        sessions_opened := sessions_opened s;
        secrets_drawn := secrets_drawn s |},
     Ok tt).

(** [settings.webhook_token = webhook_token]. *)
Definition set_settings_webhook_token (webhook_token : string) : Cfg unit :=
  fun s =>
    ({| configurations := configurations s;
        settings_webhook_token := Some webhook_token;
        settings_secret_key := settings_secret_key s;
        sessions_opened := sessions_opened s;
        secrets_drawn := secrets_drawn s |},
     Ok tt).

Section Outside.

Variable outside : ConfigOutside.

(** [initialize]; the result is the object afterwards. *)
Definition initialize (self : t) : Cfg t :=
  if _initialized self then mret self
  else
    cfg_try_except
      (config ← PersistentConfig.initialize_persistent_config outside;
       set_settings (fst config) (snd config);;
       mret {| _webhook_token := Some (fst config);
               _secret_key := Some (snd config);
               _initialized := true |})
      (fun _ =>
         s ← get_state;
         webhook_token ←
           (if Py.truthy_opt (settings_webhook_token s)
            then mret (default "" (settings_webhook_token s))
            else PersistentConfig.fresh_webhook_token outside);
         secret_key ←
           (if Py.truthy (settings_secret_key s) then mret (settings_secret_key s)
            else PersistentConfig.secret outside token_urlsafe);
         set_settings webhook_token secret_key;;
         mret {| _webhook_token := Some webhook_token;
                 _secret_key := Some secret_key;
                 _initialized := true |}).

(** [regenerate_webhook_token]: the new token and the object afterwards. *)
Definition regenerate_webhook_token (self : t) : Cfg (string * t) :=
  new_token ← PersistentConfig.regenerate_webhook_token outside;
  set_settings_webhook_token new_token;;
  mret (new_token,
        {| _webhook_token := Some new_token;
           _secret_key := _secret_key self;
           _initialized := _initialized self |}).

End Outside.
End AppConfig.

(** ** Reading a Jellyfin library page by page *)

Module JellyfinClient.

(** What [get_all_items] reads of a response: [response.get("Items", [])]
    and [response.get("TotalRecordCount", 0)]. *)
Record Page := {
  Items : list Json;
  TotalRecordCount : Z
}.

(** The answer of [_make_request("GET", endpoint, params)] to the n-th request
    of a call, for its [StartIndex] and [Limit]; the endpoint and the other
    parameters are the same for all requests of a call. *)
Definition Server := nat -> Z -> Z -> result (option Page).

Section Client.

Variable server : Server.
Variable limit : Z.

(** The [while True] loop of [get_all_items], for at most [fuel] requests:
    the [(StartIndex, Limit)] of the requests made and what is returned, or
    [None] when the loop is still running after [fuel] requests. *)
Fixpoint get_all_items_loop (fuel n : nat) (all_items : list Json) (current_start : Z)
  : option (list (Z * Z) * result (list Json)) :=
  match fuel with
  | O => None
  | S fuel' =>
      match server n current_start limit with
      | Raise e =>
          if is_Exception e
          then Some ([(current_start, limit)], Ok all_items)
          else Some ([(current_start, limit)], Raise e)
      | Ok None => Some ([(current_start, limit)], Ok all_items)
      | Ok (Some response) =>
          match Items response with
          | [] => Some ([(current_start, limit)], Ok all_items)
          | items =>
              let all_items := all_items ++ items in
              if TotalRecordCount response <=? Z.of_nat (List.length all_items)
              then Some ([(current_start, limit)], Ok all_items)
              else
                match get_all_items_loop fuel' (S n) all_items (current_start + limit) with
                | Some (requests, r) => Some ((current_start, limit) :: requests, r)
                | None => None
                end
          end
      end
  end.

Definition get_all_items (fuel : nat) (start_index : Z)
  : option (list (Z * Z) * result (list Json)) :=
  get_all_items_loop fuel 0 [] start_index.

End Client.
End JellyfinClient.

(** ** Choosing among the matches of the external API *)

Module ExternalAPIClient.

(** What is read of the dictionaries that the searches return and that
    [find_best_match] returns. *)
Record Match := {
  title : option string;
  year : option Z;
  imdb_id : option string;
  tvdb_id : option string;
  tmdb_id : option string;
  source : string
}.

(** [existing_ids]. *)
Record ExistingIds := {
  known_imdb_id : option string;
  known_tvdb_id : option string;
  known_tmdb_id : option string
}.

(** The searches that [find_best_match] calls. *)
Inductive Search :=
| By_imdb_id (imdb_id : string)
| Series_by_title (title : option string) (year : option Z)
| Movie_by_title (title : option string) (year : option Z).

Record Searches := {
  search_by_imdb_id : string -> result (option Match);
  search_series_by_title : option string -> option Z -> result (list Match);
  search_movie_by_title : option string -> option Z -> result (list Match)
}.

Definition set_source (source : string) (m : Match) : Match :=
  {| title := title m; year := year m; imdb_id := imdb_id m; tvdb_id := tvdb_id m;
     tmdb_id := tmdb_id m; source := source |}.

(** The [for result in results] loop of [find_best_match]; [best_match] is
    the choice so far. *)
Fixpoint choose (query : option string) (query_year : option Z) (best_match : Match)
  (results : list Match) : result Match :=
  match results with
  | [] => Ok best_match
  | r :: rest =>
      match title r, query with
      | Some result_title, Some query_title =>
          if String.eqb (Py.lower result_title) (Py.lower query_title)
          then Ok r
          else if (Py.truthy_int query_year
                   && bool_decide (year r = query_year))%bool
          then choose query query_year r rest
          else choose query query_year best_match rest
      | _, _ => Raise AttributeError
      end
  end.

(** [existing_ids and existing_ids.get(field)]. *)
Definition has_id (existing_ids : option ExistingIds)
  (field : ExistingIds -> option string) : bool :=
  match existing_ids with
  | Some ids => Py.truthy_opt (field ids)
  | None => false
  end.

Section Client.

Variable searches : Searches.

(** PRIORITY 3 of [find_best_match]: the search by title and the choice. *)
Definition search_by_title (query : option string) (media_type : string)
  (query_year : option Z) : list Search * result (option Match) :=
  let kind := Py.lower media_type in
  let searched :=
    if Py.str_in_list kind ["series"; "episode"; "season"]
    then Some (Series_by_title query query_year,
               search_series_by_title searches query query_year)
    else if String.eqb kind "movie"
    then Some (Movie_by_title query query_year,
               search_movie_by_title searches query query_year)
    else None in
  match searched with
  | None => ([], Ok None)
  | Some (search, Raise e) => ([search], Raise e)
  | Some (search, Ok []) => ([search], Ok None)
  | Some (search, Ok ((first :: _) as results)) =>
      ([search],
       match choose query query_year first results with
       | Ok best_match => Ok (Some (set_source "external_api_search" best_match))
       | Raise e => Raise e
       end)
  end.

(** PRIORITY 2 and what follows it. *)
Definition use_existing_ids (query : option string) (media_type : string)
  (query_year : option Z) (existing_ids : option ExistingIds)
  : list Search * result (option Match) :=
  if (has_id existing_ids known_tvdb_id || has_id existing_ids known_tmdb_id)%bool
  then ([], Ok (Some {| title := query; year := query_year;
                        tvdb_id := existing_ids ≫= known_tvdb_id;
                        imdb_id := existing_ids ≫= known_imdb_id;
                        tmdb_id := existing_ids ≫= known_tmdb_id;
                        source := "jellyfin_webhook" |}))
  else search_by_title query media_type query_year.

Definition find_best_match (query : option string) (media_type : string)
  (query_year : option Z) (existing_ids : option ExistingIds)
  : list Search * result (option Match) :=
  if has_id existing_ids known_imdb_id
  then
    let imdb_id := default "" (existing_ids ≫= known_imdb_id) in
    match search_by_imdb_id searches imdb_id with
    | Raise e => ([By_imdb_id imdb_id], Raise e)
    | Ok (Some direct_result) => ([By_imdb_id imdb_id], Ok (Some direct_result))
    | Ok None =>
        let '(t, r) := use_existing_ids query media_type query_year existing_ids in
        (By_imdb_id imdb_id :: t, r)
    end
  else use_existing_ids query media_type query_year existing_ids.

End Client.
End ExternalAPIClient.

(** ** The bulk sync *)

Module BulkSync.

(** [d.get(key)] as the value itself, [None] being [JNull]. *)
Definition raw (d : JsonDict.t) (key : string) : Json := JsonDict.get d key.

(** Truthiness of a JSON value. *)
Definition truthy (v : Json) : bool := PyValue.truthy v.

(** [d.get(key, {}).get(sub)]: [AttributeError] when [key] holds a value that
    is not an object. *)
Definition raw_sub (d : JsonDict.t) (key sub : string) : result Json :=
  JsonDict.get_sub d key sub.

(** What [perform_bulk_sync] reads of the dictionary of
    [extract_media_info]: its ["jellyfin_id"], ["title"] and ["media_type"],
    and [media_info.get("is_watched", False)]. *)
Record Extracted := {
  jellyfin_id : Json;
  title : Json;
  media_type : string;
  is_watched : Json
}.

(** [item.get("Type", "").lower()]. *)
Definition lower_type (item : JsonDict.t) : result string :=
  JellyfinItem.lower_type item.

(** [JellyfinClient.extract_media_info]: the [.lower()] of a type that is not
    a string and the [.get] of a [UserData] that is not an object raise. *)
Definition extract_media_info (item : JsonDict.t) : result Extracted :=
  match lower_type item with
  | Raise e => Raise e
  | Ok media_type =>
      let extracted (is_watched : Json) :=
        {| jellyfin_id := raw item "Id"; title := raw item "Name";
           media_type := media_type; is_watched := is_watched |} in
      let user_data := default (JObj []) (JsonDict.lookup item "UserData") in
      if truthy user_data
      then
        match user_data with
        | JObj user_data =>
            Ok (extracted (default (JBool false) (JsonDict.lookup user_data "Played")))
        | _ => Raise AttributeError
        end
      else Ok (extracted (JBool false))
  end.

(** The [webhook_data] that [perform_bulk_sync] builds for an item (without
    its ["timestamp"], which nothing reads). *)
Definition bulk_webhook_data (user_id username : Json) (item : JsonDict.t)
  (media_info : Extracted) : result JsonDict.t :=
  match raw_sub item "ProviderIds" "Tvdb",
        raw_sub item "ProviderIds" "Imdb",
        raw_sub item "ProviderIds" "Tmdb" with
  | Ok tvdb, Ok imdb, Ok tmdb =>
      Ok [("event_type", JStr "UserDataSaved");
          ("jellyfin_id", jellyfin_id media_info);
          ("user_id", user_id);
          ("is_watched", is_watched media_info);
          ("item_name", title media_info);
          ("item_type", JStr (media_type media_info));
          ("username", username);
          ("series_name", raw item "SeriesName");
          ("series_id", raw item "SeriesId");
          ("season_number", raw item "ParentIndexNumber");
          ("episode_number", raw item "IndexNumber");
          ("Provider_tvdb", tvdb);
          ("Provider_imdb", imdb);
          ("Provider_tmdb", tmdb);
          ("year", raw item "ProductionYear")]
  | Raise e, _, _ | Ok _, Raise e, _ | Ok _, Ok _, Raise e => Raise e
  end.

(** An entry of [bulk_sync_status["errors"]], without its timestamp. *)
Inductive ErrorEntry :=
| ItemError (item : Json) (error : exn)
| GeneralError (general : string)
| GeneralException (error : exn).

(** [bulk_sync_status]. *)
Record Status := {
  is_running : bool;
  start_time : option Z;
  processed_count : Z;
  total_count : Z;
  synced_count : Z;
  errors : list ErrorEntry;
  current_item : Json;
  completed : bool;
  success : bool;
  sync_type : string
}.

(** The value of the global at import. *)
Definition bulk_sync_status : Status :=
  {| is_running := false; start_time := None; processed_count := 0;
     total_count := 0; synced_count := 0; errors := []; current_item := JNull;
     completed := false; success := false; sync_type := "all" |}.

(** The first [bulk_sync_status.update] of [perform_bulk_sync]. *)
Definition started (now : Z) (sync_type : string) (st : Status) : Status :=
  {| is_running := true; start_time := Some now; processed_count := 0;
     total_count := 0; synced_count := 0; errors := []; current_item := JNull;
     completed := false; success := false; sync_type := sync_type |}.

(** The update of a sync that ends early with the errors [errors]. *)
Definition stopped (errors : list ErrorEntry) (st : Status) : Status :=
  {| is_running := false; start_time := start_time st;
     processed_count := processed_count st; total_count := total_count st;
     synced_count := synced_count st; errors := errors;
     current_item := current_item st; completed := true; success := false;
     sync_type := sync_type st |}.

(** The update of a sync that went through all items. *)
Definition finished (st : Status) : Status :=
  {| is_running := false; start_time := start_time st;
     processed_count := processed_count st; total_count := total_count st;
     synced_count := synced_count st; errors := errors st;
     current_item := current_item st; completed := true; success := true;
     sync_type := sync_type st |}.

Definition set_total_count (n : Z) (st : Status) : Status :=
  {| is_running := is_running st; start_time := start_time st;
     processed_count := processed_count st; total_count := n;
     synced_count := synced_count st; errors := errors st;
     current_item := current_item st; completed := completed st;
     success := success st; sync_type := sync_type st |}.

(** [current_item = title; processed_count += 1]. *)
Definition processing (title : Json) (st : Status) : Status :=
  {| is_running := is_running st; start_time := start_time st;
     processed_count := processed_count st + 1; total_count := total_count st;
     synced_count := synced_count st; errors := errors st;
     current_item := title; completed := completed st;
     success := success st; sync_type := sync_type st |}.

(** [synced_count += 1]. *)
Definition synced (st : Status) : Status :=
  {| is_running := is_running st; start_time := start_time st;
     processed_count := processed_count st; total_count := total_count st;
     synced_count := synced_count st + 1; errors := errors st;
     current_item := current_item st; completed := completed st;
     success := success st; sync_type := sync_type st |}.

(** [errors.append(error_entry)]. *)
Definition with_error (entry : ErrorEntry) (st : Status) : Status :=
  {| is_running := is_running st; start_time := start_time st;
     processed_count := processed_count st; total_count := total_count st;
     synced_count := synced_count st; errors := errors st ++ [entry];
     current_item := current_item st; completed := completed st;
     success := success st; sync_type := sync_type st |}.

(** The Jellyfin client as [perform_bulk_sync] uses it: the answers of
    [get_users] and of the three listings for a user id. *)
Record JellyfinLibrary := {
  get_users : result (list JsonDict.t);
  get_all_movies_for_user : Json -> result (list JsonDict.t);
  get_all_series_for_user : Json -> result (list JsonDict.t);
  get_all_media_for_user : Json -> result (list JsonDict.t)
}.

(** The handler and the status, which a bulk sync both changes. *)
Record State := {
  handler : WebhookHandler.Handler;
  status : Status
}.

Definition Bulk (A : Type) : Type := State -> Journal * State * result A.

Global Instance Bulk_ret : MRet Bulk := fun A a s => (no_journal, s, Ok a).

Global Instance Bulk_bind : MBind Bulk := fun A B k m s =>
  match m s with
  | (j, s1, Ok a) => let '(j', s2, r) := k a s1 in (journal_app j j', s2, r)
  | (j, s1, Raise e) => (j, s1, Raise e)
  end.

(** [try: body except Exception: handler]. *)
Definition bulk_try_except {A} (body : Bulk A) (handler : exn -> Bulk A) : Bulk A :=
  fun s =>
    match body s with
    | (j, s1, Raise e) =>
        if is_Exception e
        then let '(j', s2, r) := handler e s1 in (journal_app j j', s2, r)
        else (j, s1, Raise e)
    | done => done
    end.

(** A value that was computed or answered, or the exception instead. *)
Definition answer {A} (r : result A) : Bulk A := fun s => (no_journal, s, r).

Definition update_status (f : Status -> Status) : Bulk unit :=
  fun s => (no_journal, {| handler := handler s; status := f (status s) |}, Ok tt).

Definition get_status : Bulk Status := fun s => (no_journal, s, Ok (status s)).

Section Sync.

Variable env : Env.

(** [await app.state.webhook_handler.process_webhook(webhook_data, force_sync=True)]. *)
Definition process (webhook_data : JsonDict.t) : Bulk unit :=
  fun s =>
    let '(j, h, r) :=
      WebhookHandler.process_webhook env (JObj webhook_data) true (handler s) in
    (j, {| handler := h; status := status s |}, r).

(** [await asyncio.sleep(1)]. *)
Definition pause : Bulk unit :=
  fun s => ({| events := [Sleep 1]; status_writes := [] |}, s, asyncio_sleep env 1).

(** One turn of the [for item in all_items] loop.  ([extract_media_info]
    returns a dictionary with keys, so [if not media_info] does not hold.) *)
Definition sync_item (user_id username : Json) (item : JsonDict.t) : Bulk unit :=
  bulk_try_except
    (media_info ← answer (extract_media_info item);
     update_status (processing (title media_info));;
     webhook_data ← answer (bulk_webhook_data user_id username item media_info);
     process webhook_data;;
     update_status synced;;
     st ← get_status;
     if processed_count st `mod` 10 =? 0 then pause else mret tt)
    (fun item_error =>
       update_status
         (with_error (ItemError (default (JStr "Unknown") (JsonDict.lookup item "Name"))
                                item_error))).

Fixpoint sync_items (user_id username : Json) (all_items : list JsonDict.t)
  : Bulk unit :=
  match all_items with
  | [] => mret tt
  | item :: rest =>
      sync_item user_id username item;; sync_items user_id username rest
  end.

(** [perform_bulk_sync(sync_type)]; [jellyfin_client] is
    [app.state.jellyfin_client]. *)
Definition perform_bulk_sync (jellyfin_client : option JellyfinLibrary)
  (sync_type : string) : Bulk unit :=
  bulk_try_except
    (update_status (started (utcnow env) sync_type);;
     match jellyfin_client with
     | None =>
         update_status (stopped [GeneralError "Jellyfin client not initialized"])
     | Some client =>
         users ← answer (get_users client);
         match users with
         | [] => update_status (stopped [GeneralError "No users found in Jellyfin"])
         | user :: _ =>
             let user_id := raw user "Id" in
             let username := default (JStr "Unknown") (JsonDict.lookup user "Name") in
             all_items ←
               answer (if String.eqb sync_type "movies"
                       then get_all_movies_for_user client user_id
                       else if String.eqb sync_type "series"
                       then get_all_series_for_user client user_id
                       else get_all_media_for_user client user_id);
             match all_items with
             | [] =>
                 update_status
                   (stopped [GeneralError ("No " +:+ sync_type
                                           +:+ " media items found for user")])
             | _ =>
                 update_status (set_total_count (Z.of_nat (List.length all_items)));;
                 sync_items user_id username all_items;;
                 update_status finished
             end
         end
     end)
    (fun e => update_status (stopped [GeneralException e])).

End Sync.

(** The answer of [POST /api/sync/bulk], [/api/sync/bulk/movies] and
    [/api/sync/bulk/series]: the status code and, when a sync is queued, the
    [sync_type] of the [perform_bulk_sync] task.  (Nothing in their [try]
    raises.) *)
Definition bulk_sync_endpoint (sync_type : string) (st : Status)
  : Z * option string :=
  if is_running st then (409, None) else (200, Some sync_type).

End BulkSync.

(* ================================================================= *)
(** * Vocabulary of the statements *)

(** A character that is not white space. *)
Definition nospace (c : ascii) : Prop := Py.isspace c = false.

(** A word as [str.split()] returns them: not empty, with no white space. *)
Definition word_ok (w : list ascii) : Prop := w <> [] /\ Forall nospace w.

(** The words of a title once lower-cased and stripped of punctuation. *)
Definition pre_words (t : string) : list (list ascii) :=
  Py.split_chars (List.filter keep_char (map Py.lower_char (Py.chars t))).

(** [w not in common_words], on the characters of [w]. *)
Definition nc (w : list ascii) : bool := not_common (Py.str w).

(** What [_clean_title] keeps of these words. *)
Definition kept_words (ws : list (list ascii)) : list (list ascii) :=
  match List.filter nc ws with
  | [] => ws
  | cw => cw
  end.

(** A character that lower-casing and punctuation stripping leave alone. *)
Definition clean_char (c : ascii) : Prop :=
  keep_char c = true /\ Py.lower_char c = c.

(** The words of a title once lower-cased and stripped of punctuation. *)
Definition title_words (title : string) : list string :=
  Py.split (strip_punctuation (Py.lower title)).

(** The specification's reading of [_clean_title] at one title: an article
    that stands after the first word is still a word of the normalised title. *)
Definition interior_articles_preserved (title : string) : Prop :=
  forall w, In w common_words -> In w (tail (title_words title)) ->
            In w (Py.split (_clean_title title)).

(** The series carries the TVDB id [tvdb_id]. *)
Definition series_has_tvdb (tvdb_id : option string) (s : Series.t) : Prop :=
  exists n, tvdb_id = Some (Py.str_of_int n) /\ Series.tvdbId s = Some n /\ n <> 0.

(** The series carries the IMDB id [imdb_id]. *)
Definition series_has_imdb (imdb_id : option string) (s : Series.t) : Prop :=
  exists i, imdb_id = Some i /\ Series.imdbId s = Some i /\ i <> "".

(** The movie carries the TMDB id [tmdb_id]. *)
Definition movie_has_tmdb (tmdb_id : option string) (m : Movie.t) : Prop :=
  exists n, tmdb_id = Some (Py.str_of_int n) /\ Movie.tmdbId m = Some n /\ n <> 0.

(** The movie carries the IMDB id [imdb_id]. *)
Definition movie_has_imdb (imdb_id : option string) (m : Movie.t) : Prop :=
  exists i, imdb_id = Some i /\ Movie.imdbId m = Some i /\ i <> "".




(** No request of the list changes monitoring. *)
Definition no_monitoring_call (evs : list Event) : bool :=
  forallb (fun ev => negb (is_monitoring_call ev)) evs.


(** A token is configured and the Authorization header is not
    ["Bearer <token>"] (it may be missing). *)
Definition bad_token (webhook_token : option string) (request : Main.Request.t) : Prop :=
  exists token,
    webhook_token = Some token /\ token <> ""
    /\ Main.Request.authorization request <> Some ("Bearer " +:+ token).

(** The request with another Authorization header. *)
Definition with_authorization (auth : option string) (request : Main.Request.t)
  : Main.Request.t :=
  {| Main.Request.authorization := auth;
     Main.Request.content_type := Main.Request.content_type request;
     Main.Request.body := Main.Request.body request |}.

(** The test that guards the 401. *)
Definition token_rejected (webhook_token : option string) (request : Main.Request.t)
  : bool :=
  (Py.truthy_opt webhook_token
   && (negb (Py.truthy_opt (Main.Request.authorization request))
       || negb (String.eqb (default "" (Main.Request.authorization request))
                           ("Bearer " +:+ default "" webhook_token))))%bool.

(** Past the token test the response does not depend on the token or on the
    Authorization header, and is not a 401. *)
Definition after_token_check (request : Main.Request.t) : Main.Response * list Main.Task :=
  Main.jellyfin_webhook None request.

(** A payload that the endpoint answers without queueing: an object none of
    whose string values is non-empty. *)
Definition empty_template (payload : Json) : bool :=
  match payload with
  | JObj members => Main.all_strings_empty members
  | _ => false
  end.

(** ["application/json" in content_type]. *)
Definition declared_json (request : Main.Request.t) : bool :=
  Py.contains "application/json"
              (Py.lower (default "" (Main.Request.content_type request))).

(** The one task that the endpoint queues for a payload. *)
Definition queued (payload : Json) : list Main.Task :=
  [{| Main.task_payload := payload; Main.task_force_sync := false |}].

(** The specification's reading of the endpoint at one request: a payload
    that is queued is answered 202. *)
Definition queued_is_answered_202 (webhook_token : option string)
  (request : Main.Request.t) : Prop :=
  snd (Main.jellyfin_webhook webhook_token request) <> [] ->
  Main.status_code_of (fst (Main.jellyfin_webhook webhook_token request)) = 202.

(** [writes P Pre m Post PostE]: from a store where [Pre] holds, every status
    assignment of [m] satisfies [P], and [m] ends in a store where [Post]
    holds of its value, or [PostE] of its exception. *)
Definition writes {A} (P : StatusWrite -> Prop) (Pre : Db -> Prop) (m : Run A)
  (Post : A -> Db -> Prop) (PostE : exn -> Db -> Prop) : Prop :=
  forall db0, Pre db0 ->
    match m db0 with
    | (j, db1, Ok a) => Forall P (status_writes j) /\ Post a db1
    | (j, db1, Raise e) => Forall P (status_writes j) /\ PostE e db1
    end.

(** The record [log_id] has status [s]. *)
Definition has_status (log_id : Z) (s : SyncStatus.t) (db0 : Db) : Prop :=
  exists l, sync_logs db0 !! log_id = Some l /\ SyncLog.status l = s.

(** The executor marks a record [PROCESSING]: the record it creates, or, for
    an event whose [retry_mode] and [original_log_id] are truthy, the record
    that [original_log_id] selects, whatever its status. *)
Definition marks_processing (env : Env) (is_retry : bool) (original_log_id : Json)
  (w : StatusWrite) : Prop :=
  sw_new w = SyncStatus.PROCESSING
  /\ (sw_old w = None
      \/ (is_retry = true /\ PyValue.truthy original_log_id = true
          /\ WebhookHandler.log_key env original_log_id = Ok (Some (sw_log_id w)))).

(** The executor closes a record: from [PROCESSING] to [COMPLETED] or [FAILED]. *)
Definition finishes (w : StatusWrite) : Prop :=
  sw_old w = Some SyncStatus.PROCESSING
  /\ (sw_new w = SyncStatus.COMPLETED \/ sw_new w = SyncStatus.FAILED).

(** The two kinds of status assignment of the executor. *)
Definition executor_write (env : Env) (is_retry : bool) (original_log_id : Json)
  (w : StatusWrite) : Prop :=
  marks_processing env is_retry original_log_id w \/ finishes w.

(** The transitions of the specification: from [PENDING] or [PROCESSING] to
    [COMPLETED] or [FAILED], and from [FAILED] back to [PROCESSING]. *)
Definition claimed_transition (old new : SyncStatus.t) : Prop :=
  ((old = SyncStatus.PENDING \/ old = SyncStatus.PROCESSING)
   /\ (new = SyncStatus.COMPLETED \/ new = SyncStatus.FAILED))
  \/ (old = SyncStatus.FAILED /\ new = SyncStatus.PROCESSING).

(** The specification's reading of one status assignment. *)
Definition claimed_write (w : StatusWrite) : Prop :=
  match sw_old w with
  | Some old => claimed_transition old (sw_new w)
  | None => True
  end.

(** ** Vocabulary for the clients and the executor *)

(** The monitoring flag that a request carries, if it changes monitoring. *)
Definition monitoring_flag (ev : Event) : option bool :=
  match ev with
  | Sonarr_PUT_series_id _ b | Sonarr_PUT_episode_id _ b
  | Sonarr_PUT_episode_monitor _ b | Radarr_PUT_movie_id _ b => Some b
  | _ => None
  end.

(** A request that, if it changes monitoring, sets it to [b]. *)
Definition sets_only (b : bool) (ev : Event) : Prop :=
  match monitoring_flag ev with
  | Some b' => b' = b
  | None => True
  end.

(** The computation lets no [Exception] through. *)
Definition no_exception_escapes {A} (m : Eff A) : Prop :=
  forall e, outcome m = Raise e -> is_Exception e = false.

(** The episodes of a season among those of a series:
    [[ep for ep in episodes if ep.get("seasonNumber") == season_number]]. *)
Definition season_of (season_number : option Z) (episodes : list Episode.t)
  : list Episode.t :=
  List.filter
    (fun ep => SonarrClient.opt_Z_eqb (Episode.seasonNumber ep) season_number)
    episodes.

(** Their Sonarr ids, in the order of the list. *)
Definition season_ids (season_number : option Z) (episodes : list Episode.t)
  : list Z :=
  map Episode.id (season_of season_number episodes).

(** The computation ends with a value: no request of it was cancelled. *)
Definition completes {A} (m : Eff A) : Prop := exists a, outcome m = Ok a.

(** What a season update may ask of Sonarr: reads, the bulk update of exactly
    the episodes [ids], and the update of one of them, each with the flag
    [monitored]. *)
Definition touches_only (ids : list Z) (monitored : bool) (ev : Event) : Prop :=
  match ev with
  | Sonarr_PUT_episode_monitor episode_ids m => episode_ids = ids /\ m = monitored
  | Sonarr_PUT_episode_id episode_id m => In episode_id ids /\ m = monitored
  | Sonarr_PUT_series_id _ _ | Radarr_PUT_movie_id _ _ => False
  | _ => True
  end.

(** The individual update of one episode reports success. *)
Definition episode_updated (settings : Settings) (api : SonarrApi) (monitored : bool)
  (ep : Episode.t) : bool :=
  match outcome (SonarrClient.update_episode_monitoring settings api
                   (Episode.id ep) monitored) with
  | Ok true => true
  | _ => false
  end.

(** The bulk endpoint did not confirm: it failed, or answered with no body. *)
Definition bulk_update_failed (api : SonarrApi) (ids : list Z) (monitored : bool)
  : Prop :=
  PUT_episode_monitor api ids monitored = Ok false
  \/ exists e, PUT_episode_monitor api ids monitored = Raise e
               /\ is_Exception e = true.

(** The year of a candidate is within one year of [year]. *)
Definition series_year_close (year : Z) (s : Series.t) : bool :=
  SonarrClient.year_close year (Series.year s).

(** A series matches a cleaned title exactly, by its title or by one of its
    alternate titles. *)
Definition same_clean_title (title_clean : string) (s : Series.t) : Prop :=
  _clean_title (Series.title s) = title_clean
  \/ exists alt, In alt (Series.alternateTitles s) /\ _clean_title alt = title_clean.

(** The requests that identity resolution may make: listing a library, the
    lookup endpoint of a service, reading an item from Jellyfin, and the
    external metadata search. *)
Definition is_resolution_request (ev : Event) : bool :=
  match ev with
  | Sonarr_GET_series | Sonarr_GET_series_lookup _
  | Radarr_GET_movie | Radarr_GET_movie_lookup _
  | Jellyfin_GET_item _ _ | External_find_best_match _ _ => true
  | _ => false
  end.

Definition is_external_call (ev : Event) : bool :=
  match ev with External_find_best_match _ _ => true | _ => false end.

(** The requests of a resolver of a service, external search apart. *)
Definition service_read (ev : Event) : Prop :=
  is_resolution_request ev = true /\ is_external_call ev = false.

Definition resolution (ev : Event) : Prop := is_resolution_request ev = true.

(** Every request that the computation makes satisfies [P], from any store. *)
Definition asks_only {A} (P : Event -> Prop) (m : Run A) : Prop :=
  forall db0, Forall P (events (fst (fst (m db0)))).

(** ** Vocabulary for the audit records and the retries *)

(** The row of the mapping table of the service of a media item. *)
Definition stored_mapping (db : Db) (media_item : MediaItem.t)
  : option WebhookHandler.Mapping :=
  if WebhookHandler.is_sonarr_type (MediaItem.media_type media_item)
  then WebhookHandler.OfSonarr <$> sonarr_mappings db !! MediaItem.id media_item
  else WebhookHandler.OfRadarr <$> radarr_mappings db !! MediaItem.id media_item.

Definition mapping_media_item_id (m : WebhookHandler.Mapping) : Z :=
  match m with
  | WebhookHandler.OfSonarr m => SonarrMapping.media_item_id m
  | WebhookHandler.OfRadarr m => RadarrMapping.media_item_id m
  end.

(** The id of the series or of the movie of a mapping. *)
Definition mapping_external_id (m : WebhookHandler.Mapping) : Z :=
  match m with
  | WebhookHandler.OfSonarr m => SonarrMapping.sonarr_series_id m
  | WebhookHandler.OfRadarr m => RadarrMapping.radarr_movie_id m
  end.

Definition mapping_is_monitored (m : WebhookHandler.Mapping) : bool :=
  match m with
  | WebhookHandler.OfSonarr m => SonarrMapping.is_monitored m
  | WebhookHandler.OfRadarr m => RadarrMapping.is_monitored m
  end.

(** An audit record once the executor has closed it. *)
Definition closed_record (success : bool) (ext : Z) (l : SyncLog.t) : SyncLog.t :=
  {| SyncLog.id := SyncLog.id l;
     SyncLog.media_item_id := SyncLog.media_item_id l;
     SyncLog.series_name := SyncLog.series_name l;
     SyncLog.action := SyncLog.action l;
     SyncLog.status := if success then SyncStatus.COMPLETED else SyncStatus.FAILED;
     SyncLog.service := SyncLog.service l;
     SyncLog.external_id := Some (Py.str_of_int ext);
     SyncLog.error_message :=
       if success then SyncLog.error_message l
       else Some "Failed to update monitoring status";
     SyncLog.created_at := SyncLog.created_at l |}.

(** A mapping with its [is_monitored] flag set to [b]. *)
Definition flagged (b : bool) (m : WebhookHandler.Mapping) : WebhookHandler.Mapping :=
  match m with
  | WebhookHandler.OfSonarr m =>
      WebhookHandler.OfSonarr
        {| SonarrMapping.media_item_id := SonarrMapping.media_item_id m;
           SonarrMapping.sonarr_series_id := SonarrMapping.sonarr_series_id m;
           SonarrMapping.sonarr_episode_id := SonarrMapping.sonarr_episode_id m;
           SonarrMapping.sonarr_season_number := SonarrMapping.sonarr_season_number m;
           SonarrMapping.is_monitored := b |}
  | WebhookHandler.OfRadarr m =>
      WebhookHandler.OfRadarr
        {| RadarrMapping.media_item_id := RadarrMapping.media_item_id m;
           RadarrMapping.radarr_movie_id := RadarrMapping.radarr_movie_id m;
           RadarrMapping.is_monitored := b |}
  end.

Definition put_mapping (m : WebhookHandler.Mapping) (db : Db) : Db :=
  match m with
  | WebhookHandler.OfSonarr m => Store.put_sonarr_mapping m db
  | WebhookHandler.OfRadarr m => Store.put_radarr_mapping m db
  end.

(** The retry endpoint accepts the record: it is not being processed, and it
    is not completed unless [force] is given. *)
Definition retry_allowed (force : bool) (log : SyncLog.t) : Prop :=
  SyncLog.status log <> SyncStatus.PROCESSING
  /\ (SyncLog.status log = SyncStatus.COMPLETED -> force = true).

(** The members of the payload that a retry endpoint queues. *)
Definition retry_members (user_id username : string) (media_item : MediaItem.t)
  (log_id : Z) : JsonDict.t :=
  match Main.retry_webhook_data user_id username media_item log_id with
  | JObj members => members
  | _ => []
  end.

(** The cache key of that payload. *)
Definition retry_cache_key (user_id : string) (media_item : MediaItem.t) : string :=
  MediaItem.jellyfin_id media_item +:+ "_" +:+ user_id +:+ "_"
  +:+ WebhookHandler.fstr (Main.jflag (MediaItem.is_watched media_item)).

(** [_normalize_media_type] of a stored media type, which is a string. *)
Definition normalized (media_type : string) : string :=
  match WebhookHandler._normalize_media_type (JStr media_type) with
  | Ok normalized_media_type => normalized_media_type
  | Raise _ => MediaType.EPISODE
  end.

(** The [media_info] that the pipeline builds from that payload. *)
Definition retry_info (media_item : MediaItem.t) : MediaInfo.t :=
  {| MediaInfo.jellyfin_id := JStr (MediaItem.jellyfin_id media_item);
     MediaInfo.title := Some (MediaItem.title media_item);
     MediaInfo.media_type := normalized (MediaItem.media_type media_item);
     MediaInfo.is_watched := Some (Main.jflag (MediaItem.is_watched media_item));
     MediaInfo.series_id := None;
     MediaInfo.series_name := MediaItem.series_name media_item;
     MediaInfo.season_number := MediaItem.season_number media_item;
     MediaInfo.episode_number := MediaItem.episode_number media_item;
     MediaInfo.parent_id := None;
     MediaInfo.year := None |}.

(** The media item once the pipeline has refreshed it from that payload: the
    payload names no series id, so the stored parent id is erased. *)
Definition retried (media_item : MediaItem.t) : MediaItem.t :=
  {| MediaItem.id := MediaItem.id media_item;
     MediaItem.jellyfin_id := MediaItem.jellyfin_id media_item;
     MediaItem.title := MediaItem.title media_item;
     MediaItem.media_type := MediaItem.media_type media_item;
     MediaItem.is_watched := MediaItem.is_watched media_item;
     MediaItem.parent_id := None;
     MediaItem.series_name := MediaItem.series_name media_item;
     MediaItem.season_number := MediaItem.season_number media_item;
     MediaItem.episode_number := MediaItem.episode_number media_item |}.

(** The computation keeps an invariant of the store, however it ends. *)
Definition keeps {A} (I : Db -> Prop) (m : Run A) : Prop :=
  forall db0, I db0 -> I (snd (fst (m db0))).

(** The audit record [k] is [l], and [k] is below the next primary key. *)
Definition record_is (k : Z) (l : SyncLog.t) (db0 : Db) : Prop :=
  sync_logs db0 !! k = Some l /\ k < next_sync_log_id db0.

(** Retry fields that do not select the record [k]. *)
Definition selects_another (env : Env) (k : Z) (is_retry : bool)
  (original_log_id : Json) : Prop :=
  is_retry = true -> PyValue.truthy original_log_id = true ->
  WebhookHandler.log_key env original_log_id <> Ok (Some k).

(** The payload is not a retry of the record [k]: its [retry_mode] is falsy,
    or its [original_log_id] is falsy, or [original_log_id] does not select
    the record [k]. *)
Definition not_a_retry_of (env : Env) (k : Z) (payload : Json) : Prop :=
  match payload with
  | JObj members =>
      selects_another env k
        (PyValue.truthy (JsonDict.get_default members "retry_mode" (JBool false)))
        (JsonDict.get members "original_log_id")
  | _ => True
  end.

(** The media item that the handler creates for an unknown Jellyfin id. *)
Definition created_item (media_info : MediaInfo.t) (jellyfin_id title : string)
  (db0 : Db) : MediaItem.t :=
  {| MediaItem.id := next_media_item_id db0;
     MediaItem.jellyfin_id := jellyfin_id;
     MediaItem.title := title;
     MediaItem.media_type := MediaInfo.media_type media_info;
     MediaItem.is_watched := Some false;
     MediaItem.parent_id := MediaInfo.parent_id media_info;
     MediaItem.series_name := MediaInfo.series_name media_info;
     MediaItem.season_number := MediaInfo.season_number media_info;
     MediaItem.episode_number := MediaInfo.episode_number media_info |}.





(** ** Vocabulary for the webhook data *)

(** The item types of a webhook that become the media type of a movie. *)
Definition routed_to_radarr (jellyfin_type : Json) : Prop :=
  jellyfin_type = JStr "Movie" \/ jellyfin_type = JStr "movie".

(** [webhook_data.get("item_type", "Unknown")]. *)
Definition item_type_of (webhook_data : JsonDict.t) : Json :=
  JsonDict.get_default webhook_data "item_type" (JStr "Unknown").

(** The media type that a media item has once the handler has created or
    refreshed it: an item that is in the store keeps its type. *)
Definition media_type_after (media_info : MediaInfo.t) (stored : option MediaItem.t)
  : string :=
  match stored with
  | Some media_item => MediaItem.media_type media_item
  | None => MediaInfo.media_type media_info
  end.

(** The payload is in the "Send All" format of Jellyfin. *)
Definition is_send_all (payload : JsonDict.t) : bool :=
  (JsonDict.has_key payload "NotificationType" || JsonDict.has_key payload "Event")%bool.

(** The webhook data names the item and the user, each by a truthy value
    (a non-empty string, or a number that is not 0, for instance). *)
Definition names_item_and_user (webhook_data : JsonDict.t) : Prop :=
  PyValue.truthy (JsonDict.get webhook_data "jellyfin_id") = true
  /\ PyValue.truthy (JsonDict.get webhook_data "user_id") = true.

(** The three texts that the cache key is made of. *)
Definition event_texts (webhook_data : JsonDict.t) : option (string * string * string) :=
  match JsonDict.lookup webhook_data "jellyfin_id",
        JsonDict.lookup webhook_data "user_id" with
  | Some jellyfin_id, Some user_id =>
      Some (WebhookHandler.fstr jellyfin_id, WebhookHandler.fstr user_id,
            match JsonDict.lookup webhook_data "is_watched" with
            | Some v => WebhookHandler.fstr v
            | None => "unknown"
            end)
  | _, _ => None
  end.

(** A string without the character that separates the parts of a cache key. *)
Definition underscore_free (s : string) : Prop := ~ In "_"%char (Py.chars s).

(** The record is failed and not older than the window of a bulk retry. *)
Definition in_retry_window (now hours_back : Z) (l : SyncLog.t) : Prop :=
  SyncLog.status l = SyncStatus.FAILED /\ now - hours_back * 3600 <= SyncLog.created_at l.

(** The record once a retry endpoint has marked it as processing. *)
Definition reopened (l : SyncLog.t) : SyncLog.t :=
  SyncLog.set_status SyncStatus.PROCESSING None l.

(** ** Vocabulary for the webhook token *)

(** No database session is cut short by a cancellation. *)
Definition no_cancellation (outside : ConfigOutside) : Prop :=
  forall n e committed,
    session_end outside n = Fails e committed -> is_Exception e = true.

(** Every database session completes. *)
Definition database_works (outside : ConfigOutside) : Prop :=
  forall n, session_end outside n = Completes.

(** The webhook token that the table holds. *)
Definition stored_token (s : ConfigState) : option string :=
  Configuration.value <$> configurations s !! "webhook_token".

(** The webhook endpoint answers 401 to every request that does not carry
    the token. *)
Definition requires_token (webhook_token : option string) : Prop :=
  exists token,
    webhook_token = Some token
    /\ token <> ""
    /\ forall request,
         Main.Request.authorization request <> Some ("Bearer " +:+ token) ->
         Main.jellyfin_webhook webhook_token request
         = (Main.HTTPError 401 "Invalid webhook token", []).

(** ** Vocabulary for the pagination and the external matches *)

(** The page of [library] that starts at [start_index]. *)
Definition page_of (library : list Json) (start_index limit : Z)
  : JellyfinClient.Page :=
  {| JellyfinClient.Items :=
       take (Z.to_nat limit) (drop (Z.to_nat start_index) library);
     JellyfinClient.TotalRecordCount := Z.of_nat (List.length library) |}.

(** The server answers the requests before the [k]-th with the pages of
    [library]. *)
Definition serves (server : JellyfinClient.Server) (library : list Json) (k : nat)
  : Prop :=
  forall n start_index limit,
    (n < k)%nat -> 0 <= start_index ->
    server n start_index limit = Ok (Some (page_of library start_index limit)).

(** The result has the title of the query, up to case. *)
Definition same_title (query_title : string) (m : ExternalAPIClient.Match) : bool :=
  match ExternalAPIClient.title m with
  | Some result_title => String.eqb (Py.lower result_title) (Py.lower query_title)
  | None => false
  end.

(** The query has a year and the result has the same. *)
Definition same_year (query_year : option Z) (m : ExternalAPIClient.Match) : bool :=
  (Py.truthy_int query_year
   && bool_decide (ExternalAPIClient.year m = query_year))%bool.

(** The result has a title. *)
Definition titled (m : ExternalAPIClient.Match) : Prop :=
  is_Some (ExternalAPIClient.title m).

(** No identifier of the item is known. *)
Definition no_known_id (existing_ids : option ExternalAPIClient.ExistingIds) : Prop :=
  ExternalAPIClient.has_id existing_ids ExternalAPIClient.known_imdb_id = false
  /\ ExternalAPIClient.has_id existing_ids ExternalAPIClient.known_tvdb_id = false
  /\ ExternalAPIClient.has_id existing_ids ExternalAPIClient.known_tmdb_id = false.

(** The title search that [find_best_match] makes for a media type, if it
    makes one, and its results. *)
Definition title_search (searches : ExternalAPIClient.Searches)
  (query : option string) (media_type : string) (query_year : option Z)
  : option (ExternalAPIClient.Search * result (list ExternalAPIClient.Match)) :=
  if Py.str_in_list (Py.lower media_type) ["series"; "episode"; "season"]
  then Some (ExternalAPIClient.Series_by_title query query_year,
             ExternalAPIClient.search_series_by_title searches query query_year)
  else if String.eqb (Py.lower media_type) "movie"
  then Some (ExternalAPIClient.Movie_by_title query query_year,
             ExternalAPIClient.search_movie_by_title searches query query_year)
  else None.

(** ** Vocabulary for the bulk sync *)

(** [perform_bulk_sync] can build the webhook data of the item. *)
Definition well_formed (user_id username : Json) (item : JsonDict.t) : bool :=
  match BulkSync.extract_media_info item with
  | Ok media_info =>
      match BulkSync.bulk_webhook_data user_id username item media_info with
      | Ok _ => true
      | Raise _ => false
      end
  | Raise _ => false
  end.

(** [extract_media_info] returns for the item. *)
Definition extracts (item : JsonDict.t) : bool :=
  match BulkSync.extract_media_info item with
  | Ok _ => true
  | Raise _ => false
  end.

(** The error entry of an item that is not well formed. *)
Definition malformed_entry (item : JsonDict.t) : BulkSync.ErrorEntry :=
  BulkSync.ItemError (default (JStr "Unknown") (JsonDict.lookup item "Name"))
                     AttributeError.

(** The listing that [perform_bulk_sync] asks for a [sync_type]. *)
Definition listing (client : BulkSync.JellyfinLibrary) (sync_type : string)
  (user_id : Json) : result (list JsonDict.t) :=
  if String.eqb sync_type "movies"
  then BulkSync.get_all_movies_for_user client user_id
  else if String.eqb sync_type "series"
  then BulkSync.get_all_series_for_user client user_id
  else BulkSync.get_all_media_for_user client user_id.

(** What the loop over the items leaves of a status as it is. *)
Definition same_run (st st' : BulkSync.Status) : Prop :=
  BulkSync.is_running st' = BulkSync.is_running st
  /\ BulkSync.completed st' = BulkSync.completed st
  /\ BulkSync.success st' = BulkSync.success st
  /\ BulkSync.total_count st' = BulkSync.total_count st
  /\ BulkSync.sync_type st' = BulkSync.sync_type st
  /\ BulkSync.start_time st' = BulkSync.start_time st.

(** Every request to start a bulk sync is answered 409. *)
Definition refuses_bulk_sync (st : BulkSync.Status) : Prop :=
  forall sync_type, BulkSync.bulk_sync_endpoint sync_type st = (409, None).

(** Every request to start a bulk sync is accepted. *)
Definition accepts_bulk_sync (st : BulkSync.Status) : Prop :=
  forall sync_type, BulkSync.bulk_sync_endpoint sync_type st = (200, Some sync_type).
(** ** A small installation *)

Module Examples.

Definition foo_show : Series.t :=
  {| Series.id := 1; Series.title := "Foo Show"; Series.year := Some 2010;
     Series.tvdbId := Some 555; Series.imdbId := Some "tt0000555";
     Series.alternateTitles := [] |}.

Definition bar : Series.t :=
  {| Series.id := 2; Series.title := "Bar"; Series.year := Some 2015;
     Series.tvdbId := Some 123; Series.imdbId := Some "tt0000123";
     Series.alternateTitles := [] |}.

Definition sonarr_api : SonarrApi :=
  {| GET_series := Ok [foo_show; bar];
     GET_series_id := fun _ => Ok None;
     GET_series_lookup := fun _ => Ok [];
     GET_episode := fun _ => Ok [];
     GET_episode_id := fun _ => Ok None;
     PUT_series_id := fun _ _ => Ok true;
     PUT_episode_id := fun _ _ => Ok true;
     PUT_episode_monitor := fun _ _ => Ok true |}.

Definition alpha : Movie.t :=
  {| Movie.id := 10; Movie.title := "Alpha"; Movie.originalTitle := "";
     Movie.alternativeTitles := []; Movie.year := Some 2001;
     Movie.tmdbId := Some 1; Movie.imdbId := Some "tt0000002" |}.

Definition beta : Movie.t :=
  {| Movie.id := 20; Movie.title := "Beta"; Movie.originalTitle := "";
     Movie.alternativeTitles := []; Movie.year := Some 2002;
     Movie.tmdbId := Some 7; Movie.imdbId := Some "tt0000009" |}.

Definition radarr_api : RadarrApi :=
  {| GET_movie := Ok [alpha; beta];
     GET_movie_id := fun _ => Ok None;
     GET_movie_lookup := fun _ => Ok [];
     PUT_movie_id := fun _ _ => Ok true |}.

Definition settings0 : Settings :=
  {| ignore_special_episodes := true; use_external_api := false;
     sync_delay_seconds := 5 |}.

Definition special : Episode.t :=
  {| Episode.id := 42; Episode.seasonNumber := Some 0; Episode.episodeNumber := Some 1 |}.

Definition sonarr0 : SonarrApi :=
  {| GET_series := Ok [foo_show; bar];
     GET_series_id := fun _ => Ok (Some foo_show);
     GET_series_lookup := fun _ => Ok [];
     GET_episode := fun _ => Ok [special];
     GET_episode_id := fun episode_id => Ok (if episode_id =? 42 then Some special else None);
     PUT_series_id := fun _ _ => Ok true;
     PUT_episode_id := fun _ _ => Ok true;
     PUT_episode_monitor := fun _ _ => Ok true |}.

(** The integer that a text of decimal digits stands for; no other text is
    compared with a key in these examples. *)
Definition decimal_text (s : string) : option Z :=
  if forallb (fun c => Py.between 48 57 (Py.ord c)) (Py.chars s)
  then PyValue.int_digits 0 false (Py.chars s)
  else None.

Definition env0 : Env :=
  {| settings := settings0;
     sonarr := sonarr0;
     radarr := radarr_api;
     jellyfin := {| GET_item := fun _ _ => Ok JNull |};
     external := {| find_best_match := fun _ _ _ _ => Ok None |};
     asyncio_sleep := fun _ => Ok tt;
     utcnow := 1000;
     numeric_text := decimal_text |}.

Definition item1 : MediaItem.t :=
  {| MediaItem.id := 1; MediaItem.jellyfin_id := "item1";
     MediaItem.title := "Special"; MediaItem.media_type := MediaType.EPISODE;
     MediaItem.is_watched := Some true; MediaItem.parent_id := None;
     MediaItem.series_name := Some "Foo Show";
     MediaItem.season_number := Some 0; MediaItem.episode_number := Some 1 |}.

Definition mapping1 : SonarrMapping.t :=
  {| SonarrMapping.media_item_id := 1; SonarrMapping.sonarr_series_id := 1;
     SonarrMapping.sonarr_episode_id := Some 42;
     SonarrMapping.sonarr_season_number := Some 0;
     SonarrMapping.is_monitored := true |}.

Definition log1 : SyncLog.t :=
  {| SyncLog.id := 1; SyncLog.media_item_id := 1;
     SyncLog.series_name := Some "Foo Show"; SyncLog.action := SyncAction.UNMONITOR;
     SyncLog.status := SyncStatus.COMPLETED; SyncLog.service := "sonarr";
     SyncLog.external_id := Some "1"; SyncLog.error_message := None;
     SyncLog.created_at := 900 |}.

Definition db0 : Db :=
  {| media_items := {[ 1 := item1 ]};
     sonarr_mappings := {[ 1 := mapping1 ]};
     radarr_mappings := ∅;
     sync_logs := {[ 1 := log1 ]};
     next_media_item_id := 2;
     next_sync_log_id := 2 |}.

(** A "Send All" webhook: item1 was marked played by user1. *)
Definition played : Json :=
  JObj [("NotificationType", JStr "UserDataSaved");
        ("ItemId", JStr "item1");
        ("UserId", JStr "user1");
        ("Name", JStr "Special");
        ("ItemType", JStr "Episode");
        ("Played", JBool true);
        ("SaveReason", JStr "TogglePlayed");
        ("SeriesName", JStr "Foo Show");
        ("SeasonNumber", JInt 0);
        ("EpisodeNumber", JInt 1)].

Definition handler0 : WebhookHandler.Handler :=
  {| WebhookHandler._processing_cache := ∅; WebhookHandler.db := db0 |}.


(** The webhook data that [process_webhook] extracts from [played]. *)
Definition played_data : JsonDict.t :=
  [("event_type", JStr "UserDataSaved"); ("jellyfin_id", JStr "item1");
   ("user_id", JStr "user1"); ("is_watched", JBool true);
   ("item_name", JStr "Special"); ("item_type", JStr "Episode");
   ("username", JNull); ("series_id", JNull); ("series_name", JStr "Foo Show");
   ("season_id", JNull); ("season_number", JInt 0); ("episode_number", JInt 1);
   ("tvdb_id", JNull); ("imdb_id", JNull); ("tmdb_id", JNull); ("year", JNull)].

Definition played_info : MediaInfo.t :=
  {| MediaInfo.jellyfin_id := JStr "item1"; MediaInfo.title := Some "Special";
     MediaInfo.media_type := MediaType.EPISODE;
     MediaInfo.is_watched := Some (JBool true);
     MediaInfo.series_id := None; MediaInfo.series_name := Some "Foo Show";
     MediaInfo.season_number := Some 0; MediaInfo.episode_number := Some 1;
     MediaInfo.parent_id := None; MediaInfo.year := None |}.

(** The season of specials of "Foo Show" was marked played. *)
Definition season_played : Json :=
  JObj [("NotificationType", JStr "UserDataSaved");
        ("ItemId", JStr "season0");
        ("UserId", JStr "user1");
        ("Name", JStr "Specials");
        ("ItemType", JStr "Season");
        ("Played", JBool true);
        ("SaveReason", JStr "TogglePlayed");
        ("SeriesName", JStr "Foo Show");
        ("SeasonNumber", JInt 0);
        ("Provider_tvdb", JStr "555")].

(** A well-formed delivery of [played] with the configured token. *)
Definition delivery : Main.Request.t :=
  {| Main.Request.authorization := Some "Bearer secret";
     Main.Request.content_type := Some "application/json";
     Main.Request.body := Main.JsonText played |}.

(** The same request with a body that is not JSON. *)
Definition garbled : Main.Request.t :=
  {| Main.Request.authorization := Some "Bearer secret";
     Main.Request.content_type := Some "application/json";
     Main.Request.body := Main.NotJson |}.

End Examples.

(** ** More of the installation *)

Module Scenarios.

(** Two episodes of season 1 and one of season 2. *)
Definition e11 : Episode.t :=
  {| Episode.id := 11; Episode.seasonNumber := Some 1; Episode.episodeNumber := Some 1 |}.

Definition e12 : Episode.t :=
  {| Episode.id := 12; Episode.seasonNumber := Some 1; Episode.episodeNumber := Some 2 |}.

Definition e21 : Episode.t :=
  {| Episode.id := 21; Episode.seasonNumber := Some 2; Episode.episodeNumber := Some 1 |}.

Definition episodes : list Episode.t := [e11; e12; e21].

(** A Sonarr whose bulk endpoint is down and which no longer finds episode 12. *)
Definition sonarr_bulk_down : SonarrApi :=
  {| GET_series := Ok [Examples.foo_show; Examples.bar];
     GET_series_id := fun _ => Ok (Some Examples.foo_show);
     GET_series_lookup := fun _ => Ok [];
     GET_episode := fun _ => Ok episodes;
     GET_episode_id := fun episode_id => Ok (if episode_id =? 11 then Some e11 else None);
     PUT_series_id := fun _ _ => Ok true;
     PUT_episode_id := fun _ _ => Ok true;
     PUT_episode_monitor := fun _ _ => Raise RequestError |}.

(** A remake with the title of [foo_show]. *)
Definition foo_remake : Series.t :=
  {| Series.id := 3; Series.title := "Foo Show"; Series.year := Some 2020;
     Series.tvdbId := Some 777; Series.imdbId := None;
     Series.alternateTitles := [] |}.

Definition sonarr_two_foos : SonarrApi :=
  {| GET_series := Ok [Examples.foo_show; Examples.bar; foo_remake];
     GET_series_id := fun _ => Ok None;
     GET_series_lookup := fun _ => Ok [];
     GET_episode := fun _ => Ok [];
     GET_episode_id := fun _ => Ok None;
     PUT_series_id := fun _ _ => Ok true;
     PUT_episode_id := fun _ _ => Ok true;
     PUT_episode_monitor := fun _ _ => Ok true |}.

(** The [media_info] of an item that the store does not know. *)
Definition new_info : MediaInfo.t :=
  {| MediaInfo.jellyfin_id := JStr "item2"; MediaInfo.title := Some "Alpha";
     MediaInfo.media_type := MediaType.MOVIE;
     MediaInfo.is_watched := Some (JBool true);
     MediaInfo.series_id := None; MediaInfo.series_name := None;
     MediaInfo.season_number := None; MediaInfo.episode_number := None;
     MediaInfo.parent_id := None; MediaInfo.year := None |}.

(** The members of [Examples.played]. *)
Definition played_members : JsonDict.t :=
  match Examples.played with JObj members => members | _ => [] end.

(** A store with a second record, failed a short while ago. *)
Definition log2 : SyncLog.t :=
  {| SyncLog.id := 2; SyncLog.media_item_id := 1;
     SyncLog.series_name := Some "Foo Show"; SyncLog.action := SyncAction.MONITOR;
     SyncLog.status := SyncStatus.FAILED; SyncLog.service := "sonarr";
     SyncLog.external_id := Some "1";
     SyncLog.error_message := Some "Failed to update monitoring status";
     SyncLog.created_at := 950 |}.

Definition db_failed : Db :=
  {| media_items := {[ 1 := Examples.item1 ]};
     sonarr_mappings := {[ 1 := Examples.mapping1 ]};
     radarr_mappings := ∅;
     sync_logs := <[ 2 := log2 ]> {[ 1 := Examples.log1 ]};
     next_media_item_id := 2;
     next_sync_log_id := 3 |}.

(** A first start: an empty table and an environment without a token. *)
Definition unconfigured : ConfigState :=
  {| configurations := ∅;
     settings_webhook_token := None;
     settings_secret_key := "";
     sessions_opened := 0;
     secrets_drawn := 0 |}.

(** A database that works, and one whose sessions all fail at once. *)
Definition database_up : ConfigOutside :=
  {| session_end := fun _ => Completes;
     token_hex := fun _ => "000102030405060708090a0b0c0d0e0f";
     token_urlsafe := fun _ => "c2VjcmV0" |}.

Definition database_down : ConfigOutside :=
  {| session_end := fun _ => Fails IntegrityError false;
     token_hex := fun _ => "000102030405060708090a0b0c0d0e0f";
     token_urlsafe := fun _ => "c2VjcmV0" |}.

(** A Jellyfin library of five items, and two servers that page through it:
    one that always answers, one whose second answer is an error. *)
Definition jellyfin_library : list Json := [JInt 1; JInt 2; JInt 3; JInt 4; JInt 5].

Definition jellyfin_server : JellyfinClient.Server :=
  fun _ start_index limit => Ok (Some (page_of jellyfin_library start_index limit)).

Definition jellyfin_flaky : JellyfinClient.Server :=
  fun n start_index limit =>
    if (n =? 1)%nat then Raise RequestError
    else Ok (Some (page_of jellyfin_library start_index limit)).

(** Three results of a title search. *)
Definition remake_2020 : ExternalAPIClient.Match :=
  {| ExternalAPIClient.title := Some "Foo Show Reloaded";
     ExternalAPIClient.year := Some 2020;
     ExternalAPIClient.imdb_id := Some "tt0000777";
     ExternalAPIClient.tvdb_id := None; ExternalAPIClient.tmdb_id := None;
     ExternalAPIClient.source := "omdb" |}.

Definition original_2010 : ExternalAPIClient.Match :=
  {| ExternalAPIClient.title := Some "FOO SHOW";
     ExternalAPIClient.year := Some 2010;
     ExternalAPIClient.imdb_id := Some "tt0000555";
     ExternalAPIClient.tvdb_id := None; ExternalAPIClient.tmdb_id := None;
     ExternalAPIClient.source := "omdb" |}.

Definition untitled_2020 : ExternalAPIClient.Match :=
  {| ExternalAPIClient.title := None;
     ExternalAPIClient.year := Some 2020;
     ExternalAPIClient.imdb_id := Some "tt0000888";
     ExternalAPIClient.tvdb_id := None; ExternalAPIClient.tmdb_id := None;
     ExternalAPIClient.source := "omdb" |}.

Definition omdb : ExternalAPIClient.Searches :=
  {| ExternalAPIClient.search_by_imdb_id := fun _ => Ok None;
     ExternalAPIClient.search_series_by_title :=
       fun _ _ => Ok [remake_2020; original_2010];
     ExternalAPIClient.search_movie_by_title :=
       fun _ _ => Ok [remake_2020; untitled_2020; original_2010] |}.

(** A Jellyfin with one user and two items: the special of "Foo Show", played,
    and an item whose type is [null]. *)
Definition jellyfin_user : JsonDict.t := [("Id", JStr "user1"); ("Name", JStr "ann")].

Definition special_item : JsonDict.t :=
  [("Id", JStr "item1"); ("Name", JStr "Special"); ("Type", JStr "Episode");
   ("SeriesName", JStr "Foo Show"); ("ParentIndexNumber", JInt 0);
   ("IndexNumber", JInt 1); ("UserData", JObj [("Played", JBool true)])].

Definition untyped_item : JsonDict.t :=
  [("Id", JStr "item9"); ("Name", JStr "Nine"); ("Type", JNull)].

Definition jellyfin_client : BulkSync.JellyfinLibrary :=
  {| BulkSync.get_users := Ok [jellyfin_user];
     BulkSync.get_all_movies_for_user := fun _ => Ok [];
     BulkSync.get_all_series_for_user := fun _ => Ok [special_item];
     BulkSync.get_all_media_for_user := fun _ => Ok [special_item; untyped_item] |}.

(** An installation whose Sonarr and Radarr answer no request. *)
Definition sonarr_down : SonarrApi :=
  {| GET_series := Raise RequestError;
     GET_series_id := fun _ => Raise RequestError;
     GET_series_lookup := fun _ => Raise RequestError;
     GET_episode := fun _ => Raise RequestError;
     GET_episode_id := fun _ => Raise RequestError;
     PUT_series_id := fun _ _ => Raise RequestError;
     PUT_episode_id := fun _ _ => Raise RequestError;
     PUT_episode_monitor := fun _ _ => Raise RequestError |}.

Definition env_down : Env :=
  {| settings := Examples.settings0;
     sonarr := sonarr_down;
     radarr := {| GET_movie := Raise RequestError;
                  GET_movie_id := fun _ => Raise RequestError;
                  GET_movie_lookup := fun _ => Raise RequestError;
                  PUT_movie_id := fun _ _ => Raise RequestError |};
     jellyfin := {| GET_item := fun _ _ => Ok JNull |};
     external := {| find_best_match := fun _ _ _ _ => Ok None |};
     asyncio_sleep := fun _ => Ok tt;
     utcnow := 1000;
     numeric_text := Examples.decimal_text |}.

(** A Radarr that knows the movie "Alpha" by its id. *)
Definition radarr_known : RadarrApi :=
  {| GET_movie := Ok [Examples.alpha; Examples.beta];
     GET_movie_id :=
       fun movie_id => Ok (if movie_id =? 10 then Some Examples.alpha else None);
     GET_movie_lookup := fun _ => Ok [];
     PUT_movie_id := fun _ _ => Ok true |}.

(** The song that Jellyfin returns for every item id. *)
Definition audio_item : JsonDict.t :=
  [("Id", JStr "item7"); ("Name", JStr "Song"); ("Type", JStr "Audio");
   ("UserData", JObj [("Played", JBool true)])].

Definition env_movie : Env :=
  {| settings := Examples.settings0;
     sonarr := Examples.sonarr0;
     radarr := radarr_known;
     jellyfin := {| GET_item := fun _ _ => Ok (JObj audio_item) |};
     external := {| find_best_match := fun _ _ _ _ => Ok None |};
     asyncio_sleep := fun _ => Ok tt;
     utcnow := 1000;
     numeric_text := Examples.decimal_text |}.

(** The movie "Alpha", watched, with its mapping to the movie 10 of Radarr,
    and the season of specials of "Foo Show" with the mapping that the
    executor wrote for it. *)
Definition movie_item : MediaItem.t :=
  {| MediaItem.id := 2; MediaItem.jellyfin_id := "item2";
     MediaItem.title := "Alpha"; MediaItem.media_type := MediaType.MOVIE;
     MediaItem.is_watched := Some true; MediaItem.parent_id := None;
     MediaItem.series_name := None;
     MediaItem.season_number := None; MediaItem.episode_number := None |}.

Definition movie_mapping : RadarrMapping.t :=
  {| RadarrMapping.media_item_id := 2; RadarrMapping.radarr_movie_id := 10;
     RadarrMapping.is_monitored := true |}.

Definition season_item : MediaItem.t :=
  {| MediaItem.id := 3; MediaItem.jellyfin_id := "season0";
     MediaItem.title := "Specials"; MediaItem.media_type := MediaType.SEASON;
     MediaItem.is_watched := Some true; MediaItem.parent_id := None;
     MediaItem.series_name := Some "Foo Show";
     MediaItem.season_number := Some 0; MediaItem.episode_number := None |}.

Definition season_mapping : SonarrMapping.t :=
  {| SonarrMapping.media_item_id := 3; SonarrMapping.sonarr_series_id := 1;
     SonarrMapping.sonarr_episode_id := None;
     SonarrMapping.sonarr_season_number := None;
     SonarrMapping.is_monitored := true |}.

Definition db_library : Db :=
  {| media_items := <[ 3 := season_item ]> (<[ 2 := movie_item ]> {[ 1 := Examples.item1 ]});
     sonarr_mappings := <[ 3 := season_mapping ]> {[ 1 := Examples.mapping1 ]};
     radarr_mappings := {[ 2 := movie_mapping ]};
     sync_logs := {[ 1 := Examples.log1 ]};
     next_media_item_id := 4;
     next_sync_log_id := 2 |}.


(** The webhook data of the event "Alpha was marked played". *)
Definition movie_data : JsonDict.t :=
  [("event_type", JStr "UserDataSaved"); ("jellyfin_id", JStr "item2");
   ("user_id", JStr "user1"); ("is_watched", JBool true);
   ("item_name", JStr "Alpha"); ("item_type", JStr "Movie");
   ("username", JNull); ("series_id", JNull); ("series_name", JNull);
   ("season_id", JNull); ("season_number", JNull); ("episode_number", JNull);
   ("tvdb_id", JNull); ("imdb_id", JNull); ("tmdb_id", JNull); ("year", JNull)].


(** A webhook body that names itself a retry of the record 1: item1 is
    reported as not played. *)
Definition replay : Json :=
  JObj [("event_type", JStr "UserDataSaved"); ("jellyfin_id", JStr "item1");
        ("user_id", JStr "user1"); ("is_watched", JBool false);
        ("item_name", JStr "Special"); ("item_type", JStr "Episode");
        ("series_name", JStr "Foo Show"); ("season_number", JInt 0);
        ("episode_number", JInt 1);
        ("retry_mode", JInt 1); ("original_log_id", JInt 1)].

Definition replay_delivery : Main.Request.t :=
  {| Main.Request.authorization := Some "Bearer secret";
     Main.Request.content_type := Some "application/json";
     Main.Request.body := Main.JsonText replay |}.

(** A webhook in the template format, which carries no watched flag: the
    handler fetches the item from Jellyfin. *)
Definition template_played : Json :=
  JObj [("Type", JStr "UserDataSaved"); ("ItemId", JStr "item7");
        ("UserId", JStr "user1")].

Definition template_data : JsonDict.t :=
  [("event_type", JStr "UserDataSaved"); ("jellyfin_id", JStr "item7");
   ("user_id", JStr "user1")].

(** A "Send All" webhook whose ids are numbers and whose [Played] is [null]. *)
Definition numeric_played : Json :=
  JObj [("NotificationType", JStr "UserDataSaved");
        ("ItemId", JInt 5);
        ("UserId", JInt 7);
        ("Name", JStr "Alpha");
        ("ItemType", JStr "Movie");
        ("Played", JNull);
        ("SaveReason", JStr "PlaybackFinished")].

Definition numeric_members : JsonDict.t :=
  match numeric_played with JObj members => members | _ => [] end.

Definition numeric_data : JsonDict.t :=
  [("event_type", JStr "UserDataSaved"); ("jellyfin_id", JInt 5);
   ("user_id", JInt 7); ("is_watched", JNull);
   ("item_name", JStr "Alpha"); ("item_type", JStr "Movie");
   ("username", JNull); ("series_id", JNull); ("series_name", JNull);
   ("season_id", JNull); ("season_number", JNull); ("episode_number", JNull);
   ("tvdb_id", JNull); ("imdb_id", JNull); ("tmdb_id", JNull); ("year", JNull)].

Definition bulk_start : BulkSync.State :=
  {| BulkSync.handler := Examples.handler0;
     BulkSync.status := BulkSync.bulk_sync_status |}.

End Scenarios.

(* ================================================================= *)
(** * Properties *)

(** ** Strings *)

Section SplitJoin.

Lemma split_from_run w : forall cur rest,
  Forall nospace w ->
  Py.split_from cur (w ++ rest) = Py.split_from (cur ++ w) rest.
Proof.
  induction w as [|c w IH]; intros cur rest Hw; simpl.
  - now rewrite app_nil_r.
  - inversion Hw as [|? ? Hc Hw']; subst. unfold nospace in Hc. rewrite Hc.
    rewrite IH by assumption. now rewrite <- app_assoc.
Qed.

Lemma split_join ws :
  Forall word_ok ws -> Py.split_chars (Py.join_chars ws) = ws.
Proof.
  unfold Py.split_chars.
  induction ws as [|w ws IH]; intros Hws; [reflexivity|].
  inversion Hws as [|? ? [Hne Hw] Hws']; subst.
  destruct ws as [|w' ws'].
  - simpl. rewrite <- (app_nil_r w) at 1. rewrite split_from_run by assumption.
    simpl. destruct w; [congruence|reflexivity].
  - change (Py.join_chars (w :: w' :: ws'))
      with (w ++ " "%char :: Py.join_chars (w' :: ws')).
    rewrite split_from_run by assumption. rewrite app_nil_l.
    assert (Hstep : forall rest, Py.split_from w (" "%char :: rest)
                                 = w :: Py.split_from [] rest).
    { intros rest. destruct w; [congruence|reflexivity]. }
    rewrite Hstep. f_equal. now apply IH.
Qed.

Lemma split_from_words (P : ascii -> Prop) s : forall cur,
  Forall P cur -> Forall P s -> Forall nospace cur ->
  Forall (fun w => word_ok w /\ Forall P w) (Py.split_from cur s).
Proof.
  induction s as [|c s IH]; intros cur Hcur Hs Hsp; simpl.
  - destruct cur; constructor; [|constructor].
    split; [split; [discriminate|assumption]|assumption].
  - inversion Hs as [|? ? Hc Hs']; subst.
    destruct (Py.isspace c) eqn:Ec.
    + destruct cur.
      * apply IH; auto.
      * constructor; [|apply IH; auto].
        split; [split; [discriminate|assumption]|assumption].
    + apply IH; auto; apply Forall_app; split; auto.
Qed.

Lemma split_chars_words (P : ascii -> Prop) s :
  Forall P s -> Forall (fun w => word_ok w /\ Forall P w) (Py.split_chars s).
Proof. intros; apply split_from_words; auto. Qed.

Lemma join_chars_Forall (P : ascii -> Prop) ws :
  P " "%char -> Forall (Forall P) ws -> Forall P (Py.join_chars ws).
Proof.
  intros Hsp. induction ws as [|w ws IH]; intros H; [constructor|].
  inversion H as [|? ? Hw Hws]; subst.
  destruct ws as [|w' ws']; [exact Hw|].
  change (Py.join_chars (w :: w' :: ws'))
    with (w ++ " "%char :: Py.join_chars (w' :: ws')).
  apply Forall_app; split; [assumption|]. constructor; auto.
Qed.

Lemma chars_str l : Py.chars (Py.str l) = l.
Proof. apply String.list_ascii_of_string_of_list_ascii. Qed.

Lemma str_chars s : Py.str (Py.chars s) = s.
Proof. apply String.string_of_list_ascii_of_string. Qed.

Lemma str_inj l1 l2 : Py.str l1 = Py.str l2 -> l1 = l2.
Proof. intros H. rewrite <- (chars_str l1), <- (chars_str l2). now rewrite H. Qed.

End SplitJoin.

(** ** Title normalisation ([_clean_title]) *)

Section CleanTitle.

Lemma lower_char_idem c : Py.lower_char (Py.lower_char c) = Py.lower_char c.
Proof. destruct c as [[] [] [] [] [] [] [] []]; vm_compute; reflexivity. Qed.

Lemma word_space_disjoint c : Py.isword c = true -> Py.isspace c = false.
Proof. destruct c as [[] [] [] [] [] [] [] []]; vm_compute; congruence. Qed.

Lemma filter_map_comm {A B} (f : B -> bool) (g : A -> B) l :
  List.filter f (map g l) = map g (List.filter (fun a => f (g a)) l).
Proof.
  induction l as [|a l IH]; [reflexivity|]. simpl.
  destruct (f (g a)); simpl; now rewrite IH.
Qed.

Lemma map_fixed {A} (f : A -> A) l : Forall (fun a => f a = a) l -> map f l = l.
Proof. induction 1; simpl; congruence. Qed.

Lemma filter_all {A} (f : A -> bool) l :
  Forall (fun a => f a = true) l -> List.filter f l = l.
Proof. induction 1 as [|a l Ha _ IH]; simpl; [reflexivity|]. now rewrite Ha, IH. Qed.

Lemma filter_Forall {A} (P : A -> Prop) (f : A -> bool) l :
  Forall P l -> Forall P (List.filter f l).
Proof.
  induction 1 as [|a l Ha _ IH]; simpl; [constructor|].
  destruct (f a); [constructor|]; assumption.
Qed.

Lemma filter_filter {A} (f : A -> bool) l :
  List.filter f (List.filter f l) = List.filter f l.
Proof.
  induction l as [|a l IH]; [reflexivity|]. simpl.
  destruct (f a) eqn:E; simpl; [rewrite E|]; congruence.
Qed.

Lemma map_chars_str ws : map Py.chars (map Py.str ws) = ws.
Proof.
  induction ws as [|w ws IH]; [reflexivity|]. simpl. now rewrite chars_str, IH.
Qed.

Lemma pre_words_ok t :
  Forall (fun w => word_ok w /\ Forall clean_char w) (pre_words t).
Proof.
  apply split_chars_words.
  apply List.Forall_forall. intros c Hc. apply List.filter_In in Hc as [Hin Hk].
  split; [exact Hk|]. apply List.in_map_iff in Hin as (c0 & <- & _).
  apply lower_char_idem.
Qed.

Lemma kept_words_ok ws :
  Forall (fun w => word_ok w /\ Forall clean_char w) ws ->
  Forall (fun w => word_ok w /\ Forall clean_char w) (kept_words ws).
Proof.
  intros H. unfold kept_words.
  pose proof (filter_Forall _ nc ws H) as Hf.
  destruct (List.filter nc ws); assumption.
Qed.

Lemma kept_words_idem ws : kept_words (kept_words ws) = kept_words ws.
Proof.
  unfold kept_words. destruct (List.filter nc ws) as [|w cw] eqn:E.
  - now rewrite E.
  - rewrite <- E, filter_filter, E. reflexivity.
Qed.

(** [_clean_title] through its words. *)
Lemma _clean_title_words t :
  _clean_title t = Py.str (Py.join_chars (kept_words (pre_words t))).
Proof.
  destruct t as [|a t]; [reflexivity|].
  unfold _clean_title. cbn [Py.truthy negb].
  set (t0 := String a t).
  unfold strip_punctuation, Py.lower, Py.join, Py.split.
  rewrite !chars_str, !map_chars_str.
  fold (pre_words t0).
  assert (Hok : Forall word_ok (pre_words t0)).
  { eapply List.Forall_impl; [|apply pre_words_ok]. now intros w [H _]. }
  rewrite split_join by exact Hok.
  rewrite filter_map_comm. fold nc. unfold kept_words.
  destruct (List.filter nc (pre_words t0)) as [|w cw]; [reflexivity|].
  rewrite map_chars_str. reflexivity.
Qed.

(** The words of the normalised title. *)
Lemma split_clean_title t :
  Py.split_chars (Py.chars (_clean_title t)) = kept_words (pre_words t).
Proof.
  rewrite _clean_title_words, chars_str. apply split_join.
  eapply List.Forall_impl; [|apply kept_words_ok, pre_words_ok]. now intros w [H _].
Qed.

Lemma pre_words_join ws :
  Forall (fun w => word_ok w /\ Forall clean_char w) ws ->
  pre_words (Py.str (Py.join_chars ws)) = ws.
Proof.
  intros H. unfold pre_words. rewrite chars_str.
  assert (Hc : Forall clean_char (Py.join_chars ws)).
  { apply join_chars_Forall; [split; reflexivity|].
    eapply List.Forall_impl; [|exact H]. now intros w [_ Hw]. }
  rewrite map_fixed by (eapply List.Forall_impl; [|exact Hc]; now intros c [_ Hl]).
  rewrite filter_all by (eapply List.Forall_impl; [|exact Hc]; now intros c [Hk _]).
  apply split_join. eapply List.Forall_impl; [|exact H]. now intros w [Hw _].
Qed.

(** C9. Title normalisation is idempotent: cleaning a cleaned title gives
    the cleaned title back, for every input string. *)
Theorem clean_title_idempotent (s : string) :
  _clean_title (_clean_title s) = _clean_title s.
Proof.
  rewrite (_clean_title_words (_clean_title s)).
  rewrite (_clean_title_words s) at 1.
  rewrite pre_words_join by (apply kept_words_ok, pre_words_ok).
  rewrite kept_words_idem. symmetry. apply _clean_title_words.
Qed.

End CleanTitle.

(** ** Identity resolution *)

Section Resolution.

Lemma pretty_N_go_nonempty x : forall s,
  (0 < x)%N \/ s <> "" -> pretty_N_go x s <> "".
Proof.
  induction (N.lt_wf_0 x) as [x _ IH]; intros s Hs.
  destruct (N.eq_dec x 0) as [->|Hx].
  - rewrite pretty_N_go_0. destruct Hs as [Hs|Hs]; [lia|exact Hs].
  - rewrite pretty_N_go_step by lia. apply IH.
    + apply N.div_lt; lia.
    + right. discriminate.
Qed.

Lemma str_of_int_nonempty n : Py.truthy (Py.str_of_int n) = true.
Proof.
  assert (H : Py.str_of_int n <> "").
  { unfold Py.str_of_int, pretty, pretty_Z. destruct n as [|p|p].
    - discriminate.
    - unfold pretty, pretty_positive, pretty, pretty_N.
      destruct (decide (N.pos p = 0%N)); [lia|].
      apply pretty_N_go_nonempty. left. lia.
    - discriminate. }
  destruct (Py.str_of_int n); [congruence|reflexivity].
Qed.

Lemma truthy_ne s : s <> "" -> Py.truthy s = true.
Proof. destruct s; [congruence|reflexivity]. Qed.

Lemma find_first {A} (f : A -> bool) l x :
  In x l -> f x = true -> exists r, List.find f l = Some r.
Proof.
  intros Hin Hf. destruct (List.find f l) as [r|] eqn:E; [eauto|].
  rewrite (List.find_none f l E x Hin) in Hf. discriminate.
Qed.

Lemma tvdb_match_iff id s :
  Py.truthy_opt id = true /\ SonarrClient.tvdb_match (default "" id) s = true
  <-> series_has_tvdb id s.
Proof.
  unfold SonarrClient.tvdb_match, series_has_tvdb. split.
  - intros [Ht Hm]. destruct id as [id|]; [|discriminate].
    destruct (Series.tvdbId s) as [n|]; [|discriminate].
    apply andb_prop in Hm as [Hn He]. apply String.eqb_eq in He.
    exists n. simpl in He. subst id. repeat split.
    destruct (Z.eqb_spec n 0); [discriminate|assumption].
  - intros (n & -> & -> & Hn). simpl. rewrite str_of_int_nonempty, String.eqb_refl.
    destruct (Z.eqb_spec n 0); [contradiction|]. split; reflexivity.
Qed.

Lemma series_imdb_match_iff id s :
  Py.truthy_opt id = true /\ SonarrClient.imdb_match (default "" id) s = true
  <-> series_has_imdb id s.
Proof.
  unfold SonarrClient.imdb_match, series_has_imdb. split.
  - intros [Ht Hm]. destruct id as [id|]; [|discriminate].
    destruct (Series.imdbId s) as [i|]; [|discriminate].
    apply andb_prop in Hm as [Hi He]. apply String.eqb_eq in He. simpl in He.
    subst i. exists id. repeat split. intros ->. discriminate.
  - intros (i & -> & -> & Hi). simpl. rewrite (truthy_ne i Hi), String.eqb_refl.
    split; reflexivity.
Qed.

Lemma tmdb_match_iff id m :
  Py.truthy_opt id = true /\ RadarrClient.tmdb_match (default "" id) m = true
  <-> movie_has_tmdb id m.
Proof.
  unfold RadarrClient.tmdb_match, movie_has_tmdb. split.
  - intros [Ht Hm]. destruct id as [id|]; [|discriminate].
    destruct (Movie.tmdbId m) as [n|]; [|discriminate].
    apply andb_prop in Hm as [Hn He]. apply String.eqb_eq in He.
    exists n. simpl in He. subst id. repeat split.
    destruct (Z.eqb_spec n 0); [discriminate|assumption].
  - intros (n & -> & -> & Hn). simpl. rewrite str_of_int_nonempty, String.eqb_refl.
    destruct (Z.eqb_spec n 0); [contradiction|]. split; reflexivity.
Qed.

Lemma movie_imdb_match_iff id m :
  Py.truthy_opt id = true /\ RadarrClient.imdb_match (default "" id) m = true
  <-> movie_has_imdb id m.
Proof.
  unfold RadarrClient.imdb_match, movie_has_imdb. split.
  - intros [Ht Hm]. destruct id as [id|]; [|discriminate].
    destruct (Movie.imdbId m) as [i|]; [|discriminate].
    apply andb_prop in Hm as [Hi He]. apply String.eqb_eq in He. simpl in He.
    subst i. exists id. repeat split. intros ->. discriminate.
  - intros (i & -> & -> & Hi). simpl. rewrite (truthy_ne i Hi), String.eqb_refl.
    split; reflexivity.
Qed.

Lemma external_id_match_iff tmdb_id imdb_id m :
  RadarrClient.external_id_match tmdb_id imdb_id m = true
  <-> movie_has_tmdb tmdb_id m \/ movie_has_imdb imdb_id m.
Proof.
  unfold RadarrClient.external_id_match.
  rewrite orb_true_iff, !andb_true_iff, tmdb_match_iff, movie_imdb_match_iff.
  reflexivity.
Qed.

Lemma series_external_id_tier api library tvdb_id imdb_id s :
  GET_series api = Ok library -> In s library ->
  series_has_tvdb tvdb_id s \/ series_has_imdb imdb_id s ->
  exists r, In r library
    /\ (series_has_tvdb tvdb_id r \/ series_has_imdb imdb_id r)
    /\ SonarrClient.external_id_tier api tvdb_id imdb_id
       = ([Sonarr_GET_series], Ok (Some r)).
Proof.
  intros Hget Hin Hs.
  assert (Hany : (Py.truthy_opt tvdb_id || Py.truthy_opt imdb_id)%bool = true).
  { apply orb_true_iff. destruct Hs as [Hs|Hs].
    - left. now apply tvdb_match_iff in Hs.
    - right. now apply series_imdb_match_iff in Hs. }
  unfold SonarrClient.external_id_tier, SonarrClient.get_all_series, request.
  rewrite Hany, Hget. cbn [mbind Eff_bind].
  destruct (Py.truthy_opt tvdb_id) eqn:Et.
  - destruct (List.find _ library) as [r|] eqn:Ef.
    + apply List.find_some in Ef as [Hr Hm]. exists r. split; [exact Hr|].
      split; [|reflexivity]. left. apply tvdb_match_iff. auto.
    + destruct Hs as [Hs|Hs].
      * apply tvdb_match_iff in Hs as [_ Hm].
        rewrite (List.find_none _ _ Ef s Hin) in Hm. discriminate.
      * pose proof Hs as Hs'. apply series_imdb_match_iff in Hs' as [Hi Hm].
        rewrite Hi. destruct (find_first _ _ _ Hin Hm) as [r Hr]. rewrite Hr.
        apply List.find_some in Hr as [Hr Hm']. exists r. split; [exact Hr|].
        split; [|reflexivity]. right. apply series_imdb_match_iff. auto.
  - destruct Hs as [Hs|Hs].
    + apply tvdb_match_iff in Hs as [Ht _]. congruence.
    + pose proof Hs as Hs'. apply series_imdb_match_iff in Hs' as [Hi Hm].
      rewrite Hi. destruct (find_first _ _ _ Hin Hm) as [r Hr]. rewrite Hr.
      apply List.find_some in Hr as [Hr Hm']. exists r. split; [exact Hr|].
      split; [|reflexivity]. right. apply series_imdb_match_iff. auto.
Qed.

Lemma movie_external_id_tier api library tmdb_id imdb_id m :
  GET_movie api = Ok library -> In m library ->
  movie_has_tmdb tmdb_id m \/ movie_has_imdb imdb_id m ->
  exists r, In r library
    /\ (movie_has_tmdb tmdb_id r \/ movie_has_imdb imdb_id r)
    /\ RadarrClient.external_id_tier api tmdb_id imdb_id
       = ([Radarr_GET_movie], Ok (Some r)).
Proof.
  intros Hget Hin Hm.
  assert (Hany : (Py.truthy_opt tmdb_id || Py.truthy_opt imdb_id)%bool = true).
  { apply orb_true_iff. destruct Hm as [Hm|Hm].
    - left. now apply tmdb_match_iff in Hm.
    - right. now apply movie_imdb_match_iff in Hm. }
  unfold RadarrClient.external_id_tier, RadarrClient.get_all_movies, request.
  rewrite Hany, Hget. cbn [mbind Eff_bind].
  apply external_id_match_iff in Hm.
  destruct (find_first _ _ _ Hin Hm) as [r Hr]. rewrite Hr.
  apply List.find_some in Hr as [Hr Hm']. exists r. split; [exact Hr|].
  split; [|reflexivity]. now apply external_id_match_iff.
Qed.

(** C1. A query that supplies an external id carried by an entity of the
    library (TVDB or IMDB for a series, TMDB or IMDB for a movie) returns an
    entity of the library that carries a supplied id, after the single request
    that lists the library: whatever the title and the year of the query are,
    the title search and the external lookup are not run. *)
Theorem external_id_match_wins :
  (forall api library tvdb_id imdb_id s,
     GET_series api = Ok library -> In s library ->
     series_has_tvdb tvdb_id s \/ series_has_imdb imdb_id s ->
     exists r, In r library
       /\ (series_has_tvdb tvdb_id r \/ series_has_imdb imdb_id r)
       /\ forall title year,
            SonarrClient.find_series_by_jellyfin_metadata
              api title year tvdb_id imdb_id
            = ([Sonarr_GET_series], Ok (Some r)))
  /\ (forall api library tmdb_id imdb_id m,
     GET_movie api = Ok library -> In m library ->
     movie_has_tmdb tmdb_id m \/ movie_has_imdb imdb_id m ->
     exists r, In r library
       /\ (movie_has_tmdb tmdb_id r \/ movie_has_imdb imdb_id r)
       /\ forall title year,
            RadarrClient.find_movie_by_jellyfin_metadata
              api title year tmdb_id imdb_id
            = ([Radarr_GET_movie], Ok (Some r))).
Proof.
  split.
  - intros api library tvdb_id imdb_id s Hget Hin Hs.
    destruct (series_external_id_tier _ _ _ _ _ Hget Hin Hs) as (r & Hr & Hid & Ht).
    exists r. repeat split; [exact Hr|exact Hid|]. intros title year.
    unfold SonarrClient.find_series_by_jellyfin_metadata. rewrite Ht. reflexivity.
  - intros api library tmdb_id imdb_id m Hget Hin Hm.
    destruct (movie_external_id_tier _ _ _ _ _ Hget Hin Hm) as (r & Hr & Hid & Ht).
    exists r. repeat split; [exact Hr|exact Hid|]. intros title year.
    unfold RadarrClient.find_movie_by_jellyfin_metadata. rewrite Ht. reflexivity.
Qed.

(** The sibling of the movie resolver: when the TVDB id of the query is
    carried by a series of the library, the series resolver returns a series
    that carries it, whatever the IMDB id matches. *)
Lemma series_tvdb_first api library title year tvdb_id imdb_id s :
  GET_series api = Ok library -> In s library -> series_has_tvdb tvdb_id s ->
  exists r, series_has_tvdb tvdb_id r
    /\ SonarrClient.find_series_by_jellyfin_metadata api title year tvdb_id imdb_id
       = ([Sonarr_GET_series], Ok (Some r)).
Proof.
  intros Hget Hin Hs. pose proof Hs as Hs'. apply tvdb_match_iff in Hs' as [Ht Hm].
  unfold SonarrClient.find_series_by_jellyfin_metadata,
    SonarrClient.external_id_tier, SonarrClient.get_all_series, request.
  rewrite Ht, Hget. cbn [orb mbind Eff_bind].
  destruct (find_first _ _ _ Hin Hm) as [r Hr]. rewrite Hr.
  apply List.find_some in Hr as [_ Hm']. exists r. split; [|reflexivity].
  apply tvdb_match_iff. auto.
Qed.

End Resolution.

(** Without external ids, "The Foo Show" resolves to the series titled
    "Foo Show": an exact match once the article is dropped. *)
Example title_only_finds_foo_show :
  SonarrClient.find_series_by_jellyfin_metadata
    Examples.sonarr_api (Some "The Foo Show") None None None
  = ([Sonarr_GET_series], Ok (Some Examples.foo_show)).
Proof. vm_compute. reflexivity. Qed.

(** With the TVDB id of another series, that series is returned. *)
Example tvdb_id_beats_title :
  SonarrClient.find_series_by_jellyfin_metadata
    Examples.sonarr_api (Some "The Foo Show") None (Some "123") None
  = ([Sonarr_GET_series], Ok (Some Examples.bar)).
Proof. vm_compute. reflexivity. Qed.

Lemma external_id_match_wins_witness :
  exists r, In r [Examples.foo_show; Examples.bar]
    /\ (series_has_tvdb (Some "123") r \/ series_has_imdb None r)
    /\ forall title year,
         SonarrClient.find_series_by_jellyfin_metadata
           Examples.sonarr_api title year (Some "123") None
         = ([Sonarr_GET_series], Ok (Some r)).
Proof.
  apply (proj1 external_id_match_wins Examples.sonarr_api
           [Examples.foo_show; Examples.bar]
           (Some "123") None Examples.bar).
  - reflexivity.
  - simpl. auto.
  - left. exists 123. repeat split. lia.
Defined.

(** C4, on the code.  Radarr holds [alpha] (IMDB tt0000002) before [beta]
    (TMDB 7).  A query with TMDB id 7 and IMDB id tt0000002 returns [alpha],
    the movie matched by its IMDB id, although [beta] carries the TMDB id:
    the single loop tests both ids on each movie in library order. *)
Theorem movie_imdb_match_returned_before_tmdb_match :
  RadarrClient.find_movie_by_jellyfin_metadata
    Examples.radarr_api (Some "Gamma") None (Some "7") (Some "tt0000002")
  = ([Radarr_GET_movie], Ok (Some Examples.alpha))
  /\ movie_has_tmdb (Some "7") Examples.beta
  /\ ~ movie_has_tmdb (Some "7") Examples.alpha
  /\ movie_has_imdb (Some "tt0000002") Examples.alpha.
Proof.
  split; [vm_compute; reflexivity|]. split; [|split].
  - exists 7. repeat split. lia.
  - intros (n & Hq & Hn & _). simpl in Hn. injection Hn as <-. discriminate Hq.
  - exists "tt0000002". repeat split. discriminate.
Qed.

(** ** Special episodes *)

Section Specials.

Variable settings : Settings.
Hypothesis ignore_on : ignore_special_episodes settings = true.



End Specials.

(** ** The sync executor *)

(** Unfolds the monads of the clients and of the handler. *)
Ltac run_unfold :=
  cbv [mbind mret Run_bind Run_ret Eff_bind Eff_ret lift get_db modify emit
       log_status run_raise request raise trace outcome fst snd].

Section Executor.

Variable env : Env.

Lemma set_status_found log_id new l db0 :
  sync_logs db0 !! log_id = Some l ->
  WebhookHandler.set_status log_id new db0
  = ({| events := [];
        status_writes := [{| sw_log_id := log_id; sw_old := Some (SyncLog.status l);
                             sw_new := new |}] |},
     Store.write_sync_log log_id
       (SyncLog.set_status new (SyncLog.error_message l) l) db0,
     Ok tt).
Proof.
  intros H. unfold WebhookHandler.set_status. run_unfold. rewrite H. reflexivity.
Qed.

Lemma set_error_message_found log_id err l db0 :
  sync_logs db0 !! log_id = Some l ->
  WebhookHandler.set_error_message log_id err db0
  = (no_journal,
     Store.write_sync_log log_id (SyncLog.set_status (SyncLog.status l) err l) db0,
     Ok tt).
Proof.
  intros H. unfold WebhookHandler.set_error_message. run_unfold. rewrite H.
  reflexivity.
Qed.

Lemma set_external_id_found log_id ext l db0 :
  sync_logs db0 !! log_id = Some l ->
  WebhookHandler.set_external_id log_id ext db0
  = (no_journal,
     Store.write_sync_log log_id (SyncLog.set_external_id (Some ext) l) db0, Ok tt).
Proof.
  intros H. unfold WebhookHandler.set_external_id. run_unfold. rewrite H.
  reflexivity.
Qed.

Lemma lookup_write_sync_log log_id l db0 :
  sync_logs (Store.write_sync_log log_id l db0) !! log_id = Some l.
Proof. unfold Store.write_sync_log. simpl. apply lookup_insert_eq. Qed.

Lemma lookup_put_sync_log l db0 :
  sync_logs (Store.put_sync_log l db0) !! SyncLog.id l = Some l.
Proof. apply lookup_write_sync_log. Qed.

Lemma set_is_monitored_sync_logs mapping b db0 :
  exists db1, WebhookHandler.set_is_monitored mapping b db0 = (no_journal, db1, Ok tt)
    /\ sync_logs db1 = sync_logs db0.
Proof. destruct mapping; eexists; split; reflexivity. Qed.

(** After the update the audit record is [COMPLETED] or [FAILED], by its
    outcome, and this is the one status assignment. *)
Lemma sync_and_record_ok media_item mapping should_monitor log_id l db0 t success :
  sync_logs db0 !! log_id = Some l ->
  WebhookHandler.perform_sync env media_item mapping should_monitor = (t, Ok success) ->
  exists db1 l1,
    WebhookHandler.sync_and_record env media_item mapping should_monitor log_id db0
    = ({| events := t;
          status_writes :=
            [{| sw_log_id := log_id; sw_old := Some (SyncLog.status l);
                sw_new := if success then SyncStatus.COMPLETED
                          else SyncStatus.FAILED |}] |},
       db1, Ok tt)
    /\ sync_logs db1 !! log_id = Some l1
    /\ SyncLog.status l1
       = (if success then SyncStatus.COMPLETED else SyncStatus.FAILED).
Proof.
  intros Hl Hsync.
  set (new := if success then SyncStatus.COMPLETED else SyncStatus.FAILED).
  set (l1 := SyncLog.set_status new (SyncLog.error_message l) l).
  set (l2 := SyncLog.set_external_id
               (Some (Py.str_of_int
                        match mapping with
                        | WebhookHandler.OfSonarr m => SonarrMapping.sonarr_series_id m
                        | WebhookHandler.OfRadarr m => RadarrMapping.radarr_movie_id m
                        end)) l1).
  set (db2 := Store.write_sync_log log_id l2 (Store.write_sync_log log_id l1 db0)).
  set (l3 := if success then l2
             else SyncLog.set_status (SyncLog.status l2)
                    (Some "Failed to update monitoring status") l2).
  set (db3 := if success then db2 else Store.write_sync_log log_id l3 db2).
  assert (H1 : sync_logs (Store.write_sync_log log_id l1 db0) !! log_id = Some l1)
    by apply lookup_write_sync_log.
  assert (H2 : sync_logs db2 !! log_id = Some l2) by apply lookup_write_sync_log.
  assert (H3 : sync_logs db3 !! log_id = Some l3).
  { unfold db3, l3. destruct success; [exact H2|apply lookup_write_sync_log]. }
  assert (Hst : SyncLog.status l3 = new).
  { unfold l3. destruct success; reflexivity. }
  destruct (set_is_monitored_sync_logs mapping should_monitor db3) as (db1 & Hm & Hlogs).
  exists db1, l3. split; [|rewrite Hlogs; split; assumption].
  unfold WebhookHandler.sync_and_record, run_try_except.
  unfold mbind at 1. unfold Run_bind at 1. unfold lift. rewrite Hsync.
  cbn [trace outcome fst snd].
  unfold mbind at 1. unfold Run_bind at 1. fold new.
  rewrite (set_status_found _ _ _ _ Hl). fold l1.
  unfold mbind at 1. unfold Run_bind at 1.
  rewrite (set_external_id_found _ _ _ _ H1). fold l2 db2.
  unfold mbind at 1. unfold Run_bind at 1.
  assert (Herr : (if negb success
                  then WebhookHandler.set_error_message log_id
                         (Some "Failed to update monitoring status")
                  else mret tt) db2 = (no_journal, db3, Ok tt)).
  { unfold db3, l3. destruct success; [reflexivity|].
    cbn [negb]. now rewrite (set_error_message_found _ _ _ _ H2). }
  rewrite Herr, Hm.
  unfold journal_app, no_journal. cbn. rewrite !app_nil_r. reflexivity.
Qed.

Lemma sync_and_record_success media_item mapping should_monitor log_id l db0 t :
  sync_logs db0 !! log_id = Some l ->
  WebhookHandler.perform_sync env media_item mapping should_monitor = (t, Ok true) ->
  exists db1 l1,
    WebhookHandler.sync_and_record env media_item mapping should_monitor log_id db0
    = ({| events := t;
          status_writes := [{| sw_log_id := log_id; sw_old := Some (SyncLog.status l);
                               sw_new := SyncStatus.COMPLETED |}] |},
       db1, Ok tt)
    /\ sync_logs db1 !! log_id = Some l1
    /\ SyncLog.status l1 = SyncStatus.COMPLETED.
Proof. intros Hl Hsync. exact (sync_and_record_ok _ _ _ _ _ _ _ true Hl Hsync). Qed.

Lemma _update_sync_log_new media_item should_monitor service original_log_id db0 :
  WebhookHandler._update_sync_log env media_item should_monitor service false
    original_log_id db0
  = ({| events := [];
        status_writes := [{| sw_log_id := next_sync_log_id db0; sw_old := None;
                             sw_new := SyncStatus.PROCESSING |}] |},
     Store.bump_sync_log_id
       (Store.put_sync_log (WebhookHandler.new_sync_log env media_item should_monitor service db0) db0),
     Ok (next_sync_log_id db0)).
Proof. reflexivity. Qed.

(** With a mapping in the store and an update that succeeds, the executor
    creates the audit record and leaves it [COMPLETED]; its requests are those
    of the update. *)
Lemma sync_with_sonarr_mapping media_item m should_monitor force original_log_id
  webhook_context db0 t :
  WebhookHandler.is_sonarr_type (MediaItem.media_type media_item) = true ->
  sonarr_mappings db0 !! MediaItem.id media_item = Some m ->
  WebhookHandler.perform_sync env media_item (WebhookHandler.OfSonarr m) should_monitor
  = (t, Ok true) ->
  exists db1 l1,
    WebhookHandler._sync_with_service env media_item should_monitor force false
      original_log_id webhook_context db0
    = ({| events := Db_select_mapping "Sonarr" (MediaItem.id media_item) :: t;
          status_writes :=
            [{| sw_log_id := next_sync_log_id db0; sw_old := None;
                sw_new := SyncStatus.PROCESSING |};
             {| sw_log_id := next_sync_log_id db0;
                sw_old := Some SyncStatus.PROCESSING;
                sw_new := SyncStatus.COMPLETED |}] |},
       db1, Ok tt)
    /\ sync_logs db1 !! next_sync_log_id db0 = Some l1
    /\ SyncLog.status l1 = SyncStatus.COMPLETED.
Proof.
  intros Htype Hmap Hsync.
  set (l0 := WebhookHandler.new_sync_log env media_item should_monitor (Py.lower "Sonarr") db0).
  set (db' := Store.bump_sync_log_id (Store.put_sync_log l0 db0)).
  assert (Hl0 : sync_logs db' !! next_sync_log_id db0 = Some l0).
  { apply (lookup_put_sync_log l0). }
  destruct (sync_and_record_success media_item (WebhookHandler.OfSonarr m)
              should_monitor (next_sync_log_id db0) l0 db' t Hl0 Hsync)
    as (db1 & l1 & Hrec & Hl1 & Hst).
  exists db1, l1. split; [|split; assumption].
  unfold WebhookHandler._sync_with_service, run_try_except,
    WebhookHandler.select_mapping, WebhookHandler.service_name_of.
  rewrite Htype.
  unfold mbind at 1. unfold Run_bind at 1.
  unfold mbind at 1. unfold Run_bind at 1. unfold emit at 1.
  unfold mbind at 1. unfold Run_bind at 1. unfold get_db at 1.
  rewrite Hmap. cbn [fmap option_fmap option_map mret Run_ret].
  unfold mbind at 1. unfold Run_bind at 1. unfold mret at 1. unfold Run_ret at 1.
  unfold mbind at 1. unfold Run_bind at 1.
  rewrite _update_sync_log_new. fold l0 db'. rewrite Hrec.
  unfold journal_app, no_journal. cbn. reflexivity.
Qed.

End Executor.

(** ** The status-change gate of the pipeline *)

Section Gate.

Variable env : Env.

(** The first block of the pipeline asks only Jellyfin. *)
Lemma watched_status_of_event_events webhook_data :
  existsb is_mapping_lookup (trace (WebhookHandler.watched_status_of_event env webhook_data))
  = false
  /\ existsb is_library_call (trace (WebhookHandler.watched_status_of_event env webhook_data))
     = false.
Proof.
  unfold WebhookHandler.watched_status_of_event.
  destruct (JsonDict.lookup webhook_data "jellyfin_id") as [jid|]; [|split; reflexivity].
  destruct (JsonDict.lookup webhook_data "user_id") as [uid|]; [|split; reflexivity].
  destruct (JsonDict.lookup webhook_data "is_watched") as [is_watched|].
  - destruct (WebhookHandler._normalize_media_type _); split; reflexivity.
  - run_unfold. unfold lift_result.
    destruct (GET_item _ _ _) as [item_data|e]; [|split; reflexivity].
    destruct (JellyfinItem.media_info_of item_data) as [[info|]|e];
      split; reflexivity.
Qed.

Lemma emit_first {A B} ev (m : Run A) (k : A -> Run B) (h : exn -> Run B) db0 :
  exists rest,
    events (fst (fst (run_try_except ((emit ev;; m) ≫= k) h db0))) = ev :: rest.
Proof.
  unfold run_try_except. run_unfold.
  destruct (m db0) as [[j d] [a|e]].
  - destruct (k a d) as [[j' d'] [b|e]]; [eexists; reflexivity|].
    destruct (is_Exception e); [|eexists; reflexivity].
    destruct (h e d') as [[j'' d''] r]. eexists; reflexivity.
  - destruct (is_Exception e); [|eexists; reflexivity].
    destruct (h e d) as [[j'' d''] r]. eexists; reflexivity.
Qed.

(** The executor starts with the mapping query. *)
Lemma sync_starts_with_mapping_lookup media_item should_monitor force is_retry
  original_log_id webhook_context db0 :
  exists rest,
    events (fst (fst (WebhookHandler._sync_with_service env media_item should_monitor
                        force is_retry original_log_id webhook_context db0)))
    = Db_select_mapping (WebhookHandler.service_name_of media_item)
                        (MediaItem.id media_item) :: rest.
Proof.
  unfold WebhookHandler._sync_with_service, WebhookHandler.select_mapping.
  apply emit_first.
Qed.

End Gate.

(** ** The processing cache *)

Section Dedup.

Variable env : Env.


Lemma release_keeps_others cache_key other (cache : gmap string Z) :
  cache_key <> other ->
  WebhookHandler.process_webhook_release cache_key cache !! other = cache !! other.
Proof. intros. now apply lookup_delete_ne. Qed.


Lemma arrive_consistent payload s :
  Interleaving.consistent s -> Interleaving.consistent (Interleaving.arrive env payload s).
Proof.
  intros [Hnd Hiff]. unfold Interleaving.arrive, WebhookHandler.process_webhook_enter.
  destruct (WebhookHandler.accepted_event payload) as [[[[k wd] r] id]|];
    [|split; assumption].
  destruct (Interleaving.cache s !! k) as [ts|] eqn:Ek; [split; assumption|].
  split; cbn [Interleaving.cache Interleaving.suspended].
  - constructor; [|exact Hnd]. intros Hin. apply Hiff in Hin as [ts Hts]. congruence.
  - intros k'. destruct (String.string_dec k k') as [<-|Hne].
    + rewrite lookup_insert_eq. split; [eauto|]. intros _. now left.
    + rewrite lookup_insert_ne by exact Hne. rewrite <- Hiff. cbn. intuition.
Qed.

Lemma finish_consistent cache_key s :
  Interleaving.consistent s -> Interleaving.consistent (Interleaving.finish cache_key s).
Proof.
  intros [Hnd Hiff]. unfold Interleaving.finish.
  split; cbn [Interleaving.cache Interleaving.suspended].
  - now apply List.NoDup_filter.
  - intros k'. rewrite List.filter_In, Hiff, negb_true_iff.
    unfold WebhookHandler.process_webhook_release.
    destruct (String.eqb_spec k' cache_key) as [->|Hne].
    + rewrite lookup_delete_eq. split; [intros [_ H]; discriminate|intros [x H]; discriminate].
    + rewrite lookup_delete_ne by congruence. intuition.
Qed.

(** However calls of [process_webhook] interleave, at most one pipeline runs
    for a cache key at a time, and the cache holds the keys of the running
    pipelines and no other. *)
Lemma one_pipeline_per_key s :
  rtc (Interleaving.step env) Interleaving.initial s -> Interleaving.consistent s.
Proof.
  intros Hreach. apply rtc_nsteps in Hreach as [n Hreach].
  revert s Hreach. induction n as [|n IH]; intros s Hreach.
  - inversion Hreach; subst. split; [constructor|].
    intros k. cbn. rewrite lookup_empty.
    split; [intros []|intros [x H]; discriminate].
  - apply nsteps_inv_r in Hreach as (s' & Hreach & Hstep).
    specialize (IH s' Hreach). destruct Hstep.
    + now apply arrive_consistent.
    + now apply finish_consistent.
Qed.

End Dedup.

(** ** The webhook endpoint *)

Section Endpoint.

Lemma token_rejected_iff webhook_token request :
  token_rejected webhook_token request = true <-> bad_token webhook_token request.
Proof.
  unfold token_rejected, bad_token. split.
  - intros H. apply andb_prop in H as [Ht Ha].
    destruct webhook_token as [token|]; [|discriminate].
    exists token. split; [reflexivity|]. split.
    { intros ->. discriminate. }
    intros Heq. rewrite Heq in Ha. cbn in Ha. rewrite String.eqb_refl in Ha.
    discriminate.
  - intros (token & -> & Hne & Hauth). cbn [Py.truthy_opt default id].
    rewrite (truthy_ne token Hne). cbn [andb].
    destruct (Main.Request.authorization request) as [a|]; [|reflexivity].
    cbn [default id]. destruct (String.eqb_spec a ("Bearer " +:+ token)) as [->|_].
    + contradiction.
    + now rewrite orb_true_r.
Qed.

Lemma rejected_response webhook_token request :
  token_rejected webhook_token request = true ->
  Main.jellyfin_webhook webhook_token request
  = (Main.HTTPError 401 "Invalid webhook token", []).
Proof.
  intros H. unfold Main.jellyfin_webhook, Main.jellyfin_webhook_body.
  fold (token_rejected webhook_token request). now rewrite H.
Qed.

Lemma accepted_response webhook_token request :
  token_rejected webhook_token request = false ->
  Main.jellyfin_webhook webhook_token request = after_token_check request.
Proof.
  intros H. unfold after_token_check, Main.jellyfin_webhook, Main.jellyfin_webhook_body.
  fold (token_rejected webhook_token request). rewrite H. reflexivity.
Qed.

Lemma after_token_check_not_401 request :
  Main.status_code_of (fst (after_token_check request)) <> 401.
Proof.
  unfold after_token_check, Main.jellyfin_webhook, Main.jellyfin_webhook_body.
  cbn [Py.truthy_opt andb].
  destruct (Main.Request.body request) as [| | |payload] eqn:Eb;
    try (cbn; discriminate);
    unfold Main.parse_payload;
    destruct (Py.contains _ _); cbn; try discriminate.
  all: destruct (match payload with JObj m => Main.all_strings_empty m | _ => false end);
    cbn; discriminate.
Qed.

(** C10. With no token configured the endpoint does not look at the
    Authorization header: the response is the same whatever the header is,
    and it is never a 401.  In general the response is a 401 exactly when a
    (non-empty) token is configured and the header is not ["Bearer <token>"]. *)
Theorem no_token_no_authentication :
  (forall request auth,
     Main.jellyfin_webhook None (with_authorization auth request)
     = Main.jellyfin_webhook None request
     /\ Main.status_code_of (fst (Main.jellyfin_webhook None request)) <> 401)
  /\ (forall webhook_token request,
        Main.status_code_of (fst (Main.jellyfin_webhook webhook_token request)) = 401
        <-> bad_token webhook_token request).
Proof.
  split.
  - intros request auth. split; [reflexivity|]. apply after_token_check_not_401.
  - intros webhook_token request. rewrite <- token_rejected_iff.
    destruct (token_rejected webhook_token request) eqn:E.
    + rewrite (rejected_response _ _ E). split; reflexivity.
    + rewrite (accepted_response _ _ E). split; [|discriminate].
      intros H. now apply after_token_check_not_401 in H.
Qed.

(** C7, as the code has it.  A bad or missing token is answered 401.  Past
    the token test: an empty body and an empty template are answered 200 with
    an accepted-but-ignored message and nothing is queued; any other parsed
    payload is queued and answered 200 with the queued message; a body that is
    not declared [application/json], decodes as UTF-8 and does not parse as
    JSON is answered 422. *)
Theorem webhook_response_codes webhook_token request :
  (bad_token webhook_token request ->
   Main.jellyfin_webhook webhook_token request
   = (Main.HTTPError 401 "Invalid webhook token", []))
  /\ (~ bad_token webhook_token request ->
      (Main.Request.body request = Main.EmptyBody ->
       Main.jellyfin_webhook webhook_token request
       = (Main.Returned "accepted"
            "Empty webhook body received - check Jellyfin configuration", []))
      /\ (forall payload,
           Main.Request.body request = Main.JsonText payload ->
           empty_template payload = true ->
           Main.jellyfin_webhook webhook_token request
           = (Main.Returned "accepted"
                "Empty template data - check Jellyfin webhook configuration", []))
      /\ (forall payload,
           Main.Request.body request = Main.JsonText payload ->
           empty_template payload = false ->
           Main.jellyfin_webhook webhook_token request
           = (Main.Returned "accepted" "Webhook received and queued for processing",
              queued payload)
           /\ Main.status_code_of (fst (Main.jellyfin_webhook webhook_token request))
              = 200)
      /\ (Main.Request.body request = Main.NotJson ->
          declared_json request = false ->
          Main.jellyfin_webhook webhook_token request
          = (Main.HTTPError 422 "Invalid JSON payload", []))).
Proof.
  split.
  - intros Hbad. apply rejected_response. now apply token_rejected_iff.
  - intros Hok.
    assert (E : token_rejected webhook_token request = false).
    { destruct (token_rejected webhook_token request) eqn:E; [|reflexivity].
      apply token_rejected_iff in E. contradiction. }
    rewrite (accepted_response _ _ E).
    unfold after_token_check, Main.jellyfin_webhook, Main.jellyfin_webhook_body,
      declared_json, empty_template.
    cbn [Py.truthy_opt andb].
    split; [|split; [|split]].
    + intros ->. reflexivity.
    + intros payload -> Hempty. unfold Main.parse_payload.
      destruct (Py.contains _ _); cbn; now rewrite Hempty.
    + intros payload -> Hfull. unfold Main.parse_payload.
      destruct (Py.contains _ _); cbn; rewrite Hfull; split; reflexivity.
    + intros -> Hdecl. unfold Main.parse_payload. rewrite Hdecl. reflexivity.
Qed.

End Endpoint.

(** ** Status transitions of the audit records *)

Section Transitions.

Variable P : StatusWrite -> Prop.

Lemma writes_ret {A} (a : A) (Post : A -> Db -> Prop) PostE :
  writes P (Post a) (mret a) Post PostE.
Proof. intros db0 H. cbn. split; [constructor|exact H]. Qed.

Lemma writes_bind {A B} Pre (m : Run A) Mid (k : A -> Run B) Post PostE :
  writes P Pre m Mid PostE ->
  (forall a, writes P (Mid a) (k a) Post PostE) ->
  writes P Pre (m ≫= k) Post PostE.
Proof.
  intros Hm Hk db0 Hpre. specialize (Hm db0 Hpre).
  unfold mbind, Run_bind. destruct (m db0) as [[j db1] [a|e]].
  - destruct Hm as [Hj Hmid]. specialize (Hk a db1 Hmid).
    destruct (k a db1) as [[j' db2] [b|e]]; destruct Hk as [Hj' Hpost];
      (split; [apply Forall_app; split; assumption|assumption]).
  - exact Hm.
Qed.

Lemma writes_weaken {A} (Pre Pre' : Db -> Prop) (m : Run A)
  (Post Post' : A -> Db -> Prop) (PostE PostE' : exn -> Db -> Prop) :
  writes P Pre m Post PostE ->
  (forall db0, Pre' db0 -> Pre db0) ->
  (forall a db0, Post a db0 -> Post' a db0) ->
  (forall e db0, PostE e db0 -> PostE' e db0) ->
  writes P Pre' m Post' PostE'.
Proof.
  intros Hm Hpre Hpost HpostE db0 H. specialize (Hm db0 (Hpre db0 H)).
  destruct (m db0) as [[j db1] [a|e]]; destruct Hm; split; auto.
Qed.

Lemma writes_lift {A} (Pre : Db -> Prop) (m : Eff A) :
  writes P Pre (lift m) (fun _ => Pre) (fun _ => Pre).
Proof.
  intros db0 H. unfold lift. destruct (outcome m); split; (constructor || exact H).
Qed.

Lemma writes_get_db (Pre : Db -> Prop) PostE :
  writes P Pre get_db (fun db1 db2 => db1 = db2 /\ Pre db2) PostE.
Proof. intros db0 H. cbn. split; [constructor|auto]. Qed.

Lemma writes_modify (f : Db -> Db) (Post : unit -> Db -> Prop) PostE :
  writes P (fun db0 => Post tt (f db0)) (modify f) Post PostE.
Proof. intros db0 H. cbn. split; [constructor|exact H]. Qed.

Lemma writes_emit ev (Pre : Db -> Prop) PostE :
  writes P Pre (emit ev) (fun _ => Pre) PostE.
Proof. intros db0 H. cbn. split; [constructor|exact H]. Qed.

Lemma writes_log_status w (Pre : Db -> Prop) PostE :
  P w -> writes P Pre (log_status w) (fun _ => Pre) PostE.
Proof. intros Hw db0 H. cbn. split; [repeat constructor; exact Hw|exact H]. Qed.

Lemma writes_try_except {A} Pre (body : Run A) (handler : exn -> Run A)
  Post (Caught PostE : exn -> Db -> Prop) :
  writes P Pre body Post Caught ->
  (forall e, is_Exception e = true -> writes P (Caught e) (handler e) Post PostE) ->
  (forall e db0, is_Exception e = false -> Caught e db0 -> PostE e db0) ->
  writes P Pre (run_try_except body handler) Post PostE.
Proof.
  intros Hb Hh Hpass db0 Hpre. specialize (Hb db0 Hpre). unfold run_try_except.
  destruct (body db0) as [[j db1] [a|e]]; [exact Hb|].
  destruct Hb as [Hj Hc]. destruct (is_Exception e) eqn:E.
  - specialize (Hh e E db1 Hc).
    destruct (handler e db1) as [[j' db2] [a|e']]; destruct Hh as [Hj' Hp];
      (split; [apply Forall_app; split; assumption|assumption]).
  - split; [exact Hj|]. now apply Hpass.
Qed.

End Transitions.

Section ExecutorTransitions.

Variable env : Env.
Variable P : StatusWrite -> Prop.

Lemma writes_set_status log_id new (Old : SyncStatus.t -> Prop) :
  (forall s, Old s ->
     P {| sw_log_id := log_id; sw_old := Some s; sw_new := new |}) ->
  writes P (fun db0 => exists l, sync_logs db0 !! log_id = Some l
                                 /\ Old (SyncLog.status l))
         (WebhookHandler.set_status log_id new)
         (fun _ => has_status log_id new) (fun _ _ => False).
Proof.
  intros HP db0 (l & Hl & Hold). rewrite (set_status_found _ _ _ _ Hl).
  split; [repeat constructor; now apply HP|].
  eexists. split; [apply lookup_write_sync_log|reflexivity].
Qed.

Lemma writes_set_error_message log_id err s :
  writes P (has_status log_id s) (WebhookHandler.set_error_message log_id err)
         (fun _ => has_status log_id s) (fun _ _ => False).
Proof.
  intros db0 (l & Hl & Hs). rewrite (set_error_message_found _ _ _ _ Hl).
  split; [constructor|].
  eexists. split; [apply lookup_write_sync_log|exact Hs].
Qed.

Lemma writes_set_external_id log_id ext s :
  writes P (has_status log_id s) (WebhookHandler.set_external_id log_id ext)
         (fun _ => has_status log_id s) (fun _ _ => False).
Proof.
  intros db0 (l & Hl & Hs). rewrite (set_external_id_found _ _ _ _ Hl).
  split; [constructor|].
  eexists. split; [apply lookup_write_sync_log|exact Hs].
Qed.

Lemma writes_set_is_monitored mapping b (Pre : Db -> Prop) :
  writes P Pre (WebhookHandler.set_is_monitored mapping b)
         (fun _ _ => True) (fun _ _ => False).
Proof.
  intros db0 _. destruct (set_is_monitored_sync_logs mapping b db0) as (db1 & -> & _).
  split; [constructor|exact I].
Qed.

Hypothesis P_finishes : forall w, finishes w -> P w.

Lemma writes_close log_id new (PostE : exn -> Db -> Prop) :
  new = SyncStatus.COMPLETED \/ new = SyncStatus.FAILED ->
  writes P (has_status log_id SyncStatus.PROCESSING)
         (WebhookHandler.set_status log_id new)
         (fun _ => has_status log_id new) PostE.
Proof.
  intros Hnew. eapply writes_weaken.
  - apply (writes_set_status log_id new (fun s => s = SyncStatus.PROCESSING)).
    intros s ->. apply P_finishes. split; [reflexivity|exact Hnew].
  - intros db0 H. exact H.
  - intros a db0 H. exact H.
  - intros e db0 [].
Qed.

Lemma writes_sync_and_record media_item mapping should_monitor log_id :
  writes P (has_status log_id SyncStatus.PROCESSING)
         (WebhookHandler.sync_and_record env media_item mapping should_monitor log_id)
         (fun _ _ => True) (fun _ _ => True).
Proof.
  unfold WebhookHandler.sync_and_record.
  apply (writes_try_except P _ _ _ _
           (fun _ => has_status log_id SyncStatus.PROCESSING)).
  - eapply writes_bind; [apply writes_lift|]. intros success. cbv beta.
    set (new := if success then SyncStatus.COMPLETED else SyncStatus.FAILED).
    assert (Hnew : new = SyncStatus.COMPLETED \/ new = SyncStatus.FAILED)
      by (unfold new; destruct success; auto).
    eapply writes_bind; [apply (writes_close log_id new _ Hnew)|]. intros ?.
    eapply writes_bind.
    { eapply writes_weaken; [apply (writes_set_external_id log_id _ new)|..];
        [auto|intros ? ? H; exact H|intros ? ? []]. }
    intros ?. eapply writes_bind.
    { instantiate (1 := fun _ _ => True). destruct success; cbn [negb].
      - intros db0 _. cbn. split; [constructor|exact I].
      - eapply writes_weaken; [apply (writes_set_error_message log_id _ new)|..];
          [auto|auto|intros ? ? []]. }
    intros ?. eapply writes_weaken; [apply writes_set_is_monitored|..];
      [intros ? H; exact H|auto|intros ? ? []].
  - intros e ?. eapply writes_bind.
    + apply (writes_close log_id SyncStatus.FAILED). now right.
    + intros ?. eapply writes_weaken;
        [apply (writes_set_error_message log_id _ SyncStatus.FAILED)|..];
        [auto|auto|intros ? ? []].
  - auto.
Qed.

Lemma writes_no_status {A} (m : Run A) :
  (forall db0, status_writes (fst (fst (m db0))) = []) ->
  writes P (fun _ => True) m (fun _ _ => True) (fun _ _ => True).
Proof.
  intros H db0 _. specialize (H db0).
  destruct (m db0) as [[j db1] [a|e]]; cbn in H; rewrite H; split; (constructor || exact I).
Qed.

Lemma writes_ret_true {A} (a : A) :
  writes P (fun _ => True) (mret a) (fun _ _ => True) (fun _ _ => True).
Proof. intros db0 _. cbn. split; [constructor|exact I]. Qed.

Lemma select_mapping_no_status media_item db0 :
  status_writes (fst (fst (WebhookHandler.select_mapping media_item db0))) = [].
Proof. reflexivity. Qed.

Lemma create_mapping_no_status media_item webhook_context db0 :
  status_writes (fst (fst (WebhookHandler.create_mapping env media_item
                             webhook_context db0))) = [].
Proof.
  unfold WebhookHandler.create_mapping.
  destruct (WebhookHandler.is_sonarr_type _).
  - run_unfold.
    destruct (WebhookHandler._find_sonarr_series _ _ _) as [t [[series|]|e]];
      try reflexivity.
    destruct (String.eqb _ _); [|reflexivity].
    destruct (SonarrClient.search_episode _ _ _ _) as [t' [[episode|]|e]];
      reflexivity.
  - run_unfold.
    destruct (WebhookHandler._find_radarr_movie _ _ _) as [t [[movie|]|e]];
      reflexivity.
Qed.

Variables (is_retry : bool) (original_log_id : Json).
Hypothesis P_marks : forall w, marks_processing env is_retry original_log_id w -> P w.

(** The record that the [if is_retry and original_log_id:] block finds is in
    the store, under the key that [original_log_id] selects. *)
Lemma original_log_found db0 log_id :
  WebhookHandler.original_log env is_retry original_log_id db0 = Ok (Some log_id) ->
  is_retry = true /\ PyValue.truthy original_log_id = true
  /\ WebhookHandler.log_key env original_log_id = Ok (Some log_id)
  /\ is_Some (sync_logs db0 !! log_id).
Proof.
  unfold WebhookHandler.original_log.
  destruct (is_retry && PyValue.truthy original_log_id)%bool eqn:E; [|discriminate].
  apply andb_prop in E as [Hr Ht].
  destruct (WebhookHandler.log_key env original_log_id) as [[k|]|e]; try discriminate.
  destruct (sync_logs db0 !! k) as [l|] eqn:El; [|discriminate].
  intros [= <-]. rewrite El. eauto.
Qed.

Lemma writes_update_sync_log media_item should_monitor service :
  writes P (fun _ => True)
         (WebhookHandler._update_sync_log env media_item should_monitor service
            is_retry original_log_id)
         (fun log_id => has_status log_id SyncStatus.PROCESSING) (fun _ _ => True).
Proof.
  intros db0 _. unfold WebhookHandler._update_sync_log.
  unfold mbind at 1. unfold Run_bind at 1. unfold get_db at 1.
  destruct (WebhookHandler.original_log env is_retry original_log_id db0)
    as [[log_id|]|e] eqn:E.
  - apply original_log_found in E as (Hr & Ht & Hk & [l El]).
    unfold mbind at 1. unfold Run_bind at 1. rewrite (set_status_found _ _ _ _ El).
    unfold mbind at 1. unfold Run_bind at 1.
    erewrite set_error_message_found by apply lookup_write_sync_log.
    cbn. split.
    + repeat constructor. apply P_marks. split; [reflexivity|]. right. auto.
    + eexists. split; [apply lookup_write_sync_log|reflexivity].
  - cbn. split.
    + repeat constructor. apply P_marks. split; [reflexivity|]. now left.
    + eexists. split; [apply lookup_insert_eq|reflexivity].
  - cbn. split; [constructor|exact I].
Qed.

Lemma writes_sync_with_service media_item should_monitor force webhook_context :
  writes P (fun _ => True)
         (WebhookHandler._sync_with_service env media_item should_monitor force
            is_retry original_log_id webhook_context)
         (fun _ _ => True) (fun _ _ => True).
Proof.
  unfold WebhookHandler._sync_with_service.
  apply (writes_try_except P _ _ _ _ (fun _ _ => True)); [|intros; apply writes_ret_true|auto].
  eapply writes_bind.
  { apply writes_no_status. apply select_mapping_no_status. }
  intros mapping. eapply writes_bind.
  { instantiate (1 := fun _ _ => True). destruct mapping.
    - apply writes_ret_true.
    - apply writes_no_status. apply create_mapping_no_status. }
  intros [mapping'|]; [|apply writes_ret_true].
  eapply writes_bind; [apply writes_update_sync_log|].
  intros log_id. apply writes_sync_and_record.
Qed.

End ExecutorTransitions.

Section RetryTransitions.

Lemma Forall_sql_limit {A} (P : A -> Prop) limit rows :
  Forall P rows -> Forall P (Store.sql_limit limit rows).
Proof.
  intros H. unfold Store.sql_limit. destruct (limit <? 0); [exact H|].
  now apply Forall_take.
Qed.

Lemma status_eqb_eq a b : SyncStatus.eqb a b = true <-> a = b.
Proof. destruct a, b; cbn; split; congruence. Qed.

Lemma retry_sync_action_writes log_id force db0 w :
  In w (fst (fst (fst (Main.retry_sync_action log_id force db0)))) ->
  sw_new w = SyncStatus.PROCESSING ->
  sw_old w = Some SyncStatus.FAILED \/ sw_old w = Some SyncStatus.PENDING
  \/ (sw_old w = Some SyncStatus.COMPLETED /\ force = true).
Proof.
  unfold Main.retry_sync_action.
  destruct (sync_logs db0 !! log_id) as [log|]; [|intros []].
  destruct (SyncLog.status log) eqn:Es; destruct force; cbn;
    try (intros []);
    destruct (media_items db0 !! SyncLog.media_item_id log); cbn;
    intros [<-|[]]; cbn; rewrite ?Es; intros; try discriminate; auto.
Qed.

Lemma retry_completed_without_force log_id db0 log :
  sync_logs db0 !! log_id = Some log ->
  SyncLog.status log = SyncStatus.COMPLETED ->
  Main.retry_sync_action log_id false db0
  = ([], db0,
     Main.HTTPError 400 "Cannot retry completed sync. Use force=true to override.", []).
Proof.
  intros Hl Hs. unfold Main.retry_sync_action. rewrite Hl, Hs. reflexivity.
Qed.

Lemma retry_rows_writes rows : forall db0 w,
  Forall (fun row => SyncLog.status (snd row) = SyncStatus.FAILED) rows ->
  In w (fst (fst (Main.retry_rows rows db0))) ->
  sw_old w = Some SyncStatus.FAILED /\ sw_new w = SyncStatus.PROCESSING.
Proof.
  induction rows as [|[log_id log] rows IH]; intros db0 w Hrows Hin; [destruct Hin|].
  inversion Hrows as [|? ? Hs Hrest]; subst. cbn in Hs. cbn [Main.retry_rows] in Hin.
  destruct (media_items db0 !! SyncLog.media_item_id log); [|eauto].
  unfold Main.write_status in Hin.
  destruct (Main.retry_rows rows _) as [[ws db2] tasks] eqn:Er.
  cbn in Hin. destruct Hin as [<-|Hin].
  - cbn. rewrite Hs. auto.
  - eapply IH; [exact Hrest|]. rewrite Er. exact Hin.
Qed.

Lemma retry_failed_syncs_writes now limit hours_back db0 w :
  In w (fst (fst (fst (Main.retry_failed_syncs now limit hours_back db0)))) ->
  sw_old w = Some SyncStatus.FAILED /\ sw_new w = SyncStatus.PROCESSING.
Proof.
  unfold Main.retry_failed_syncs.
  set (rows := Store.sql_limit _ _).
  assert (Hrows : Forall (fun row => SyncLog.status (snd row) = SyncStatus.FAILED) rows).
  { unfold rows. apply Forall_sql_limit. apply List.Forall_forall. intros row Hin.
    apply List.filter_In in Hin as [_ Hf]. apply andb_prop in Hf as [Hf _].
    now apply status_eqb_eq in Hf. }
  destruct rows as [|row rows']; [intros []|].
  destruct (Main.retry_rows (row :: rows') db0) as [[ws db1] tasks] eqn:Er.
  cbn. intros Hin. eapply retry_rows_writes; [exact Hrows|]. rewrite Er. exact Hin.
Qed.

End RetryTransitions.

(** ** Title normalisation and articles *)

Lemma title_words_pre title : title_words title = map Py.str (pre_words title).
Proof.
  unfold title_words, Py.split, strip_punctuation, Py.lower, pre_words.
  now rewrite !chars_str.
Qed.

Lemma split_clean_title_words title :
  Py.split (_clean_title title)
  = match List.filter not_common (title_words title) with
    | [] => title_words title
    | cleaned_words => cleaned_words
    end.
Proof.
  unfold Py.split at 1. rewrite split_clean_title, title_words_pre, filter_map_comm.
  fold nc. unfold kept_words. now destruct (List.filter nc (pre_words title)).
Qed.

Lemma not_common_spec w : not_common w = true <-> ~ In w common_words.
Proof.
  unfold not_common, Py.str_in_list. rewrite negb_true_iff. split.
  - intros H Hin. assert (Ht : existsb (String.eqb w) common_words = true).
    { apply existsb_exists. exists w. split; [exact Hin|apply String.eqb_refl]. }
    congruence.
  - intros H. destruct (existsb (String.eqb w) common_words) eqn:E; [|reflexivity].
    apply existsb_exists in E as (x & Hin & Heq). apply String.eqb_eq in Heq.
    subst x. contradiction.
Qed.

(** C8, as the code has it.  When a title has a word that is not an article,
    the words of its normalisation are its words (lower-cased, punctuation
    stripped) without the articles "the", "a" and "an", wherever they stand:
    no article is left, leading or interior. *)
Theorem clean_title_drops_articles_everywhere (title : string) :
  List.filter not_common (title_words title) <> [] ->
  Py.split (_clean_title title) = List.filter not_common (title_words title)
  /\ forall w, In w (Py.split (_clean_title title)) -> ~ In w common_words.
Proof.
  intros Hne.
  assert (Heq : Py.split (_clean_title title)
                = List.filter not_common (title_words title)).
  { rewrite split_clean_title_words.
    destruct (List.filter not_common (title_words title)); [congruence|reflexivity]. }
  split; [exact Heq|]. intros w Hin. rewrite Heq in Hin.
  apply List.filter_In in Hin as [_ Hnc]. now apply not_common_spec.
Qed.

(** A title made of articles only keeps all its words. *)
Lemma clean_title_keeps_only_articles (title : string) :
  List.filter not_common (title_words title) = [] ->
  Py.split (_clean_title title) = title_words title.
Proof. intros H. now rewrite split_clean_title_words, H. Qed.

Lemma clean_title_drops_articles_witness :
  Py.split (_clean_title "Lord of the Rings") = ["lord"; "of"; "rings"]
  /\ forall w, In w (Py.split (_clean_title "Lord of the Rings")) ->
               ~ In w common_words.
Proof.
  apply (clean_title_drops_articles_everywhere "Lord of the Rings").
  vm_compute. discriminate.
Defined.

(** The interior "the" of "Lord of the Rings" is not kept. *)
Lemma interior_article_dropped :
  ~ interior_articles_preserved "Lord of the Rings".
Proof.
  intros H. specialize (H "the").
  assert (Hin : In "the" (Py.split (_clean_title "Lord of the Rings"))).
  { apply H; vm_compute; auto. }
  vm_compute in Hin. intuition discriminate.
Qed.

(** ** The properties on the small installation *)


(** The whole pipeline on [played], whose flag is the stored one: without
    force only the settle delay happens. *)
Example played_again_is_skipped :
  fst (fst (WebhookHandler.process_webhook Examples.env0 Examples.played false Examples.handler0))
  = {| events := [Sleep 5]; status_writes := [] |}.
Proof. vm_compute. reflexivity. Qed.

(** With force the special episode is synchronised: the mapping is read, the
    episode is fetched, no PUT is sent, and a new audit record is completed. *)
Example played_again_forced :
  fst (fst (WebhookHandler.process_webhook Examples.env0 Examples.played true Examples.handler0))
  = {| events := [Sleep 5; Db_select_mapping "Sonarr" 1; Sonarr_GET_episode_id 42];
       status_writes :=
         [{| sw_log_id := 2; sw_old := None; sw_new := SyncStatus.PROCESSING |};
          {| sw_log_id := 2; sw_old := Some SyncStatus.PROCESSING;
             sw_new := SyncStatus.COMPLETED |}] |}.
Proof. vm_compute. reflexivity. Qed.


Lemma delivery_token_ok : ~ bad_token (Some "secret") Examples.delivery.
Proof. intros (token & Heq & _ & Hne). injection Heq as <-. now apply Hne. Qed.

(** Declared [application/json], a body that does not parse is answered 500:
    the name [json] of the [except] clause is not bound on that path. *)
Example garbled_json_is_answered_500 :
  Main.jellyfin_webhook (Some "secret") Examples.garbled
  = (Main.HTTPError 500 "Internal server error", []).
Proof. vm_compute. reflexivity. Qed.

(** The delivery of [played] is queued and answered 200. *)
Lemma queued_webhook_is_answered_200 :
  ~ queued_is_answered_202 (Some "secret") Examples.delivery.
Proof.
  intros H. assert (H202 : (200 : Z) = 202) by (apply H; vm_compute; discriminate).
  discriminate H202.
Qed.

Lemma webhook_response_codes_witness :
  Main.jellyfin_webhook (Some "secret") Examples.delivery
  = (Main.Returned "accepted" "Webhook received and queued for processing",
     queued Examples.played)
  /\ Main.status_code_of
       (fst (Main.jellyfin_webhook (Some "secret") Examples.delivery))
     = 200.
Proof.
  apply (proj1 (proj2 (proj2 (proj2 (webhook_response_codes (Some "secret")
                                       Examples.delivery)
                                    delivery_token_ok)))
           Examples.played eq_refl eq_refl).
Defined.

(* ================================================================= *)
(** * Further properties of the clients, the handler and the endpoints *)

(** ** Traces and outcomes of client computations *)

Section EffFacts.

Lemma trace_bind {A B} (m : Eff A) (k : A -> Eff B) :
  trace (m ≫= k)
  = trace m ++ match outcome m with Ok a => trace (k a) | Raise _ => [] end.
Proof.
  destruct m as [t [a|e]]; cbn.
  - destruct (k a); reflexivity.
  - now rewrite app_nil_r.
Qed.

Lemma outcome_bind {A B} (m : Eff A) (k : A -> Eff B) :
  outcome (m ≫= k)
  = match outcome m with Ok a => outcome (k a) | Raise e => Raise e end.
Proof.
  destruct m as [t [a|e]]; cbn; [|reflexivity]. destruct (k a); reflexivity.
Qed.

Lemma trace_try_except_ret {A} (m : Eff A) (x : A) :
  trace (try_except m (fun _ => mret x)) = trace m.
Proof.
  destruct m as [t [a|e]]; cbn; [reflexivity|].
  destruct (is_Exception e); cbn; [apply app_nil_r|reflexivity].
Qed.

Lemma outcome_try_except_ret {A} (m : Eff A) (x : A) :
  outcome (try_except m (fun _ => mret x))
  = match outcome m with
    | Ok a => Ok a
    | Raise e => if is_Exception e then Ok x else Raise e
    end.
Proof.
  destruct m as [t [a|e]]; cbn; [reflexivity|].
  destruct (is_Exception e); reflexivity.
Qed.

Lemma try_except_ret_no_exception {A} (m : Eff A) (x : A) :
  no_exception_escapes (try_except m (fun _ => mret x)).
Proof.
  intros e. rewrite outcome_try_except_ret.
  destruct (outcome m) as [a|e']; [discriminate|].
  destruct (is_Exception e') eqn:E; [discriminate|]. now intros [= <-].
Qed.

Lemma Forall_trace_bind {A B} (P : Event -> Prop) (m : Eff A) (k : A -> Eff B) :
  Forall P (trace m) -> (forall a, Forall P (trace (k a))) ->
  Forall P (trace (m ≫= k)).
Proof.
  intros Hm Hk. rewrite trace_bind. apply Forall_app. split; [exact Hm|].
  destruct (outcome m); [apply Hk|constructor].
Qed.

Lemma Forall_trace_request {A} (P : Event -> Prop) ev (answer : result A) :
  P ev -> Forall P (trace (request ev answer)).
Proof. intros H. repeat constructor. exact H. Qed.

Lemma Forall_trace_ret {A} (P : Event -> Prop) (a : A) :
  Forall P (trace (mret a : Eff A)).
Proof. constructor. Qed.

Lemma Forall_trace_raise {A} (P : Event -> Prop) e :
  Forall P (trace (raise e : Eff A)).
Proof. constructor. Qed.

End EffFacts.

(** ** The monitoring updates *)

Section Updates.

Lemma guarded_put_trace {A} get put (answer : result (option A)) (put_answer : result bool) :
  trace (try_except
           (x ← request get answer;
            match x with
            | None => mret false
            | Some _ => request put put_answer
            end)
           (fun _ => mret false))
  = get :: match answer with Ok (Some _) => [put] | _ => [] end.
Proof.
  rewrite trace_try_except_ret. destruct answer as [[a|]|e]; reflexivity.
Qed.

Lemma guarded_put_outcome {A} get put (answer : result (option A))
  (put_answer : result bool) :
  outcome (try_except
             (x ← request get answer;
              match x with
              | None => mret false
              | Some _ => request put put_answer
              end)
             (fun _ => mret false)) = Ok true
  <-> (exists a, answer = Ok (Some a)) /\ put_answer = Ok true.
Proof.
  rewrite outcome_try_except_ret.
  destruct answer as [[a|]|e]; cbn.
  - destruct put_answer as [[]|e]; cbn; try destruct (is_Exception e);
      split; try discriminate; try (intros [_ H]; discriminate); eauto.
  - split; [discriminate|]. intros [[a H] _]. discriminate.
  - destruct (is_Exception e); split; try discriminate;
      intros [[a H] _]; discriminate.
Qed.

(** X1. [update_series_monitoring] and [update_movie_monitoring] let no
    [Exception] through; they report success exactly when the entity was
    found and the PUT was answered with a body; and they issue the PUT only
    after a GET that found the entity. *)
Theorem plain_updates_swallow_failures :
  (forall api series_id monitored,
     let update := SonarrClient.update_series_monitoring api series_id monitored in
     no_exception_escapes update
     /\ (outcome update = Ok true
         <-> (exists s, GET_series_id api series_id = Ok (Some s))
             /\ PUT_series_id api series_id monitored = Ok true)
     /\ trace update
        = Sonarr_GET_series_id series_id
          :: match GET_series_id api series_id with
             | Ok (Some _) => [Sonarr_PUT_series_id series_id monitored]
             | _ => []
             end)
  /\ (forall api movie_id monitored,
        let update := RadarrClient.update_movie_monitoring api movie_id monitored in
        no_exception_escapes update
        /\ (outcome update = Ok true
            <-> (exists m, GET_movie_id api movie_id = Ok (Some m))
                /\ PUT_movie_id api movie_id monitored = Ok true)
        /\ trace update
           = Radarr_GET_movie_id movie_id
             :: match GET_movie_id api movie_id with
                | Ok (Some _) => [Radarr_PUT_movie_id movie_id monitored]
                | _ => []
                end).
Proof.
  split; intros api id0 monitored; cbv zeta.
  - unfold SonarrClient.update_series_monitoring, SonarrClient.get_series_by_id.
    split; [apply try_except_ret_no_exception|].
    split; [apply guarded_put_outcome|apply guarded_put_trace].
  - unfold RadarrClient.update_movie_monitoring, RadarrClient.get_movie_by_id.
    split; [apply try_except_ret_no_exception|].
    split; [apply guarded_put_outcome|apply guarded_put_trace].
Qed.

Lemma update_episode_trace settings api episode_id monitored :
  Forall (fun ev => ev = Sonarr_GET_episode_id episode_id
                    \/ ev = Sonarr_PUT_episode_id episode_id monitored)
         (trace (SonarrClient.update_episode_monitoring settings api
                   episode_id monitored)).
Proof.
  unfold SonarrClient.update_episode_monitoring, SonarrClient.get_episode_by_id.
  rewrite trace_try_except_ret.
  apply Forall_trace_bind; [apply Forall_trace_request; now left|].
  intros [episode|]; [|constructor].
  destruct (_ && _)%bool; [constructor|].
  apply Forall_trace_request. now right.
Qed.

Lemma fallback_count_trace settings api monitored ids : forall season_episodes,
  (forall ep, In ep season_episodes -> In (Episode.id ep) ids) ->
  Forall (touches_only ids monitored)
         (trace (SonarrClient.fallback_count settings api season_episodes monitored)).
Proof.
  induction season_episodes as [|ep rest IH]; intros Hids; [constructor|].
  cbn [SonarrClient.fallback_count].
  apply Forall_trace_bind.
  - eapply List.Forall_impl; [|apply update_episode_trace].
    intros ev [->| ->]; cbn; [exact I|]. split; [|reflexivity].
    apply Hids. now left.
  - intros ok. apply Forall_trace_bind; [|intros n; constructor].
    apply IH. intros ep' Hin. apply Hids. now right.
Qed.

Lemma get_episodes_all api series_id episodes :
  GET_episode api series_id = Ok episodes ->
  SonarrClient.get_episodes_for_series api series_id true
  = ([Sonarr_GET_episode series_id], Ok episodes).
Proof.
  intros Hget. unfold SonarrClient.get_episodes_for_series, request.
  rewrite Hget. reflexivity.
Qed.

(** X2. Given the episodes that Sonarr lists for a series, a season update
    changes monitoring only through the bulk update of exactly the episodes of
    that season, or through the update of one of them, and always with the
    flag it was given: no episode of another season and no series is
    touched, however the requests are answered. *)
Theorem season_update_touches_only_its_season
  settings api series_id season_number monitored episodes :
  GET_episode api series_id = Ok episodes ->
  Forall (touches_only (season_ids season_number episodes) monitored)
         (trace (SonarrClient.update_season_monitoring settings api series_id
                   season_number monitored)).
Proof.
  intros Hget. unfold SonarrClient.update_season_monitoring.
  rewrite trace_try_except_ret.
  destruct (_ && _)%bool; [constructor|].
  rewrite (get_episodes_all _ _ _ Hget). cbn [mbind Eff_bind].
  fold (season_of season_number episodes).
  fold (season_ids season_number episodes).
  set (season_episodes := season_of season_number episodes).
  assert (Hids : forall ep, In ep season_episodes ->
                            In (Episode.id ep) (season_ids season_number episodes)).
  { intros ep Hin. unfold season_ids. apply List.in_map. exact Hin. }
  assert (Hrest :
    Forall (touches_only (season_ids season_number episodes) monitored)
      (trace (match season_episodes with
              | [] => mret false
              | _ :: _ =>
                  success ← SonarrClient.bulk_update_episode_monitoring api
                              (season_ids season_number episodes) monitored;
                  if success : bool then mret true
                  else SonarrClient._fallback_season_monitoring settings api
                         season_episodes monitored
              end))).
  { destruct season_episodes as [|ep0 rest] eqn:Es; [constructor|].
    rewrite <- Es in *. apply Forall_trace_bind.
    - unfold SonarrClient.bulk_update_episode_monitoring.
      rewrite trace_try_except_ret. apply Forall_trace_request.
      split; reflexivity.
    - intros [|]; [constructor|].
      unfold SonarrClient._fallback_season_monitoring.
      apply Forall_trace_bind; [|intros n; constructor].
      apply fallback_count_trace. exact Hids. }
  destruct (match season_episodes with [] => _ | _ :: _ => _ end) as [t r].
  cbn in Hrest |- *. constructor; [exact I|exact Hrest].
Qed.

Lemma fallback_count_outcome settings api monitored : forall season_episodes,
  Forall (fun ep => completes (SonarrClient.update_episode_monitoring settings api
                                 (Episode.id ep) monitored)) season_episodes ->
  exists n,
    outcome (SonarrClient.fallback_count settings api season_episodes monitored) = Ok n
    /\ 0 <= n
    /\ (0 <? n) = existsb (episode_updated settings api monitored) season_episodes.
Proof.
  induction season_episodes as [|ep rest IH]; intros Hall.
  - exists 0. repeat split; reflexivity || lia.
  - inversion Hall as [|? ? [ok Hok] Hrest]; subst.
    destruct (IH Hrest) as (n & Hn & Hpos & Hex).
    cbn [SonarrClient.fallback_count existsb]. unfold episode_updated at 1.
    rewrite outcome_bind, Hok, outcome_bind, Hn. cbn [outcome snd mret Eff_ret].
    exists (if ok then 1 + n else n). split; [reflexivity|].
    destruct ok; cbn [orb]; (split; [lia|]).
    + destruct (Z.ltb_spec 0 (1 + n)); [reflexivity|lia].
    + exact Hex.
Qed.

(** X3. When the bulk endpoint fails or answers with no body, the season
    update falls back on the episodes of the season one by one, and reports
    success exactly when at least one of them was updated. *)
Theorem season_update_falls_back
  settings api series_id season_number monitored episodes :
  (SonarrClient.opt_Z_eqb season_number (Some 0)
   && ignore_special_episodes settings)%bool = false ->
  GET_episode api series_id = Ok episodes ->
  season_of season_number episodes <> [] ->
  bulk_update_failed api (season_ids season_number episodes) monitored ->
  Forall (fun ep => completes (SonarrClient.update_episode_monitoring settings api
                                 (Episode.id ep) monitored))
         (season_of season_number episodes) ->
  outcome (SonarrClient.update_season_monitoring settings api series_id
             season_number monitored)
  = Ok (existsb (episode_updated settings api monitored)
                (season_of season_number episodes)).
Proof.
  intros Hspecial Hget Hne Hbulk Hall.
  destruct (fallback_count_outcome settings api monitored _ Hall)
    as (n & Hn & _ & Hex).
  unfold SonarrClient.update_season_monitoring.
  rewrite outcome_try_except_ret, Hspecial, (get_episodes_all _ _ _ Hget).
  rewrite outcome_bind. cbn [outcome snd].
  fold (season_of season_number episodes).
  fold (season_ids season_number episodes).
  destruct (season_of season_number episodes) as [|ep0 rest] eqn:Es; [congruence|].
  rewrite <- Es in *.
  assert (Hb : outcome (SonarrClient.bulk_update_episode_monitoring api
                          (season_ids season_number episodes) monitored) = Ok false).
  { unfold SonarrClient.bulk_update_episode_monitoring.
    rewrite outcome_try_except_ret. unfold request. cbn [outcome snd].
    destruct Hbulk as [->|(e & -> & ->)]; reflexivity. }
  rewrite outcome_bind, Hb. unfold SonarrClient._fallback_season_monitoring.
  rewrite outcome_bind, Hn. cbn [outcome snd mret Eff_ret]. now rewrite Hex.
Qed.

End Updates.

(** ** What the resolvers return *)

Section ResolverResults.

Lemma title_matches_incl title library s :
  In s (SonarrClient.title_matches title library) -> In s library.
Proof.
  unfold SonarrClient.title_matches.
  destruct (List.filter (SonarrClient.exact_match _) library) eqn:E1.
  - destruct (List.filter (SonarrClient.contains_match _) library) eqn:E2.
    + intros H. now apply List.filter_In in H.
    + rewrite <- E2. intros H. now apply List.filter_In in H.
  - rewrite <- E1. intros H. now apply List.filter_In in H.
Qed.

Lemma series_filter_by_year_incl year l s :
  In s (SonarrClient.filter_by_year year l) -> In s l.
Proof.
  unfold SonarrClient.filter_by_year.
  destruct (List.filter _ l) eqn:E; [auto|].
  rewrite <- E. intros H. now apply List.filter_In in H.
Qed.

Lemma movie_filter_by_year_incl year l m :
  In m (RadarrClient.filter_by_year year l) -> In m l.
Proof.
  unfold RadarrClient.filter_by_year.
  destruct (List.filter _ l) eqn:E; [auto|].
  rewrite <- E. intros H. now apply List.filter_In in H.
Qed.

Lemma head_In {A} (l : list A) x : head l = Some x -> In x l.
Proof. destruct l; [discriminate|]. intros [= ->]. now left. Qed.

Lemma series_lookup_in_library api library :
  GET_series api = Ok library ->
  forall lookup_results s,
    outcome (SonarrClient.match_lookup_results api lookup_results) = Ok (Some s) ->
    In s library.
Proof.
  intros Hget. induction lookup_results as [|r rest IH]; intros s; [discriminate|].
  cbn [SonarrClient.match_lookup_results].
  destruct (Py.truthy_int _); [|apply IH].
  unfold SonarrClient.get_all_series, request. rewrite Hget, outcome_bind.
  cbn [outcome snd].
  destruct (List.find _ library) as [x|] eqn:Ef; [|apply IH].
  intros [= <-]. now apply List.find_some in Ef.
Qed.

Lemma movie_lookup_in_library api library :
  GET_movie api = Ok library ->
  forall lookup_results m,
    outcome (RadarrClient.match_lookup_results api lookup_results) = Ok (Some m) ->
    In m library.
Proof.
  intros Hget. induction lookup_results as [|r rest IH]; intros m; [discriminate|].
  cbn [RadarrClient.match_lookup_results].
  destruct (Py.truthy_int _); [|apply IH].
  unfold RadarrClient.get_all_movies, request. rewrite Hget, outcome_bind.
  cbn [outcome snd].
  destruct (List.find _ library) as [x|] eqn:Ef; [|apply IH].
  intros [= <-]. now apply List.find_some in Ef.
Qed.

(** X4. Whatever the title, the year and the ids of the query, and whatever
    the lookup endpoint answers, a resolver returns only an entity of the
    library that the service lists: a lookup result is never returned
    itself. *)
Theorem resolvers_return_library_entities :
  (forall api library title year tvdb_id imdb_id s,
     GET_series api = Ok library ->
     outcome (SonarrClient.find_series_by_jellyfin_metadata
                api title year tvdb_id imdb_id) = Ok (Some s) ->
     In s library)
  /\ (forall api library title year tmdb_id imdb_id m,
        GET_movie api = Ok library ->
        outcome (RadarrClient.find_movie_by_jellyfin_metadata
                   api title year tmdb_id imdb_id) = Ok (Some m) ->
        In m library).
Proof.
  split.
  - intros api library title year tvdb_id imdb_id s Hget.
    assert (Htier : forall r,
              outcome (SonarrClient.external_id_tier api tvdb_id imdb_id) = Ok (Some r) ->
              In r library).
    { intros r. unfold SonarrClient.external_id_tier, SonarrClient.get_all_series,
        request. rewrite Hget.
      destruct (_ || _)%bool; [|discriminate]. rewrite outcome_bind. cbn [outcome snd].
      destruct (if Py.truthy_opt tvdb_id then _ else _) as [x|] eqn:Ef.
      - intros [= <-]. destruct (Py.truthy_opt tvdb_id); [|discriminate].
        now apply List.find_some in Ef.
      - destruct (Py.truthy_opt imdb_id); [|discriminate].
        cbn. intros [= H]. now apply List.find_some in H. }
    unfold SonarrClient.find_series_by_jellyfin_metadata. rewrite outcome_bind.
    destruct (outcome (SonarrClient.external_id_tier api tvdb_id imdb_id))
      as [[r|]|e] eqn:Et; [intros [= <-]; now apply Htier| |discriminate].
    unfold SonarrClient.title_tier, SonarrClient.search_series_by_title,
      SonarrClient.get_all_series, request. rewrite Hget.
    rewrite !outcome_bind. cbn [outcome snd].
    assert (Hlookup : forall s,
              outcome (lookup_results ← SonarrClient.search_series_lookup api title;
                       match lookup_results with
                       | _ :: _ =>
                           SonarrClient.match_lookup_results api
                             (if Py.truthy_int year
                              then SonarrClient.filter_by_year (default 0 year)
                                     lookup_results
                              else lookup_results)
                       | [] => mret None
                       end) = Ok (Some s) -> In s library).
    { intros s'. rewrite outcome_bind.
      destruct (outcome (SonarrClient.search_series_lookup api title))
        as [[|x l]|e]; try discriminate.
      apply (series_lookup_in_library _ _ Hget). }
    destruct library as [|s0 library'] eqn:El.
    { cbn [outcome snd mret Eff_ret]. rewrite <- El in *. intros H.
      rewrite El. rewrite El in Hlookup. now apply Hlookup. }
    rewrite <- El in *. cbn [outcome snd mret Eff_ret].
    destruct (SonarrClient.title_matches title library) as [|m ms] eqn:Em.
    { apply Hlookup. }
    cbn [outcome snd mret Eff_ret]. intros [= H]. apply head_In in H.
    apply (title_matches_incl title). rewrite Em.
    destruct (_ && _)%bool; [now apply series_filter_by_year_incl in H|exact H].
  - intros api library title year tmdb_id imdb_id m Hget.
    unfold RadarrClient.find_movie_by_jellyfin_metadata. rewrite outcome_bind.
    assert (Htier : forall r,
              outcome (RadarrClient.external_id_tier api tmdb_id imdb_id) = Ok (Some r) ->
              In r library).
    { intros r. unfold RadarrClient.external_id_tier, RadarrClient.get_all_movies,
        request. rewrite Hget.
      destruct (_ || _)%bool; [|discriminate]. rewrite outcome_bind. cbn.
      intros [= H]. now apply List.find_some in H. }
    destruct (outcome (RadarrClient.external_id_tier api tmdb_id imdb_id))
      as [[r|]|e] eqn:Et; [intros [= <-]; now apply Htier| |discriminate].
    unfold RadarrClient.title_tier, RadarrClient.search_movies_by_title,
      RadarrClient.get_all_movies, request. rewrite Hget.
    rewrite !outcome_bind. cbn [outcome snd].
    assert (Hlookup : forall m,
              outcome (lookup_results ← RadarrClient.search_movie_lookup api title;
                       match lookup_results with
                       | _ :: _ =>
                           RadarrClient.match_lookup_results api
                             (if Py.truthy_int year
                              then RadarrClient.filter_by_year (default 0 year)
                                     lookup_results
                              else lookup_results)
                       | [] => mret None
                       end) = Ok (Some m) -> In m library).
    { intros m'. rewrite outcome_bind.
      destruct (outcome (RadarrClient.search_movie_lookup api title))
        as [[|x l]|e]; try discriminate.
      apply (movie_lookup_in_library _ _ Hget). }
    destruct library as [|m0 library'] eqn:El.
    { cbn [outcome snd mret Eff_ret]. rewrite <- El in *. intros H.
      rewrite El. rewrite El in Hlookup. now apply Hlookup. }
    rewrite <- El in *. destruct title as [title|]; [|discriminate].
    cbn [outcome snd mret Eff_ret].
    destruct (List.filter _ library) as [|x xs] eqn:Em.
    { apply Hlookup. }
    cbn [outcome snd mret Eff_ret]. intros [= H]. apply head_In in H.
    assert (Hin : In m (x :: xs)).
    { destruct (_ && _)%bool; [now apply movie_filter_by_year_incl in H|exact H]. }
    rewrite <- Em in Hin. now apply List.filter_In in Hin.
Qed.

End ResolverResults.

(** ** What identity resolution asks *)

Section ResolverRequests.

Variable env : Env.

Lemma series_lookup_results_trace api : forall lookup_results,
  Forall service_read (trace (SonarrClient.match_lookup_results api lookup_results)).
Proof.
  induction lookup_results as [|r rest IH]; [constructor|].
  cbn [SonarrClient.match_lookup_results].
  destruct (Py.truthy_int _); [|exact IH].
  apply Forall_trace_bind; [apply Forall_trace_request; split; reflexivity|].
  intros series_list. destruct (List.find _ series_list); [constructor|exact IH].
Qed.

Lemma movie_lookup_results_trace api : forall lookup_results,
  Forall service_read (trace (RadarrClient.match_lookup_results api lookup_results)).
Proof.
  induction lookup_results as [|r rest IH]; [constructor|].
  cbn [RadarrClient.match_lookup_results].
  destruct (Py.truthy_int _); [|exact IH].
  apply Forall_trace_bind; [apply Forall_trace_request; split; reflexivity|].
  intros movies_list. destruct (List.find _ movies_list); [constructor|exact IH].
Qed.

Lemma find_series_trace api title year tvdb_id imdb_id :
  Forall service_read
         (trace (SonarrClient.find_series_by_jellyfin_metadata
                   api title year tvdb_id imdb_id)).
Proof.
  unfold SonarrClient.find_series_by_jellyfin_metadata.
  apply Forall_trace_bind.
  - unfold SonarrClient.external_id_tier.
    destruct (_ || _)%bool; [|constructor].
    apply Forall_trace_bind; [apply Forall_trace_request; split; reflexivity|].
    intros series_list. destruct (if Py.truthy_opt tvdb_id then _ else _);
      [constructor|]. destruct (Py.truthy_opt imdb_id); constructor.
  - intros [series|]; [constructor|].
    unfold SonarrClient.title_tier. apply Forall_trace_bind.
    + unfold SonarrClient.search_series_by_title.
      apply Forall_trace_bind; [apply Forall_trace_request; split; reflexivity|].
      intros [|? ?]; constructor.
    + intros [|m ms]; [|constructor].
      apply Forall_trace_bind.
      * unfold SonarrClient.search_series_lookup. rewrite trace_try_except_ret.
        apply Forall_trace_request. split; reflexivity.
      * intros [|r rs]; [constructor|]. apply series_lookup_results_trace.
Qed.

Lemma find_movie_trace api title year tmdb_id imdb_id :
  Forall service_read
         (trace (RadarrClient.find_movie_by_jellyfin_metadata
                   api title year tmdb_id imdb_id)).
Proof.
  unfold RadarrClient.find_movie_by_jellyfin_metadata.
  apply Forall_trace_bind.
  - unfold RadarrClient.external_id_tier.
    destruct (_ || _)%bool; [|constructor].
    apply Forall_trace_bind; [apply Forall_trace_request; split; reflexivity|].
    intros movies_list. constructor.
  - intros [movie|]; [constructor|].
    unfold RadarrClient.title_tier. apply Forall_trace_bind.
    + unfold RadarrClient.search_movies_by_title.
      apply Forall_trace_bind; [apply Forall_trace_request; split; reflexivity|].
      intros [|? ?]; [constructor|]. destruct title; constructor.
    + intros [|m ms]; [|constructor].
      apply Forall_trace_bind.
      * unfold RadarrClient.search_movie_lookup.
        apply Forall_trace_request. split; reflexivity.
      * intros [|r rs]; [constructor|]. apply movie_lookup_results_trace.
Qed.

Lemma service_read_resolution ev : service_read ev -> resolution ev.
Proof. now intros [H _]. Qed.

Lemma enhance_and_fall_back_trace {A}
  (find : option string -> option Z -> option string -> option string
          -> Eff (option A)) external_id_of media_type title year imdb_id :
  (forall t y a b, Forall service_read (trace (find t y a b))) ->
  Forall resolution
         (trace (WebhookHandler.enhance_and_fall_back env find external_id_of
                   media_type title year imdb_id))
  /\ (use_external_api (settings env) = false ->
      Forall service_read
             (trace (WebhookHandler.enhance_and_fall_back env find external_id_of
                       media_type title year imdb_id))).
Proof.
  intros Hfind.
  assert (Hres : forall t y a b, Forall resolution (trace (find t y a b))).
  { intros. eapply List.Forall_impl; [apply service_read_resolution|apply Hfind]. }
  unfold WebhookHandler.enhance_and_fall_back. split.
  - destruct (use_external_api _); [|apply Hres].
    apply Forall_trace_bind; [apply Forall_trace_request; reflexivity|].
    intros [em|]; [|apply Hres].
    apply Forall_trace_bind; [apply Hres|].
    intros [r|]; [constructor|apply Hres].
  - intros ->. apply Hfind.
Qed.

Lemma find_sonarr_series_trace media_item webhook_data :
  Forall resolution
         (trace (WebhookHandler._find_sonarr_series env media_item webhook_data))
  /\ (use_external_api (settings env) = false ->
      Forall (fun ev => is_external_call ev = false)
             (trace (WebhookHandler._find_sonarr_series env media_item webhook_data))).
Proof.
  pose proof (fun mt t y i =>
                enhance_and_fall_back_trace
                  (WebhookHandler.find_series env) ExternalMatch.tvdb_id mt t y i
                  (find_series_trace (sonarr env))) as Henh.
  unfold WebhookHandler._find_sonarr_series.
  destruct (match webhook_data with Some (_ :: _ as wd) => _ | _ => _ end)
    as [[series_title series_year] [[tvdb_id imdb_id] tmdb_id]].
  split.
  - apply Forall_trace_bind.
    { destruct (_ && _ && _)%bool; [|constructor].
      apply Forall_trace_bind; [apply Forall_trace_request; reflexivity|].
      intros series_data. apply Forall_trace_bind; [constructor|].
      intros [info|]; constructor. }
    intros [t y]. apply Forall_trace_bind.
    { destruct (_ || _ || _)%bool; [|constructor].
      eapply List.Forall_impl; [apply service_read_resolution|].
      apply find_series_trace. }
    intros [series|]; [constructor|]. apply Henh.
  - intros Hoff. apply Forall_trace_bind.
    { destruct (_ && _ && _)%bool; [|constructor].
      apply Forall_trace_bind; [apply Forall_trace_request; reflexivity|].
      intros series_data. apply Forall_trace_bind; [constructor|].
      intros [info|]; constructor. }
    intros [t y]. apply Forall_trace_bind.
    { destruct (_ || _ || _)%bool; [|constructor].
      eapply List.Forall_impl; [|apply find_series_trace]. now intros ev [_ H]. }
    intros [series|]; [constructor|].
    eapply List.Forall_impl; [|apply (proj2 (Henh _ _ _ _) Hoff)]. now intros ev [_ H].
Qed.

Lemma find_radarr_movie_trace media_item webhook_data :
  Forall resolution
         (trace (WebhookHandler._find_radarr_movie env media_item webhook_data))
  /\ (use_external_api (settings env) = false ->
      Forall (fun ev => is_external_call ev = false)
             (trace (WebhookHandler._find_radarr_movie env media_item webhook_data))).
Proof.
  pose proof (fun mt t y i =>
                enhance_and_fall_back_trace
                  (WebhookHandler.find_movie env) ExternalMatch.tmdb_id mt t y i
                  (find_movie_trace (radarr env))) as Henh.
  unfold WebhookHandler._find_radarr_movie. split.
  - apply Forall_trace_bind.
    { destruct webhook_data as [[|kv wd]|]; try apply Forall_trace_ret;
        (apply Forall_trace_bind; [apply Forall_trace_request; reflexivity|]);
        intros item_data; (apply Forall_trace_bind; [constructor|]);
        intros [info|]; constructor. }
    intros [[[t y] tmdb_id] imdb_id]. apply Forall_trace_bind.
    { destruct (_ || _)%bool; [|constructor].
      eapply List.Forall_impl; [apply service_read_resolution|].
      apply find_movie_trace. }
    intros [movie|]; [constructor|]. apply Henh.
  - intros Hoff. apply Forall_trace_bind.
    { destruct webhook_data as [[|kv wd]|]; try apply Forall_trace_ret;
        (apply Forall_trace_bind; [apply Forall_trace_request; reflexivity|]);
        intros item_data; (apply Forall_trace_bind; [constructor|]);
        intros [info|]; constructor. }
    intros [[[t y] tmdb_id] imdb_id]. apply Forall_trace_bind.
    { destruct (_ || _)%bool; [|constructor].
      eapply List.Forall_impl; [|apply find_movie_trace]. now intros ev [_ H]. }
    intros [movie|]; [constructor|].
    eapply List.Forall_impl; [|apply (proj2 (Henh _ _ _ _) Hoff)]. now intros ev [_ H].
Qed.

(** X5. Identity resolution is read-only: whatever the services answer,
    [_find_sonarr_series] and [_find_radarr_movie] only list a library, use a
    lookup endpoint, read an item from Jellyfin or search the external
    metadata, and when [use_external_api] is off they make no external
    search. *)
Theorem resolution_is_read_only media_item webhook_data :
  (forallb is_resolution_request
           (trace (WebhookHandler._find_sonarr_series env media_item webhook_data))
   = true
   /\ forallb is_resolution_request
              (trace (WebhookHandler._find_radarr_movie env media_item webhook_data))
      = true)
  /\ (use_external_api (settings env) = false ->
      existsb is_external_call
              (trace (WebhookHandler._find_sonarr_series env media_item webhook_data))
      = false
      /\ existsb is_external_call
                 (trace (WebhookHandler._find_radarr_movie env media_item webhook_data))
         = false).
Proof.
  assert (Hno : forall l, Forall (fun ev => is_external_call ev = false) l ->
                          existsb is_external_call l = false).
  { induction 1 as [|ev l Hev _ IH]; [reflexivity|]. cbn. now rewrite Hev, IH. }
  destruct (find_sonarr_series_trace media_item webhook_data) as [Hs Hs'].
  destruct (find_radarr_movie_trace media_item webhook_data) as [Hm Hm'].
  split; [split|intros Hoff; split].
  - apply forallb_forall. now apply List.Forall_forall.
  - apply forallb_forall. now apply List.Forall_forall.
  - apply Hno, Hs', Hoff.
  - apply Hno, Hm', Hoff.
Qed.

End ResolverRequests.

(** ** Title search *)

Section TitleSearch.

Lemma search_series_by_title_run api library title :
  GET_series api = Ok library ->
  SonarrClient.search_series_by_title api title
  = ([Sonarr_GET_series], Ok (SonarrClient.title_matches title library)).
Proof.
  intros Hget. unfold SonarrClient.search_series_by_title,
    SonarrClient.get_all_series, request. rewrite Hget.
  destruct library; reflexivity.
Qed.

(** X6. When a series of the library has the same normalised title as the
    query, the title search returns exactly the series with that normalised
    title, in library order: a looser match (containment, alternate title)
    is returned only when no title matches exactly. *)
Theorem exact_title_match_shadows_looser_ones api library title s :
  GET_series api = Ok library ->
  In s library ->
  _clean_title (Series.title s) = _clean_title (default "" title) ->
  exists results,
    SonarrClient.search_series_by_title api title = ([Sonarr_GET_series], Ok results)
    /\ In s results
    /\ forall r, In r results
         <-> In r library
             /\ _clean_title (Series.title r) = _clean_title (default "" title).
Proof.
  intros Hget Hin Hs.
  exists (List.filter (SonarrClient.exact_match (_clean_title (default "" title)))
                      library).
  assert (Hspec : forall r,
            In r (List.filter
                    (SonarrClient.exact_match (_clean_title (default "" title))) library)
            <-> In r library
                /\ _clean_title (Series.title r) = _clean_title (default "" title)).
  { intros r. rewrite List.filter_In. unfold SonarrClient.exact_match.
    rewrite String.eqb_eq. intuition congruence. }
  split; [|split; [apply Hspec; auto|exact Hspec]].
  rewrite (search_series_by_title_run _ _ _ Hget). unfold SonarrClient.title_matches.
  destruct (List.filter _ library) as [|x xs] eqn:E; [|reflexivity].
  exfalso. assert (H : In s []) by (apply Hspec; auto). destruct H.
Qed.

Lemma filter_none {A} (f : A -> bool) l : (forall x, f x = false) -> List.filter f l = [].
Proof.
  intros H. induction l as [|x l IH]; [reflexivity|]. cbn. now rewrite H.
Qed.

(** X7. A query whose normalised title has at most three characters never
    matches by containment: every series that the title search returns has
    that normalised title itself, or an alternate title that has it. *)
Theorem short_title_matches_only_exactly api library title :
  GET_series api = Ok library ->
  (String.length (_clean_title (default "" title)) <= 3)%nat ->
  exists results,
    SonarrClient.search_series_by_title api title = ([Sonarr_GET_series], Ok results)
    /\ forall r, In r results ->
         In r library /\ same_clean_title (_clean_title (default "" title)) r.
Proof.
  intros Hget Hlen. eexists. split; [apply (search_series_by_title_run _ _ _ Hget)|].
  intros r Hr. split; [now apply title_matches_incl in Hr|].
  assert (Hshort : (3 <? Z.of_nat (String.length (_clean_title (default "" title))))
                   = false).
  { apply Z.ltb_ge. lia. }
  unfold SonarrClient.title_matches in Hr.
  destruct (List.filter (SonarrClient.exact_match _) library) as [|x xs] eqn:E1.
  - assert (E2 : List.filter
                   (SonarrClient.contains_match (_clean_title (default "" title)))
                   library = []).
    { apply filter_none. intros y.
      unfold SonarrClient.contains_match. rewrite Hshort.
      now rewrite andb_false_r. }
    rewrite E2 in Hr. apply List.filter_In in Hr as [_ Hr].
    unfold SonarrClient.alt_title_match in Hr. apply existsb_exists in Hr
      as (alt & Halt & Hm). right. exists alt. split; [exact Halt|].
    rewrite Hshort, andb_false_r, orb_false_r in Hm.
    apply String.eqb_eq in Hm. auto.
  - rewrite <- E1 in Hr. apply List.filter_In in Hr as [_ Hr].
    left. unfold SonarrClient.exact_match in Hr. apply String.eqb_eq in Hr. auto.
Qed.

Lemma head_filter_find {A} (f : A -> bool) l : head (List.filter f l) = List.find f l.
Proof.
  induction l as [|x l IH]; [reflexivity|]. cbn. destruct (f x); [reflexivity|exact IH].
Qed.

(** X8. Among several series that match the title, a query without ids but
    with a year gets the first match whose year is within one year of it, or
    the first match if none is; the library is listed once and nothing else
    is asked. *)
Theorem title_match_prefers_close_year api library title year m ms :
  GET_series api = Ok library ->
  SonarrClient.title_matches title library = m :: ms ->
  year <> 0 ->
  SonarrClient.find_series_by_jellyfin_metadata api title (Some year) None None
  = ([Sonarr_GET_series],
     Ok (Some (default m (List.find (series_year_close year) (m :: ms))))).
Proof.
  intros Hget Hm Hy.
  unfold SonarrClient.find_series_by_jellyfin_metadata, SonarrClient.external_id_tier,
    SonarrClient.title_tier.
  cbn [Py.truthy_opt orb mbind Eff_bind mret Eff_ret].
  rewrite (search_series_by_title_run _ _ _ Hget), Hm.
  cbn [mbind Eff_bind mret Eff_ret app Py.truthy_int default id].
  destruct (Z.eqb_spec year 0) as [|_]; [contradiction|]. cbn [negb andb].
  f_equal. f_equal.
  destruct ms as [|m' ms'].
  - cbn. unfold series_year_close. destruct (SonarrClient.year_close _ _); reflexivity.
  - replace (1 <? Z.of_nat (List.length (m :: m' :: ms'))) with true
      by (symmetry; apply Z.ltb_lt; cbn [List.length]; lia).
    unfold SonarrClient.filter_by_year.
    rewrite <- (head_filter_find (series_year_close year) (m :: m' :: ms')).
    fold (series_year_close year).
    change (List.filter (fun s => SonarrClient.year_close year (Series.year s)))
      with (List.filter (series_year_close year)).
    destruct (List.filter (series_year_close year) (m :: m' :: ms')); reflexivity.
Qed.

End TitleSearch.

(** ** The requests of the pipeline *)

Section Asks.

Variable P : Event -> Prop.

Lemma asks_ret {A} (a : A) : asks_only P (mret a).
Proof. intros db0. constructor. Qed.

Lemma asks_bind {A B} (m : Run A) (k : A -> Run B) :
  asks_only P m -> (forall a, asks_only P (k a)) -> asks_only P (m ≫= k).
Proof.
  intros Hm Hk db0. specialize (Hm db0). unfold mbind, Run_bind.
  destruct (m db0) as [[j db1] [a|e]]; [|exact Hm].
  specialize (Hk a db1). destruct (k a db1) as [[j' db2] r].
  cbn in *. apply Forall_app. split; assumption.
Qed.

Lemma asks_lift {A} (m : Eff A) : Forall P (trace m) -> asks_only P (lift m).
Proof. intros H db0. exact H. Qed.

Lemma asks_bind_lift {A B} (m : Eff A) (k : A -> Run B) :
  Forall P (trace m) -> (forall a, outcome m = Ok a -> asks_only P (k a)) ->
  asks_only P (lift m ≫= k).
Proof.
  intros Hm Hk db0. unfold mbind, Run_bind, lift.
  destruct (outcome m) as [a|e] eqn:E; [|exact Hm].
  specialize (Hk a eq_refl db0). destruct (k a db0) as [[j' db2] r].
  cbn in *. apply Forall_app. split; assumption.
Qed.

Lemma asks_get_db : asks_only P get_db.
Proof. intros db0. constructor. Qed.

Lemma asks_modify f : asks_only P (modify f).
Proof. intros db0. constructor. Qed.

Lemma asks_emit ev : P ev -> asks_only P (emit ev).
Proof. intros H db0. repeat constructor. exact H. Qed.

Lemma asks_log_status w : asks_only P (log_status w).
Proof. intros db0. constructor. Qed.

Lemma asks_raise {A} e : asks_only P (run_raise e : Run A).
Proof. intros db0. constructor. Qed.

Lemma asks_try_except {A} (body : Run A) handler :
  asks_only P body -> (forall e, asks_only P (handler e)) ->
  asks_only P (run_try_except body handler).
Proof.
  intros Hb Hh db0. specialize (Hb db0). unfold run_try_except.
  destruct (body db0) as [[j db1] [a|e]]; [exact Hb|].
  destruct (is_Exception e); [|exact Hb].
  specialize (Hh e db1). destruct (handler e db1) as [[j' db2] r].
  cbn in *. apply Forall_app. split; assumption.
Qed.

Lemma asks_try_rollback {A} (body : Run A) handler :
  asks_only P body -> (forall e, asks_only P (handler e)) ->
  asks_only P (run_try_rollback body handler).
Proof.
  intros Hb Hh db0. specialize (Hb db0). unfold run_try_rollback.
  destruct (body db0) as [[j db1] [a|e]]; [exact Hb|].
  destruct (is_Exception e); [|exact Hb].
  specialize (Hh e db0). destruct (handler e db0) as [[j' db2] r].
  cbn in *. apply Forall_app. split; assumption.
Qed.

Lemma asks_set_status log_id new : asks_only P (WebhookHandler.set_status log_id new).
Proof.
  unfold WebhookHandler.set_status. apply asks_bind; [apply asks_get_db|].
  intros db. destruct (sync_logs db !! log_id); [|apply asks_ret].
  apply asks_bind; [apply asks_log_status|]. intros ?. apply asks_modify.
Qed.

Lemma asks_set_error_message log_id err :
  asks_only P (WebhookHandler.set_error_message log_id err).
Proof.
  unfold WebhookHandler.set_error_message. apply asks_bind; [apply asks_get_db|].
  intros db. destruct (sync_logs db !! log_id); [apply asks_modify|apply asks_ret].
Qed.

Lemma asks_set_external_id log_id ext :
  asks_only P (WebhookHandler.set_external_id log_id ext).
Proof.
  unfold WebhookHandler.set_external_id. apply asks_bind; [apply asks_get_db|].
  intros db. destruct (sync_logs db !! log_id); [apply asks_modify|apply asks_ret].
Qed.

Lemma asks_set_is_monitored mapping b :
  asks_only P (WebhookHandler.set_is_monitored mapping b).
Proof. destruct mapping; apply asks_modify. Qed.

Lemma asks_update_sync_log env media_item should_monitor service is_retry
  original_log_id :
  asks_only P (WebhookHandler._update_sync_log env media_item should_monitor service
                 is_retry original_log_id).
Proof.
  unfold WebhookHandler._update_sync_log. apply asks_bind; [apply asks_get_db|].
  intros db. destruct (WebhookHandler.original_log _ _ _ _) as [[log_id|]|e].
  - apply asks_bind; [apply asks_set_status|]. intros ?.
    apply asks_bind; [apply asks_set_error_message|]. intros ?. apply asks_ret.
  - apply asks_bind; [apply asks_log_status|]. intros ?.
    apply asks_bind; [apply asks_modify|]. intros ?. apply asks_ret.
  - apply asks_raise.
Qed.

Lemma asks_load_and_compare media_info is_watched force_sync :
  asks_only P (WebhookHandler.load_and_compare media_info is_watched force_sync).
Proof.
  unfold WebhookHandler.load_and_compare.
  apply asks_try_rollback; [|intros; apply asks_ret].
  apply asks_bind.
  - unfold WebhookHandler._get_or_create_media_item_from_jellyfin.
    destruct (negb _); [apply asks_ret|].
    destruct (WebhookHandler.column_text _) as [jellyfin_id|e]; [|apply asks_raise].
    apply asks_bind; [apply asks_get_db|]. intros db.
    destruct (MediaInfo.title media_info); [|apply asks_raise].
    apply asks_bind; [apply asks_modify|]. intros ?. apply asks_ret.
  - intros [media_item|]; [|apply asks_ret].
    destruct (_ && _)%bool; [apply asks_ret|].
    destruct (WebhookHandler.stored_flag is_watched) as [flag|e]; [|apply asks_raise].
    apply asks_bind; [apply asks_modify|]. intros ?. apply asks_ret.
Qed.

End Asks.

(** ** The direction of the monitoring change *)

Section Direction.

Variable env : Env.

Lemma resolution_sets_nothing b ev : is_resolution_request ev = true -> sets_only b ev.
Proof. destruct ev; cbn; intros H; try discriminate; exact I. Qed.

Lemma series_update_sets_only api series_id monitored :
  Forall (sets_only monitored)
         (trace (SonarrClient.update_series_monitoring api series_id monitored)).
Proof.
  unfold SonarrClient.update_series_monitoring, SonarrClient.get_series_by_id.
  rewrite trace_try_except_ret.
  apply Forall_trace_bind; [apply Forall_trace_request; exact I|].
  intros [s|]; [apply Forall_trace_request; reflexivity|constructor].
Qed.

Lemma movie_update_sets_only api movie_id monitored :
  Forall (sets_only monitored)
         (trace (RadarrClient.update_movie_monitoring api movie_id monitored)).
Proof.
  unfold RadarrClient.update_movie_monitoring, RadarrClient.get_movie_by_id.
  rewrite trace_try_except_ret.
  apply Forall_trace_bind; [apply Forall_trace_request; exact I|].
  intros [s|]; [apply Forall_trace_request; reflexivity|constructor].
Qed.

Lemma episode_update_sets_only settings api episode_id monitored :
  Forall (sets_only monitored)
         (trace (SonarrClient.update_episode_monitoring settings api episode_id
                   monitored)).
Proof.
  eapply List.Forall_impl; [|apply update_episode_trace].
  intros ev [->| ->]; [exact I|reflexivity].
Qed.

Lemma season_update_sets_only settings api series_id season_number monitored :
  Forall (sets_only monitored)
         (trace (SonarrClient.update_season_monitoring settings api series_id
                   season_number monitored)).
Proof.
  unfold SonarrClient.update_season_monitoring. rewrite trace_try_except_ret.
  destruct (_ && _)%bool; [constructor|].
  apply Forall_trace_bind.
  { unfold SonarrClient.get_episodes_for_series.
    apply Forall_trace_bind; [apply Forall_trace_request; exact I|].
    intros ?. constructor. }
  intros episodes. destruct (List.filter _ episodes) as [|ep0 rest]; [constructor|].
  apply Forall_trace_bind.
  { unfold SonarrClient.bulk_update_episode_monitoring. rewrite trace_try_except_ret.
    apply Forall_trace_request. reflexivity. }
  intros [|]; [constructor|]. unfold SonarrClient._fallback_season_monitoring.
  apply Forall_trace_bind; [|intros ?; constructor].
  generalize (ep0 :: rest). induction l as [|ep l IH]; [constructor|].
  cbn [SonarrClient.fallback_count].
  apply Forall_trace_bind; [apply episode_update_sets_only|].
  intros ?. apply Forall_trace_bind; [exact IH|]. intros ?. constructor.
Qed.

Lemma perform_sync_sets_only media_item mapping should_monitor :
  Forall (sets_only should_monitor)
         (trace (WebhookHandler.perform_sync env media_item mapping should_monitor)).
Proof.
  unfold WebhookHandler.perform_sync. destruct mapping as [m|m].
  - destruct (_ && _)%bool; [apply episode_update_sets_only|].
    destruct (String.eqb _ MediaType.SEASON); [apply season_update_sets_only|].
    destruct (String.eqb _ MediaType.SERIES); [apply series_update_sets_only|].
    constructor.
  - apply movie_update_sets_only.
Qed.

Lemma create_mapping_sets_nothing b media_item webhook_context :
  asks_only (sets_only b)
            (WebhookHandler.create_mapping env media_item webhook_context).
Proof.
  unfold WebhookHandler.create_mapping.
  destruct (WebhookHandler.is_sonarr_type _).
  - apply asks_bind.
    { apply asks_lift. eapply List.Forall_impl; [apply resolution_sets_nothing|].
      apply find_sonarr_series_trace. }
    intros [series|]; [|apply asks_ret].
    apply asks_bind.
    { destruct (String.eqb _ _); [|apply asks_ret].
      apply asks_bind.
      - apply asks_lift. unfold SonarrClient.search_episode.
        apply Forall_trace_bind; [|intros ?; constructor].
        unfold SonarrClient.get_episodes_for_series.
        apply Forall_trace_bind; [apply Forall_trace_request; exact I|].
        intros ?. constructor.
      - intros [episode|]; apply asks_ret. }
    intros mapping. apply asks_bind; [apply asks_modify|]. intros ?. apply asks_ret.
  - apply asks_bind.
    { apply asks_lift. eapply List.Forall_impl; [apply resolution_sets_nothing|].
      apply find_radarr_movie_trace. }
    intros [movie|]; [|apply asks_ret].
    apply asks_bind; [apply asks_modify|]. intros ?. apply asks_ret.
Qed.

Lemma sync_with_service_sets_only media_item should_monitor force is_retry
  original_log_id webhook_context :
  asks_only (sets_only should_monitor)
            (WebhookHandler._sync_with_service env media_item should_monitor force
               is_retry original_log_id webhook_context).
Proof.
  unfold WebhookHandler._sync_with_service.
  apply asks_try_except; [|intros; apply asks_ret].
  apply asks_bind.
  { unfold WebhookHandler.select_mapping.
    apply asks_bind; [apply asks_emit; exact I|]. intros ?.
    apply asks_bind; [apply asks_get_db|]. intros ?. apply asks_ret. }
  intros mapping. apply asks_bind.
  { destruct mapping; [apply asks_ret|apply create_mapping_sets_nothing]. }
  intros [mapping'|]; [|apply asks_ret].
  apply asks_bind; [apply asks_update_sync_log|]. intros log_id.
  unfold WebhookHandler.sync_and_record. apply asks_try_except.
  - apply asks_bind; [apply asks_lift, perform_sync_sets_only|]. intros success.
    apply asks_bind; [apply asks_set_status|]. intros ?.
    apply asks_bind; [apply asks_set_external_id|]. intros ?.
    apply asks_bind.
    { destruct (negb success); [apply asks_set_error_message|apply asks_ret]. }
    intros ?. apply asks_set_is_monitored.
  - intros e. apply asks_bind; [apply asks_set_status|]. intros ?.
    apply asks_set_error_message.
Qed.

(** X9. Watched means unmonitored.  Let [is_watched] be the watched flag that
    the pipeline reads for an event (from the webhook data, or from Jellyfin
    when the data has none), whatever value it is.  Every request of the
    pipeline that changes monitoring in Sonarr or Radarr sets it to
    [not is_watched], whatever the services answer and whatever the store
    holds. *)
Theorem watched_means_unmonitored
  webhook_data force_sync is_retry original_log_id t is_watched media_info db0 :
  WebhookHandler.watched_status_of_event env webhook_data
  = (t, Ok (Some (is_watched, media_info))) ->
  Forall (sets_only (negb (PyValue.truthy is_watched)))
         (events (fst (fst (WebhookHandler._process_watched_status_change env
                              webhook_data force_sync is_retry original_log_id db0)))).
Proof.
  intros Hev. revert db0.
  change (asks_only (sets_only (negb (PyValue.truthy is_watched)))
            (WebhookHandler._process_watched_status_change env webhook_data
               force_sync is_retry original_log_id)).
  unfold WebhookHandler._process_watched_status_change.
  apply asks_try_except; [|intros; apply asks_ret].
  pose proof (watched_status_of_event_events env webhook_data) as [_ Hlib].
  rewrite Hev in Hlib. cbn [trace fst] in Hlib.
  apply asks_bind_lift.
  { rewrite Hev. cbn [trace fst]. apply List.Forall_forall. intros ev Hin.
    destruct (monitoring_flag ev) as [b|] eqn:Ef; [|unfold sets_only; now rewrite Ef].
    exfalso.
    assert (Hl : is_library_call ev = true)
      by (destruct ev; try discriminate; reflexivity).
    assert (Hex : existsb is_library_call t = true).
    { apply existsb_exists. exists ev. auto. }
    congruence. }
  rewrite Hev. cbn [outcome snd]. intros event [= <-].
  apply asks_bind; [apply asks_load_and_compare|].
  intros [media_item|]; [|apply asks_ret].
  apply asks_try_except; [|intros; apply asks_ret].
  apply sync_with_service_sets_only.
Qed.

End Direction.

(** One character of a string that a [match] compares with literals: the
    cases are split bit by bit, and [leaf] closes those that are decided. *)
Ltac string_step s leaf :=
  let b0 := fresh "b" in let b1 := fresh "b" in let b2 := fresh "b" in
  let b3 := fresh "b" in let b4 := fresh "b" in let b5 := fresh "b" in
  let b6 := fresh "b" in let b7 := fresh "b" in
  destruct s as [|[b0 b1 b2 b3 b4 b5 b6 b7] s]; cbn; try solve [leaf];
  destruct b0; cbn; try solve [leaf];
  destruct b1; cbn; try solve [leaf];
  destruct b2; cbn; try solve [leaf];
  destruct b3; cbn; try solve [leaf];
  destruct b4; cbn; try solve [leaf];
  destruct b5; cbn; try solve [leaf];
  destruct b6; cbn; try solve [leaf];
  destruct b7; cbn; try solve [leaf].

(** ** The audit record of an attempt *)

Section AuditRecord.

Variable env : Env.

Lemma write_sync_log_twice log_id l l' db0 :
  Store.write_sync_log log_id l (Store.write_sync_log log_id l' db0)
  = Store.write_sync_log log_id l db0.
Proof. unfold Store.write_sync_log. cbn. now rewrite insert_insert_eq. Qed.

Lemma sync_and_record_run media_item mapping should_monitor log_id l db0 t success :
  sync_logs db0 !! log_id = Some l ->
  WebhookHandler.perform_sync env media_item mapping should_monitor = (t, Ok success) ->
  WebhookHandler.sync_and_record env media_item mapping should_monitor log_id db0
  = ({| events := t;
        status_writes :=
          [{| sw_log_id := log_id; sw_old := Some (SyncLog.status l);
              sw_new := if success then SyncStatus.COMPLETED
                        else SyncStatus.FAILED |}] |},
     put_mapping (flagged should_monitor mapping)
       (Store.write_sync_log log_id
          (closed_record success (mapping_external_id mapping) l) db0),
     Ok tt).
Proof.
  intros Hl Hsync.
  unfold WebhookHandler.sync_and_record, run_try_except.
  unfold mbind at 1. unfold Run_bind at 1. unfold lift. rewrite Hsync.
  cbn [trace outcome fst snd].
  unfold mbind at 1. unfold Run_bind at 1.
  rewrite (set_status_found _ _ _ _ Hl).
  unfold mbind at 1. unfold Run_bind at 1.
  erewrite set_external_id_found by apply lookup_write_sync_log.
  rewrite write_sync_log_twice.
  unfold mbind at 1. unfold Run_bind at 1.
  destruct success; cbn [negb].
  - unfold mret at 1, Run_ret at 1.
    destruct mapping; unfold journal_app, no_journal; cbn; rewrite ?app_nil_r;
      reflexivity.
  - erewrite set_error_message_found by apply lookup_write_sync_log.
    rewrite write_sync_log_twice.
    destruct mapping; unfold journal_app, no_journal; cbn; rewrite ?app_nil_r;
      reflexivity.
Qed.

Lemma select_mapping_run media_item db0 :
  WebhookHandler.select_mapping media_item db0
  = ({| events := [Db_select_mapping (WebhookHandler.service_name_of media_item)
                                     (MediaItem.id media_item)];
        status_writes := [] |}, db0, Ok (stored_mapping db0 media_item)).
Proof. reflexivity. Qed.

Lemma stored_mapping_put media_item mapping b db0 :
  stored_mapping db0 media_item = Some mapping ->
  mapping_media_item_id mapping = MediaItem.id media_item ->
  stored_mapping (put_mapping (flagged b mapping) db0) media_item
  = Some (flagged b mapping).
Proof.
  unfold stored_mapping. intros Hs Hid.
  destruct (WebhookHandler.is_sonarr_type _); destruct mapping as [m|m];
    cbn in *; try (destruct (_ !! _); discriminate).
  - rewrite <- Hid. now rewrite lookup_insert_eq.
  - rewrite <- Hid. now rewrite lookup_insert_eq.
Qed.

(** X10. When the media item has a mapping and the monitoring update returns
    (with success or not), the executor leaves one new audit record for the
    attempt: it names the media item, the action asked for and the id of the
    series or movie, it is [COMPLETED] after a successful update and [FAILED]
    with the message "Failed to update monitoring status" otherwise.  The
    [is_monitored] flag of the mapping is set to the state asked for in both
    cases, also when the update failed. *)
Theorem audit_record_of_an_attempt media_item mapping should_monitor force
  original_log_id webhook_context db0 t success :
  stored_mapping db0 media_item = Some mapping ->
  mapping_media_item_id mapping = MediaItem.id media_item ->
  WebhookHandler.perform_sync env media_item mapping should_monitor = (t, Ok success) ->
  exists j db1 l1 mapping1,
    WebhookHandler._sync_with_service env media_item should_monitor force false
      original_log_id webhook_context db0 = (j, db1, Ok tt)
    /\ events j = Db_select_mapping (WebhookHandler.service_name_of media_item)
                                    (MediaItem.id media_item) :: t
    /\ sync_logs db1 !! next_sync_log_id db0 = Some l1
    /\ SyncLog.media_item_id l1 = MediaItem.id media_item
    /\ SyncLog.action l1
       = (if should_monitor then SyncAction.MONITOR else SyncAction.UNMONITOR)
    /\ SyncLog.status l1
       = (if success then SyncStatus.COMPLETED else SyncStatus.FAILED)
    /\ SyncLog.external_id l1 = Some (Py.str_of_int (mapping_external_id mapping))
    /\ SyncLog.error_message l1
       = (if success then None else Some "Failed to update monitoring status")
    /\ stored_mapping db1 media_item = Some mapping1
    /\ mapping_is_monitored mapping1 = should_monitor
    /\ mapping_external_id mapping1 = mapping_external_id mapping.
Proof.
  intros Hmap Hid Hsync.
  set (l0 := WebhookHandler.new_sync_log env media_item should_monitor
               (Py.lower (WebhookHandler.service_name_of media_item)) db0).
  set (db' := Store.bump_sync_log_id (Store.put_sync_log l0 db0)).
  assert (Hl0 : sync_logs db' !! next_sync_log_id db0 = Some l0)
    by apply (lookup_put_sync_log l0).
  exists (journal_app
            {| events := [Db_select_mapping (WebhookHandler.service_name_of media_item)
                                            (MediaItem.id media_item)];
               status_writes := [] |}
            (journal_app no_journal
               (journal_app
                  {| events := [];
                     status_writes :=
                       [{| sw_log_id := next_sync_log_id db0; sw_old := None;
                           sw_new := SyncStatus.PROCESSING |}] |}
                  {| events := t;
                     status_writes :=
                       [{| sw_log_id := next_sync_log_id db0;
                           sw_old := Some (SyncLog.status l0);
                           sw_new := if success then SyncStatus.COMPLETED
                                     else SyncStatus.FAILED |}] |}))),
    (put_mapping (flagged should_monitor mapping)
       (Store.write_sync_log (next_sync_log_id db0)
          (closed_record success (mapping_external_id mapping) l0) db')),
    (closed_record success (mapping_external_id mapping) l0),
    (flagged should_monitor mapping).
  split.
  { unfold WebhookHandler._sync_with_service, run_try_except.
    unfold mbind at 1. unfold Run_bind at 1. rewrite select_mapping_run, Hmap.
    unfold mbind at 1. unfold Run_bind at 1. unfold mret at 1. unfold Run_ret at 1.
    unfold mbind at 1. unfold Run_bind at 1.
    rewrite _update_sync_log_new. fold l0 db'.
    rewrite (sync_and_record_run _ _ _ _ _ _ _ _ Hl0 Hsync).
    reflexivity. }
  split; [reflexivity|].
  split; [destruct mapping; apply lookup_insert_eq|].
  split; [reflexivity|]. split; [reflexivity|]. split; [reflexivity|].
  split; [reflexivity|]. split; [destruct success; reflexivity|].
  split.
  { assert (Hs' : stored_mapping
                    (Store.write_sync_log (next_sync_log_id db0)
                       (closed_record success (mapping_external_id mapping) l0) db')
                    media_item = Some mapping) by exact Hmap.
    exact (stored_mapping_put _ _ _ _ Hs' Hid). }
  split; destruct mapping; reflexivity.
Qed.

(** *** A retry, from the endpoint to the closed record *)

Lemma normalize_str s :
  WebhookHandler._normalize_media_type (JStr s) = Ok (normalized s).
Proof.
  unfold normalized.
  destruct (WebhookHandler._normalize_media_type (JStr s)) as [t|e] eqn:E;
    [reflexivity|exfalso].
  revert E. unfold WebhookHandler._normalize_media_type.
  string_step s ltac:(discriminate).
  all: try string_step s ltac:(discriminate).
  all: try string_step s ltac:(discriminate).
  all: try string_step s ltac:(discriminate).
  all: try string_step s ltac:(discriminate).
  all: try string_step s ltac:(discriminate).
  all: try string_step s ltac:(discriminate).
  all: try string_step s ltac:(discriminate).
Qed.

Lemma retry_payload_accepted user_id username media_item log_id :
  WebhookHandler.accepted_event
    (Main.retry_webhook_data user_id username media_item log_id)
  = Some (retry_cache_key user_id media_item,
          retry_members user_id username media_item log_id, true, JInt log_id).
Proof.
  unfold retry_cache_key. destruct (MediaItem.is_watched media_item) as [[]|] eqn:E;
    unfold WebhookHandler.accepted_event, Main.retry_webhook_data; cbn;
    rewrite E; reflexivity.
Qed.

Lemma stored_flag_jflag flag :
  WebhookHandler.stored_flag (Main.jflag flag) = Ok flag.
Proof. destruct flag as [[]|]; reflexivity. Qed.

Lemma flag_eq_jflag flag : WebhookHandler.flag_eq flag (Main.jflag flag) = true.
Proof. destruct flag as [[]|]; reflexivity. Qed.

Lemma retry_event_read user_id username media_item log_id :
  WebhookHandler.watched_status_of_event env
    (retry_members user_id username media_item log_id)
  = ([], Ok (Some (Main.jflag (MediaItem.is_watched media_item),
                   retry_info media_item))).
Proof.
  unfold WebhookHandler.watched_status_of_event, retry_members, retry_info.
  cbn -[WebhookHandler._normalize_media_type].
  rewrite normalize_str. cbn.
  destruct (MediaItem.series_name media_item), (MediaItem.season_number media_item),
    (MediaItem.episode_number media_item); reflexivity.
Qed.

Lemma retry_load media_item db0 :
  Store.media_item_by_jellyfin_id db0 (MediaItem.jellyfin_id media_item)
  = Some media_item ->
  MediaItem.jellyfin_id media_item <> "" ->
  WebhookHandler.load_and_compare (retry_info media_item)
    (Main.jflag (MediaItem.is_watched media_item)) true db0
  = (no_journal,
     Store.put_media_item (retried media_item)
       (Store.put_media_item (retried media_item) db0),
     Ok (Some (retried media_item))).
Proof.
  intros Hfind Hne.
  unfold WebhookHandler.load_and_compare, run_try_rollback,
    WebhookHandler._get_or_create_media_item_from_jellyfin, retry_info.
  cbn [MediaInfo.jellyfin_id MediaInfo.title WebhookHandler.column_text].
  destruct (MediaItem.jellyfin_id media_item) as [|c jid] eqn:Ej; [congruence|].
  cbn [PyValue.truthy Py.truthy negb].
  run_unfold. rewrite Hfind. rewrite andb_false_r, stored_flag_jflag.
  unfold journal_app, no_journal. cbn.
  unfold retried, WebhookHandler.set_is_watched. cbn. rewrite Ej. reflexivity.
Qed.

Lemma update_sync_log_retry media_item should_monitor service log_id l db0 :
  log_id <> 0 ->
  sync_logs db0 !! log_id = Some l ->
  WebhookHandler._update_sync_log env media_item should_monitor service true
    (JInt log_id) db0
  = ({| events := [];
        status_writes := [{| sw_log_id := log_id; sw_old := Some (SyncLog.status l);
                             sw_new := SyncStatus.PROCESSING |}] |},
     Store.write_sync_log log_id (SyncLog.set_status SyncStatus.PROCESSING None l) db0,
     Ok log_id).
Proof.
  intros Hne Hl. unfold WebhookHandler._update_sync_log.
  unfold mbind at 1. unfold Run_bind at 1. unfold get_db at 1.
  unfold WebhookHandler.original_log.
  cbn [andb PyValue.truthy WebhookHandler.log_key].
  destruct (Z.eqb_spec log_id 0) as [|_]; [contradiction|]. cbn [negb].
  rewrite Hl.
  unfold mbind at 1. unfold Run_bind at 1. rewrite (set_status_found _ _ _ _ Hl).
  unfold mbind at 1. unfold Run_bind at 1.
  erewrite set_error_message_found by apply lookup_write_sync_log.
  rewrite write_sync_log_twice. reflexivity.
Qed.

Lemma sync_with_service_retry media_item mapping should_monitor force log_id
  webhook_context db0 l t success :
  log_id <> 0 ->
  sync_logs db0 !! log_id = Some l ->
  stored_mapping db0 media_item = Some mapping ->
  WebhookHandler.perform_sync env media_item mapping should_monitor = (t, Ok success) ->
  WebhookHandler._sync_with_service env media_item should_monitor force true
    (JInt log_id) webhook_context db0
  = ({| events := Db_select_mapping (WebhookHandler.service_name_of media_item)
                                    (MediaItem.id media_item) :: t;
        status_writes :=
          [{| sw_log_id := log_id; sw_old := Some (SyncLog.status l);
              sw_new := SyncStatus.PROCESSING |};
           {| sw_log_id := log_id; sw_old := Some SyncStatus.PROCESSING;
              sw_new := if success then SyncStatus.COMPLETED
                        else SyncStatus.FAILED |}] |},
     put_mapping (flagged should_monitor mapping)
       (Store.write_sync_log log_id
          (closed_record success (mapping_external_id mapping)
             (SyncLog.set_status SyncStatus.PROCESSING None l)) db0),
     Ok tt).
Proof.
  intros Hne Hl Hmap Hsync.
  unfold WebhookHandler._sync_with_service, run_try_except.
  unfold mbind at 1. unfold Run_bind at 1. rewrite select_mapping_run, Hmap.
  unfold mbind at 1. unfold Run_bind at 1. unfold mret at 1. unfold Run_ret at 1.
  unfold mbind at 1. unfold Run_bind at 1.
  rewrite (update_sync_log_retry _ _ _ _ _ _ Hne Hl).
  erewrite sync_and_record_run; [|apply lookup_write_sync_log|exact Hsync].
  rewrite write_sync_log_twice. reflexivity.
Qed.

(** X11. A retry reuses its record.  Take an audit record that the retry
    endpoint accepts, whose media item is in the store with a mapping.  The
    endpoint answers "retry_started" and queues one task; when that task runs
    (its cache key being free, the settle delay elapsing and the monitoring
    update returning), [process_webhook] recognises the payload as a retry of
    that record and the executor closes the same record, [COMPLETED] or
    [FAILED] by the outcome of the update: no new record is created, no other
    record changes, and the cache is left as it was. *)
Theorem retry_reuses_the_record
  log_id force db0 log media_item mapping cache t success :
  sync_logs db0 !! log_id = Some log ->
  retry_allowed force log ->
  log_id <> 0 ->
  media_items db0 !! SyncLog.media_item_id log = Some media_item ->
  Store.media_item_by_jellyfin_id db0 (MediaItem.jellyfin_id media_item)
  = Some media_item ->
  MediaItem.jellyfin_id media_item <> "" ->
  stored_mapping db0 media_item = Some mapping ->
  WebhookHandler.perform_sync env media_item mapping
    (negb (PyValue.truthy (Main.jflag (MediaItem.is_watched media_item))))
  = (t, Ok success) ->
  asyncio_sleep env (sync_delay_seconds (settings env)) = Ok tt ->
  cache !! retry_cache_key "retry_user" media_item = None ->
  exists w db1 message task,
    Main.retry_sync_action log_id force db0
    = (w, db1, Main.Returned "retry_started" message, [task])
    /\ exists j db2 l2,
         WebhookHandler.process_webhook env (Main.task_payload task)
           (Main.task_force_sync task)
           {| WebhookHandler._processing_cache := cache; WebhookHandler.db := db1 |}
         = (j, {| WebhookHandler._processing_cache := cache; WebhookHandler.db := db2 |},
            Ok tt)
         /\ sync_logs db2 !! log_id = Some l2
         /\ SyncLog.status l2
            = (if success then SyncStatus.COMPLETED else SyncStatus.FAILED)
         /\ SyncLog.error_message l2
            = (if success then None else Some "Failed to update monitoring status")
         /\ next_sync_log_id db2 = next_sync_log_id db0
         /\ forall k, k <> log_id -> sync_logs db2 !! k = sync_logs db0 !! k.
Proof.
  intros Hlog [Hnp Hforce] Hne Hitem Hfind Hjid Hmap Hsync Hsleep Hcache.
  set (l1 := SyncLog.set_status SyncStatus.PROCESSING None log).
  set (db1 := Store.write_sync_log log_id l1 db0).
  exists [{| sw_log_id := log_id; sw_old := Some (SyncLog.status log);
             sw_new := SyncStatus.PROCESSING |}], db1,
    ("Retry initiated for " +:+ MediaItem.title media_item),
    {| Main.task_payload :=
         Main.retry_webhook_data "retry_user" "retry" media_item log_id;
       Main.task_force_sync := true |}.
  split.
  { unfold Main.retry_sync_action. rewrite Hlog, Hitem.
    assert (H1 : (SyncStatus.eqb (SyncLog.status log) SyncStatus.COMPLETED
                  && negb force)%bool = false).
    { destruct (SyncLog.status log) eqn:Es; try reflexivity.
      rewrite (Hforce eq_refl). reflexivity. }
    assert (H2 : SyncStatus.eqb (SyncLog.status log) SyncStatus.PROCESSING = false).
    { destruct (SyncLog.status log); try reflexivity; congruence. }
    rewrite H1, H2. reflexivity. }
  cbn [Main.task_payload Main.task_force_sync].
  unfold WebhookHandler.process_webhook, WebhookHandler.process_webhook_enter.
  rewrite retry_payload_accepted.
  cbn [WebhookHandler._processing_cache WebhookHandler.db]. rewrite Hcache.
  unfold WebhookHandler.settle_and_process.
  unfold mbind at 1. unfold Run_bind at 1. unfold lift, request.
  rewrite Hsleep. cbn [trace outcome fst snd].
  unfold WebhookHandler._process_watched_status_change, run_try_except.
  unfold mbind at 1. unfold Run_bind at 1. unfold lift.
  rewrite retry_event_read. cbn [trace outcome fst snd].
  unfold mbind at 1. unfold Run_bind at 1.
  assert (Hfind1 : Store.media_item_by_jellyfin_id db1 (MediaItem.jellyfin_id media_item)
                   = Some media_item) by exact Hfind.
  rewrite (retry_load _ _ Hfind1 Hjid).
  change (JsonDict.has_key (retry_members "retry_user" "retry" media_item log_id)
            "is_watched") with true. cbv iota.
  set (db1' := Store.put_media_item _ (Store.put_media_item _ db1)).
  assert (Hl1 : sync_logs db1' !! log_id = Some l1) by apply lookup_write_sync_log.
  assert (Hmap1 : stored_mapping db1' (retried media_item) = Some mapping) by exact Hmap.
  assert (Hsync1 : WebhookHandler.perform_sync env (retried media_item) mapping
                     (negb (PyValue.truthy
                              (Main.jflag (MediaItem.is_watched media_item))))
                   = (t, Ok success))
    by exact Hsync.
  rewrite (sync_with_service_retry _ _ _ true _
             (Some (retry_members "retry_user" "retry" media_item log_id))
             _ _ _ _ Hne Hl1 Hmap1 Hsync1).
  unfold WebhookHandler.process_webhook_release.
  rewrite (delete_insert_id _ _ _ Hcache).
  cbn [fst snd].
  eexists _, _, _. split; [reflexivity|].
  split; [destruct mapping; apply lookup_insert_eq|].
  split; [reflexivity|]. split; [destruct success; reflexivity|].
  split; [destruct mapping; reflexivity|].
  intros k Hk. destruct mapping; cbn; rewrite !lookup_insert_ne by congruence;
    reflexivity.
Qed.

End AuditRecord.

(** ** The audit log is append-only *)

Section AuditFrame.

Variable env : Env.
Variables (k : Z) (l : SyncLog.t).

Lemma keeps_ret {A} (I : Db -> Prop) (a : A) : keeps I (mret a).
Proof. intros db0 H. exact H. Qed.

Lemma keeps_bind_post {A B} (I : Db -> Prop) (Q : A -> Prop) (m : Run A)
  (f : A -> Run B) :
  keeps I m ->
  (forall db0 a, I db0 -> snd (m db0) = Ok a -> Q a) ->
  (forall a, Q a -> keeps I (f a)) ->
  keeps I (m ≫= f).
Proof.
  intros Hm HQ Hf db0 H. specialize (Hm db0 H). specialize (HQ db0).
  unfold mbind, Run_bind. destruct (m db0) as [[j db1] [a|e]]; [|exact Hm].
  specialize (Hf a (HQ a H eq_refl) db1 Hm).
  destruct (f a db1) as [[j' db2] r]. exact Hf.
Qed.

Lemma keeps_bind {A B} (I : Db -> Prop) (m : Run A) (f : A -> Run B) :
  keeps I m -> (forall a, keeps I (f a)) -> keeps I (m ≫= f).
Proof.
  intros Hm Hf. apply (keeps_bind_post I (fun _ => True)); auto.
Qed.

Lemma keeps_lift {A} (I : Db -> Prop) (m : Eff A) : keeps I (lift m).
Proof. intros db0 H. exact H. Qed.

Lemma keeps_get_db (I : Db -> Prop) : keeps I get_db.
Proof. intros db0 H. exact H. Qed.

Lemma keeps_emit (I : Db -> Prop) ev : keeps I (emit ev).
Proof. intros db0 H. exact H. Qed.

Lemma keeps_log_status (I : Db -> Prop) w : keeps I (log_status w).
Proof. intros db0 H. exact H. Qed.

Lemma keeps_raise {A} (I : Db -> Prop) e : keeps I (run_raise e : Run A).
Proof. intros db0 H. exact H. Qed.

Lemma keeps_modify (I : Db -> Prop) f :
  (forall db0, I db0 -> I (f db0)) -> keeps I (modify f).
Proof. intros Hf db0 H. now apply Hf. Qed.

Lemma keeps_try_except {A} (I : Db -> Prop) (body : Run A) handler :
  keeps I body -> (forall e, keeps I (handler e)) ->
  keeps I (run_try_except body handler).
Proof.
  intros Hb Hh db0 H. specialize (Hb db0 H). unfold run_try_except.
  destruct (body db0) as [[j db1] [a|e]]; [exact Hb|].
  destruct (is_Exception e); [|exact Hb].
  specialize (Hh e db1 Hb). destruct (handler e db1) as [[j' db2] r]. exact Hh.
Qed.

Lemma keeps_try_rollback {A} (I : Db -> Prop) (body : Run A) handler :
  keeps I body -> (forall e, keeps I (handler e)) ->
  keeps I (run_try_rollback body handler).
Proof.
  intros Hb Hh db0 H. specialize (Hb db0 H). unfold run_try_rollback.
  destruct (body db0) as [[j db1] [a|e]]; [exact Hb|].
  destruct (is_Exception e); [|exact Hb].
  specialize (Hh e db0 H). destruct (handler e db0) as [[j' db2] r]. exact Hh.
Qed.

(** A change of the store that leaves the audit log alone. *)
Lemma record_is_frame (f : Db -> Db) :
  (forall db0, sync_logs (f db0) = sync_logs db0
               /\ next_sync_log_id (f db0) = next_sync_log_id db0) ->
  forall db0, record_is k l db0 -> record_is k l (f db0).
Proof.
  intros Hf db0 [H1 H2]. destruct (Hf db0) as [E1 E2]. unfold record_is.
  rewrite E1, E2. split; assumption.
Qed.

Lemma record_is_write log_id l' db0 :
  log_id <> k -> record_is k l db0 ->
  record_is k l (Store.write_sync_log log_id l' db0).
Proof.
  intros Hne [H1 H2]. split; [|exact H2]. cbn. now rewrite lookup_insert_ne.
Qed.

Lemma keeps_set_status log_id new :
  log_id <> k -> keeps (record_is k l) (WebhookHandler.set_status log_id new).
Proof.
  intros Hne. unfold WebhookHandler.set_status.
  apply keeps_bind; [apply keeps_get_db|]. intros db.
  destruct (sync_logs db !! log_id); [|apply keeps_ret].
  apply keeps_bind; [apply keeps_log_status|]. intros ?.
  apply keeps_modify. intros db0. now apply record_is_write.
Qed.

Lemma keeps_set_error_message log_id err :
  log_id <> k -> keeps (record_is k l) (WebhookHandler.set_error_message log_id err).
Proof.
  intros Hne. unfold WebhookHandler.set_error_message.
  apply keeps_bind; [apply keeps_get_db|]. intros db.
  destruct (sync_logs db !! log_id); [|apply keeps_ret].
  apply keeps_modify. intros db0. now apply record_is_write.
Qed.

Lemma keeps_set_external_id log_id ext :
  log_id <> k -> keeps (record_is k l) (WebhookHandler.set_external_id log_id ext).
Proof.
  intros Hne. unfold WebhookHandler.set_external_id.
  apply keeps_bind; [apply keeps_get_db|]. intros db.
  destruct (sync_logs db !! log_id); [|apply keeps_ret].
  apply keeps_modify. intros db0. now apply record_is_write.
Qed.

Lemma keeps_set_is_monitored mapping b :
  keeps (record_is k l) (WebhookHandler.set_is_monitored mapping b).
Proof.
  destruct mapping; apply keeps_modify; apply record_is_frame; intros; split;
    reflexivity.
Qed.

Lemma keeps_sync_and_record media_item mapping should_monitor log_id :
  log_id <> k ->
  keeps (record_is k l)
        (WebhookHandler.sync_and_record env media_item mapping should_monitor log_id).
Proof.
  intros Hne. unfold WebhookHandler.sync_and_record. apply keeps_try_except.
  - apply keeps_bind; [apply keeps_lift|]. intros success.
    apply keeps_bind; [now apply keeps_set_status|]. intros ?.
    apply keeps_bind; [now apply keeps_set_external_id|]. intros ?.
    apply keeps_bind.
    { destruct (negb success); [now apply keeps_set_error_message|apply keeps_ret]. }
    intros ?. apply keeps_set_is_monitored.
  - intros e. apply keeps_bind; [now apply keeps_set_status|]. intros ?.
    now apply keeps_set_error_message.
Qed.

Lemma get_db_bind_store {A} (f : Db -> Run A) db0 :
  snd (fst ((get_db ≫= f) db0)) = snd (fst (f db0 db0))
  /\ snd ((get_db ≫= f) db0) = snd (f db0 db0).
Proof.
  unfold mbind, Run_bind, get_db. destruct (f db0 db0) as [[j d] r]. split; reflexivity.
Qed.

Lemma original_log_elsewhere is_retry original_log_id db0 log_id :
  selects_another env k is_retry original_log_id ->
  WebhookHandler.original_log env is_retry original_log_id db0 = Ok (Some log_id) ->
  log_id <> k.
Proof.
  intros Hretry H. apply original_log_found in H as (Hr & Ht & Hk & _).
  intros ->. exact (Hretry Hr Ht Hk).
Qed.

Lemma update_sync_log_elsewhere media_item should_monitor service is_retry
  original_log_id :
  selects_another env k is_retry original_log_id ->
  keeps (record_is k l)
        (WebhookHandler._update_sync_log env media_item should_monitor service
           is_retry original_log_id)
  /\ forall db0 log_id,
       record_is k l db0 ->
       snd (WebhookHandler._update_sync_log env media_item should_monitor service
              is_retry original_log_id db0) = Ok log_id ->
       log_id <> k.
Proof.
  intros Hretry. unfold WebhookHandler._update_sync_log.
  split.
  - intros db0 H. rewrite (proj1 (get_db_bind_store _ db0)).
    destruct (WebhookHandler.original_log env is_retry original_log_id db0)
      as [[n|]|e] eqn:E.
    + pose proof (original_log_elsewhere _ _ _ _ Hretry E) as Hn.
      assert (Hk : keeps (record_is k l)
                     (WebhookHandler.set_status n SyncStatus.PROCESSING;;
                      WebhookHandler.set_error_message n None;; mret n)).
      { apply keeps_bind; [now apply keeps_set_status|]. intros ?.
        apply keeps_bind; [now apply keeps_set_error_message|]. intros ?.
        apply keeps_ret. }
      exact (Hk db0 H).
    + destruct H as [H1 H2].
      change (record_is k l
                (Store.bump_sync_log_id
                   (Store.put_sync_log
                      (WebhookHandler.new_sync_log env media_item should_monitor
                         service db0) db0))).
      split; cbn.
      * rewrite lookup_insert_ne by lia. exact H1.
      * lia.
    + exact H.
  - intros db0 log_id [H1 H2]. rewrite (proj2 (get_db_bind_store _ db0)).
    destruct (WebhookHandler.original_log env is_retry original_log_id db0)
      as [[n|]|e] eqn:E.
    + pose proof (original_log_elsewhere _ _ _ _ Hretry E) as Hn.
      unfold mbind at 1. unfold Run_bind at 1.
      destruct (WebhookHandler.set_status n SyncStatus.PROCESSING db0)
        as [[j d] [[]|e]] eqn:E1; [|discriminate].
      unfold mbind at 1. unfold Run_bind at 1.
      destruct (WebhookHandler.set_error_message n None d) as [[j' d'] [[]|e]];
        [|discriminate].
      cbn. congruence.
    + cbn. intros [= <-]. lia.
    + discriminate.
Qed.

Lemma keeps_create_mapping media_item webhook_context :
  keeps (record_is k l)
        (WebhookHandler.create_mapping env media_item webhook_context).
Proof.
  unfold WebhookHandler.create_mapping.
  destruct (WebhookHandler.is_sonarr_type _).
  - apply keeps_bind; [apply keeps_lift|]. intros [series|]; [|apply keeps_ret].
    apply keeps_bind.
    { destruct (String.eqb _ _); [|apply keeps_ret].
      apply keeps_bind; [apply keeps_lift|]. intros [episode|]; apply keeps_ret. }
    intros mapping. apply keeps_bind; [|intros; apply keeps_ret].
    apply keeps_modify. apply record_is_frame. intros; split; reflexivity.
  - apply keeps_bind; [apply keeps_lift|]. intros [movie|]; [|apply keeps_ret].
    apply keeps_bind; [|intros; apply keeps_ret].
    apply keeps_modify. apply record_is_frame. intros; split; reflexivity.
Qed.

Lemma keeps_sync_with_service media_item should_monitor force is_retry
  original_log_id webhook_context :
  selects_another env k is_retry original_log_id ->
  keeps (record_is k l)
        (WebhookHandler._sync_with_service env media_item should_monitor force
           is_retry original_log_id webhook_context).
Proof.
  intros Hretry. unfold WebhookHandler._sync_with_service.
  apply keeps_try_except; [|intros; apply keeps_ret].
  apply keeps_bind.
  { unfold WebhookHandler.select_mapping.
    apply keeps_bind; [apply keeps_emit|]. intros ?.
    apply keeps_bind; [apply keeps_get_db|]. intros ?. apply keeps_ret. }
  intros mapping. apply keeps_bind.
  { destruct mapping; [apply keeps_ret|apply keeps_create_mapping]. }
  intros [mapping'|]; [|apply keeps_ret].
  destruct (update_sync_log_elsewhere media_item should_monitor
              (Py.lower (WebhookHandler.service_name_of media_item))
              is_retry original_log_id Hretry) as [Hk Hid].
  apply (keeps_bind_post _ (fun log_id => log_id <> k)); [exact Hk|exact Hid|].
  intros log_id Hne. now apply keeps_sync_and_record.
Qed.

Lemma keeps_load_and_compare media_info is_watched force_sync :
  keeps (record_is k l)
        (WebhookHandler.load_and_compare media_info is_watched force_sync).
Proof.
  unfold WebhookHandler.load_and_compare.
  apply keeps_try_rollback; [|intros; apply keeps_ret].
  apply keeps_bind.
  - unfold WebhookHandler._get_or_create_media_item_from_jellyfin.
    destruct (negb _); [apply keeps_ret|].
    destruct (WebhookHandler.column_text _) as [jellyfin_id|e]; [|apply keeps_raise].
    apply keeps_bind; [apply keeps_get_db|]. intros db.
    destruct (MediaInfo.title media_info); [|apply keeps_raise].
    apply keeps_bind; [|intros; apply keeps_ret].
    apply keeps_modify. apply record_is_frame. intros db0.
    destruct (Store.media_item_by_jellyfin_id db0 _); split; reflexivity.
  - intros [media_item|]; [|apply keeps_ret].
    destruct (_ && _)%bool; [apply keeps_ret|].
    destruct (WebhookHandler.stored_flag is_watched) as [flag|e]; [|apply keeps_raise].
    apply keeps_bind; [|intros; apply keeps_ret].
    apply keeps_modify. apply record_is_frame. intros; split; reflexivity.
Qed.

Lemma accepted_event_retry payload cache_key webhook_data is_retry original_log_id :
  WebhookHandler.accepted_event payload
  = Some (cache_key, webhook_data, is_retry, original_log_id) ->
  exists members,
    payload = JObj members
    /\ is_retry
       = PyValue.truthy (JsonDict.get_default members "retry_mode" (JBool false))
    /\ original_log_id = JsonDict.get members "original_log_id".
Proof.
  unfold WebhookHandler.accepted_event.
  destruct payload as [| | | | |members]; try discriminate.
  destruct (if WebhookHandler._is_processed_webhook_data members then _ else _)
    as [[|kv wd]|]; try discriminate.
  destruct (negb _); [discriminate|].
  destruct (WebhookHandler.cache_key_of _); [|discriminate].
  intros [= <- <- <- <-]. eauto.
Qed.

Lemma keeps_pipeline webhook_data force_sync is_retry original_log_id :
  selects_another env k is_retry original_log_id ->
  keeps (record_is k l)
        (WebhookHandler._process_watched_status_change env webhook_data force_sync
           is_retry original_log_id).
Proof.
  intros Hretry. unfold WebhookHandler._process_watched_status_change.
  apply keeps_try_except; [|intros; apply keeps_ret].
  apply keeps_bind; [apply keeps_lift|]. intros [[is_watched media_info]|];
    [|apply keeps_ret].
  apply keeps_bind; [apply keeps_load_and_compare|].
  intros [media_item|]; [|apply keeps_ret].
  apply keeps_try_except; [|intros; apply keeps_ret].
  now apply keeps_sync_with_service.
Qed.

(** X12. The audit log is append-only.  A record that is in the store, under
    a key below the next primary key, is still there unchanged after any call
    of [process_webhook] whose payload is not a retry of that record (its
    [retry_mode] or its [original_log_id] is falsy, or [original_log_id]
    selects another record or none): whatever the payload, the cache and the
    answers of the services are, and however the call ends. *)
Theorem audit_log_is_append_only payload force_sync h :
  record_is k l (WebhookHandler.db h) ->
  not_a_retry_of env k payload ->
  record_is k l
    (WebhookHandler.db (snd (fst (WebhookHandler.process_webhook env payload
                                    force_sync h)))).
Proof.
  intros Hrec Hnot. unfold WebhookHandler.process_webhook,
    WebhookHandler.process_webhook_enter.
  destruct (WebhookHandler.accepted_event payload)
    as [[[[cache_key webhook_data] is_retry] original_log_id]|] eqn:Ea; [|exact Hrec].
  destruct (WebhookHandler._processing_cache h !! cache_key); [exact Hrec|].
  assert (Hretry : selects_another env k is_retry original_log_id).
  { apply accepted_event_retry in Ea as (members & -> & -> & ->). exact Hnot. }
  assert (Hkeeps : keeps (record_is k l)
                     (WebhookHandler.settle_and_process env webhook_data force_sync
                        is_retry original_log_id)).
  { unfold WebhookHandler.settle_and_process.
    apply keeps_bind; [apply keeps_lift|]. intros ?. now apply keeps_pipeline. }
  specialize (Hkeeps (WebhookHandler.db h) Hrec).
  destruct (WebhookHandler.settle_and_process _ _ _ _ _ _) as [[j d] [[]|e]];
    [exact Hkeeps|]. destruct (is_Exception e); exact Hkeeps.
Qed.

End AuditFrame.

(** ** Media items *)

Section MediaItems.

Lemma find_by_jellyfin_id_insert (items : gmap Z MediaItem.t) key item jellyfin_id :
  List.find (fun kv => String.eqb (MediaItem.jellyfin_id (snd kv)) jellyfin_id)
            (map_to_list items) = None ->
  MediaItem.jellyfin_id item = jellyfin_id ->
  snd <$> List.find (fun kv => String.eqb (MediaItem.jellyfin_id (snd kv)) jellyfin_id)
                    (map_to_list (<[key := item]> items))
  = Some item.
Proof.
  intros Hnone Hj.
  set (pred := fun kv : Z * MediaItem.t =>
                 String.eqb (MediaItem.jellyfin_id (snd kv)) jellyfin_id).
  assert (Hin : In (key, item) (map_to_list (<[key := item]> items))).
  { apply list_elem_of_In. apply elem_of_map_to_list. apply lookup_insert_eq. }
  assert (Hp : pred (key, item) = true).
  { unfold pred. cbn. rewrite Hj. apply String.eqb_refl. }
  destruct (find_first pred _ _ Hin Hp) as [[key' item'] Hf].
  fold pred. rewrite Hf. cbn. f_equal.
  apply List.find_some in Hf as [Hin' Hp'].
  apply list_elem_of_In, elem_of_map_to_list in Hin'.
  destruct (decide (key' = key)) as [->|Hne].
  - rewrite lookup_insert_eq in Hin'. congruence.
  - rewrite lookup_insert_ne in Hin' by congruence.
    apply elem_of_map_to_list, list_elem_of_In in Hin'.
    pose proof (List.find_none _ _ Hnone _ Hin') as Hq. fold pred in Hq. congruence.
Qed.

Lemma flag_eq_stored old_status is_watched :
  WebhookHandler.flag_eq old_status is_watched = true ->
  WebhookHandler.stored_flag is_watched = Ok old_status.
Proof.
  destruct old_status as [[]|], is_watched as [| [] |n| | |]; cbn;
    try discriminate; try reflexivity;
    intros H; apply Z.eqb_eq in H; subst n; reflexivity.
Qed.

Lemma stored_flag_raise is_watched e :
  WebhookHandler.stored_flag is_watched = Raise e -> e = StatementError.
Proof.
  destruct is_watched as [| |n| | |]; cbn; try discriminate; try congruence.
  destruct n as [|[p|p|]|p]; cbn; try discriminate; congruence.
Qed.

(** X13. An item seen for the first time is stored as unwatched before the
    comparison.  Take a Jellyfin id that the store does not know (and a fresh
    primary key).  When the flag of the event is one that the [is_watched]
    column takes ([None], a boolean, 0 or 1), the first event starts the sync
    exactly when the flag is not equal to [False] or the sync is forced, so
    also for a flag that is [None]; in every case the item is in the store
    afterwards, found by its Jellyfin id, with the flag of the event.  For
    any other flag the commit fails: the session is rolled back, the store is
    as it was and no sync starts. *)
Theorem unknown_item_starts_unwatched
  media_info jellyfin_id title is_watched force_sync db0 :
  PyValue.truthy (MediaInfo.jellyfin_id media_info) = true ->
  WebhookHandler.column_text (MediaInfo.jellyfin_id media_info) = Ok jellyfin_id ->
  MediaInfo.title media_info = Some title ->
  Store.media_item_by_jellyfin_id db0 jellyfin_id = None ->
  match WebhookHandler.stored_flag is_watched with
  | Ok flag =>
      exists db1,
        let item := WebhookHandler.set_is_watched flag
                      (created_item media_info jellyfin_id title db0) in
        WebhookHandler.load_and_compare media_info is_watched force_sync db0
        = (no_journal, db1,
           Ok (if (WebhookHandler.flag_eq (Some false) is_watched
                   && negb force_sync)%bool
               then None else Some item))
        /\ Store.media_item_by_jellyfin_id db1 jellyfin_id = Some item
        /\ next_media_item_id db1 = next_media_item_id db0 + 1
  | Raise _ =>
      WebhookHandler.load_and_compare media_info is_watched force_sync db0
      = (no_journal, db0, Ok None)
  end.
Proof.
  intros Htruthy Hj Ht Hnone.
  set (item0 := created_item media_info jellyfin_id title db0).
  assert (Hnone' : List.find
                     (fun kv => String.eqb (MediaItem.jellyfin_id (snd kv)) jellyfin_id)
                     (map_to_list (media_items db0)) = None).
  { unfold Store.media_item_by_jellyfin_id in Hnone.
    destruct (List.find _ _); [discriminate|reflexivity]. }
  assert (Hrun : WebhookHandler._get_or_create_media_item_from_jellyfin media_info db0
                 = (no_journal,
                    Store.bump_media_item_id (Store.put_media_item item0 db0),
                    Ok (Some item0))).
  { unfold WebhookHandler._get_or_create_media_item_from_jellyfin.
    rewrite Htruthy, Hj, Ht. cbn [negb].
    run_unfold. rewrite Hnone. reflexivity. }
  assert (Hfound : forall item,
            MediaItem.id item = MediaItem.id item0 ->
            MediaItem.jellyfin_id item = jellyfin_id ->
            Store.media_item_by_jellyfin_id
              (Store.put_media_item item
                 (Store.bump_media_item_id (Store.put_media_item item0 db0)))
              jellyfin_id = Some item).
  { intros item Hid Hjid. unfold Store.media_item_by_jellyfin_id.
    cbn [media_items Store.put_media_item Store.bump_media_item_id].
    rewrite Hid, insert_insert_eq. now apply find_by_jellyfin_id_insert. }
  destruct (WebhookHandler.stored_flag is_watched) as [flag|e] eqn:Ef.
  - unfold WebhookHandler.load_and_compare, run_try_rollback.
    unfold mbind at 1. unfold Run_bind at 1. rewrite Hrun.
    change (MediaItem.is_watched item0) with (Some false). rewrite Ef.
    destruct (WebhookHandler.flag_eq (Some false) is_watched) eqn:Eq.
    + assert (Hflag : flag = Some false).
      { apply flag_eq_stored in Eq. congruence. }
      subst flag.
      change (WebhookHandler.set_is_watched (Some false) item0) with item0.
      destruct force_sync; cbn [negb andb].
      * eexists. cbv zeta. split; [reflexivity|]. split; [|reflexivity].
        now apply Hfound.
      * eexists. cbv zeta. split; [reflexivity|]. split; [|reflexivity].
        unfold Store.media_item_by_jellyfin_id.
        cbn [media_items Store.put_media_item Store.bump_media_item_id].
        now apply find_by_jellyfin_id_insert.
    + cbn [andb].
      eexists. cbv zeta. split; [reflexivity|]. split; [|reflexivity].
      now apply Hfound.
  - unfold WebhookHandler.load_and_compare, run_try_rollback.
    unfold mbind at 1. unfold Run_bind at 1. rewrite Hrun.
    change (MediaItem.is_watched item0) with (Some false). rewrite Ef.
    destruct (WebhookHandler.flag_eq (Some false) is_watched) eqn:Eq.
    + apply flag_eq_stored in Eq. congruence.
    + apply stored_flag_raise in Ef. subst e. reflexivity.
Qed.

End MediaItems.

(** ** Webhook data *)

Section WebhookData.

Lemma eq_str_true v s : PyValue.eq_str v s = true -> v = JStr s.
Proof.
  destruct v; cbn; try discriminate. intros H. apply String.eqb_eq in H. now subst.
Qed.

Lemma send_all_extraction payload wd :
  WebhookHandler._extract_send_all_format payload = Some wd ->
  JsonDict.get payload "NotificationType" = JStr "UserDataSaved"
  /\ (JsonDict.get payload "SaveReason" = JStr "TogglePlayed"
      \/ JsonDict.get payload "SaveReason" = JStr "PlaybackFinished")
  /\ names_item_and_user wd
  /\ WebhookHandler._is_watched_status_change wd = true
  /\ WebhookHandler._is_processed_webhook_data wd = true
  /\ JsonDict.get wd "jellyfin_id" = JsonDict.get payload "ItemId"
  /\ JsonDict.get wd "user_id" = JsonDict.get payload "UserId"
  /\ JsonDict.get wd "is_watched"
     = JsonDict.get_default payload "Played" (JBool false).
Proof.
  unfold WebhookHandler._extract_send_all_format.
  destruct (PyValue.eq_str (JsonDict.get payload "NotificationType") "UserDataSaved")
    eqn:En; [|discriminate].
  apply eq_str_true in En. cbn [negb].
  destruct (PyValue.truthy (JsonDict.get payload "ItemId")) eqn:Ei; [|discriminate].
  destruct (PyValue.truthy (JsonDict.get payload "UserId")) eqn:Eu; [|discriminate].
  cbn [negb orb].
  destruct (PyValue.in_strs (JsonDict.get payload "SaveReason") _) eqn:Er;
    [|discriminate]. cbn [negb].
  destruct (WebhookHandler.provider_id payload "Provider_tvdb" _ _ _ _); [|discriminate].
  destruct (WebhookHandler.provider_id payload "Provider_imdb" _ _ _ _); [|discriminate].
  destruct (WebhookHandler.provider_id payload "Provider_tmdb" _ _ _ _); [|discriminate].
  intros [= <-]. split; [exact En|]. split.
  { destruct (JsonDict.get payload "SaveReason") as [| | |r| |]; try discriminate.
    unfold PyValue.in_strs, Py.str_in_list in Er. cbn in Er.
    apply orb_prop in Er as [Er|Er].
    - left. apply String.eqb_eq in Er. now subst.
    - rewrite orb_false_r in Er. right. apply String.eqb_eq in Er. now subst. }
  split; [split; [exact Ei|exact Eu]|].
  split; [unfold WebhookHandler._is_watched_status_change; cbn; now rewrite En|].
  repeat split; reflexivity.
Qed.

(** X14. What [_extract_webhook_data] lets through.  Whenever it returns data
    from a raw payload, in either format, the data is a [UserDataSaved] event
    that names the item and the user by truthy values, of whatever type.
    From a payload in the "Send All" format the data is returned only for the
    notification type [UserDataSaved] with save reason [TogglePlayed] or
    [PlaybackFinished] (a progress report is dropped); it then has the keys by
    which [process_webhook] recognises processed data, and its item id, user
    id and watched flag are the [ItemId], the [UserId] and the [Played] of the
    payload as they came ([False] when [Played] is missing). *)
Theorem extraction_lets_through_watched_events payload wd :
  WebhookHandler._extract_webhook_data payload = Some wd ->
  WebhookHandler._is_watched_status_change wd = true
  /\ names_item_and_user wd
  /\ (is_send_all payload = true ->
      JsonDict.get payload "NotificationType" = JStr "UserDataSaved"
      /\ (JsonDict.get payload "SaveReason" = JStr "TogglePlayed"
          \/ JsonDict.get payload "SaveReason" = JStr "PlaybackFinished")
      /\ WebhookHandler._is_processed_webhook_data wd = true
      /\ JsonDict.get wd "jellyfin_id" = JsonDict.get payload "ItemId"
      /\ JsonDict.get wd "user_id" = JsonDict.get payload "UserId"
      /\ JsonDict.get wd "is_watched"
         = JsonDict.get_default payload "Played" (JBool false)).
Proof.
  unfold WebhookHandler._extract_webhook_data, is_send_all.
  destruct (_ || _)%bool.
  - intros H.
    apply send_all_extraction in H as (Hn & Hr & Hids & Hw & Hp & Hi & Hu & Hf).
    repeat split; auto; apply Hids.
  - destruct (match JsonDict.lookup payload "template" with
              | None => Some [] | Some (JObj d) => Some d | Some _ => None end)
      as [template|]; [|discriminate].
    destruct (if PyValue.eq_str _ _ then Ok true
              else WebhookHandler.events_has_UserDataSaved payload)
      as [[|]|e]; try discriminate.
    destruct (WebhookHandler.legacy_id template payload "ItemId" "ItemId" "Id" "Item")
      as [item_id|e1]; [|discriminate].
    destruct (WebhookHandler.legacy_id template payload "UserId" "UserId" "user_id"
                "User") as [user_id|e2]; [|discriminate].
    destruct (PyValue.truthy item_id) eqn:Ei; [|discriminate].
    destruct (PyValue.truthy user_id) eqn:Eu; [|discriminate].
    cbn [negb orb].
    intros [= <-]. split; [reflexivity|]. split; [|discriminate].
    split; [exact Ei|exact Eu].
Qed.

Lemma normalize_movie jt :
  WebhookHandler._normalize_media_type jt = Ok MediaType.MOVIE <-> routed_to_radarr jt.
Proof.
  unfold routed_to_radarr.
  destruct jt as [| | |s| |];
    try (split; [discriminate|intros [H|H]; discriminate H]).
  unfold WebhookHandler._normalize_media_type.
  string_step s ltac:(first [split; [discriminate|intros [H|H]; discriminate H]
                            |split; [intros _; auto|reflexivity]]).
  all: try string_step s ltac:(first [split; [discriminate|intros [H|H]; discriminate H]
                                     |split; [intros _; auto|reflexivity]]).
  all: try string_step s ltac:(first [split; [discriminate|intros [H|H]; discriminate H]
                                     |split; [intros _; auto|reflexivity]]).
  all: try string_step s ltac:(first [split; [discriminate|intros [H|H]; discriminate H]
                                     |split; [intros _; auto|reflexivity]]).
  all: try string_step s ltac:(first [split; [discriminate|intros [H|H]; discriminate H]
                                     |split; [intros _; auto|reflexivity]]).
  all: try string_step s ltac:(first [split; [discriminate|intros [H|H]; discriminate H]
                                     |split; [intros _; auto|reflexivity]]).
  all: try string_step s ltac:(first [split; [discriminate|intros [H|H]; discriminate H]
                                     |split; [intros _; auto|reflexivity]]).
  all: try string_step s ltac:(first [split; [discriminate|intros [H|H]; discriminate H]
                                     |split; [intros _; auto|reflexivity]]).
Qed.

Lemma normalize_range jt media_type :
  WebhookHandler._normalize_media_type jt = Ok media_type ->
  In media_type [MediaType.EPISODE; MediaType.MOVIE; MediaType.SERIES; MediaType.SEASON].
Proof.
  destruct jt as [| | |s| |]; try discriminate;
    try (intros [= <-]; now left).
  rewrite normalize_str. intros [= <-]. unfold normalized.
  unfold WebhookHandler._normalize_media_type.
  string_step s ltac:(cbn; tauto).
  all: try string_step s ltac:(cbn; tauto).
  all: try string_step s ltac:(cbn; tauto).
  all: try string_step s ltac:(cbn; tauto).
  all: try string_step s ltac:(cbn; tauto).
  all: try string_step s ltac:(cbn; tauto).
  all: try string_step s ltac:(cbn; tauto).
  all: try string_step s ltac:(cbn; tauto).
Qed.

End WebhookData.

(** ** The media type and the service *)

Section Routing.

Variable env : Env.

Lemma is_sonarr_type_spec media_type :
  WebhookHandler.is_sonarr_type media_type = true
  <-> media_type = MediaType.EPISODE \/ media_type = MediaType.SERIES
      \/ media_type = MediaType.SEASON.
Proof.
  unfold WebhookHandler.is_sonarr_type, Py.str_in_list. cbn [existsb].
  rewrite !orb_true_iff, !String.eqb_eq. intuition discriminate.
Qed.

Lemma media_info_of_some item_data media_info :
  JellyfinItem.media_info_of item_data = Ok (Some media_info) ->
  exists item,
    item_data = JObj item
    /\ JellyfinItem.lower_type item = Ok (MediaInfo.media_type media_info).
Proof.
  unfold JellyfinItem.media_info_of.
  destruct (negb _); [discriminate|].
  destruct item_data as [| | | | |item]; try discriminate.
  unfold JellyfinItem.extract_media_info.
  destruct (JellyfinItem.lower_type item) as [media_type|e] eqn:El;
    destruct (JellyfinItem.played item) as [is_watched|e']; try discriminate.
  intros [= <-]. exists item. split; [reflexivity|exact El].
Qed.

(** X15. The media type of an item decides the service.  On the webhook path
    (the data carries [is_watched]) the media type of the event is the
    normalisation of its [item_type]: one of the four media types, and
    [movie] exactly for "Movie" and "movie".  On the fetch path (the data
    carries no [is_watched]) it is the lower-cased [Type] of the item that
    Jellyfin returns, not normalised.  An item that is in the store keeps its
    stored type, a new one takes the type of the event.  The executor asks
    Sonarr when the type of the item is [episode], [series] or [season], and
    Radarr for every other type. *)
Theorem media_type_decides_the_service :
  (forall webhook_data t is_watched media_info,
     JsonDict.has_key webhook_data "is_watched" = true ->
     WebhookHandler.watched_status_of_event env webhook_data
     = (t, Ok (Some (is_watched, media_info))) ->
     In (MediaInfo.media_type media_info)
        [MediaType.EPISODE; MediaType.MOVIE; MediaType.SERIES; MediaType.SEASON]
     /\ (MediaInfo.media_type media_info = MediaType.MOVIE
         <-> routed_to_radarr (item_type_of webhook_data)))
  /\ (forall webhook_data t is_watched media_info,
        JsonDict.has_key webhook_data "is_watched" = false ->
        WebhookHandler.watched_status_of_event env webhook_data
        = (t, Ok (Some (is_watched, media_info))) ->
        exists item_id user_id item,
          t = [Jellyfin_GET_item item_id user_id]
          /\ GET_item (jellyfin env) item_id user_id = Ok (JObj item)
          /\ JellyfinItem.lower_type item = Ok (MediaInfo.media_type media_info))
  /\ (forall item jellyfin_type,
        JsonDict.lookup item "Type" = Some (JStr jellyfin_type) ->
        JellyfinItem.lower_type item = Ok (Py.lower jellyfin_type))
  /\ (forall media_info jellyfin_id db0 j db1 media_item,
        WebhookHandler.column_text (MediaInfo.jellyfin_id media_info) = Ok jellyfin_id ->
        WebhookHandler._get_or_create_media_item_from_jellyfin media_info db0
        = (j, db1, Ok (Some media_item)) ->
        MediaItem.media_type media_item
        = media_type_after media_info (Store.media_item_by_jellyfin_id db0 jellyfin_id))
  /\ (forall media_item should_monitor force is_retry original_log_id webhook_context
             db0,
        exists rest,
          events (fst (fst (WebhookHandler._sync_with_service env media_item
                              should_monitor force is_retry original_log_id
                              webhook_context db0)))
          = Db_select_mapping
              (if WebhookHandler.is_sonarr_type (MediaItem.media_type media_item)
               then "Sonarr" else "Radarr")
              (MediaItem.id media_item) :: rest)
  /\ (forall media_type,
        WebhookHandler.is_sonarr_type media_type = true
        <-> media_type = MediaType.EPISODE \/ media_type = MediaType.SERIES
            \/ media_type = MediaType.SEASON).
Proof.
  split; [|split; [|split; [|split; [|split]]]].
  - intros webhook_data t is_watched media_info Hkey.
    unfold WebhookHandler.watched_status_of_event, JsonDict.has_key in *.
    destruct (JsonDict.lookup webhook_data "jellyfin_id") as [jid|]; [|discriminate].
    destruct (JsonDict.lookup webhook_data "user_id") as [uid|]; [|discriminate].
    destruct (JsonDict.lookup webhook_data "is_watched") as [w|]; [|discriminate].
    fold (item_type_of webhook_data).
    destruct (WebhookHandler._normalize_media_type (item_type_of webhook_data))
      as [media_type|e] eqn:En; [|discriminate].
    cbn. intros [= <- <- <-]. cbn [MediaInfo.media_type]. split.
    + exact (normalize_range _ _ En).
    + rewrite <- normalize_movie, En. split; congruence.
  - intros webhook_data t is_watched media_info Hkey.
    unfold WebhookHandler.watched_status_of_event, JsonDict.has_key in *.
    destruct (JsonDict.lookup webhook_data "jellyfin_id") as [jid|]; [|discriminate].
    destruct (JsonDict.lookup webhook_data "user_id") as [uid|]; [|discriminate].
    destruct (JsonDict.lookup webhook_data "is_watched") as [w|]; [discriminate|].
    unfold request, lift_result. run_unfold.
    destruct (GET_item _ _ _) as [item_data|e] eqn:Eg; [|discriminate].
    destruct (JellyfinItem.media_info_of item_data) as [[info|]|e] eqn:Ei;
      try discriminate.
    cbn. intros [= <- <- <-].
    apply media_info_of_some in Ei as (item & -> & Hl).
    eexists _, _, item. split; [reflexivity|]. split; [exact Eg|exact Hl].
  - intros item jellyfin_type H. unfold JellyfinItem.lower_type. now rewrite H.
  - intros media_info jellyfin_id db0 j db1 media_item Hj.
    unfold WebhookHandler._get_or_create_media_item_from_jellyfin.
    destruct (negb _); [discriminate|]. rewrite Hj.
    run_unfold. destruct (MediaInfo.title media_info) as [title|]; [|discriminate].
    destruct (Store.media_item_by_jellyfin_id db0 jellyfin_id) as [old|];
      intros [= <- <- <-]; reflexivity.
  - intros. apply sync_starts_with_mapping_lookup.
  - apply is_sonarr_type_spec.
Qed.

End Routing.

Section CacheKey.

Lemma append_underscore_inj a : forall a' r r',
  underscore_free a -> underscore_free a' ->
  a +:+ "_" +:+ r = a' +:+ "_" +:+ r' -> a = a' /\ r = r'.
Proof.
  unfold underscore_free.
  induction a as [|c a IH]; intros [|c' a'] r r' Ha Ha' H; simpl in *.
  - injection H as H. auto.
  - injection H as Hc _. exfalso. apply Ha'. left. now symmetry.
  - injection H as Hc _. exfalso. apply Ha. now left.
  - injection H as Hc H. subst c'. destruct (IH a' r r') as [-> ->]; auto.
Qed.

(** X16. The cache key tells events apart.  For webhook data whose item id
    and user id have no underscore, two events get the same cache key only if
    they name the same item, the same user and the same watched state. *)
Theorem cache_key_separates_events wd1 wd2 j1 u1 w1 j2 u2 w2 :
  event_texts wd1 = Some (j1, u1, w1) ->
  event_texts wd2 = Some (j2, u2, w2) ->
  underscore_free j1 -> underscore_free u1 ->
  underscore_free j2 -> underscore_free u2 ->
  (exists key, WebhookHandler.cache_key_of wd1 = Ok key)
  /\ (WebhookHandler.cache_key_of wd1 = WebhookHandler.cache_key_of wd2 ->
      j1 = j2 /\ u1 = u2 /\ w1 = w2).
Proof.
  unfold event_texts, WebhookHandler.cache_key_of.
  destruct (JsonDict.lookup wd1 "jellyfin_id") as [v1|]; [|discriminate].
  destruct (JsonDict.lookup wd1 "user_id") as [v1'|]; [|discriminate].
  destruct (JsonDict.lookup wd2 "jellyfin_id") as [v2|]; [|discriminate].
  destruct (JsonDict.lookup wd2 "user_id") as [v2'|]; [|discriminate].
  intros [= <- <- <-] [= <- <- <-] Hj1 Hu1 Hj2 Hu2.
  split; [eauto|]. intros [= H].
  apply append_underscore_inj in H as [-> H]; [|assumption..].
  apply append_underscore_inj in H as [-> ->]; auto.
Qed.

End CacheKey.

(** ** The bulk retry *)

Section BulkRetry.

(** The rows of a table in key order are its entries. *)
Lemma In_rows_by_key {A} (table : gmap Z A) k (row : A) :
  In (k, row) (Store.rows_by_key table) <-> table !! k = Some row.
Proof.
  unfold Store.rows_by_key.
  rewrite <- list_elem_of_In, merge_sort_Permutation, elem_of_map_to_list.
  reflexivity.
Qed.

Lemma retry_rows_frame rows : forall db0,
  exists w db1 tasks,
    Main.retry_rows rows db0 = (w, db1, tasks)
    /\ (List.length tasks <= List.length rows)%nat
    /\ List.length w = List.length tasks
    /\ Forall (fun t => Main.task_force_sync t = true) tasks
    /\ media_items db1 = media_items db0
    /\ sonarr_mappings db1 = sonarr_mappings db0
    /\ radarr_mappings db1 = radarr_mappings db0
    /\ next_media_item_id db1 = next_media_item_id db0
    /\ next_sync_log_id db1 = next_sync_log_id db0
    /\ forall k,
         sync_logs db1 !! k = sync_logs db0 !! k
         \/ exists l, In (k, l) rows
                      /\ is_Some (media_items db0 !! SyncLog.media_item_id l)
                      /\ sync_logs db1 !! k = Some (reopened l).
Proof.
  induction rows as [|[log_id log] rows IH]; intros db0.
  - exists [], db0, []. cbn. repeat split; auto.
  - cbn [Main.retry_rows].
    destruct (media_items db0 !! SyncLog.media_item_id log) as [media_item|] eqn:Em.
    + unfold Main.write_status.
      set (db' := Store.write_sync_log log_id _ db0).
      destruct (IH db') as (ws & db2 & tasks & -> & Hlen & Hw & Hf & Hm & Hs & Hr & Hn1 & Hn2 & Hk).
      eexists _, db2, _. split; [reflexivity|].
      cbn [List.length app]. repeat split; auto; try lia;
        try (constructor; [reflexivity|exact Hf]).
      * intros k. destruct (Hk k) as [Hk'|(l & Hin & Hsome & Hk')].
        -- destruct (decide (k = log_id)) as [->|Hne].
           ++ right. exists log. split; [now left|]. split; [rewrite Em; eauto|].
              rewrite Hk'. unfold db'. cbn. now rewrite lookup_insert_eq.
           ++ left. rewrite Hk'. unfold db'. cbn. now rewrite lookup_insert_ne.
        -- right. exists l. split; [now right|]. split; [exact Hsome|exact Hk'].
    + destruct (IH db0) as (ws & db2 & tasks & -> & Hlen & Hw & Hf & Hm & Hs & Hr & Hn1 & Hn2 & Hk).
      eexists _, db2, _. split; [reflexivity|].
      cbn [List.length]. repeat split; auto; try lia.
      intros k. destruct (Hk k) as [Hk'|(l & Hin & Hsome & Hk')]; [now left|].
      right. exists l. split; [now right|]. split; [exact Hsome|exact Hk'].
Qed.

(** X17. With a limit that is not negative, the bulk retry queues at most
    [limit] tasks, each one forced, and writes one status per task.  It
    leaves the media items, the mappings and the next log id as they were,
    and changes only records that were failed within the window and have a
    media item: those it marks as processing. *)
Theorem bulk_retry_is_bounded_and_selective now limit hours_back db0 :
  0 <= limit ->
  exists w db1 response tasks,
    Main.retry_failed_syncs now limit hours_back db0 = (w, db1, response, tasks)
    /\ Z.of_nat (List.length tasks) <= limit
    /\ List.length w = List.length tasks
    /\ Forall (fun t => Main.task_force_sync t = true) tasks
    /\ media_items db1 = media_items db0
    /\ sonarr_mappings db1 = sonarr_mappings db0
    /\ radarr_mappings db1 = radarr_mappings db0
    /\ next_sync_log_id db1 = next_sync_log_id db0
    /\ forall k,
         sync_logs db1 !! k = sync_logs db0 !! k
         \/ exists l, sync_logs db0 !! k = Some l
                      /\ in_retry_window now hours_back l
                      /\ is_Some (media_items db0 !! SyncLog.media_item_id l)
                      /\ sync_logs db1 !! k = Some (reopened l).
Proof.
  intros Hlimit. unfold Main.retry_failed_syncs.
  set (rows := Store.sql_limit _ _).
  assert (Hlen : (List.length rows <= Z.to_nat limit)%nat).
  { unfold rows, Store.sql_limit. destruct (Z.ltb_spec limit 0); [lia|].
    rewrite length_take. lia. }
  assert (Hrows : forall k l, In (k, l) rows ->
            sync_logs db0 !! k = Some l /\ in_retry_window now hours_back l).
  { intros k l Hin. unfold rows, Store.sql_limit in Hin.
    destruct (Z.ltb_spec limit 0); [lia|].
    apply list_elem_of_In, elem_of_take in Hin as (i & Hi & _).
    apply list_elem_of_lookup_2, list_elem_of_In, List.filter_In in Hi as [Hi Hf].
    apply In_rows_by_key in Hi.
    apply andb_prop in Hf as [Hs Hc]. cbn in Hs, Hc.
    split; [exact Hi|]. split; [now apply status_eqb_eq in Hs|lia]. }
  destruct (retry_rows_frame rows db0)
    as (ws & db2 & tasks & Er & Hl & Hw & Hf & Hm & Hs & Hr & _ & Hn & Hk).
  clearbody rows. destruct rows as [|row rows'].
  - eexists [], db0, _, []. split; [reflexivity|]. cbn. repeat split; auto; lia.
  - rewrite Er. eexists _, _, _, _. split; [reflexivity|].
    repeat split; auto; try lia.
    intros k. destruct (Hk k) as [Hk'|(l & Hin & Hsome & Hk')]; [now left|].
    right. exists l. destruct (Hrows k l Hin) as [Hl0 Hwin]. auto.
Qed.

End BulkRetry.

(** ** The webhook token *)

Section WebhookToken.

Variable outside : ConfigOutside.

Lemma truthy_nonempty s : Py.truthy s = true <-> s <> "".
Proof. destruct s; cbn; split; congruence. Qed.

Lemma truthy_opt_some o :
  Py.truthy_opt o = true -> exists s, o = Some s /\ Py.truthy s = true.
Proof. destruct o as [s|]; cbn; [eauto|discriminate]. Qed.

Lemma truthy_token hex : Py.truthy ("unmonitarr-" +:+ hex) = true.
Proof. reflexivity. Qed.

Lemma endpoint_requires_token token :
  Py.truthy token = true -> requires_token (Some token).
Proof.
  intros Ht. exists token. split; [reflexivity|]. split; [now apply truthy_nonempty|].
  intros request Hauth.
  unfold Main.jellyfin_webhook, Main.jellyfin_webhook_body.
  assert (Hc : (Py.truthy_opt (Some token)
                && (negb (Py.truthy_opt (Main.Request.authorization request))
                    || negb (String.eqb
                               (default "" (Main.Request.authorization request))
                               ("Bearer " +:+ default "" (Some token)))))%bool
               = true).
  { cbn [Py.truthy_opt from_option id]. rewrite Ht. cbn [andb].
    destruct (Main.Request.authorization request) as [a|];
      cbn [Py.truthy_opt from_option id]; [|reflexivity].
    destruct (String.eqb a ("Bearer " +:+ token)) eqn:Eq.
    - apply String.eqb_eq in Eq. congruence.
    - cbn. apply orb_true_r. }
  rewrite Hc. reflexivity.
Qed.

Lemma get_config_value_run key d s :
  no_cancellation outside ->
  PersistentConfig.get_config_value outside key d s
  = (session_closed (configurations s) s,
     Ok (match session_end outside (sessions_opened s) with
         | Completes =>
             match configurations s !! key with
             | Some config => Some (Configuration.value config)
             | None => d
             end
         | Fails _ _ => d
         end)).
Proof.
  intros Hnc. unfold PersistentConfig.get_config_value, cfg_try_except,
    PersistentConfig.with_session.
  destruct (session_end outside (sessions_opened s)) as [|e c] eqn:E; [reflexivity|].
  cbn. now rewrite (Hnc _ _ _ E).
Qed.

Lemma set_config_value_run key value description s :
  no_cancellation outside ->
  exists table success,
    PersistentConfig.set_config_value outside key value description s
    = (session_closed table s, Ok success)
    /\ (table = configurations s
        \/ Configuration.value <$> table !! key = Some value)
    /\ (forall k, k <> key -> table !! k = configurations s !! k)
    /\ (session_end outside (sessions_opened s) = Completes ->
        success = true /\ Configuration.value <$> table !! key = Some value)
    /\ (forall e, session_end outside (sessions_opened s) = Fails e false ->
        success = false /\ table = configurations s).
Proof.
  intros Hnc. unfold PersistentConfig.set_config_value, cfg_try_except,
    PersistentConfig.with_session.
  assert (Hw : exists table,
             (let '(table, a) :=
                match configurations s !! key with
                | Some config =>
                    (<[key := {| Configuration.value := value;
                                 Configuration.description :=
                                   if Py.truthy_opt description then description
                                   else Configuration.description config |}]>
                       (configurations s), true)
                | None =>
                    (<[key := {| Configuration.value := value;
                                 Configuration.description :=
                                   if Py.truthy_opt description then description
                                   else Some ("Auto-generated config for " +:+ key) |}]>
                       (configurations s), true)
                end in (table, a)) = (table, true)
             /\ Configuration.value <$> table !! key = Some value
             /\ forall k, k <> key -> table !! k = configurations s !! k).
  { destruct (configurations s !! key); eexists; (split; [reflexivity|]);
      (split; [now rewrite lookup_insert_eq|intros k Hk; now rewrite lookup_insert_ne]). }
  destruct Hw as (table & Hw & Hv & Hother).
  destruct (configurations s !! key) eqn:Ek; injection Hw as <-;
    destruct (session_end outside (sessions_opened s)) as [|e c] eqn:E;
    try (rewrite (Hnc _ _ _ E)); try destruct c; cbn;
    eexists _, _; (split; [reflexivity|]);
    repeat split; auto; try discriminate; try congruence.
Qed.

Lemma cfg_bind_run {A B} (m : Cfg A) (k : A -> Cfg B) s s1 a :
  m s = (s1, Ok a) -> (m ≫= k) s = k a s1.
Proof. intros H. unfold mbind, Cfg_bind. now rewrite H. Qed.

Lemma cfg_try_ok {A} (body : Cfg A) handler s s1 a :
  body s = (s1, Ok a) -> cfg_try_except body handler s = (s1, Ok a).
Proof. intros H. unfold cfg_try_except. now rewrite H. Qed.

Lemma fresh_webhook_token_run s :
  PersistentConfig.fresh_webhook_token outside s
  = (secret_drawn s, Ok ("unmonitarr-" +:+ token_hex outside (secrets_drawn s))).
Proof. reflexivity. Qed.

(** The token that [get_or_create_webhook_token] settles on: the one of the
    table, else the one of the environment, else a fresh one. *)
Lemma get_or_create_webhook_token_run s :
  no_cancellation outside ->
  exists s1 token,
    PersistentConfig.get_or_create_webhook_token outside s = (s1, Ok token)
    /\ Py.truthy token = true
    /\ settings_webhook_token s1 = settings_webhook_token s
    /\ settings_secret_key s1 = settings_secret_key s
    /\ (session_end outside (sessions_opened s) = Completes ->
        Py.truthy_opt (stored_token s) = true ->
        stored_token s = Some token /\ s1 = session_closed (configurations s) s)
    /\ (database_works outside -> stored_token s1 = Some token).
Proof.
  intros Hnc. unfold PersistentConfig.get_or_create_webhook_token.
  set (body := _ ≫= _).
  enough (Hbody : exists s1 token,
            body s = (s1, Ok token)
            /\ Py.truthy token = true
            /\ settings_webhook_token s1 = settings_webhook_token s
            /\ settings_secret_key s1 = settings_secret_key s
            /\ (session_end outside (sessions_opened s) = Completes ->
                Py.truthy_opt (stored_token s) = true ->
                stored_token s = Some token
                /\ s1 = session_closed (configurations s) s)
            /\ (database_works outside -> stored_token s1 = Some token)).
  { destruct Hbody as (s1 & token & Hb & H). exists s1, token.
    split; [now apply cfg_try_ok|exact H]. }
  unfold body. clear body.
  rewrite (cfg_bind_run _ _ _ _ _ (get_config_value_run "webhook_token" None s Hnc)).
  set (found := match session_end outside (sessions_opened s) with
                | Completes => _ | Fails _ _ => _ end).
  assert (Hfound : session_end outside (sessions_opened s) = Completes ->
                   found = stored_token s).
  { intros E. unfold found, stored_token. rewrite E.
    now destruct (configurations s !! "webhook_token"). }
  assert (Hfound' : found = None \/ found = stored_token s).
  { unfold found, stored_token.
    destruct (session_end outside (sessions_opened s)); [right|now left].
    now destruct (configurations s !! "webhook_token"). }
  destruct (Py.truthy_opt found) eqn:Et.
  - apply truthy_opt_some in Et as (token & Ef & Ht). rewrite Ef. cbn [from_option id].
    eexists _, token. split; [reflexivity|]. split; [exact Ht|].
    split; [reflexivity|]. split; [reflexivity|]. split.
    + intros E _. split; [now rewrite <- Hfound|reflexivity].
    + intros Hdb. change (stored_token s = Some token).
      destruct Hfound' as [Hn|Hs]; congruence.
  - set (s0 := session_closed (configurations s) s).
    assert (Hstale : session_end outside (sessions_opened s) = Completes ->
                     Py.truthy_opt (stored_token s) = true -> False).
    { intros E Hs. rewrite <- (Hfound E) in Hs. congruence. }
    rewrite (cfg_bind_run _ _ s0 s0 s0 eq_refl).
    change (settings_webhook_token s0) with (settings_webhook_token s).
    destruct (Py.truthy_opt (settings_webhook_token s)) eqn:Eenv.
    + apply truthy_opt_some in Eenv as (token & Ee & Ht). rewrite Ee.
      cbn [from_option id].
      destruct (set_config_value_run "webhook_token" token
                  (Some "Webhook authentication token for Jellyfin webhooks (migrated from env)")
                  s0 Hnc) as (table & success & Hrun & _ & _ & Hok & _).
      rewrite (cfg_bind_run _ _ _ _ _ Hrun).
      exists (session_closed table s0), token.
      split; [now destruct success|]. split; [exact Ht|].
      split; [exact Ee|]. split; [reflexivity|]. split.
      * intros E Hs. destruct (Hstale E Hs).
      * intros Hdb. apply Hok, Hdb.
    + rewrite (cfg_bind_run _ _ _ _ _ (fresh_webhook_token_run s0)).
      set (token := "unmonitarr-" +:+ _).
      destruct (set_config_value_run "webhook_token" token
                  (Some "Webhook authentication token for Jellyfin webhooks")
                  (secret_drawn s0) Hnc) as (table & success & Hrun & _ & _ & Hok & _).
      rewrite (cfg_bind_run _ _ _ _ _ Hrun).
      exists (session_closed table (secret_drawn s0)), token.
      split; [now destruct success|]. split; [reflexivity|].
      split; [reflexivity|]. split; [reflexivity|]. split.
      * intros E Hs. destruct (Hstale E Hs).
      * intros Hdb. apply Hok, Hdb.
Qed.

Lemma get_or_create_secret_key_run s :
  no_cancellation outside ->
  exists s1 key,
    PersistentConfig.get_or_create_secret_key outside s = (s1, Ok key)
    /\ settings_webhook_token s1 = settings_webhook_token s
    /\ forall k, k <> "secret_key" -> configurations s1 !! k = configurations s !! k.
Proof.
  intros Hnc. unfold PersistentConfig.get_or_create_secret_key.
  set (body := _ ≫= _).
  enough (Hbody : exists s1 key,
            body s = (s1, Ok key)
            /\ settings_webhook_token s1 = settings_webhook_token s
            /\ forall k, k <> "secret_key" ->
                         configurations s1 !! k = configurations s !! k).
  { destruct Hbody as (s1 & key & Hb & H). exists s1, key.
    split; [now apply cfg_try_ok|exact H]. }
  unfold body. clear body.
  rewrite (cfg_bind_run _ _ _ _ _ (get_config_value_run "secret_key" None s Hnc)).
  set (found := match session_end outside (sessions_opened s) with
                | Completes => _ | Fails _ _ => _ end).
  destruct (Py.truthy_opt found) eqn:Et.
  - eexists _, _. split; [reflexivity|]. split; [reflexivity|]. reflexivity.
  - set (s0 := session_closed (configurations s) s).
    rewrite (cfg_bind_run _ _ s0 s0 s0 eq_refl).
    change (settings_secret_key s0) with (settings_secret_key s).
    destruct (Py.truthy (settings_secret_key s)) eqn:Eenv.
    + destruct (set_config_value_run "secret_key" (settings_secret_key s)
                  (Some "Secret key for web session encryption (migrated from env)")
                  s0 Hnc) as (table & success & Hrun & _ & Hother & _).
      rewrite (cfg_bind_run _ _ _ _ _ Hrun).
      exists (session_closed table s0), (settings_secret_key s).
      split; [now destruct success|]. split; [reflexivity|]. exact Hother.
    + rewrite (cfg_bind_run _ _ s0 (secret_drawn s0)
                 (token_urlsafe outside (secrets_drawn s0)) eq_refl).
      destruct (set_config_value_run "secret_key"
                  (token_urlsafe outside (secrets_drawn s0))
                  (Some "Secret key for web session encryption")
                  (secret_drawn s0) Hnc) as (table & success & Hrun & _ & Hother & _).
      rewrite (cfg_bind_run _ _ _ _ _ Hrun).
      eexists (session_closed table (secret_drawn s0)), _.
      split; [now destruct success|]. split; [reflexivity|]. exact Hother.
Qed.

Lemma regenerate_webhook_token_run s :
  no_cancellation outside ->
  exists table success,
    PersistentConfig.regenerate_webhook_token outside s
    = (session_closed table (secret_drawn s),
       Ok ("unmonitarr-" +:+ token_hex outside (secrets_drawn s)))
    /\ (session_end outside (sessions_opened s) = Completes ->
        success = true
        /\ Configuration.value <$> table !! "webhook_token"
           = Some ("unmonitarr-" +:+ token_hex outside (secrets_drawn s)))
    /\ (forall e, session_end outside (sessions_opened s) = Fails e false ->
        success = false /\ table = configurations s).
Proof.
  intros Hnc. unfold PersistentConfig.regenerate_webhook_token.
  destruct (set_config_value_run "webhook_token"
              ("unmonitarr-" +:+ token_hex outside (secrets_drawn s))
              (Some "Webhook authentication token for Jellyfin webhooks (regenerated)")
              (secret_drawn s) Hnc) as (table & success & Hrun & _ & _ & Hok & Hfail).
  exists table, success. split; [|split; [exact Hok|exact Hfail]].
  apply cfg_try_ok.
  rewrite (cfg_bind_run _ _ _ _ _ (fresh_webhook_token_run s)).
  rewrite (cfg_bind_run _ _ _ _ _ Hrun). now destruct success.
Qed.

Lemma initialize_run self s :
  no_cancellation outside ->
  AppConfig._initialized self = false ->
  exists s0 s1 token key,
    PersistentConfig.get_or_create_webhook_token outside s = (s0, Ok token)
    /\ AppConfig.initialize outside self s
       = (s1, Ok {| AppConfig._webhook_token := Some token;
                    AppConfig._secret_key := Some key;
                    AppConfig._initialized := true |})
    /\ settings_webhook_token s1 = Some token
    /\ stored_token s1 = stored_token s0.
Proof.
  intros Hnc Hi. unfold AppConfig.initialize. rewrite Hi.
  destruct (get_or_create_webhook_token_run s Hnc) as (s0 & token & Ht & _).
  destruct (get_or_create_secret_key_run s0 Hnc) as (s1 & key & Hk & _ & Hother).
  exists s0, (let '(s2, _) := AppConfig.set_settings token key s1 in s2), token, key.
  split; [exact Ht|]. split.
  - apply cfg_try_ok.
    assert (Hp : PersistentConfig.initialize_persistent_config outside s
                 = (s1, Ok (token, key))).
    { unfold PersistentConfig.initialize_persistent_config. apply cfg_try_ok.
      rewrite (cfg_bind_run _ _ _ _ _ Ht). now rewrite (cfg_bind_run _ _ _ _ _ Hk). }
    rewrite (cfg_bind_run _ _ _ _ _ Hp). reflexivity.
  - split; [reflexivity|]. unfold stored_token. cbn. now rewrite Hother.
Qed.

(** X18. After [initialize], whatever the database does short of a
    cancellation and whatever the environment holds, the application has a
    webhook token that is not empty, [settings] has the same one, and the
    webhook endpoint answers 401 to every request that does not carry it;
    a second [initialize] changes nothing. *)
Theorem webhook_is_authenticated_after_startup self s :
  no_cancellation outside ->
  AppConfig._initialized self = false ->
  exists s1 self1,
    AppConfig.initialize outside self s = (s1, Ok self1)
    /\ AppConfig._initialized self1 = true
    /\ settings_webhook_token s1 = AppConfig._webhook_token self1
    /\ requires_token (AppConfig._webhook_token self1)
    /\ forall s2, AppConfig.initialize outside self1 s2 = (s2, Ok self1).
Proof.
  intros Hnc Hi.
  destruct (initialize_run self s Hnc Hi) as (s0 & s1 & token & key & Ht & Hrun & Hs & _).
  destruct (get_or_create_webhook_token_run s Hnc) as (s0' & token' & Ht' & Htruthy & _).
  assert (token' = token) as -> by congruence.
  eexists s1, _. split; [exact Hrun|]. split; [reflexivity|]. split; [exact Hs|].
  split; [now apply endpoint_requires_token|]. reflexivity.
Qed.

(** X19. [regenerate_webhook_token] switches the application and [settings]
    to a fresh token, which the endpoint then requires.  When the session
    completes the table holds the new token; when the session fails before
    its commit the table keeps what it had, and the caller is not told. *)
Theorem regenerated_token_may_not_persist self s :
  no_cancellation outside ->
  exists s1 self1,
    AppConfig.regenerate_webhook_token outside self s
    = (s1, Ok ("unmonitarr-" +:+ token_hex outside (secrets_drawn s), self1))
    /\ AppConfig._webhook_token self1
       = Some ("unmonitarr-" +:+ token_hex outside (secrets_drawn s))
    /\ settings_webhook_token s1 = AppConfig._webhook_token self1
    /\ requires_token (AppConfig._webhook_token self1)
    /\ (session_end outside (sessions_opened s) = Completes ->
        stored_token s1 = AppConfig._webhook_token self1)
    /\ (forall e, session_end outside (sessions_opened s) = Fails e false ->
        stored_token s1 = stored_token s).
Proof.
  intros Hnc.
  destruct (regenerate_webhook_token_run s Hnc) as (table & success & Hrun & Hok & Hfail).
  unfold AppConfig.regenerate_webhook_token.
  rewrite (cfg_bind_run _ _ _ _ _ Hrun).
  eexists _, _. split; [reflexivity|]. split; [reflexivity|]. split; [reflexivity|].
  split; [now apply endpoint_requires_token|]. split.
  - intros E. apply Hok, E.
  - intros e E. destruct (Hfail e E) as [_ ->]. reflexivity.
Qed.

End WebhookToken.

Section Restart.

Lemma database_works_no_cancellation outside :
  database_works outside -> no_cancellation outside.
Proof. intros Hdb n e c E. rewrite Hdb in E. discriminate E. Qed.

(** X20. With a working database, a startup leaves its webhook token in the
    table, and every later startup on that table gets the same token,
    whatever the environment and [secrets] then hold. *)
Theorem webhook_token_survives_restarts outside outside' s :
  database_works outside ->
  database_works outside' ->
  exists s1 self1 token,
    AppConfig.initialize outside AppConfig.__init__ s = (s1, Ok self1)
    /\ AppConfig._webhook_token self1 = Some token
    /\ stored_token s1 = Some token
    /\ forall s2,
         stored_token s2 = Some token ->
         exists s3 self3,
           AppConfig.initialize outside' AppConfig.__init__ s2 = (s3, Ok self3)
           /\ AppConfig._webhook_token self3 = Some token
           /\ stored_token s3 = Some token.
Proof.
  intros Hdb Hdb'.
  pose proof (database_works_no_cancellation _ Hdb) as Hnc.
  pose proof (database_works_no_cancellation _ Hdb') as Hnc'.
  destruct (initialize_run outside AppConfig.__init__ s Hnc eq_refl)
    as (s0 & s1 & token & key & Ht & Hrun & _ & Hstored).
  destruct (get_or_create_webhook_token_run outside s Hnc)
    as (s0' & token' & Ht' & Htruthy & _ & _ & _ & Hpersist).
  assert (s0' = s0) as -> by congruence. assert (token' = token) as -> by congruence.
  eexists s1, _, token. split; [exact Hrun|]. split; [reflexivity|].
  split; [rewrite Hstored; now apply Hpersist|].
  intros s2 Hs2.
  destruct (initialize_run outside' AppConfig.__init__ s2 Hnc' eq_refl)
    as (s3 & s4 & token2 & key2 & Ht2 & Hrun2 & _ & Hstored2).
  destruct (get_or_create_webhook_token_run outside' s2 Hnc')
    as (s3' & token2' & Ht2' & _ & _ & _ & Hsame & Hpersist2).
  assert (s3' = s3) as -> by congruence. assert (token2' = token2) as -> by congruence.
  destruct (Hsame (Hdb' _)) as [Heq _].
  { rewrite Hs2. exact Htruthy. }
  assert (token2 = token) as -> by congruence.
  eexists s4, _. split; [exact Hrun2|]. split; [reflexivity|].
  rewrite Hstored2. now apply Hpersist2.
Qed.

End Restart.

(** ** Pagination *)

Section Pagination.

Variable server : JellyfinClient.Server.
Variable library : list Json.
Variable limit : Z.
Hypothesis limit_pos : 0 < limit.

Lemma page_items_nil current_start :
  0 <= current_start ->
  JellyfinClient.Items (page_of library current_start limit) = [] ->
  drop (Z.to_nat current_start) library = [].
Proof.
  intros Hs. cbn. destruct (drop (Z.to_nat current_start) library) as [|x rest]; [auto|].
  destruct (Z.to_nat limit) eqn:El; [lia|]. discriminate.
Qed.

Lemma drop_next current_start :
  0 <= current_start ->
  drop (Z.to_nat (current_start + limit)) library
  = drop (Z.to_nat limit) (drop (Z.to_nat current_start) library).
Proof.
  intros Hs. rewrite drop_drop. f_equal. lia.
Qed.

(** The loop on a server that pages through [library]. *)
Lemma get_all_items_loop_serves k : forall fuel n all_items current_start rest,
  serves server library k ->
  0 <= current_start ->
  all_items ++ drop (Z.to_nat current_start) library = rest ->
  (List.length rest <= List.length library)%nat ->
  (List.length (drop (Z.to_nat current_start) library) < fuel)%nat ->
  (n + fuel <= k)%nat ->
  exists requests,
    JellyfinClient.get_all_items_loop server limit fuel n all_items current_start
    = Some (requests, Ok rest)
    /\ (List.length requests <= S (List.length (drop (Z.to_nat current_start) library)))%nat.
Proof.
  induction fuel as [|fuel IH]; intros n all_items current_start rest
    Hserves Hs Hinv Hlen Hfuel Hk; [lia|].
  cbn [JellyfinClient.get_all_items_loop].
  rewrite (Hserves n current_start limit) by lia.
  destruct (JellyfinClient.Items (page_of library current_start limit))
    as [|x items] eqn:Ei.
  - apply page_items_nil in Ei; [|exact Hs]. rewrite Ei, app_nil_r in Hinv. subst rest.
    eexists. split; [reflexivity|]. cbn. lia.
  - assert (Hne : (0 < List.length (drop (Z.to_nat current_start) library))%nat).
    { cbn in Ei. destruct (drop (Z.to_nat current_start) library); cbn; [|lia].
      rewrite take_nil in Ei. discriminate Ei. }
    rewrite <- Ei. clear x items Ei.
    set (remaining := drop (Z.to_nat current_start) library) in *.
    assert (Hsplit : take (Z.to_nat limit) remaining
                     ++ drop (Z.to_nat (current_start + limit)) library = remaining).
    { rewrite drop_next by exact Hs. apply take_drop. }
    change (JellyfinClient.Items (page_of library current_start limit))
      with (take (Z.to_nat limit) remaining).
    change (JellyfinClient.TotalRecordCount (page_of library current_start limit))
      with (Z.of_nat (List.length library)).
    assert (Hinv' : (all_items ++ take (Z.to_nat limit) remaining)
                    ++ drop (Z.to_nat (current_start + limit)) library = rest).
    { rewrite <- app_assoc, Hsplit. exact Hinv. }
    destruct (Z.of_nat (List.length library)
              <=? Z.of_nat (List.length (all_items ++ take (Z.to_nat limit) remaining)))
      eqn:Efull.
    + apply Z.leb_le in Efull.
      assert (Hnil : drop (Z.to_nat (current_start + limit)) library = []).
      { apply nil_length_inv. rewrite <- Hinv' in Hlen. rewrite length_app in Hlen. lia. }
      rewrite Hnil, app_nil_r in Hinv'. rewrite Hinv'.
      eexists. split; [reflexivity|]. cbn. lia.
    + assert (Hless : (List.length (drop (Z.to_nat (current_start + limit)) library)
                       < List.length remaining)%nat).
      { rewrite drop_next by exact Hs. fold remaining. rewrite length_drop. lia. }
      destruct (IH (S n) (all_items ++ take (Z.to_nat limit) remaining)
                  (current_start + limit) rest Hserves) as (requests & -> & Hreq);
        try lia; [exact Hinv'|].
      eexists. split; [reflexivity|]. cbn [List.length]. lia.
Qed.

(** The loop on a server that fails at the request [n + j], after [j] pages. *)
Lemma get_all_items_loop_fails e j : forall fuel n all_items current_start,
  serves server library (n + j) ->
  (forall start_index limit', server (n + j)%nat start_index limit' = Raise e) ->
  is_Exception e = true ->
  0 <= current_start ->
  Z.of_nat (List.length all_items) <= current_start ->
  current_start + Z.of_nat j * limit < Z.of_nat (List.length library) ->
  (j < fuel)%nat ->
  exists requests,
    JellyfinClient.get_all_items_loop server limit fuel n all_items current_start
    = Some (requests,
            Ok (all_items
                ++ take (j * Z.to_nat limit) (drop (Z.to_nat current_start) library)))
    /\ List.length requests = S j.
Proof.
  induction j as [|j IH]; intros fuel n all_items current_start
    Hserves Hfail He Hs Hall Hroom Hfuel;
    (destruct fuel as [|fuel]; [lia|]); cbn [JellyfinClient.get_all_items_loop].
  - rewrite Nat.add_0_r in Hfail. rewrite Hfail, He.
    exists [(current_start, limit)]. split; [|reflexivity].
    cbn [Nat.mul take]. now rewrite app_nil_r.
  - rewrite (Hserves n current_start limit) by lia.
    rewrite Nat2Z.inj_succ, Z.mul_succ_l in Hroom.
    assert (0 <= Z.of_nat j * limit) by nia.
    set (remaining := drop (Z.to_nat current_start) library).
    assert (Hrem : (Z.to_nat limit <= List.length remaining)%nat).
    { unfold remaining. rewrite length_drop. lia. }
    change (JellyfinClient.Items (page_of library current_start limit))
      with (take (Z.to_nat limit) remaining).
    change (JellyfinClient.TotalRecordCount (page_of library current_start limit))
      with (Z.of_nat (List.length library)).
    assert (Hpage : List.length (take (Z.to_nat limit) remaining) = Z.to_nat limit).
    { rewrite length_take. lia. }
    destruct (take (Z.to_nat limit) remaining) as [|x items] eqn:Ei; [cbn in Hpage; lia|].
    rewrite <- Ei in *. clear x items Ei.
    assert (Enot : (Z.of_nat (List.length library)
                    <=? Z.of_nat (List.length (all_items ++ take (Z.to_nat limit) remaining)))
                   = false).
    { apply Z.leb_gt. rewrite length_app, Hpage. lia. }
    rewrite Enot.
    assert (Hserves' : serves server library (S n + j)).
    { now rewrite Nat.add_succ_comm. }
    assert (Hfail' : forall start_index limit',
               server (S n + j)%nat start_index limit' = Raise e).
    { now rewrite Nat.add_succ_comm. }
    assert (Hall' : Z.of_nat (List.length (all_items ++ take (Z.to_nat limit) remaining))
                    <= current_start + limit).
    { rewrite length_app, Hpage. lia. }
    assert (Hroom' : current_start + limit + Z.of_nat j * limit
                     < Z.of_nat (List.length library)) by lia.
    destruct (IH fuel (S n) (all_items ++ take (Z.to_nat limit) remaining)
                (current_start + limit) Hserves' Hfail' He ltac:(lia) Hall' Hroom'
                ltac:(lia)) as (requests & -> & Hreq).
    exists ((current_start, limit) :: requests).
    split; [|cbn [List.length]; now rewrite Hreq].
    rewrite drop_next by exact Hs. fold remaining.
    rewrite <- app_assoc, take_take_drop. reflexivity.
Qed.

(** X21. On a server that pages through a library by [StartIndex] and
    [Limit], with a positive [Limit], [get_all_items] ends and returns the
    library from [start_index] on, whatever the page size; it makes at most
    one request more than there are items. *)
Theorem pagination_reads_the_whole_library fuel start_index :
  0 <= start_index ->
  serves server library fuel ->
  (List.length library < fuel)%nat ->
  exists requests,
    JellyfinClient.get_all_items server limit fuel start_index
    = Some (requests, Ok (drop (Z.to_nat start_index) library))
    /\ (List.length requests <= S (List.length library))%nat.
Proof.
  intros Hs Hserves Hfuel. unfold JellyfinClient.get_all_items.
  assert (Hd : (List.length (drop (Z.to_nat start_index) library) <= List.length library)%nat).
  { rewrite length_drop. lia. }
  destruct (get_all_items_loop_serves fuel fuel 0 [] start_index
              (drop (Z.to_nat start_index) library)) as (requests & Hrun & Hreq);
    try assumption; try lia; [reflexivity|].
  exists requests. split; [exact Hrun|lia].
Qed.

(** X22. An exception of a later request is swallowed: when the server has
    paged through [k] full pages and then fails, [get_all_items] returns
    normally with the items of those [k] pages, after [k + 1] requests. *)
Theorem failed_page_truncates_silently e k fuel start_index :
  serves server library k ->
  (forall start_index' limit', server k start_index' limit' = Raise e) ->
  is_Exception e = true ->
  0 <= start_index ->
  start_index + Z.of_nat k * limit < Z.of_nat (List.length library) ->
  (k < fuel)%nat ->
  exists requests,
    JellyfinClient.get_all_items server limit fuel start_index
    = Some (requests,
            Ok (take (k * Z.to_nat limit) (drop (Z.to_nat start_index) library)))
    /\ List.length requests = S k.
Proof.
  intros Hserves Hfail He Hs Hroom Hfuel. unfold JellyfinClient.get_all_items.
  destruct (get_all_items_loop_fails e k fuel 0 [] start_index)
    as (requests & Hrun & Hreq); try assumption; cbn; try lia.
  exists requests. split; [exact Hrun|exact Hreq].
Qed.

End Pagination.

(** ** The best external match *)

Section BestMatch.

Variable searches : ExternalAPIClient.Searches.

Lemma choose_titled query_title query_year results : forall best_match,
  Forall titled results ->
  ExternalAPIClient.choose (Some query_title) query_year best_match results
  = Ok (match List.find (same_title query_title) results with
        | Some m => m
        | None => default best_match (last (List.filter (same_year query_year) results))
        end).
Proof.
  induction results as [|r rest IH]; intros best_match Ht; [reflexivity|].
  inversion Ht as [|? ? [result_title Hr] Hrest]; subst.
  cbn [ExternalAPIClient.choose List.find List.filter].
  unfold same_title at 1. rewrite Hr.
  destruct (String.eqb (Py.lower result_title) (Py.lower query_title)); [reflexivity|].
  fold (same_year query_year r).
  destruct (same_year query_year r); rewrite IH by exact Hrest;
    destruct (List.find (same_title query_title) rest); try reflexivity.
  rewrite last_cons. now destruct (last (List.filter (same_year query_year) rest)).
Qed.

Lemma choose_untitled query query_year before m after : forall best_match,
  Forall (fun r => titled r /\ forall t, query = Some t -> same_title t r = false)
         before ->
  query = None \/ ExternalAPIClient.title m = None ->
  ExternalAPIClient.choose query query_year best_match (before ++ m :: after)
  = Raise AttributeError.
Proof.
  induction before as [|r rest IH]; intros best_match Hb Hm.
  - cbn. destruct Hm as [->| ->]; [now destruct (ExternalAPIClient.title m)|reflexivity].
  - inversion Hb as [|? ? [[result_title Hr] Hne] Hrest]; subst.
    cbn [app ExternalAPIClient.choose]. rewrite Hr.
    destruct query as [query_title|]; [|reflexivity].
    specialize (Hne query_title eq_refl). unfold same_title in Hne.
    rewrite Hr in Hne. rewrite Hne.
    destruct (_ && _)%bool; apply IH; auto.
Qed.

Lemma find_best_match_searches query media_type query_year existing_ids :
  no_known_id existing_ids ->
  ExternalAPIClient.find_best_match searches query media_type query_year existing_ids
  = ExternalAPIClient.search_by_title searches query media_type query_year.
Proof.
  intros (H1 & H2 & H3).
  unfold ExternalAPIClient.find_best_match, ExternalAPIClient.use_existing_ids.
  now rewrite H1, H2, H3.
Qed.

(** X23. When no identifier is known and the title search returns results
    that all have titles, [find_best_match] returns the first result with
    the title of the query up to case; if there is none, the last result
    with the year of the query; if there is none either, the first result.
    It marks its choice with the source "external_api_search". *)
Theorem best_match_prefers_title_then_year
  query_title media_type query_year existing_ids search first rest :
  no_known_id existing_ids ->
  title_search searches (Some query_title) media_type query_year
  = Some (search, Ok (first :: rest)) ->
  Forall titled (first :: rest) ->
  ExternalAPIClient.find_best_match searches (Some query_title) media_type query_year
    existing_ids
  = ([search],
     Ok (Some (ExternalAPIClient.set_source "external_api_search"
                 (match List.find (same_title query_title) (first :: rest) with
                  | Some m => m
                  | None =>
                      default first
                        (last (List.filter (same_year query_year) (first :: rest)))
                  end)))).
Proof.
  intros Hids Hsearch Ht. rewrite find_best_match_searches by exact Hids.
  unfold ExternalAPIClient.search_by_title. unfold title_search in Hsearch.
  rewrite Hsearch. now rewrite choose_titled by exact Ht.
Qed.

(** X24. [find_best_match] has no handler of its own: when the query has no
    title, or a result without a title comes before every result with the
    title of the query, the [AttributeError] of [.lower()] escapes it. *)
Theorem untitled_result_raises
  query media_type query_year existing_ids search before m after :
  no_known_id existing_ids ->
  title_search searches query media_type query_year
  = Some (search, Ok (before ++ m :: after)) ->
  Forall (fun r => titled r /\ forall t, query = Some t -> same_title t r = false)
         before ->
  query = None \/ ExternalAPIClient.title m = None ->
  ExternalAPIClient.find_best_match searches query media_type query_year existing_ids
  = ([search], Raise AttributeError).
Proof.
  intros Hids Hsearch Hb Hm. rewrite find_best_match_searches by exact Hids.
  unfold ExternalAPIClient.search_by_title. unfold title_search in Hsearch.
  rewrite Hsearch.
  destruct (before ++ m :: after) as [|first rest] eqn:E.
  { now destruct before. }
  rewrite <- E. now rewrite choose_untitled.
Qed.

End BestMatch.

(** ** The bulk sync *)

Section BulkSyncRun.

Variable env : Env.

Lemma process_webhook_no_exception payload force_sync h j h' e :
  WebhookHandler.process_webhook env payload force_sync h = (j, h', Raise e) ->
  is_Exception e = false.
Proof.
  unfold WebhookHandler.process_webhook.
  destruct (WebhookHandler.process_webhook_enter env payload _) as [cache entry].
  destruct entry; try discriminate.
  destruct (WebhookHandler.settle_and_process _ _ _ _ _ _) as [[j0 db'] r].
  destruct r as [u|e0]; [discriminate|].
  destruct (is_Exception e0) eqn:E; [discriminate|]. now intros [= <- <- <-].
Qed.

Lemma same_run_refl st : same_run st st.
Proof. repeat split. Qed.

Lemma same_run_trans st1 st2 st3 :
  same_run st1 st2 -> same_run st2 st3 -> same_run st1 st3.
Proof. unfold same_run. intuition congruence. Qed.

Lemma extract_raises item e :
  BulkSync.extract_media_info item = Raise e -> e = AttributeError.
Proof.
  unfold BulkSync.extract_media_info, BulkSync.lower_type, JellyfinItem.lower_type.
  destruct (JsonDict.lookup item "Type") as [[]|];
    try (intros [= <-]; reflexivity);
    destruct (BulkSync.truthy _); try discriminate;
    destruct (default _ _); try discriminate; now intros [= <-].
Qed.

Lemma webhook_data_raises user_id username item media_info e :
  BulkSync.bulk_webhook_data user_id username item media_info = Raise e ->
  e = AttributeError.
Proof.
  unfold BulkSync.bulk_webhook_data, BulkSync.raw_sub, JsonDict.get_sub.
  destruct (JsonDict.lookup item "ProviderIds") as [[]|];
    try discriminate; now intros [= <-].
Qed.

(** One turn of the loop. *)
Lemma sync_item_run user_id username item s :
  exists j s' r,
    BulkSync.sync_item env user_id username item s = (j, s', r)
    /\ same_run (BulkSync.status s) (BulkSync.status s')
    /\ (forall e, r = Raise e -> is_Exception e = false)
    /\ (asyncio_sleep env 1 = Ok tt -> r = Ok tt ->
        BulkSync.processed_count (BulkSync.status s')
        = BulkSync.processed_count (BulkSync.status s)
          + (if extracts item then 1 else 0)
        /\ BulkSync.synced_count (BulkSync.status s')
           = BulkSync.synced_count (BulkSync.status s)
             + (if well_formed user_id username item then 1 else 0)
        /\ BulkSync.errors (BulkSync.status s')
           = BulkSync.errors (BulkSync.status s)
             ++ (if well_formed user_id username item then []
                 else [malformed_entry item])).
Proof.
  unfold BulkSync.sync_item, BulkSync.bulk_try_except, well_formed, extracts.
  unfold mbind at 1. unfold BulkSync.Bulk_bind at 1. unfold BulkSync.answer at 1.
  destruct (BulkSync.extract_media_info item) as [media_info|e] eqn:Ex.
  2:{ rewrite (extract_raises _ _ Ex). cbn.
      eexists _, _, _. split; [reflexivity|]. repeat split; try discriminate.
      - cbn. lia.
      - cbn. lia. }
  unfold mbind at 1. unfold BulkSync.Bulk_bind at 1. unfold BulkSync.update_status at 1.
  unfold mbind at 1. unfold BulkSync.Bulk_bind at 1. unfold BulkSync.answer at 1.
  destruct (BulkSync.bulk_webhook_data user_id username item media_info)
    as [webhook_data|e] eqn:Ew.
  2:{ rewrite (webhook_data_raises _ _ _ _ _ Ew). cbn.
      eexists _, _, _. split; [reflexivity|]. repeat split; try discriminate.
      cbn. lia. }
  unfold mbind at 1. unfold BulkSync.Bulk_bind at 1. unfold BulkSync.process at 1.
  cbn [BulkSync.handler BulkSync.status].
  destruct (WebhookHandler.process_webhook env (JObj webhook_data) true
              (BulkSync.handler s)) as [[j h] r] eqn:Ep.
  destruct r as [[]|e].
  2:{ pose proof (process_webhook_no_exception _ _ _ _ _ _ Ep) as He.
      cbn. rewrite He.
      eexists _, _, _. split; [reflexivity|]. split; [repeat split|].
      split; [now intros e' [= <-]|]. discriminate. }
  unfold mbind at 1. unfold BulkSync.Bulk_bind at 1. unfold BulkSync.update_status at 1.
  unfold mbind at 1. unfold BulkSync.Bulk_bind at 1. unfold BulkSync.get_status at 1.
  cbn [BulkSync.handler BulkSync.status BulkSync.synced BulkSync.processing
       BulkSync.processed_count].
  destruct (_ =? 0).
  - unfold BulkSync.pause. destruct (asyncio_sleep env 1) as [[]|e] eqn:Es.
    + cbn. eexists _, _, _. split; [reflexivity|]. repeat split; try discriminate.
      cbn. now rewrite app_nil_r.
    + cbn. destruct (is_Exception e) eqn:He.
      * cbn. eexists _, _, _. split; [reflexivity|]. repeat split; discriminate.
      * eexists _, _, _. split; [reflexivity|]. split; [repeat split|].
        split; [now intros e' [= <-]|]. discriminate.
  - cbn. eexists _, _, _. split; [reflexivity|]. repeat split; try discriminate.
    cbn. now rewrite app_nil_r.
Qed.

Lemma bulk_bind_run {A B} (m : BulkSync.Bulk A) (k : A -> BulkSync.Bulk B) s j s1 a :
  m s = (j, s1, Ok a) ->
  (m ≫= k) s = (let '(j', s2, r) := k a s1 in (journal_app j j', s2, r)).
Proof. intros H. unfold mbind, BulkSync.Bulk_bind. now rewrite H. Qed.

Lemma bulk_bind_raise {A B} (m : BulkSync.Bulk A) (k : A -> BulkSync.Bulk B) s j s1 e :
  m s = (j, s1, Raise e) -> (m ≫= k) s = (j, s1, Raise e).
Proof. intros H. unfold mbind, BulkSync.Bulk_bind. now rewrite H. Qed.

(** The loop over the items. *)
Lemma sync_items_run user_id username all_items : forall s,
  exists j s' r,
    BulkSync.sync_items env user_id username all_items s = (j, s', r)
    /\ same_run (BulkSync.status s) (BulkSync.status s')
    /\ (forall e, r = Raise e -> is_Exception e = false)
    /\ (asyncio_sleep env 1 = Ok tt -> r = Ok tt ->
        BulkSync.processed_count (BulkSync.status s')
        = BulkSync.processed_count (BulkSync.status s)
          + Z.of_nat (List.length (List.filter extracts all_items))
        /\ BulkSync.synced_count (BulkSync.status s')
           = BulkSync.synced_count (BulkSync.status s)
             + Z.of_nat (List.length
                           (List.filter (well_formed user_id username) all_items))
        /\ BulkSync.errors (BulkSync.status s')
           = BulkSync.errors (BulkSync.status s)
             ++ map malformed_entry
                    (List.filter (fun item => negb (well_formed user_id username item))
                                 all_items)).
Proof.
  induction all_items as [|item rest IH]; intros s.
  - exists no_journal, s, (Ok tt). split; [reflexivity|].
    split; [apply same_run_refl|]. split; [discriminate|].
    intros _ _. cbn. rewrite app_nil_r. repeat split; lia.
  - cbn [BulkSync.sync_items].
    destruct (sync_item_run user_id username item s)
      as (j1 & s1 & r1 & Hrun1 & Hsame1 & Hexn1 & Hcount1).
    destruct r1 as [[]|e].
    + rewrite (bulk_bind_run _ _ _ _ _ _ Hrun1).
      destruct (IH s1) as (j2 & s2 & r2 & Hrun2 & Hsame2 & Hexn2 & Hcount2).
      rewrite Hrun2. eexists _, s2, r2. split; [reflexivity|].
      split; [eapply same_run_trans; eassumption|]. split; [exact Hexn2|].
      intros Hsleep Hr2.
      destruct (Hcount1 Hsleep eq_refl) as (Hp1 & Hs1 & He1).
      destruct (Hcount2 Hsleep Hr2) as (Hp2 & Hs2 & He2).
      rewrite Hp2, Hs2, He2, Hp1, Hs1, He1. cbn [List.filter].
      destruct (extracts item); destruct (well_formed user_id username item);
        cbn [negb List.length map]; rewrite <- ?app_assoc; cbn [app];
        repeat split; try lia; try reflexivity; now rewrite ?app_nil_r.
    + rewrite (bulk_bind_raise _ _ _ _ _ _ Hrun1).
      eexists _, s1, _. split; [reflexivity|]. split; [exact Hsame1|].
      split; [exact Hexn1|]. discriminate.
Qed.

(** X25. A bulk sync that finds a user and items, and is not cancelled, ends
    as a success with [total_count] the number of items, [processed_count]
    the number of items that [extract_media_info] accepts and [synced_count]
    the number of items whose webhook data could be built; the errors are
    those of the other items.  None of this depends on what the handler, Sonarr
    or Radarr did with an item: [synced_count] counts the items handed over,
    not the monitoring changes that succeeded. *)
Theorem bulk_sync_counts_items_not_successes client sync_type s user users all_items :
  BulkSync.get_users client = Ok (user :: users) ->
  listing client sync_type (BulkSync.raw user "Id") = Ok all_items ->
  all_items <> [] ->
  asyncio_sleep env 1 = Ok tt ->
  exists j s' r,
    BulkSync.perform_bulk_sync env (Some client) sync_type s = (j, s', r)
    /\ match r with
       | Raise e => is_Exception e = false
       | Ok _ =>
           let user_id := BulkSync.raw user "Id" in
           let username := default (JStr "Unknown") (JsonDict.lookup user "Name") in
           let st := BulkSync.status s' in
           BulkSync.completed st = true
           /\ BulkSync.success st = true
           /\ BulkSync.total_count st = Z.of_nat (List.length all_items)
           /\ BulkSync.processed_count st
              = Z.of_nat (List.length (List.filter extracts all_items))
           /\ BulkSync.synced_count st
              = Z.of_nat (List.length
                            (List.filter (well_formed user_id username) all_items))
           /\ BulkSync.errors st
              = map malformed_entry
                    (List.filter (fun item => negb (well_formed user_id username item))
                                 all_items)
       end.
Proof.
  intros Husers Hitems Hne Hsleep.
  unfold BulkSync.perform_bulk_sync, BulkSync.bulk_try_except.
  unfold mbind at 1. unfold BulkSync.Bulk_bind at 1. unfold BulkSync.update_status at 1.
  unfold mbind at 1. unfold BulkSync.Bulk_bind at 1. unfold BulkSync.answer at 1.
  rewrite Husers.
  unfold mbind at 1. unfold BulkSync.Bulk_bind at 1. unfold BulkSync.answer at 1.
  fold (listing client sync_type (BulkSync.raw user "Id")). rewrite Hitems.
  destruct all_items as [|item rest] eqn:Eitems; [congruence|]. rewrite <- Eitems in *.
  unfold mbind at 1. unfold BulkSync.Bulk_bind at 1. unfold BulkSync.update_status at 1.
  set (s0 := {| BulkSync.handler := _; BulkSync.status := BulkSync.set_total_count _ _ |}).
  destruct (sync_items_run (BulkSync.raw user "Id")
              (default (JStr "Unknown") (JsonDict.lookup user "Name")) all_items s0)
    as (j1 & s1 & r1 & Hrun & Hsame & Hexn & Hcount).
  destruct r1 as [[]|e].
  - rewrite (bulk_bind_run _ _ _ _ _ _ Hrun). cbn.
    eexists _, _, _. split; [reflexivity|]. cbn.
    destruct (Hcount Hsleep eq_refl) as (Hp & Hs & He).
    destruct Hsame as (_ & _ & _ & Ht & _).
    rewrite Hp, Hs, He, Ht. cbn. repeat split; lia.
  - rewrite (bulk_bind_raise _ _ _ _ _ _ Hrun). cbn.
    rewrite (Hexn e eq_refl). eexists _, _, _. split; [reflexivity|].
    apply (Hexn e eq_refl).
Qed.

(** X26. [perform_bulk_sync] clears its guard on every path but one.  When it
    returns (no client, no user, no item, a request that fails, items that
    fail, or all items done) the status is completed and not running, and
    the endpoints accept a new bulk sync.  When it is cancelled the status
    stays running, and the endpoints answer 409 from then on. *)
Theorem bulk_sync_guard jellyfin_client sync_type s :
  exists j s' r,
    BulkSync.perform_bulk_sync env jellyfin_client sync_type s = (j, s', r)
    /\ match r with
       | Ok _ =>
           BulkSync.completed (BulkSync.status s') = true
           /\ accepts_bulk_sync (BulkSync.status s')
       | Raise e =>
           is_Exception e = false
           /\ BulkSync.completed (BulkSync.status s') = false
           /\ refuses_bulk_sync (BulkSync.status s')
       end.
Proof.
  assert (Hacc : forall st, BulkSync.is_running st = false -> accepts_bulk_sync st).
  { intros st H t. unfold BulkSync.bulk_sync_endpoint. now rewrite H. }
  assert (Href : forall st, BulkSync.is_running st = true -> refuses_bulk_sync st).
  { intros st H t. unfold BulkSync.bulk_sync_endpoint. now rewrite H. }
  unfold BulkSync.perform_bulk_sync, BulkSync.bulk_try_except.
  unfold mbind at 1. unfold BulkSync.Bulk_bind at 1. unfold BulkSync.update_status at 1.
  destruct jellyfin_client as [client|].
  2:{ cbn. eexists _, _, _. split; [reflexivity|]. split; [reflexivity|].
      now apply Hacc. }
  unfold mbind at 1. unfold BulkSync.Bulk_bind at 1. unfold BulkSync.answer at 1.
  destruct (BulkSync.get_users client) as [[|user users]|e].
  - cbn. eexists _, _, _. split; [reflexivity|]. split; [reflexivity|]. now apply Hacc.
  - unfold mbind at 1. unfold BulkSync.Bulk_bind at 1. unfold BulkSync.answer at 1.
    destruct (if String.eqb sync_type "movies" then _ else _) as [[|item rest]|e].
    + cbn. eexists _, _, _. split; [reflexivity|]. split; [reflexivity|].
      now apply Hacc.
    + set (all_items := item :: rest).
      unfold mbind at 1. unfold BulkSync.Bulk_bind at 1.
      unfold BulkSync.update_status at 1.
      set (s0 := {| BulkSync.handler := _;
                    BulkSync.status := BulkSync.set_total_count _ _ |}).
      destruct (sync_items_run (BulkSync.raw user "Id")
                  (default (JStr "Unknown") (JsonDict.lookup user "Name")) all_items s0)
        as (j1 & s1 & r1 & Hrun & Hsame & Hexn & _).
      destruct r1 as [[]|e].
      * rewrite (bulk_bind_run _ _ _ _ _ _ Hrun). cbn.
        eexists _, _, _. split; [reflexivity|]. split; [reflexivity|]. now apply Hacc.
      * rewrite (bulk_bind_raise _ _ _ _ _ _ Hrun). cbn.
        rewrite (Hexn e eq_refl). eexists _, _, _. split; [reflexivity|].
        split; [apply (Hexn e eq_refl)|].
        destruct Hsame as (Hr & Hc & _). split; [now rewrite Hc|].
        apply Href. now rewrite Hr.
    + cbn. destruct (is_Exception e) eqn:He; cbn.
      * eexists _, _, _. split; [reflexivity|]. split; [reflexivity|]. now apply Hacc.
      * eexists _, _, _. split; [reflexivity|].
        split; [exact He|]. split; [reflexivity|]. now apply Href.
  - cbn. destruct (is_Exception e) eqn:He; cbn.
    + eexists _, _, _. split; [reflexivity|]. split; [reflexivity|]. now apply Hacc.
    + eexists _, _, _. split; [reflexivity|].
      split; [exact He|]. split; [reflexivity|]. now apply Href.
Qed.

End BulkSyncRun.
(* ================================================================= *)
(** * The executor at work: specials, the status gate, the transitions *)

(** ** One attempt of the executor *)

Section Attempt.

Variable env : Env.





Lemma perform_sync_unmapped_episode media_item m should_monitor :
  MediaItem.media_type media_item = MediaType.EPISODE ->
  Py.truthy_int (SonarrMapping.sonarr_episode_id m) = false ->
  WebhookHandler.perform_sync env media_item (WebhookHandler.OfSonarr m) should_monitor
  = ([], Ok false).
Proof.
  intros Ht He. unfold WebhookHandler.perform_sync. rewrite Ht, He. reflexivity.
Qed.





End Attempt.

(** ** Specials *)

Section SpecialsOfTheExecutor.

Variable env : Env.





End SpecialsOfTheExecutor.

(** ** The status-change gate *)

Section StatusGate.

Variable env : Env.




End StatusGate.

(** ** The transitions of an audit record *)

Section RetryRequest.

Lemma retry_processing_refused log_id force db0 log :
  sync_logs db0 !! log_id = Some log ->
  SyncLog.status log = SyncStatus.PROCESSING ->
  Main.retry_sync_action log_id force db0
  = ([], db0,
     Main.HTTPError 409 "Sync is currently processing. Please wait for completion.",
     []).
Proof.
  intros Hl Hs. unfold Main.retry_sync_action. rewrite Hl, Hs. reflexivity.
Qed.

Lemma retry_unknown_record log_id force db0 :
  sync_logs db0 !! log_id = None ->
  Main.retry_sync_action log_id force db0
  = ([], db0, Main.HTTPError 404 "Log entry not found", []).
Proof. intros Hl. unfold Main.retry_sync_action. rewrite Hl. reflexivity. Qed.

Lemma retry_accepted_writes log_id force db0 log :
  sync_logs db0 !! log_id = Some log ->
  retry_allowed force log ->
  fst (fst (fst (Main.retry_sync_action log_id force db0)))
  = [{| sw_log_id := log_id; sw_old := Some (SyncLog.status log);
        sw_new := match media_items db0 !! SyncLog.media_item_id log with
                  | Some _ => SyncStatus.PROCESSING
                  | None => SyncStatus.FAILED
                  end |}].
Proof.
  intros Hl [Hnp Hforce]. unfold Main.retry_sync_action. rewrite Hl.
  assert (H1 : (SyncStatus.eqb (SyncLog.status log) SyncStatus.COMPLETED
                && negb force)%bool = false).
  { destruct (SyncLog.status log) eqn:Es; try reflexivity.
    rewrite (Hforce eq_refl). reflexivity. }
  assert (H2 : SyncStatus.eqb (SyncLog.status log) SyncStatus.PROCESSING = false).
  { destruct (SyncLog.status log); try reflexivity; congruence. }
  rewrite H1, H2.
  destruct (media_items db0 !! SyncLog.media_item_id log); reflexivity.
Qed.

End RetryRequest.

(** C3, as the code has it.  Every status assignment of the sync executor
    either marks a record [PROCESSING] or takes a record from [PROCESSING] to
    [COMPLETED] or [FAILED].  The record it marks is the one it creates or,
    for an event whose [retry_mode] and [original_log_id] are truthy, the
    record that [original_log_id] selects, and that record is reopened
    whatever its status.  The two fields are those of the payload, whatever
    payload it is: a webhook body with these two fields moves a completed
    record back to [PROCESSING] without any retry request.  A retry
    request writes nothing for an unknown record (404), for a completed record
    without [force] (400) and for a record that is processing (409);
    otherwise it makes one assignment, to [PROCESSING], or to [FAILED] when
    the media item of the record is gone: so it sets a record to [PROCESSING]
    only from [FAILED] or [PENDING], or from [COMPLETED] when [force] is
    given.  The bulk retry sets only failed records to [PROCESSING]. *)
Theorem status_transitions :
  (forall env media_item should_monitor force is_retry original_log_id
          webhook_context db0,
     Forall (executor_write env is_retry original_log_id)
            (status_writes
               (fst (fst (WebhookHandler._sync_with_service env media_item
                            should_monitor force is_retry original_log_id
                            webhook_context db0)))))
  /\ (forall env media_item mapping should_monitor force log_id l webhook_context
             db0 t success,
        log_id <> 0 ->
        sync_logs db0 !! log_id = Some l ->
        stored_mapping db0 media_item = Some mapping ->
        WebhookHandler.perform_sync env media_item mapping should_monitor
        = (t, Ok success) ->
        status_writes
          (fst (fst (WebhookHandler._sync_with_service env media_item should_monitor
                       force true (JInt log_id) webhook_context db0)))
        = [{| sw_log_id := log_id; sw_old := Some (SyncLog.status l);
              sw_new := SyncStatus.PROCESSING |};
           {| sw_log_id := log_id; sw_old := Some SyncStatus.PROCESSING;
              sw_new := if success then SyncStatus.COMPLETED
                        else SyncStatus.FAILED |}])
  /\ (forall payload cache_key webhook_data is_retry original_log_id,
        WebhookHandler.accepted_event payload
        = Some (cache_key, webhook_data, is_retry, original_log_id) ->
        exists members,
          payload = JObj members
          /\ is_retry
             = PyValue.truthy (JsonDict.get_default members "retry_mode" (JBool false))
          /\ original_log_id = JsonDict.get members "original_log_id")
  /\ (forall log_id force db0 w,
        In w (fst (fst (fst (Main.retry_sync_action log_id force db0)))) ->
        sw_new w = SyncStatus.PROCESSING ->
        sw_old w = Some SyncStatus.FAILED \/ sw_old w = Some SyncStatus.PENDING
        \/ (sw_old w = Some SyncStatus.COMPLETED /\ force = true))
  /\ (forall log_id db0 log,
        sync_logs db0 !! log_id = Some log ->
        SyncLog.status log = SyncStatus.COMPLETED ->
        Main.retry_sync_action log_id false db0
        = ([], db0,
           Main.HTTPError 400 "Cannot retry completed sync. Use force=true to override.",
           []))
  /\ (forall log_id force db0 log,
        sync_logs db0 !! log_id = Some log ->
        SyncLog.status log = SyncStatus.PROCESSING ->
        Main.retry_sync_action log_id force db0
        = ([], db0,
           Main.HTTPError 409
             "Sync is currently processing. Please wait for completion.",
           []))
  /\ (forall log_id force db0,
        sync_logs db0 !! log_id = None ->
        Main.retry_sync_action log_id force db0
        = ([], db0, Main.HTTPError 404 "Log entry not found", []))
  /\ (forall log_id force db0 log,
        sync_logs db0 !! log_id = Some log ->
        retry_allowed force log ->
        fst (fst (fst (Main.retry_sync_action log_id force db0)))
        = [{| sw_log_id := log_id; sw_old := Some (SyncLog.status log);
              sw_new := match media_items db0 !! SyncLog.media_item_id log with
                        | Some _ => SyncStatus.PROCESSING
                        | None => SyncStatus.FAILED
                        end |}])
  /\ (forall now limit hours_back db0 w,
        In w (fst (fst (fst (Main.retry_failed_syncs now limit hours_back db0)))) ->
        sw_old w = Some SyncStatus.FAILED /\ sw_new w = SyncStatus.PROCESSING).
Proof.
  split; [|split; [|split; [|split; [|split; [|split; [|split; [|split]]]]]]].
  - intros env media_item should_monitor force is_retry original_log_id
      webhook_context db0.
    pose proof (writes_sync_with_service env
                  (executor_write env is_retry original_log_id)
                  (fun w H => or_intror H) is_retry original_log_id
                  (fun w H => or_introl H) media_item should_monitor force
                  webhook_context db0 I) as H.
    destruct (WebhookHandler._sync_with_service _ _ _ _ _ _ _ _) as [[j db1] [a|e]];
      exact (proj1 H).
  - intros env media_item mapping should_monitor force log_id l webhook_context
      db0 t success Hne Hl Hmap Hsync.
    rewrite (sync_with_service_retry env _ _ _ force _ webhook_context _ _ _ _
               Hne Hl Hmap Hsync).
    reflexivity.
  - exact accepted_event_retry.
  - exact retry_sync_action_writes.
  - exact retry_completed_without_force.
  - exact retry_processing_refused.
  - exact retry_unknown_record.
  - exact retry_accepted_writes.
  - exact retry_failed_syncs_writes.
Qed.

(** ** The theorems on the installation *)

Lemma season_update_touches_only_its_season_witness :
  Forall (touches_only (season_ids (Some 1) Scenarios.episodes) false)
         (trace (SonarrClient.update_season_monitoring Examples.settings0
                   Scenarios.sonarr_bulk_down 1 (Some 1) false)).
Proof.
  apply (season_update_touches_only_its_season Examples.settings0
           Scenarios.sonarr_bulk_down 1 (Some 1) false Scenarios.episodes).
  reflexivity.
Defined.

(** With the bulk endpoint down, season 1 is updated through episode 11
    alone, and the update reports success. *)
Lemma season_update_falls_back_witness :
  outcome (SonarrClient.update_season_monitoring Examples.settings0
             Scenarios.sonarr_bulk_down 1 (Some 1) false)
  = Ok (existsb (episode_updated Examples.settings0 Scenarios.sonarr_bulk_down false)
                (season_of (Some 1) Scenarios.episodes)).
Proof.
  apply (season_update_falls_back Examples.settings0 Scenarios.sonarr_bulk_down 1
           (Some 1) false Scenarios.episodes).
  - reflexivity.
  - reflexivity.
  - discriminate.
  - right. exists RequestError. split; reflexivity.
  - repeat constructor; eexists; reflexivity.
Defined.

Example season_fallback_trace :
  SonarrClient.update_season_monitoring Examples.settings0
    Scenarios.sonarr_bulk_down 1 (Some 1) false
  = ([Sonarr_GET_episode 1; Sonarr_PUT_episode_monitor [11; 12] false;
      Sonarr_GET_episode_id 11; Sonarr_PUT_episode_id 11 false;
      Sonarr_GET_episode_id 12],
     Ok true).
Proof. vm_compute. reflexivity. Qed.

Lemma exact_title_match_witness :
  exists results,
    SonarrClient.search_series_by_title Scenarios.sonarr_two_foos (Some "The Foo Show")
    = ([Sonarr_GET_series], Ok results)
    /\ In Examples.foo_show results
    /\ forall r, In r results
         <-> In r [Examples.foo_show; Examples.bar; Scenarios.foo_remake]
             /\ _clean_title (Series.title r) = _clean_title "The Foo Show".
Proof.
  apply (exact_title_match_shadows_looser_ones Scenarios.sonarr_two_foos
           [Examples.foo_show; Examples.bar; Scenarios.foo_remake]
           (Some "The Foo Show") Examples.foo_show).
  - reflexivity.
  - simpl. auto.
  - vm_compute. reflexivity.
Defined.

Lemma short_title_witness :
  exists results,
    SonarrClient.search_series_by_title Examples.sonarr_api (Some "Bar")
    = ([Sonarr_GET_series], Ok results)
    /\ forall r, In r results ->
         In r [Examples.foo_show; Examples.bar]
         /\ same_clean_title (_clean_title "Bar") r.
Proof.
  apply (short_title_matches_only_exactly Examples.sonarr_api
           [Examples.foo_show; Examples.bar] (Some "Bar")).
  - reflexivity.
  - vm_compute. lia.
Defined.

(** Of the two series titled "Foo Show", a query for 2020 gets the remake. *)
Lemma close_year_witness :
  SonarrClient.find_series_by_jellyfin_metadata Scenarios.sonarr_two_foos
    (Some "Foo Show") (Some 2020) None None
  = ([Sonarr_GET_series],
     Ok (Some (default Examples.foo_show
                 (List.find (series_year_close 2020)
                            [Examples.foo_show; Scenarios.foo_remake])))).
Proof.
  apply (title_match_prefers_close_year Scenarios.sonarr_two_foos
           [Examples.foo_show; Examples.bar; Scenarios.foo_remake]
           (Some "Foo Show") 2020 Examples.foo_show [Scenarios.foo_remake]).
  - reflexivity.
  - vm_compute. reflexivity.
  - lia.
Defined.

Example close_year_gets_the_remake :
  SonarrClient.find_series_by_jellyfin_metadata Scenarios.sonarr_two_foos
    (Some "Foo Show") (Some 2020) None None
  = ([Sonarr_GET_series], Ok (Some Scenarios.foo_remake)).
Proof. vm_compute. reflexivity. Qed.

Lemma watched_means_unmonitored_witness :
  Forall (sets_only (negb (PyValue.truthy (JBool true))))
         (events (fst (fst (WebhookHandler._process_watched_status_change
                              Scenarios.env_movie Scenarios.movie_data true false JNull
                              Scenarios.db_library)))).
Proof.
  apply (watched_means_unmonitored Scenarios.env_movie Scenarios.movie_data true false
           JNull [] (JBool true) Scenarios.new_info Scenarios.db_library).
  reflexivity.
Defined.

(** There the movie is unmonitored by one PUT. *)
Example watched_movie_is_unmonitored :
  events (fst (fst (WebhookHandler._process_watched_status_change
                      Scenarios.env_movie Scenarios.movie_data true false JNull
                      Scenarios.db_library)))
  = [Db_select_mapping "Radarr" 2; Radarr_GET_movie_id 10;
     Radarr_PUT_movie_id 10 false].
Proof. vm_compute. reflexivity. Qed.

Lemma audit_record_witness :
  exists j db1 l1 mapping1,
    WebhookHandler._sync_with_service Examples.env0 Examples.item1 false false false
      JNull None Examples.db0 = (j, db1, Ok tt)
    /\ events j = Db_select_mapping (WebhookHandler.service_name_of Examples.item1)
                                    (MediaItem.id Examples.item1)
                  :: [Sonarr_GET_episode_id 42]
    /\ sync_logs db1 !! next_sync_log_id Examples.db0 = Some l1
    /\ SyncLog.media_item_id l1 = MediaItem.id Examples.item1
    /\ SyncLog.action l1 = (if false then SyncAction.MONITOR else SyncAction.UNMONITOR)
    /\ SyncLog.status l1 = (if true then SyncStatus.COMPLETED else SyncStatus.FAILED)
    /\ SyncLog.external_id l1
       = Some (Py.str_of_int
                 (mapping_external_id (WebhookHandler.OfSonarr Examples.mapping1)))
    /\ SyncLog.error_message l1
       = (if true then None else Some "Failed to update monitoring status")
    /\ stored_mapping db1 Examples.item1 = Some mapping1
    /\ mapping_is_monitored mapping1 = false
    /\ mapping_external_id mapping1
       = mapping_external_id (WebhookHandler.OfSonarr Examples.mapping1).
Proof.
  apply (audit_record_of_an_attempt Examples.env0 Examples.item1
           (WebhookHandler.OfSonarr Examples.mapping1) false false JNull None
           Examples.db0 [Sonarr_GET_episode_id 42] true).
  - vm_compute. reflexivity.
  - reflexivity.
  - vm_compute. reflexivity.
Defined.

Lemma retry_reuses_the_record_witness :
  exists w db1 message task,
    Main.retry_sync_action 1 true Examples.db0
    = (w, db1, Main.Returned "retry_started" message, [task])
    /\ exists j db2 l2,
         WebhookHandler.process_webhook Examples.env0 (Main.task_payload task)
           (Main.task_force_sync task)
           {| WebhookHandler._processing_cache := ∅; WebhookHandler.db := db1 |}
         = (j, {| WebhookHandler._processing_cache := ∅; WebhookHandler.db := db2 |},
            Ok tt)
         /\ sync_logs db2 !! 1 = Some l2
         /\ SyncLog.status l2
            = (if true then SyncStatus.COMPLETED else SyncStatus.FAILED)
         /\ SyncLog.error_message l2
            = (if true then None else Some "Failed to update monitoring status")
         /\ next_sync_log_id db2 = next_sync_log_id Examples.db0
         /\ forall k, k <> 1 -> sync_logs db2 !! k = sync_logs Examples.db0 !! k.
Proof.
  apply (retry_reuses_the_record Examples.env0 1 true Examples.db0 Examples.log1
           Examples.item1 (WebhookHandler.OfSonarr Examples.mapping1) ∅
           [Sonarr_GET_episode_id 42] true).
  - vm_compute. reflexivity.
  - split; [discriminate|reflexivity].
  - lia.
  - vm_compute. reflexivity.
  - vm_compute. reflexivity.
  - discriminate.
  - vm_compute. reflexivity.
  - vm_compute. reflexivity.
  - reflexivity.
  - apply lookup_empty.
Defined.

(** A webhook body that replays the record 1 leaves the record 2 alone. *)
Lemma audit_log_is_append_only_witness :
  record_is 2 Scenarios.log2
    (WebhookHandler.db
       (snd (fst (WebhookHandler.process_webhook Examples.env0 Scenarios.replay false
                    {| WebhookHandler._processing_cache := ∅;
                       WebhookHandler.db := Scenarios.db_failed |})))).
Proof.
  apply (audit_log_is_append_only Examples.env0 2 Scenarios.log2 Scenarios.replay false
           {| WebhookHandler._processing_cache := ∅;
              WebhookHandler.db := Scenarios.db_failed |}).
  - split; [vm_compute; reflexivity|cbn; lia].
  - intros _ _. vm_compute. discriminate.
Defined.

(** The same body does rewrite the record 1, which was completed. *)
Example replay_rewrites_its_record :
  status_writes
    (fst (fst (WebhookHandler.process_webhook Examples.env0 Scenarios.replay false
                 {| WebhookHandler._processing_cache := ∅;
                    WebhookHandler.db := Scenarios.db_failed |})))
  = [{| sw_log_id := 1; sw_old := Some SyncStatus.COMPLETED;
        sw_new := SyncStatus.PROCESSING |};
     {| sw_log_id := 1; sw_old := Some SyncStatus.PROCESSING;
        sw_new := SyncStatus.COMPLETED |}].
Proof. vm_compute. reflexivity. Qed.

Lemma unknown_item_witness :
  exists db1,
    let item := WebhookHandler.set_is_watched (Some true)
                  (created_item Scenarios.new_info "item2" "Alpha" Examples.db0) in
    WebhookHandler.load_and_compare Scenarios.new_info (JBool true) false Examples.db0
    = (no_journal, db1,
       Ok (if (WebhookHandler.flag_eq (Some false) (JBool true) && negb false)%bool
           then None else Some item))
    /\ Store.media_item_by_jellyfin_id db1 "item2" = Some item
    /\ next_media_item_id db1 = next_media_item_id Examples.db0 + 1.
Proof.
  apply (unknown_item_starts_unwatched Scenarios.new_info "item2" "Alpha" (JBool true)
           false Examples.db0).
  - reflexivity.
  - reflexivity.
  - reflexivity.
  - vm_compute. reflexivity.
Defined.

(** A first event whose [Played] is [null] and whose ids are numbers starts a
    sync, to monitor the movie: [None] is not equal to [False]. *)
Example null_flag_starts_a_sync :
  WebhookHandler.accepted_event Scenarios.numeric_played
  = Some ("5_7_None", Scenarios.numeric_data, false, JNull)
  /\ events (fst (fst (WebhookHandler.process_webhook Scenarios.env_movie
                         Scenarios.numeric_played false Examples.handler0)))
     = [Sleep 5; Db_select_mapping "Radarr" 2; Radarr_GET_movie;
        Radarr_GET_movie_id 10; Radarr_PUT_movie_id 10 true]
  /\ MediaItem.jellyfin_id
       <$> media_items
             (WebhookHandler.db
                (snd (fst (WebhookHandler.process_webhook Scenarios.env_movie
                             Scenarios.numeric_played false Examples.handler0)))) !! 2
     = Some "5".
Proof. vm_compute. repeat split. Qed.

Lemma extraction_witness :
  WebhookHandler._is_watched_status_change Scenarios.numeric_data = true
  /\ names_item_and_user Scenarios.numeric_data
  /\ (is_send_all Scenarios.numeric_members = true ->
      JsonDict.get Scenarios.numeric_members "NotificationType" = JStr "UserDataSaved"
      /\ (JsonDict.get Scenarios.numeric_members "SaveReason" = JStr "TogglePlayed"
          \/ JsonDict.get Scenarios.numeric_members "SaveReason"
             = JStr "PlaybackFinished")
      /\ WebhookHandler._is_processed_webhook_data Scenarios.numeric_data = true
      /\ JsonDict.get Scenarios.numeric_data "jellyfin_id"
         = JsonDict.get Scenarios.numeric_members "ItemId"
      /\ JsonDict.get Scenarios.numeric_data "user_id"
         = JsonDict.get Scenarios.numeric_members "UserId"
      /\ JsonDict.get Scenarios.numeric_data "is_watched"
         = JsonDict.get_default Scenarios.numeric_members "Played" (JBool false)).
Proof.
  apply (extraction_lets_through_watched_events Scenarios.numeric_members
           Scenarios.numeric_data).
  vm_compute. reflexivity.
Defined.

(** The ids of that payload are the numbers 5 and 7, and its flag is [null]. *)
Example numeric_ids_are_handed_on :
  WebhookHandler._extract_webhook_data Scenarios.numeric_members
  = Some Scenarios.numeric_data
  /\ JsonDict.get Scenarios.numeric_data "jellyfin_id" = JInt 5
  /\ JsonDict.get Scenarios.numeric_data "is_watched" = JNull.
Proof. vm_compute. repeat split. Qed.

Lemma cache_key_witness :
  (exists key, WebhookHandler.cache_key_of Examples.played_data = Ok key)
  /\ (WebhookHandler.cache_key_of Examples.played_data
      = WebhookHandler.cache_key_of Examples.played_data ->
      "item1" = "item1" /\ "user1" = "user1" /\ "True" = "True").
Proof.
  apply (cache_key_separates_events Examples.played_data Examples.played_data
           "item1" "user1" "True" "item1" "user1" "True").
  - reflexivity.
  - reflexivity.
  - unfold underscore_free. cbn. intuition discriminate.
  - unfold underscore_free. cbn. intuition discriminate.
  - unfold underscore_free. cbn. intuition discriminate.
  - unfold underscore_free. cbn. intuition discriminate.
Defined.

Lemma bulk_retry_witness :
  exists w db1 response tasks,
    Main.retry_failed_syncs 1000 10 24 Scenarios.db_failed = (w, db1, response, tasks)
    /\ Z.of_nat (List.length tasks) <= 10
    /\ List.length w = List.length tasks
    /\ Forall (fun t => Main.task_force_sync t = true) tasks
    /\ media_items db1 = media_items Scenarios.db_failed
    /\ sonarr_mappings db1 = sonarr_mappings Scenarios.db_failed
    /\ radarr_mappings db1 = radarr_mappings Scenarios.db_failed
    /\ next_sync_log_id db1 = next_sync_log_id Scenarios.db_failed
    /\ forall k,
         sync_logs db1 !! k = sync_logs Scenarios.db_failed !! k
         \/ exists l, sync_logs Scenarios.db_failed !! k = Some l
                      /\ in_retry_window 1000 24 l
                      /\ is_Some (media_items Scenarios.db_failed
                                  !! SyncLog.media_item_id l)
                      /\ sync_logs db1 !! k = Some (reopened l).
Proof.
  apply (bulk_retry_is_bounded_and_selective 1000 10 24 Scenarios.db_failed). lia.
Defined.

(** There the bulk retry reopens the failed record and leaves the completed
    one alone. *)
Example bulk_retry_reopens_the_failed_record :
  let '(w, db1, response, tasks) :=
    Main.retry_failed_syncs 1000 10 24 Scenarios.db_failed in
  sync_logs db1 !! 2 = Some (reopened Scenarios.log2)
  /\ sync_logs db1 !! 1 = Some Examples.log1
  /\ List.length tasks = 1%nat.
Proof. vm_compute. repeat split. Qed.

Lemma database_down_no_cancellation : no_cancellation Scenarios.database_down.
Proof. intros n e committed H. injection H as <- _. reflexivity. Qed.

Lemma database_up_works : database_works Scenarios.database_up.
Proof. intros n. reflexivity. Qed.

Lemma authenticated_after_startup_witness :
  exists s1 self1,
    AppConfig.initialize Scenarios.database_down AppConfig.__init__
      Scenarios.unconfigured = (s1, Ok self1)
    /\ AppConfig._initialized self1 = true
    /\ settings_webhook_token s1 = AppConfig._webhook_token self1
    /\ requires_token (AppConfig._webhook_token self1)
    /\ forall s2, AppConfig.initialize Scenarios.database_down self1 s2 = (s2, Ok self1).
Proof.
  apply (webhook_is_authenticated_after_startup Scenarios.database_down
           AppConfig.__init__ Scenarios.unconfigured).
  - exact database_down_no_cancellation.
  - reflexivity.
Defined.

Lemma token_survives_restarts_witness :
  exists s1 self1 token,
    AppConfig.initialize Scenarios.database_up AppConfig.__init__
      Scenarios.unconfigured = (s1, Ok self1)
    /\ AppConfig._webhook_token self1 = Some token
    /\ stored_token s1 = Some token
    /\ forall s2,
         stored_token s2 = Some token ->
         exists s3 self3,
           AppConfig.initialize Scenarios.database_up AppConfig.__init__ s2
           = (s3, Ok self3)
           /\ AppConfig._webhook_token self3 = Some token
           /\ stored_token s3 = Some token.
Proof.
  apply (webhook_token_survives_restarts Scenarios.database_up Scenarios.database_up
           Scenarios.unconfigured).
  - exact database_up_works.
  - exact database_up_works.
Defined.

Lemma regenerated_token_witness :
  exists s1 self1,
    AppConfig.regenerate_webhook_token Scenarios.database_down AppConfig.__init__
      Scenarios.unconfigured
    = (s1, Ok ("unmonitarr-"
               +:+ token_hex Scenarios.database_down
                     (secrets_drawn Scenarios.unconfigured), self1))
    /\ AppConfig._webhook_token self1
       = Some ("unmonitarr-"
               +:+ token_hex Scenarios.database_down
                     (secrets_drawn Scenarios.unconfigured))
    /\ settings_webhook_token s1 = AppConfig._webhook_token self1
    /\ requires_token (AppConfig._webhook_token self1)
    /\ (session_end Scenarios.database_down (sessions_opened Scenarios.unconfigured)
        = Completes ->
        stored_token s1 = AppConfig._webhook_token self1)
    /\ (forall e,
          session_end Scenarios.database_down (sessions_opened Scenarios.unconfigured)
          = Fails e false ->
          stored_token s1 = stored_token Scenarios.unconfigured).
Proof.
  apply (regenerated_token_may_not_persist Scenarios.database_down AppConfig.__init__
           Scenarios.unconfigured).
  exact database_down_no_cancellation.
Defined.

(** With the database down the regenerated token is in use and not stored. *)
Example regenerated_token_is_not_stored :
  let '(s1, r) :=
    AppConfig.regenerate_webhook_token Scenarios.database_down AppConfig.__init__
      Scenarios.unconfigured in
  settings_webhook_token s1 = Some "unmonitarr-000102030405060708090a0b0c0d0e0f"
  /\ stored_token s1 = None.
Proof. vm_compute. split; reflexivity. Qed.

Lemma serves_jellyfin_server k : serves Scenarios.jellyfin_server Scenarios.jellyfin_library k.
Proof. intros n start_index limit _ _. reflexivity. Qed.

Lemma pagination_witness :
  exists requests,
    JellyfinClient.get_all_items Scenarios.jellyfin_server 2 6 0
    = Some (requests, Ok (drop (Z.to_nat 0) Scenarios.jellyfin_library))
    /\ (List.length requests <= S (List.length Scenarios.jellyfin_library))%nat.
Proof.
  apply (pagination_reads_the_whole_library Scenarios.jellyfin_server
           Scenarios.jellyfin_library 2).
  - lia.
  - lia.
  - apply serves_jellyfin_server.
  - cbn. lia.
Defined.

Example pagination_in_three_requests :
  JellyfinClient.get_all_items Scenarios.jellyfin_server 2 6 0
  = Some ([(0, 2); (2, 2); (4, 2)], Ok Scenarios.jellyfin_library).
Proof. vm_compute. reflexivity. Qed.

Lemma failed_page_witness :
  exists requests,
    JellyfinClient.get_all_items Scenarios.jellyfin_flaky 2 6 0
    = Some (requests,
            Ok (take (1 * Z.to_nat 2) (drop (Z.to_nat 0) Scenarios.jellyfin_library)))
    /\ List.length requests = 2%nat.
Proof.
  apply (failed_page_truncates_silently Scenarios.jellyfin_flaky
           Scenarios.jellyfin_library 2 ltac:(lia) RequestError 1 6 0).
  - intros n start_index limit Hn _. destruct n as [|n]; [reflexivity|lia].
  - intros start_index limit. reflexivity.
  - reflexivity.
  - lia.
  - cbn. lia.
  - lia.
Defined.

Lemma no_id_known : no_known_id None.
Proof. repeat split. Qed.

Lemma best_match_witness :
  ExternalAPIClient.find_best_match Scenarios.omdb (Some "Foo Show") "Episode"
    (Some 2020) None
  = ([ExternalAPIClient.Series_by_title (Some "Foo Show") (Some 2020)],
     Ok (Some (ExternalAPIClient.set_source "external_api_search"
                 (match List.find (same_title "Foo Show")
                          [Scenarios.remake_2020; Scenarios.original_2010] with
                  | Some m => m
                  | None =>
                      default Scenarios.remake_2020
                        (last (List.filter (same_year (Some 2020))
                                 [Scenarios.remake_2020; Scenarios.original_2010]))
                  end)))).
Proof.
  apply (best_match_prefers_title_then_year Scenarios.omdb "Foo Show" "Episode"
           (Some 2020) None).
  - exact no_id_known.
  - reflexivity.
  - repeat constructor; eexists; reflexivity.
Defined.

(** The title wins over the year: the original of 2010 is chosen for a query
    of 2020. *)
Example best_match_is_the_original :
  ExternalAPIClient.find_best_match Scenarios.omdb (Some "Foo Show") "Episode"
    (Some 2020) None
  = ([ExternalAPIClient.Series_by_title (Some "Foo Show") (Some 2020)],
     Ok (Some (ExternalAPIClient.set_source "external_api_search"
                 Scenarios.original_2010))).
Proof. vm_compute. reflexivity. Qed.

Lemma untitled_result_witness :
  ExternalAPIClient.find_best_match Scenarios.omdb (Some "Foo Show") "movie"
    (Some 2020) None
  = ([ExternalAPIClient.Movie_by_title (Some "Foo Show") (Some 2020)],
     Raise AttributeError).
Proof.
  apply (untitled_result_raises Scenarios.omdb (Some "Foo Show") "movie" (Some 2020)
           None (ExternalAPIClient.Movie_by_title (Some "Foo Show") (Some 2020))
           [Scenarios.remake_2020] Scenarios.untitled_2020 [Scenarios.original_2010]).
  - exact no_id_known.
  - reflexivity.
  - repeat constructor; [eexists; reflexivity|].
    intros t Ht. injection Ht as <-. reflexivity.
  - right. reflexivity.
Defined.

Lemma bulk_sync_counts_witness :
  exists j s' r,
    BulkSync.perform_bulk_sync Scenarios.env_down (Some Scenarios.jellyfin_client) "all"
      Scenarios.bulk_start = (j, s', r)
    /\ match r with
       | Raise e => is_Exception e = false
       | Ok _ =>
           let user_id := BulkSync.raw Scenarios.jellyfin_user "Id" in
           let username :=
             default (JStr "Unknown") (JsonDict.lookup Scenarios.jellyfin_user "Name") in
           let st := BulkSync.status s' in
           BulkSync.completed st = true
           /\ BulkSync.success st = true
           /\ BulkSync.total_count st
              = Z.of_nat (List.length [Scenarios.special_item; Scenarios.untyped_item])
           /\ BulkSync.processed_count st
              = Z.of_nat (List.length
                            (List.filter extracts
                               [Scenarios.special_item; Scenarios.untyped_item]))
           /\ BulkSync.synced_count st
              = Z.of_nat (List.length
                            (List.filter (well_formed user_id username)
                               [Scenarios.special_item; Scenarios.untyped_item]))
           /\ BulkSync.errors st
              = map malformed_entry
                    (List.filter (fun item => negb (well_formed user_id username item))
                                 [Scenarios.special_item; Scenarios.untyped_item])
       end.
Proof.
  apply (bulk_sync_counts_items_not_successes Scenarios.env_down
           Scenarios.jellyfin_client "all" Scenarios.bulk_start Scenarios.jellyfin_user []
           [Scenarios.special_item; Scenarios.untyped_item]).
  - reflexivity.
  - reflexivity.
  - discriminate.
  - reflexivity.
Defined.

(** With Sonarr and Radarr down the special still counts as synced, and the
    only error is the one of the item without a type. *)
Example bulk_sync_counts_with_services_down :
  let '(j, s', r) :=
    BulkSync.perform_bulk_sync Scenarios.env_down (Some Scenarios.jellyfin_client) "all"
      Scenarios.bulk_start in
  r = Ok tt
  /\ BulkSync.processed_count (BulkSync.status s') = 1
  /\ BulkSync.synced_count (BulkSync.status s') = 1
  /\ BulkSync.errors (BulkSync.status s')
     = [BulkSync.ItemError (JStr "Nine") AttributeError]
  /\ BulkSync.success (BulkSync.status s') = true.
Proof. vm_compute. repeat split. Qed.

(** ** The claims on the installation *)




(** The mapping that the executor creates for a season item holds no season
    number, so the update is not for season 0: it lists the episodes of the
    series, finds none of its season, and the audit record ends [FAILED]. *)
Example season_event_ends_failed :
  fst (fst (WebhookHandler.process_webhook Examples.env0 Examples.season_played false
              Examples.handler0))
  = {| events := [Sleep 5; Db_select_mapping "Sonarr" 2; Sonarr_GET_series;
                  Sonarr_GET_episode 1];
       status_writes :=
         [{| sw_log_id := 2; sw_old := None; sw_new := SyncStatus.PROCESSING |};
          {| sw_log_id := 2; sw_old := Some SyncStatus.PROCESSING;
             sw_new := SyncStatus.FAILED |}] |}.
Proof. vm_compute. reflexivity. Qed.

(** The record 1 is completed, the record 2 failed. *)
Lemma status_transitions_witness :
  Forall (executor_write Examples.env0 true (JInt 1))
         (status_writes
            (fst (fst (WebhookHandler._sync_with_service Examples.env0 Examples.item1
                         true false true (JInt 1) None Examples.db0))))
  /\ status_writes
       (fst (fst (WebhookHandler._sync_with_service Examples.env0 Examples.item1
                    true false true (JInt 1) None Examples.db0)))
     = [{| sw_log_id := 1; sw_old := Some SyncStatus.COMPLETED;
           sw_new := SyncStatus.PROCESSING |};
        {| sw_log_id := 1; sw_old := Some SyncStatus.PROCESSING;
           sw_new := SyncStatus.COMPLETED |}]
  /\ (exists members,
        Scenarios.replay = JObj members
        /\ true = PyValue.truthy
                    (JsonDict.get_default members "retry_mode" (JBool false))
        /\ JInt 1 = JsonDict.get members "original_log_id")
  /\ (Some SyncStatus.COMPLETED = Some SyncStatus.FAILED
      \/ Some SyncStatus.COMPLETED = Some SyncStatus.PENDING
      \/ (Some SyncStatus.COMPLETED = Some SyncStatus.COMPLETED /\ true = true))
  /\ Main.retry_sync_action 1 false Examples.db0
     = ([], Examples.db0,
        Main.HTTPError 400 "Cannot retry completed sync. Use force=true to override.",
        [])
  /\ Main.retry_sync_action 1 true
       (Store.write_sync_log 1 (reopened Examples.log1) Examples.db0)
     = ([], Store.write_sync_log 1 (reopened Examples.log1) Examples.db0,
        Main.HTTPError 409
          "Sync is currently processing. Please wait for completion.",
        [])
  /\ Main.retry_sync_action 7 true Examples.db0
     = ([], Examples.db0, Main.HTTPError 404 "Log entry not found", [])
  /\ fst (fst (fst (Main.retry_sync_action 2 false Scenarios.db_failed)))
     = [{| sw_log_id := 2; sw_old := Some SyncStatus.FAILED;
           sw_new := SyncStatus.PROCESSING |}]
  /\ (Some SyncStatus.FAILED = Some SyncStatus.FAILED
      /\ SyncStatus.PROCESSING = SyncStatus.PROCESSING).
Proof.
  destruct status_transitions
    as (Hexecutor & Hreopen & Hfields & Hretry & H400 & H409 & H404 & Haccepted
        & Hbulk).
  split; [apply Hexecutor|].
  split.
  { apply (Hreopen Examples.env0 Examples.item1
             (WebhookHandler.OfSonarr Examples.mapping1) true false 1 Examples.log1
             None Examples.db0 [Sonarr_GET_episode_id 42] true);
      [lia|reflexivity|reflexivity|vm_compute; reflexivity]. }
  split.
  { apply (Hfields Scenarios.replay "item1_user1_False"
             (match Scenarios.replay with JObj members => members | _ => [] end)
             true (JInt 1)).
    vm_compute. reflexivity. }
  split.
  { apply (Hretry 1 true Examples.db0
             {| sw_log_id := 1; sw_old := Some SyncStatus.COMPLETED;
                sw_new := SyncStatus.PROCESSING |});
      [vm_compute; auto|reflexivity]. }
  split; [apply (H400 1 Examples.db0 Examples.log1); reflexivity|].
  split.
  { apply (H409 1 true _ (reopened Examples.log1));
      [apply lookup_insert_eq|reflexivity]. }
  split; [apply (H404 7 true Examples.db0); reflexivity|].
  split.
  { apply (Haccepted 2 false Scenarios.db_failed Scenarios.log2);
      [reflexivity|]. split; [discriminate|discriminate]. }
  apply (Hbulk 1000 10 24 Scenarios.db_failed
           {| sw_log_id := 2; sw_old := Some SyncStatus.FAILED;
              sw_new := SyncStatus.PROCESSING |}).
  vm_compute. auto.
Defined.

(** A forced retry request moves the completed record 1 back to
    [PROCESSING]. *)
Lemma forced_retry_reopens_completed :
  ~ Forall claimed_write
      (fst (fst (fst (Main.retry_sync_action 1 true Examples.db0)))).
Proof.
  intros H. assert (Hw : claimed_write {| sw_log_id := 1;
                                          sw_old := Some SyncStatus.COMPLETED;
                                          sw_new := SyncStatus.PROCESSING |}).
  { apply (proj1 (List.Forall_forall _ _) H). vm_compute. auto. }
  unfold claimed_write, claimed_transition in Hw. cbn in Hw.
  intuition discriminate.
Qed.

(** So does a webhook body that carries [retry_mode] and [original_log_id]:
    the endpoint queues it like any other body, without force, and the
    executor reopens the completed record 1. *)
Lemma completed_record_is_reopened :
  ~ Forall claimed_write
      (fst (fst (fst (Main.retry_sync_action 1 true Examples.db0))))
  /\ Main.jellyfin_webhook (Some "secret") Scenarios.replay_delivery
     = (Main.Returned "accepted" "Webhook received and queued for processing",
        queued Scenarios.replay)
  /\ ~ Forall claimed_write
         (status_writes
            (fst (fst (WebhookHandler.process_webhook Examples.env0 Scenarios.replay
                         false Examples.handler0)))).
Proof.
  split; [exact forced_retry_reopens_completed|].
  split; [vm_compute; reflexivity|].
  intros H. assert (Hw : claimed_write {| sw_log_id := 1;
                                          sw_old := Some SyncStatus.COMPLETED;
                                          sw_new := SyncStatus.PROCESSING |}).
  { apply (proj1 (List.Forall_forall _ _) H). vm_compute. auto. }
  unfold claimed_write, claimed_transition in Hw. cbn in Hw.
  intuition discriminate.
Qed.

(** A song fetched from Jellyfin keeps its lower-cased type and is sent to
    Radarr; the movie of a webhook is a movie. *)
Lemma media_type_witness :
  (In (MediaInfo.media_type Scenarios.new_info)
      [MediaType.EPISODE; MediaType.MOVIE; MediaType.SERIES; MediaType.SEASON]
   /\ (MediaInfo.media_type Scenarios.new_info = MediaType.MOVIE
       <-> routed_to_radarr (item_type_of Scenarios.movie_data)))
  /\ (exists item_id user_id item,
        [Jellyfin_GET_item "item7" (Some (JStr "user1"))]
        = [Jellyfin_GET_item item_id user_id]
        /\ GET_item (jellyfin Scenarios.env_movie) item_id user_id = Ok (JObj item)
        /\ JellyfinItem.lower_type item = Ok "audio")
  /\ JellyfinItem.lower_type Scenarios.audio_item = Ok (Py.lower "Audio")
  /\ MediaItem.media_type Scenarios.movie_item
     = media_type_after Scenarios.new_info
         (Store.media_item_by_jellyfin_id Scenarios.db_library "item2")
  /\ (exists rest,
        events (fst (fst (WebhookHandler._sync_with_service Scenarios.env_movie
                            Scenarios.movie_item false false false JNull None
                            Scenarios.db_library)))
        = Db_select_mapping "Radarr" 2 :: rest)
  /\ (WebhookHandler.is_sonarr_type "audio" = true
      <-> "audio" = MediaType.EPISODE \/ "audio" = MediaType.SERIES
          \/ "audio" = MediaType.SEASON).
Proof.
  destruct (media_type_decides_the_service Scenarios.env_movie)
    as (Hwebhook & Hfetch & Hlower & Hstored & Hquery & Hsonarr).
  split.
  { apply (Hwebhook Scenarios.movie_data [] (JBool true) Scenarios.new_info);
      reflexivity. }
  split.
  { apply (Hfetch Scenarios.template_data
             [Jellyfin_GET_item "item7" (Some (JStr "user1"))] (JBool true)
             {| MediaInfo.jellyfin_id := JStr "item7"; MediaInfo.title := Some "Song";
                MediaInfo.media_type := "audio";
                MediaInfo.is_watched := Some (JBool true);
                MediaInfo.series_id := None; MediaInfo.series_name := None;
                MediaInfo.season_number := None; MediaInfo.episode_number := None;
                MediaInfo.parent_id := None; MediaInfo.year := None |});
      reflexivity. }
  split; [apply (Hlower Scenarios.audio_item "Audio"); reflexivity|].
  split.
  { apply (Hstored Scenarios.new_info "item2" Scenarios.db_library no_journal
             (Store.put_media_item Scenarios.movie_item Scenarios.db_library)
             Scenarios.movie_item); reflexivity. }
  split; [apply Hquery|apply Hsonarr].
Defined.

(** The song goes to Radarr, which is asked for a movie of its title. *)
Example fetched_song_is_sent_to_radarr :
  events (fst (fst (WebhookHandler.process_webhook Scenarios.env_movie
                      Scenarios.template_played false Examples.handler0)))
  = [Sleep 5; Jellyfin_GET_item "item7" (Some (JStr "user1"));
     Db_select_mapping "Radarr" 2; Jellyfin_GET_item "item7" None;
     Radarr_GET_movie; Radarr_GET_movie_lookup (Some "Song")]
  /\ MediaItem.media_type
       <$> media_items
             (WebhookHandler.db
                (snd (fst (WebhookHandler.process_webhook Scenarios.env_movie
                             Scenarios.template_played false Examples.handler0)))) !! 2
     = Some "audio".
Proof. vm_compute. split; reflexivity. Qed.
